(* ===== verification/_CoqProject ===== *)
-Q . S2P
Prelude.v
Machine.v
Regs.v
QueueHead.v
Sim.v
Descriptor.v
Transfer.v
Setup.v
Hid.v
Dcp.v
Mmio.v
MiniUart.v
Ble.v
Board.v
BoardScenarios.v
ArmExc.v
ArmScenarios.v
Device.v
Scenarios.v
