(* ===== verification/Prelude.v ===== *)
(** * A verification development of TamaGo drivers: the NXP USB device-mode driver and the board support

    The program is a slice of TamaGo. Its core is the USB device-mode
    controller driver ([soc/nxp/usb]: [device.go], [setup.go] and the
    driver file that holds [transfer], staged as [src/unnamed/part_004],
    lines 1-435). Around it are the DCP key-RAM driver (part_004, lines
    470-590), the HID keyboard descriptors (part_003, lines 63-116) and
    board support: the BCM2835 mini-UART console (part_002), the Raspberry
    Pi Zero LED, the USB armory Mk II uSDHC set-up (part_000), the i.MX6
    RNG choice (part_001) and the ANNA-B112 Bluetooth module ([ble.go]);
    and the ARM exception code in assembly staged at the end of
    [setup.go] (lines 244-343).

    ** How the parts of the program interact

    - [DeviceMode] ([device.go]) resets the USB controller, writes the mode
      register, builds the queue-head list ([initQH]) and configures both
      directions of endpoint 0 ([set]).
    - [Start] ([device.go]) is the control loop: on a bus reset it clears the
      configuration; it polls for a setup packet, reads it ([getSetup]),
      dispatches it ([handleSetup] in [setup.go]) and restarts the endpoint
      tasks when the configuration value changed.
    - The dispatcher answers each request through [tx], [ack] and [stall],
      which all go through [transfer]: [transfer] cuts the buffer into
      20480-byte chunks, builds one dTD per chunk ([buildDTD]), chains and
      primes them, polls for completion and checks every dTD ([checkDTD]).
      GET_DESCRIPTOR(HID_REPORT) sends the report descriptor the HID code
      describes.
    - The board drivers act on the hardware only through 32-bit register
      reads and writes, busy loops and sleeps; the BLE driver also takes
      the mutex embedded in its [ANNA] struct, and its boot-mode functions
      call [Reset] with it held.
    - The ARM vectors are the processor's way into Go: [set_exc_stack]
      and [set_vbar] install the stacks and the table; on an exception the
      handler saves the interrupted registers, calls [systemException] on
      [g0] with the return address in R3 and, when that returns, restores
      the registers and the CPSR. The USB driver sees none of it: it polls.

    ** Files, and which part of the source each one models

    - [Prelude] (this file): u32 arithmetic, the [bits] helpers of TamaGo
      ([bits.Get], [bits.Set], [bits.Clear], [bits.SetTo], [bits.SetN], which
      live outside [src/] and are modelled from their documented behaviour),
      little-endian byte encodings ([binary.LittleEndian]), the bit-field
      lemmas, the tactics [bits_solve] and [zcases] and the [usb] hint
      databases the other files use.
    - [Machine]: the machine state of the USB driver: a byte-addressed store
      holding both the controller's registers and the DMA memory, the DMA
      allocator ([dma.Alloc], [dma.Free], [dma.Read], [dma.Write]), the
      register accessors of [internal/reg] and its polling loops [reg.Wait],
      [reg.WaitFor] and [reg.WaitSignal], and the 64-bit accessors
      [reg.Read64] and [reg.Write64] (part_004, lines 598-613) in
      [Module reg64]. The hardware (and any other
      goroutine) is the class [Environment]: a function [env_tick] run
      between two polls and a function [env_store] that decides what a
      write stores (write-one-to-clear registers). Every theorem holds for
      an arbitrary environment unless it says otherwise. The driver runs in
      a state-and-outcome monad [M] whose outcomes are a result, a Go panic,
      or "out of fuel" (a poll loop that did not finish).
    - [Regs]: the register layout of the USB1 controller.
    - [QueueHead]: [dQH], its 64-byte wire encoding, [set], [initQH],
      [clear], [qh], [nextDTD] (driver file, lines 80-219).
    - [Sim]: a simulated controller, an instance of [Environment] that
      retires primed dTD chains and sets the completion bits; it is not a
      model of the source but the test double the concrete runs use.
    - [Descriptor]: [dTD], [buildDTD] and [checkDTD] (driver file, lines
      65-78, 221-294), with [check_tokens], the result [checkDTD] computes
      from the tokens the hardware wrote back.
    - [Transfer]: [transfer] split as the source is (the do-while dTD loop
      [transfer_loop], the priming step, the completion wait, [checkDTD],
      the copy of received data, the deferred frees), [ack], [tx], [rx],
      [stall], [reset], [enable] (lines 155-188, 296-435).
    - [Setup]: [setup.go] lines 22-243: the request codes, [swap],
      [getSetup], [getDescriptor], [handleStandardSetup],
      [handleClassSpecificSetup], [handleSetup] with the device model's
      override callback, [trim]. The device model ([usb.Device], outside
      [src/]) is the record [Device], threaded through the handlers.
    - [Hid]: the HID class descriptor, its keyboard defaults and wire form,
      and the report descriptor (part_003, lines 63-116).
    - [Dcp]: the package [init], [setKeyData], [SetKey] and [DeriveKey]
      (part_004, lines 470-590); [setKeyData]'s register accesses and its
      [mux.Lock]/[mux.Unlock] are returned in order and the accesses
      interpreted by a key-RAM test double; [DeriveKey]'s collaborators
      outside [src/] are the class [DcpHw].
    - [Mmio]: the I/O model of the board drivers, after the MMIO logs of
      riscv-coq and bedrock2: a [Bus] of register values, an event log and
      a clock; a [Device] class that answers reads; a state monad [IO]
      whose runs end in [Done], [Blocked] (waiting forever, as on a mutex
      the caller holds), [Crash] (a panic) or [Spin] (a poll out of fuel);
      the [reg] accessors, [arm.Busyloop] and [time.Sleep] over it, and the
      type invariant [bus_wf] (every register holds a 32-bit value).
    - [MiniUart]: [miniUART.Init], [Tx] with its status poll, [Write],
      [printk] and [setupGPIO] (part_002), the GPIO API of [bcm2835] as the
      class [Bcm2835Gpio].
    - [Ble]: [ble.go]: the [ANNA] struct and its mutex as the state
      [World], [configureBLEPad], [configureBLEGPIO], [Init], [RTS], [CTS],
      [Reset], [NormalMode] and [BootloaderMode], the [imx6] pad and GPIO
      API (outside [src/]) as the register accesses it makes.
    - [Board]: the Pi Zero activity LED ([init], [LED]), the Mk II uSDHC
      [init] with [lowVoltageSD] and [lowVoltageMMC], [initRNG], and the
      FU540 constants, UART instances, [Init] and [Model] (part_003, lines
      29-63) in [Module fu540].
    - [BoardScenarios]: concrete devices (a slow, a stuck and a ready
      mini-UART, an initialised ANNA module) and the witnesses of the board
      theorems.
    - [ArmExc]: the assembly of package [arm] at the end of setup.go
      (lines 256-343): [set_exc_stack], [set_vbar], [set_mvbar], the
      [EXCEPTION] macro and the eight handlers, as lists of ARM
      instructions ([asm], the [WORD] directives kept as raw words that
      [decode] reads) run by [run] on an ARMv7-A core state [Cpu] with
      the banked SP, LR and SPSR of each mode and the FIQ bank of R8-R12.
      [runtime.CallOnG0] is a parameter with the calling-convention
      contract [callee_ok]; the hardware's exception entry
      [take_exception] and the vector offsets of [go_asm.h] are modelled
      from the architecture manual.
    - [ArmScenarios]: concrete processor states and a Go handler, and the
      witnesses of the [ArmExc] theorems.
    - [Device]: [device.go]: [DeviceMode] and one iteration [start_iter] of
      the [Start] loop over a loop state (the local [conf], the device and
      the trace of what the endpoint tasks can observe); the loop is the
      reflexive-transitive closure of [iter_step]. [hw.Reset] and
      [startEndpoints] (outside [src/]) are parameters.
    - [Scenarios]: the start-up sequence on the simulated controller, the
      scenarios of the specification run on it, and the witnesses of the
      USB, DCP and HID theorems with hypotheses.

    ** What the theorems show (grouped as in the manifest)

    - Transfer engine: the dTD loop returns and builds one dTD per chunk,
      of the sizes [chunks S], which add up to [S] and number
      [max 1 (ceil (S / 20480))]; a transfer frees all it allocated;
      once every dTD is inactive [checkDTD] refines [check_tokens]; its
      success result and each error path; and, for every controller, the
      error a transfer on endpoint 0 returns is [checkDTD]'s alone, the
      timeout of the completion wait being discarded.
    - Control loop: in every run of [Start] the observable trace follows a
      monitor automaton: endpoint tasks start only when the configuration
      value changes, after closing [hw.done] and joining the previous
      tasks; [conf] mirrors [dev.ConfigurationValue]. [DeviceMode]'s mode
      word, which leaves stream mode enabled against its comment.
    - Setup dispatcher: the truncation property of [trim], scenarios 1, 2
      and 5 of the specification, the byte swap round trip behind
      SET_ADDRESS and SET_CONFIGURATION, the invariant that only
      SET_CONFIGURATION changes the configuration value, the bounds of the
      register the endpoint CLEAR_FEATURE resets (past ENDPTCTRL7 when
      bit 3 of wIndex is set), and two divergences: errors of the
      handlers are dropped, the device qualifier is sent untrimmed.
    - Queue heads: the round trip of the 64-byte wire format, and [set]
      followed by [qh].
    - DCP: the key slot [setKeyData] loads, holding [mux] for every
      key-RAM access, the [SetKey] round trip, the
      key derivation to a slot, the iRAM choice of its buffer, its errors,
      the termination of the key loop, and what a short key does: it
      panics when its capacity is less than a block, and otherwise loads
      the bytes past its length into the slot. Keys are Go slices, with
      their capacity.
    - HID: the class descriptor announces the wire length and the report
      descriptor's length, and the report descriptor is the byte string
      GET_DESCRIPTOR(HID_REPORT) decodes (computations on constants).
    - Board drivers: the trace of [miniUART.Init]; [Tx] returns exactly
      when the transmitter empties within the fuel, and spins otherwise;
      [Write] is [Tx] mapped over the buffer; the BLE [Reset] pulse;
      a run of [Init] from power-on on both revisions; the deadlock of
      [NormalMode] and [BootloaderMode]; the pulled-down write-protect
      pads; and the type invariant, which the bus model gives by
      construction: every board operation keeps every register 32-bit.
    - ARM exception vectors: [set_exc_stack] gives each exception mode
      its stack from a privileged mode and only clobbers SP_usr from User
      mode; each handler passes the preferred return address to the Go
      side and, when it returns, restores the interrupted context; taken
      from User or System mode, the handler resumes LROFFSET bytes past
      the preferred return address for every exception but Reset and
      SVC. The [WORD]s decode to the [msr]/[mrs] their comments name.

    ** Bounds and fuel

    Integers are kept at their Go width: a [uint32] is a [Z] reduced
    modulo 2^32 ([u32]), a [uint16] modulo 2^16, an [int] of the 32-bit
    target is [i32]. A poll loop receives a fuel [nat] (the number of polls
    it may make) and returns "out of fuel" ([NoFuel] in [M], [Spin] in
    [IO]) when it is spent; in [Machine], time is the number of polls
    made so far, so a timeout of [t] milliseconds is [t * ticks_per_ms]
    polls. The theorems that say a loop returns give the fuel that is
    enough: [reg.WaitFor] needs more polls than its timeout, the dTD loop
    one poll for each [nextDTD] wait and [S / 20480 + 1] iterations,
    [miniUART.Tx] one more status read than the reads before the
    transmitter empties, [miniUART.Write] [len(buf) + 1] loop tests. The
    simulated USB runs use a fuel of 30 polls, more than the 20-poll
    completion timeout of endpoint 0. The ARM code is straight-line: its
    runs need no fuel, and its registers and addresses are 32-bit ([u32]
    on every write, [cpu_wf] for the state).

    ** Not modelled

    The debug logging ([log.Print*]) and [hw.Lock] of the USB driver have
    no effect on the state it reads and are left out; so are the endpoint
    tasks themselves, which run in goroutines of their own: what the loop
    does to them is in its trace. The Go side of the exception handlers ([systemException],
    [runtime.CallOnG0]) is outside [src/] and enters as a parameter. The CAAM, DRBG and RNGB
    drivers [initRNG] installs, and the uSDHC and I2C controllers, are
    outside [src/]: [initRNG] is modelled as the choice of source, the
    controllers by what [init] records of them. *)

From Stdlib Require Import ZArith Lia List Btauto.
From coqutil Require Import Z.bitblast.
Import ListNotations.

Declare Scope usb_scope.
Delimit Scope usb_scope with usb.
Open Scope Z_scope.

(** ** Machine-width integers *)

(** Reduction of a mathematical integer to a Go [uint32]. *)
Definition u32 (z : Z) : Z := Z.land z (Z.ones 32).
(** Reduction to a Go [uint16] and [uint8]. *)
Definition u16 (z : Z) : Z := Z.land z (Z.ones 16).
Definition u8 (z : Z) : Z := Z.land z (Z.ones 8).

(** Go's [int] on the 32-bit ARM targets of this driver: the conversion
    [int(x)] of a [uint32] and the wrap-around of [int] additions. *)
Definition i32 (z : Z) : Z := (z + 2 ^ 31) mod 2 ^ 32 - 2 ^ 31.

Notation "'is_u32' z" := (0 <= z < 2 ^ 32) (at level 10) : usb_scope.
Open Scope usb_scope.

(** ** The [bits] package of TamaGo

    Each function works on a [uint32] held in a variable; the model returns
    the new value. [SetN] does not mask [val]: bits of [val] above [mask]
    spill into the neighbouring field, as in the source. *)
Module bits.
  (** [uint32((int(r) >> pos) & mask)], [r] the value at [addr] *)
Definition Get (r pos mask : Z) : Z := Z.land (Z.shiftr r pos) mask.
  (** [r |= (1 << pos)] *)
Definition Set_ (r pos : Z) : Z := u32 (Z.lor r (Z.shiftl 1 pos)).
  (** [r &= ^(1 << pos)] *)
Definition Clear (r pos : Z) : Z := u32 (Z.land r (Z.lnot (Z.shiftl 1 pos))).
  (** [if val { Set } else { Clear }] *)
Definition SetTo (r pos : Z) (val : bool) : Z :=
    if val then Set_ r pos else Clear r pos.
  (** [r = (r & (^(uint32(mask) << pos))) | (val << pos)] *)
Definition SetN (r pos mask val : Z) : Z :=
    u32 (Z.lor (Z.land r (Z.lnot (Z.shiftl mask pos))) (Z.shiftl val pos)).
End bits.

(** The sum of a list of integers. *)
Fixpoint sumZ (l : list Z) : Z := match l with [] => 0 | x :: l' => x + sumZ l' end.

(** ** Little-endian encodings ([binary.LittleEndian]) *)

(** The [n] bytes of [w], least significant first. *)
Fixpoint le_bytes (n : nat) (w : Z) : list Z :=
  match n with
  | O => []
  | S n' => (w mod 256) :: le_bytes n' (w / 256)
  end.

(** The value of a little-endian byte list. *)
Fixpoint le_value (l : list Z) : Z :=
  match l with
  | [] => 0
  | b :: l' => b + 256 * le_value l'
  end.

(** A byte list holds bytes. *)
Definition bytes_ok (l : list Z) : Prop := Forall (fun b => 0 <= b < 256) l.

(** ** Shared lemmas *)

Lemma testbit_high v w i : 0 <= v < 2 ^ w -> 0 <= w <= i -> Z.testbit v i = false.
Proof.
  intros Hv Hi. rewrite <- (Z.mod_small v (2 ^ w)) by lia.
  apply Z.mod_pow2_bits_high. lia.
Qed.

Lemma testbit_1 k : Z.testbit 1 k = (k =? 0).
Proof. destruct k; reflexivity. Qed.

(** Removes the bits of a bounded value above its width and the bits at
    negative positions, which [Z.bitblast] leaves behind. *)
Ltac kill_high :=
  repeat match goal with
  | |- context [Z.testbit ?v ?k] => rewrite (Z.testbit_neg_r v k) by lia
  | |- context [Z.testbit 1 ?k] => rewrite (testbit_1 k)
  | |- context [?a =? ?b] => destruct (Z.eqb_spec a b); try lia
  | H : 0 <= ?v < 2 ^ ?w |- context [Z.testbit ?v ?k] =>
      rewrite (testbit_high v w k) by lia
  end.

(** The development's tactic for equalities of bit expressions. *)
Ltac bits_solve :=
  unfold bits.Get, bits.Set_, bits.Clear, bits.SetN, u32, u16, u8 in *;
  Z.bitblast;
  repeat match goal with x := _ |- _ => subst x end;
  repeat match goal with H : ?x = _ |- _ => is_var x; subst x end;
  kill_high; try btauto.

(** Case analysis on every integer comparison of the goal, each case
    closed by [lia] when contradictory. *)
Ltac zcases :=
  repeat match goal with
  | |- context [?a =? ?b] => destruct (Z.eqb_spec a b); try (exfalso; lia)
  | |- context [?a <=? ?b] => destruct (Z.leb_spec a b); try (exfalso; lia)
  | |- context [?a <? ?b] => destruct (Z.ltb_spec a b); try (exfalso; lia)
  end; cbn [andb orb negb].

Lemma u32_range z : 0 <= u32 z < 2 ^ 32.
Proof.
  unfold u32. rewrite Z.land_ones by lia. apply Z.mod_pos_bound. lia.
Qed.

Lemma u32_small z : 0 <= z < 2 ^ 32 -> u32 z = z.
Proof. intros. unfold u32. rewrite Z.land_ones by lia. apply Z.mod_small. lia. Qed.

Lemma u32_mod z : u32 z = z mod 2 ^ 32.
Proof. unfold u32. apply Z.land_ones. lia. Qed.

(** Wrap-around arithmetic: reducing an operand first changes nothing. *)
Lemma u32_idem z : u32 (u32 z) = u32 z.
Proof. rewrite !u32_mod. apply Z.mod_mod. lia. Qed.

Lemma u32_add_l x y : u32 (u32 x + y) = u32 (x + y).
Proof. rewrite !u32_mod. apply Zplus_mod_idemp_l. Qed.

Lemma u32_sub_l x y : u32 (u32 x - y) = u32 (x - y).
Proof. rewrite !u32_mod. apply Zminus_mod_idemp_l. Qed.

Lemma i32_small z : -(2 ^ 31) <= z < 2 ^ 31 -> i32 z = z.
Proof. intros Hz. unfold i32. rewrite Z.mod_small by lia. lia. Qed.

Lemma u16_range z : 0 <= u16 z < 2 ^ 16.
Proof.
  unfold u16. rewrite Z.land_ones by lia. apply Z.mod_pos_bound. lia.
Qed.

Lemma u8_range z : 0 <= u8 z < 2 ^ 8.
Proof.
  unfold u8. rewrite Z.land_ones by lia. apply Z.mod_pos_bound. lia.
Qed.

Section Fields.
  Variables (pos w : Z).
  Hypothesis (Hpos : 0 <= pos) (Hw : 0 <= w) (Hfit : pos + w <= 32).

  (** Reading back a field just written. *)
Lemma Get_SetN_same r v :
    0 <= v < 2 ^ w -> bits.Get (bits.SetN r pos (Z.ones w) v) pos (Z.ones w) = v.
  Proof. intros. bits_solve. Qed.

  (** A field is untouched by a write to a disjoint field. *)
Lemma Get_SetN_other r p1 w1 v :
    0 <= p1 -> 0 <= w1 -> (p1 + w1 <= pos \/ pos + w <= p1) -> 0 <= v < 2 ^ w1 ->
    bits.Get (bits.SetN r p1 (Z.ones w1) v) pos (Z.ones w) = bits.Get r pos (Z.ones w).
  Proof. intros. bits_solve. Qed.

Lemma Get_Set_other r p :
    0 <= p -> (p < pos \/ pos + w <= p) ->
    bits.Get (bits.Set_ r p) pos (Z.ones w) = bits.Get r pos (Z.ones w).
  Proof. intros. bits_solve. Qed.

Lemma Get_Clear_other r p :
    0 <= p -> (p < pos \/ pos + w <= p) ->
    bits.Get (bits.Clear r p) pos (Z.ones w) = bits.Get r pos (Z.ones w).
  Proof. intros. bits_solve. Qed.

Lemma Get_range r : 0 <= bits.Get r pos (Z.ones w) < 2 ^ w.
  Proof.
    unfold bits.Get. rewrite Z.land_ones by lia. apply Z.mod_pos_bound.
    apply Z.pow_pos_nonneg; lia.
  Qed.
End Fields.

Lemma Get_Set_same r p : 0 <= p < 32 -> bits.Get (bits.Set_ r p) p 1 = 1.
Proof. intros. change (bits.Get (bits.Set_ r p) p (Z.ones 1) = Z.ones 1). bits_solve. Qed.

Lemma Get_Clear_same r p : 0 <= p < 32 -> bits.Get (bits.Clear r p) p 1 = 0.
Proof. intros. change 1 with (Z.ones 1). bits_solve. Qed.

Lemma SetN_range r pos mask v : 0 <= bits.SetN r pos mask v < 2 ^ 32.
Proof. apply u32_range. Qed.

Lemma Set_range r p : 0 <= bits.Set_ r p < 2 ^ 32.
Proof. apply u32_range. Qed.

Lemma Clear_range r p : 0 <= bits.Clear r p < 2 ^ 32.
Proof. apply u32_range. Qed.

Lemma length_le_bytes n w : length (le_bytes n w) = n.
Proof. revert w; induction n; simpl; auto. Qed.

Lemma le_bytes_ok n w : bytes_ok (le_bytes n w).
Proof.
  revert w; induction n as [|n IH]; intros w; simpl; constructor.
  - apply Z.mod_pos_bound; lia.
  - apply IH.
Qed.

(** Round trip of the little-endian encoding of an [n]-byte value. *)
Lemma le_value_bytes n w : le_value (le_bytes n w) = w mod 2 ^ (8 * Z.of_nat n).
Proof.
  revert w; induction n as [|n IH]; intros w; cbn [le_bytes le_value].
  - rewrite Z.mod_1_r. reflexivity.
  - rewrite IH. replace (8 * Z.of_nat (S n)) with (8 + 8 * Z.of_nat n) by lia.
    rewrite Z.pow_add_r by lia. change (2 ^ 8) with 256.
    rewrite Z.rem_mul_r by (try apply Z.pow_pos_nonneg; lia). lia.
Qed.

Lemma le_bytes_value l : bytes_ok l -> le_bytes (length l) (le_value l) = l.
Proof.
  induction 1 as [|b l Hb Hl IH]; cbn [le_bytes le_value length]; auto.
  f_equal.
  - rewrite Z.mul_comm, Z.mod_add by lia. apply Z.mod_small; lia.
  - rewrite Z.mul_comm, Z.div_add by lia.
    rewrite Z.div_small by lia. rewrite Z.add_0_l. exact IH.
Qed.

Lemma le_bytes_value_len n l : length l = n -> bytes_ok l -> le_bytes n (le_value l) = l.
Proof. intros <-. apply le_bytes_value. Qed.

Lemma le_value_range l : bytes_ok l -> 0 <= le_value l < 2 ^ (8 * Z.of_nat (length l)).
Proof.
  induction 1 as [|b l Hb Hl IH]; cbn [le_value length]; [simpl; lia|].
  replace (8 * Z.of_nat (S (length l))) with (8 + 8 * Z.of_nat (length l)) by lia.
  rewrite Z.pow_add_r by lia. change (2 ^ 8) with 256. lia.
Qed.

Lemma le_value_app l1 l2 :
  le_value (l1 ++ l2) = le_value l1 + 2 ^ (8 * Z.of_nat (length l1)) * le_value l2.
Proof.
  induction l1 as [|b l1 IH]; cbn [le_value length app].
  { change (8 * Z.of_nat 0) with 0. rewrite Z.pow_0_r. ring. }
  rewrite IH. replace (8 * Z.of_nat (S (length l1))) with (8 + 8 * Z.of_nat (length l1)) by lia.
  rewrite Z.pow_add_r by lia. change (2 ^ 8) with 256. ring.
Qed.

Create HintDb usb discriminated.
#[export] Hint Resolve u32_range u16_range u8_range SetN_range Set_range Clear_range
  le_bytes_ok length_le_bytes : usb.
Create Rewrite HintDb usb_rw.
#[export] Hint Rewrite length_le_bytes le_value_bytes : usb_rw.
