(* ===== verification/Machine.v ===== *)
(** * The machine: registers, DMA memory, polls and the hardware interface

    The state shared by the driver and the controller: one byte-addressed
    store for the memory-mapped registers and the DMA memory (the driver
    reads both with [reg.Read]), the DMA allocator of [dma], the clock, and
    the fields of the Go [USB] struct that the driver keeps ([dQH],
    [epListAddr], [done]). The hardware is the class [Environment]. The
    driver runs in the monad [M]. *)

From stdpp Require Import base gmap list.
From S2P Require Import Prelude.
Open Scope Z_scope.

(** ** The addresses of the controller's registers

    The fields [cmd], [sts], ... of the Go [USB] struct, which [Init] fills
    from the controller's base address. *)
Record Layout := {
  cmd : Z; sts : Z; addr : Z; eplist : Z; otg : Z; mode : Z; setup : Z;
  flush : Z; prime : Z; stat : Z; complete : Z; epctrl : Z
}.

(** ** The state *)
Record State := mkState {
  mem : gmap Z Z;          (** byte store: registers and DMA memory *)
  allocs : gmap Z Z;       (** live DMA allocations: base address to size *)
  next_free : Z;           (** next free address of the DMA region *)
  clock : nat;             (** polls made so far *)
  epListAddr : Z;          (** [hw.epListAddr] *)
  dQHs : list Z;           (** [hw.dQH[n][dir]] at index [n*2+dir] *)
  done : option bool       (** [hw.done]: [None] is a nil channel, [Some c] tells whether it is closed *)
}.

Definition set_mem (m : gmap Z Z) (s : State) : State :=
  mkState m (allocs s) (next_free s) (clock s) (epListAddr s) (dQHs s) (done s).
Definition set_allocs (a : gmap Z Z) (nf : Z) (s : State) : State :=
  mkState (mem s) a nf (clock s) (epListAddr s) (dQHs s) (done s).
Definition set_clock (c : nat) (s : State) : State :=
  mkState (mem s) (allocs s) (next_free s) c (epListAddr s) (dQHs s) (done s).
Definition set_epList (e : Z) (s : State) : State :=
  mkState (mem s) (allocs s) (next_free s) (clock s) e (dQHs s) (done s).
Definition set_dQHs (d : list Z) (s : State) : State :=
  mkState (mem s) (allocs s) (next_free s) (clock s) (epListAddr s) d (done s).
Definition set_done (d : option bool) (s : State) : State :=
  mkState (mem s) (allocs s) (next_free s) (clock s) (epListAddr s) (dQHs s) d.

(** ** Bytes and words of the store *)

Definition load_byte (m : gmap Z Z) (a : Z) : Z := default 0 (m !! a).

Definition load_bytes (m : gmap Z Z) (a : Z) (n : nat) : list Z :=
  map (fun i => load_byte m (a + Z.of_nat i)) (seq 0 n).

Fixpoint store_bytes (a : Z) (l : list Z) (m : gmap Z Z) : gmap Z Z :=
  match l with
  | [] => m
  | b :: l' => store_bytes (a + 1) l' (<[a := b]> m)
  end.

(** A 32-bit little-endian word of the store. *)
Definition load32 (m : gmap Z Z) (a : Z) : Z := le_value (load_bytes m a 4).
Definition store32 (a v : Z) (m : gmap Z Z) : gmap Z Z := store_bytes a (le_bytes 4 v) m.

(** [reg.Read64(addr)] and [reg.Write64(addr, val)] (part_004, lines
    605-613): an atomic 64-bit load and store through a pointer, the
    [uint64] little-endian in memory as on the RISC-V targets that use
    them. *)
Module reg64.
Definition Read64 (m : gmap Z Z) (addr : Z) : Z := le_value (load_bytes m addr 8).
Definition Write64 (addr val : Z) (m : gmap Z Z) : gmap Z Z := store_bytes addr (le_bytes 8 val) m.
End reg64.

(** ** The hardware and the other goroutines

    [env_tick] is what happens while the driver yields inside a poll loop
    ([runtime.Gosched]): the controller progresses, another goroutine may
    close [hw.done]. [env_store a old v] is the value a register at [a]
    holds after the driver writes [v] over [old] (a plain store, or a
    write-one-to-clear register). [env_ticks_per_ms] converts the
    timeouts of the source into polls. *)
Class Environment := {
  env_tick : State -> State;
  env_store : Z -> Z -> Z -> Z;
  env_ticks_per_ms : nat
}.

(** ** The monad of the driver

    A computation runs from a state to an outcome: a value and a state, a Go
    panic, or [OutOfFuel] when a poll loop used up its budget. *)
Inductive outcome (A : Type) : Type :=
| Ret (a : A) (s : State)
| Panic (s : State)
| OutOfFuel.
Arguments Ret {A} a s.
Arguments Panic {A} s.
Arguments OutOfFuel {A}.

Definition M (A : Type) : Type := State -> outcome A.

#[export] Instance M_ret : MRet M := fun A a s => Ret a s.
#[export] Instance M_bind : MBind M := fun A B f c s =>
  match c s with
  | Ret a s' => f a s'
  | Panic s' => Panic s'
  | OutOfFuel => OutOfFuel
  end.

Definition gets {A} (f : State -> A) : M A := fun s => Ret (f s) s.
Definition modify (f : State -> State) : M unit := fun s => Ret tt (f s).
Definition panic {A} : M A := fun s => Panic s.

(** Go loops over a list, in order. *)
Fixpoint forM_ {A} (l : list A) (f : A -> M unit) : M unit :=
  match l with
  | [] => mret tt
  | x :: l' => f x ;; forM_ l' f
  end.

(** ** The register accessors of [internal/reg] *)
Module reg.
Section S.
  Context `{Environment}.
Definition Read (a : Z) : M Z := gets (fun s => load32 (mem s) a).
Definition Write (a v : Z) : M unit :=
    modify (fun s => set_mem (store32 a (env_store a (load32 (mem s) a) (u32 v)) (mem s)) s).
Definition Get (a pos mask : Z) : M Z := r ← Read a; mret (bits.Get r pos mask).
Definition Set_ (a pos : Z) : M unit := r ← Read a; Write a (bits.Set_ r pos).
Definition Clear (a pos : Z) : M unit := r ← Read a; Write a (bits.Clear r pos).
Definition SetN (a pos mask val : Z) : M unit := r ← Read a; Write a (bits.SetN r pos mask val).
End S.
End reg.

Section Poll.
Context `{Environment}.

(** One yield to the environment: the clock advances by one poll. *)
Definition tick_step (s : State) : State := env_tick (set_clock (S (clock s)) s).
Definition tick : M unit := modify tick_step.

(** The shared loop of [reg.Wait], [reg.WaitFor] and [reg.WaitSignal]:
    [for !cond { Gosched(); if stop { return false } }; return true]. *)
Fixpoint poll (fuel : nat) (cond : M bool) (stop : State -> bool) : M bool :=
  match fuel with
  | O => fun _ => OutOfFuel
  | S f =>
      b ← cond;
      match b with
      | true => mret true
      | false =>
          tick ;;
          g ← gets stop;
          match g with true => mret false | false => poll f cond stop end
      end
  end.

Definition field_is (a pos mask val : Z) : M bool :=
  v ← reg.Get a pos mask; mret (v =? val).

End Poll.

Module wait.
Section S.
  Context `{Environment}.
  (** [reg.Wait(addr, pos, mask, val)] *)
Definition Wait (fuel : nat) (a pos mask val : Z) : M unit :=
    _ ← poll fuel (field_is a pos mask val) (fun _ => false); mret tt.
  (** [reg.WaitFor(timeout, addr, pos, mask, val)], [timeout] in ms. *)
Definition WaitFor (fuel : nat) (timeout : nat) (a pos mask val : Z) : M bool :=
    start ← gets clock;
    poll fuel (field_is a pos mask val)
      (fun s => Nat.leb (timeout * env_ticks_per_ms) (clock s - start)).
  (** [reg.WaitSignal(done, addr, pos, mask, val)]: a nil channel never fires. *)
Definition WaitSignal (fuel : nat) (a pos mask val : Z) : M bool :=
    poll fuel (field_is a pos mask val) (fun s => bool_decide (done s = Some true)).
End S.
End wait.

(** ** The DMA allocator of [dma] *)
Module dma.
Definition align_up (a align : Z) : Z := (a + align - 1) / align * align.
  (** [dma.Alloc(buf, align)]: reserve [len(buf)] bytes at an [align]ed
      address (an [align] of 0 forces word alignment) and copy [buf]
      there; an empty buffer gets address 0. *)
Definition Alloc (buf : list Z) (align : Z) : M Z := fun s =>
    if decide (length buf = 0%nat) then Ret 0 s
    else
      let align := if align =? 0 then 4 else align in
      let base := align_up (next_free s) align in
      Ret base (set_mem (store_bytes base buf (mem s))
                  (set_allocs (<[base := Z.of_nat (length buf)]> (allocs s))
                     (base + Z.of_nat (length buf)) s)).
  (** [dma.Free(addr)]: release the allocation at [addr], if any. *)
Definition Free (a : Z) : M unit :=
    modify (fun s => set_allocs (delete a (allocs s)) (next_free s) s).
  (** [dma.Read(addr, off, buf)]: the [len(buf)] bytes at [addr+off]. *)
Definition Read (a off : Z) (n : nat) : M (list Z) :=
    gets (fun s => load_bytes (mem s) (a + off) n).
  (** [dma.Write(addr, off, buf)] *)
Definition Write (a off : Z) (buf : list Z) : M unit :=
    modify (fun s => set_mem (store_bytes (a + off) buf (mem s)) s).
End dma.

(** ** Laws of a well-behaved environment

    The hardware does not move the clock, does not touch the driver's own
    fields, and a register keeps a 32-bit value. Theorems that need these
    laws assume [EnvOk]. *)
Class EnvOk `{Environment} := {
  env_tick_clock : forall s, clock (env_tick s) = clock s;
  env_tick_allocs : forall s, allocs (env_tick s) = allocs s;
  env_tick_next_free : forall s, next_free (env_tick s) = next_free s;
  env_tick_dQHs : forall s, dQHs (env_tick s) = dQHs s
}.

(** The state after [k] yields to the environment. *)
Definition ticks `{Environment} (k : nat) (s : State) : State := Nat.iter k tick_step s.

(** The value [reg.Get] would read at [a] in state [s]. *)
Definition field (a pos mask : Z) (s : State) : Z := bits.Get (load32 (mem s) a) pos mask.

(** Frame condition: a computation that returns leaves the part [f] of the
    state as it was. *)
Definition keeps_on {T} (f : State -> T) {A} (c : M A) : Prop :=
  forall s a s', c s = Ret a s' -> f s' = f s.

(** Only [Start] assigns [hw.done]; every other operation reads it at most. *)
Abbreviation keeps := (keeps_on done).

(** * Lemmas *)

(** Running a bind whose first computation returns. *)
Lemma bind_Ret {A B} (c : M A) (f : A -> M B) s a s' :
  c s = Ret a s' -> (c ≫= f) s = f a s'.
Proof. intros Hc. unfold mbind, M_bind. rewrite Hc. reflexivity. Qed.

Lemma bind_Panic {A B} (c : M A) (f : A -> M B) s s' :
  c s = Panic s' -> (c ≫= f) s = Panic s'.
Proof. intros Hc. unfold mbind, M_bind. rewrite Hc. reflexivity. Qed.

Lemma bind_OutOfFuel {A B} (c : M A) (f : A -> M B) s :
  c s = OutOfFuel -> (c ≫= f) s = OutOfFuel.
Proof. intros Hc. unfold mbind, M_bind. rewrite Hc. reflexivity. Qed.

Lemma bind_Ret_inv {A B} (c : M A) (f : A -> M B) s b s' :
  (c ≫= f) s = Ret b s' -> exists a s1, c s = Ret a s1 /\ f a s1 = Ret b s'.
Proof.
  unfold mbind, M_bind. destruct (c s) as [a s1|s1|]; intros H; try discriminate. eauto.
Qed.

Lemma mret_Ret_inv {A} (a b : A) s s' : (mret a : M A) s = Ret b s' -> a = b /\ s = s'.
Proof. intros H. injection H. auto. Qed.

(** Splits a run that returned into the runs of its steps. *)
Ltac inv_run H :=
  repeat match type of H with
  | (_ ≫= _) _ = Ret _ _ =>
      let a := fresh "a" in let s1 := fresh "s" in let H1 := fresh "Hrun" in
      apply bind_Ret_inv in H; destruct H as (a & s1 & H1 & H); cbv beta in H
  | mret _ _ = Ret _ _ => apply mret_Ret_inv in H; destruct H as [H ?]
  end.

(** Splits the first step off a run that returned: [Hx] is the run of the
    step, [H] the run of the rest. *)
Ltac step H x sx Hx := apply bind_Ret_inv in H; destruct H as (x & sx & Hx & H); cbv beta in H.

Lemma mret_run {A} (a : A) s : (mret a : M A) s = Ret a s.
Proof. reflexivity. Qed.

Lemma load_byte_store_bytes_out (l : list Z) a b m :
  (b < a \/ a + Z.of_nat (length l) <= b) ->
  load_byte (store_bytes a l m) b = load_byte m b.
Proof.
  revert a m; induction l as [|x l IH]; intros a m Hb; cbn [store_bytes length] in *; auto.
  rewrite IH by lia.
  unfold load_byte. rewrite lookup_insert_ne by lia. reflexivity.
Qed.

Lemma load_byte_store_bytes_in (l : list Z) a i m :
  (i < length l)%nat ->
  load_byte (store_bytes a l m) (a + Z.of_nat i) = nth i l 0.
Proof.
  revert a i m; induction l as [|x l IH]; intros a i m Hi; cbn [length] in Hi; [lia|].
  cbn [store_bytes]. destruct i as [|i].
  - rewrite load_byte_store_bytes_out by lia.
    unfold load_byte. rewrite Z.add_0_r, lookup_insert_eq. reflexivity.
  - replace (a + Z.of_nat (S i)) with (a + 1 + Z.of_nat i) by lia.
    rewrite IH by lia. reflexivity.
Qed.

Lemma load_bytes_cons m a n :
  load_bytes m a (S n) = load_byte m a :: load_bytes m (a + 1) n.
Proof.
  unfold load_bytes. cbn [seq map]. rewrite Z.add_0_r. f_equal.
  rewrite <- seq_shift, map_map. apply map_ext. intros i. f_equal. lia.
Qed.

(** Reading back the bytes just stored. *)
Lemma load_bytes_store_bytes (l : list Z) a m :
  load_bytes (store_bytes a l m) a (length l) = l.
Proof.
  revert a m; induction l as [|x l IH]; intros a m; [reflexivity|].
  cbn [length store_bytes]. rewrite load_bytes_cons, IH.
  rewrite load_byte_store_bytes_out by lia.
  unfold load_byte. rewrite lookup_insert_eq. reflexivity.
Qed.

Lemma load_bytes_store_bytes_out (l : list Z) a b n m :
  (b + Z.of_nat n <= a \/ a + Z.of_nat (length l) <= b) ->
  load_bytes (store_bytes a l m) b n = load_bytes m b n.
Proof.
  intros Hd. unfold load_bytes. apply map_ext_in. intros i Hi.
  apply in_seq in Hi. apply load_byte_store_bytes_out. lia.
Qed.

(** A 32-bit word reads back as written. *)
Lemma load32_store32_same a v m : 0 <= v < 2 ^ 32 -> load32 (store32 a v m) a = v.
Proof.
  intros Hv. unfold load32, store32.
  change 4%nat with (length (le_bytes 4 v)) at 2.
  rewrite load_bytes_store_bytes, le_value_bytes. apply Z.mod_small. exact Hv.
Qed.

(** A word that does not overlap the one written is unchanged. *)
Lemma load32_store32_other a b v m :
  (b + 4 <= a \/ a + 4 <= b) -> load32 (store32 a v m) b = load32 m b.
Proof.
  intros Hd. unfold load32, store32.
  rewrite load_bytes_store_bytes_out; [reflexivity|].
  rewrite length_le_bytes. simpl. lia.
Qed.

Lemma load32_range m a : (forall b, 0 <= load_byte m b < 256) -> 0 <= load32 m a < 2 ^ 32.
Proof.
  intros Hm. unfold load32.
  apply (le_value_range (load_bytes m a 4)).
  unfold bytes_ok, load_bytes. apply Forall_map.
  induction (seq 0 4); constructor; auto.
Qed.

#[export] Hint Rewrite load32_store32_same load32_store32_other using lia : usb_rw.

Lemma load_bytes_app m a n1 n2 :
  load_bytes m a (n1 + n2) = load_bytes m a n1 ++ load_bytes m (a + Z.of_nat n1) n2.
Proof.
  revert a; induction n1 as [|n1 IH]; intros a.
  - rewrite Z.add_0_r. reflexivity.
  - cbn [Nat.add]. rewrite !load_bytes_cons, IH.
    replace (a + 1 + Z.of_nat n1) with (a + Z.of_nat (S n1)) by lia. reflexivity.
Qed.

(** A 64-bit load is the two 32-bit words at [addr] and [addr + 4], low
    word first. *)
Lemma Read64_halves m addr :
  reg64.Read64 m addr = load32 m addr + 2 ^ 32 * load32 m (addr + 4).
Proof.
  unfold reg64.Read64, load32. change 8%nat with (4 + 4)%nat.
  rewrite load_bytes_app, le_value_app. reflexivity.
Qed.

(** A 64-bit store reads back as the [uint64] written, and leaves every
    word outside its eight bytes unchanged. *)
Lemma Read64_Write64 m addr val b :
  reg64.Read64 (reg64.Write64 addr val m) addr = val mod 2 ^ 64 /\
  (b + 4 <= addr \/ addr + 8 <= b -> load32 (reg64.Write64 addr val m) b = load32 m b).
Proof.
  unfold reg64.Read64, reg64.Write64, load32. split.
  - change 8%nat with (length (le_bytes 8 val)) at 2.
    rewrite load_bytes_store_bytes, le_value_bytes. reflexivity.
  - intros Hd. rewrite load_bytes_store_bytes_out; [reflexivity|].
    rewrite length_le_bytes. simpl. lia.
Qed.

Lemma ticks_succ `{Environment} k s : ticks (S k) s = ticks k (tick_step s).
Proof. unfold ticks. apply Nat.iter_succ_r. Qed.

Section PollLemmas.
  Context `{Environment}.
  Variables (c : State -> bool) (g : State -> bool) (cond : M bool).
  Hypothesis cond_pure : forall s, cond s = Ret (c s) s.

  (** One iteration of the loop when the condition fails. *)
Lemma poll_step fuel s :
    c s = false ->
    poll (S fuel) cond g s =
      if g (tick_step s) then Ret false (tick_step s) else poll fuel cond g (tick_step s).
  Proof.
    intros Hc. cbn [poll]. unfold mbind, M_bind. rewrite cond_pure, Hc. cbn.
    destruct (g (tick_step s)); reflexivity.
  Qed.

Lemma poll_hit fuel s : c s = true -> poll (S fuel) cond g s = Ret true s.
  Proof. intros Hc. cbn [poll]. unfold mbind, M_bind. rewrite cond_pure, Hc. reflexivity. Qed.

Let shift k s :
    (forall j, (j < S k)%nat -> c (ticks j s) = false /\ g (ticks (S j) s) = false) ->
    c s = false /\ g (tick_step s) = false /\
    (forall j, (j < k)%nat -> c (ticks j (tick_step s)) = false /\ g (ticks (S j) (tick_step s)) = false).
  Proof.
    intros Hb. destruct (Hb 0%nat ltac:(lia)) as [H0 H1]. split; [exact H0|]. split; [exact H1|].
    intros j Hj. rewrite <- !ticks_succ. apply Hb. lia.
  Qed.

  (** The loop returns [true] at the first poll where the condition holds. *)
Lemma poll_ret_true fuel k s :
    (forall j, (j < k)%nat -> c (ticks j s) = false /\ g (ticks (S j) s) = false) ->
    c (ticks k s) = true -> (k < fuel)%nat ->
    poll fuel cond g s = Ret true (ticks k s).
  Proof.
    revert fuel s; induction k as [|k IH]; intros fuel s Hbefore Hc Hf;
      destruct fuel as [|fuel]; try lia.
    - apply poll_hit. exact Hc.
    - destruct (shift k s Hbefore) as (Hc0 & Hg1 & Hrest).
      rewrite poll_step, Hg1 by exact Hc0. rewrite ticks_succ.
      apply IH; [exact Hrest | rewrite <- ticks_succ; exact Hc | lia].
  Qed.

  (** The loop returns [false] at the first yield after which it gives up. *)
Lemma poll_ret_false fuel k s :
    (forall j, (j < k)%nat -> c (ticks j s) = false /\ g (ticks (S j) s) = false) ->
    c (ticks k s) = false -> g (ticks (S k) s) = true -> (k < fuel)%nat ->
    poll fuel cond g s = Ret false (ticks (S k) s).
  Proof.
    revert fuel s; induction k as [|k IH]; intros fuel s Hbefore Hc Hg Hf;
      destruct fuel as [|fuel]; try lia.
    - rewrite poll_step by exact Hc. simpl in Hg. rewrite Hg. reflexivity.
    - destruct (shift k s Hbefore) as (Hc0 & Hg1 & Hrest).
      rewrite poll_step, Hg1 by exact Hc0. rewrite ticks_succ.
      apply IH; [exact Hrest | rewrite <- ticks_succ; exact Hc
                | rewrite <- ticks_succ; exact Hg | lia].
  Qed.

  (** If the loop gives up within [fuel] yields, it returns, whatever the
      condition does. *)
Lemma poll_returns fuel k s :
    g (ticks (S k) s) = true -> (k < fuel)%nat ->
    exists b s', poll fuel cond g s = Ret b s'.
  Proof.
    revert fuel s; induction k as [|k IH]; intros fuel s Hg Hf;
      destruct fuel as [|fuel]; try lia;
      (destruct (c s) eqn:Hc; [rewrite poll_hit by exact Hc; eauto|]);
      rewrite poll_step by exact Hc.
    - simpl in Hg. rewrite Hg. eauto.
    - destruct (g (tick_step s)); [eauto|]. apply IH; [rewrite <- ticks_succ; exact Hg | lia].
  Qed.

  (** If the condition holds within [fuel] polls and the loop does not give
      up before, the loop returns. *)
Lemma poll_reaches fuel k s :
    c (ticks k s) = true -> (k < fuel)%nat ->
    (forall j, (j < k)%nat -> g (ticks (S j) s) = false) ->
    exists b s', poll fuel cond g s = Ret b s'.
  Proof.
    revert fuel s; induction k as [|k IH]; intros fuel s Hc Hf Hg;
      destruct fuel as [|fuel]; try lia;
      (destruct (c s) eqn:Hc0; [rewrite poll_hit by exact Hc0; eauto|]).
    - simpl in Hc. congruence.
    - rewrite poll_step by exact Hc0.
      destruct (g (tick_step s)); [eauto|].
      apply IH; [rewrite <- ticks_succ; exact Hc | lia |].
      intros j Hj. rewrite <- ticks_succ. apply Hg. lia.
  Qed.
End PollLemmas.

Lemma field_is_pure `{Environment} a pos mask val s :
  field_is a pos mask val s = Ret (bits.Get (load32 (mem s) a) pos mask =? val) s.
Proof. reflexivity. Qed.

Lemma clock_ticks `{EnvOk} k s : clock (ticks k s) = (clock s + k)%nat.
Proof.
  induction k as [|k IH]; [simpl; lia|].
  unfold ticks in *. rewrite Nat.iter_succ. unfold tick_step at 1.
  rewrite env_tick_clock. simpl. rewrite IH. lia.
Qed.

Section WaitTheorems.
  Context `{EnvOk}.

  (** [reg.WaitFor] returns within its timeout whatever the hardware does:
      with more polls of fuel than the timeout, it never runs out of fuel. *)
Theorem WaitFor_returns fuel timeout a pos mask val s :
    (timeout * env_ticks_per_ms < fuel)%nat ->
    exists b s', wait.WaitFor fuel timeout a pos mask val s = Ret b s'.
  Proof.
    intros Hf. unfold wait.WaitFor. cbn [mbind M_bind gets].
    apply (poll_returns (fun s => field a pos mask s =? val)) with (k := Nat.pred (timeout * env_ticks_per_ms));
      [reflexivity | | lia].
    apply Nat.leb_le. rewrite clock_ticks. lia.
  Qed.

  (** [reg.Wait] returns once the hardware sets the field within the fuel. *)
Theorem Wait_returns fuel k a pos mask val s :
    field a pos mask (ticks k s) = val -> (k < fuel)%nat ->
    exists s', wait.Wait fuel a pos mask val s = Ret tt s'.
  Proof.
    intros Hv Hf. unfold wait.Wait.
    destruct (poll_reaches (fun s => field a pos mask s =? val) (fun _ => false)
                (field_is a pos mask val) (fun s => eq_refl) fuel k s)
      as (b & s' & Hp); [apply Z.eqb_eq; exact Hv | exact Hf | reflexivity |].
    exists s'. rewrite (bind_Ret _ _ _ _ _ Hp). reflexivity.
  Qed.

  (** [reg.WaitSignal] returns [false] once [hw.done] is closed, if the
      field was not set before. *)
Theorem WaitSignal_cancelled fuel k a pos mask val s :
    (forall j, (j <= k)%nat -> field a pos mask (ticks j s) <> val) ->
    (forall j, (j < k)%nat -> done (ticks (S j) s) <> Some true) ->
    done (ticks (S k) s) = Some true -> (k < fuel)%nat ->
    wait.WaitSignal fuel a pos mask val s = Ret false (ticks (S k) s).
  Proof.
    intros Hv Hd Hk Hf. unfold wait.WaitSignal.
    apply (poll_ret_false (fun s => field a pos mask s =? val)); [reflexivity| | | |exact Hf].
    - intros j Hj. split; [apply Z.eqb_neq, Hv; lia|]. apply bool_decide_eq_false_2, Hd, Hj.
    - apply Z.eqb_neq, Hv. lia.
    - apply bool_decide_eq_true_2, Hk.
  Qed.
End WaitTheorems.

(** ** Frame lemmas

    A part [f] of the state that the hardware does not change and that
    register writes and the clock leave alone is kept by every primitive
    but the allocator's, and [keeps_on f] is closed under [mbind] and case
    analysis. *)
Section Frame.
Context `{Environment} {T : Type} (f : State -> T).
Hypothesis f_tick : forall s, f (env_tick s) = f s.
Hypothesis f_mem : forall m s, f (set_mem m s) = f s.
Hypothesis f_clock : forall c s, f (set_clock c s) = f s.

Lemma keeps_run {A} (c : M A) s a s' : keeps_on f c -> c s = Ret a s' -> f s' = f s.
Proof. intros Hk Hr. exact (Hk _ _ _ Hr). Qed.

Lemma keeps_ret {A} (a : A) : keeps_on f (mret a).
Proof. intros s b s' Hr. injection Hr as _ <-. reflexivity. Qed.

Lemma keeps_bind {A B} (c : M A) (g : A -> M B) :
  keeps_on f c -> (forall a, keeps_on f (g a)) -> keeps_on f (c ≫= g).
Proof.
  intros Hc Hg s b s' Hr. inv_run Hr.
  rewrite (Hg _ _ _ _ Hr), (Hc _ _ _ Hrun). reflexivity.
Qed.

Lemma keeps_gets {A} (g : State -> A) : keeps_on f (gets g).
Proof. intros s b s' Hr. injection Hr as _ <-. reflexivity. Qed.

Lemma keeps_panic {A} : keeps_on f (@panic A).
Proof. intros s b s' Hr. discriminate. Qed.

Lemma keeps_modify g : (forall s, f (g s) = f s) -> keeps_on f (modify g).
Proof. intros Hg s b s' Hr. injection Hr as _ <-. apply Hg. Qed.

Lemma keeps_forM {A} (l : list A) (g : A -> M unit) :
  (forall x, keeps_on f (g x)) -> keeps_on f (forM_ l g).
Proof.
  intros Hg. induction l as [|x l IH]; cbn [forM_]; [apply keeps_ret|].
  apply keeps_bind; [apply Hg | intros; exact IH].
Qed.

Lemma keeps_reg_Read a : keeps_on f (reg.Read a).
Proof. apply keeps_gets. Qed.

Lemma keeps_reg_Write a v : keeps_on f (reg.Write a v).
Proof. apply keeps_modify. intros s. apply f_mem. Qed.

Lemma keeps_reg_Get a pos mask : keeps_on f (reg.Get a pos mask).
Proof. apply keeps_bind; [apply keeps_reg_Read | intros; apply keeps_ret]. Qed.

Lemma keeps_reg_Set a pos : keeps_on f (reg.Set_ a pos).
Proof. apply keeps_bind; [apply keeps_reg_Read | intros; apply keeps_reg_Write]. Qed.

Lemma keeps_reg_Clear a pos : keeps_on f (reg.Clear a pos).
Proof. apply keeps_bind; [apply keeps_reg_Read | intros; apply keeps_reg_Write]. Qed.

Lemma keeps_reg_SetN a pos mask val : keeps_on f (reg.SetN a pos mask val).
Proof. apply keeps_bind; [apply keeps_reg_Read | intros; apply keeps_reg_Write]. Qed.

Lemma keeps_poll fuel cond stop : keeps_on f cond -> keeps_on f (poll fuel cond stop).
Proof.
  intros Hc. induction fuel as [|k IH]; cbn [poll]; [intros s b s' Hr; discriminate|].
  apply keeps_bind; [exact Hc | intros []]; [apply keeps_ret|].
  apply keeps_bind; [apply keeps_modify; intros s; unfold tick_step; rewrite f_tick, f_clock; reflexivity|].
  intros _. apply keeps_bind; [apply keeps_gets | intros []; [apply keeps_ret | exact IH]].
Qed.

Lemma keeps_field_is a pos mask val : keeps_on f (field_is a pos mask val).
Proof. apply keeps_bind; [apply keeps_reg_Get | intros; apply keeps_ret]. Qed.

Lemma keeps_Wait fuel a pos mask val : keeps_on f (wait.Wait fuel a pos mask val).
Proof. apply keeps_bind; [apply keeps_poll, keeps_field_is | intros; apply keeps_ret]. Qed.

Lemma keeps_WaitFor fuel t a pos mask val : keeps_on f (wait.WaitFor fuel t a pos mask val).
Proof. apply keeps_bind; [apply keeps_gets | intros; apply keeps_poll, keeps_field_is]. Qed.

Lemma keeps_WaitSignal fuel a pos mask val : keeps_on f (wait.WaitSignal fuel a pos mask val).
Proof. apply keeps_poll, keeps_field_is. Qed.

Lemma keeps_dma_Read a off n : keeps_on f (dma.Read a off n).
Proof. apply keeps_gets. Qed.

Lemma keeps_dma_Write a off buf : keeps_on f (dma.Write a off buf).
Proof. apply keeps_modify. intros s. apply f_mem. Qed.
End Frame.

(** The allocator keeps [hw.done]. *)
Lemma keeps_Alloc `{Environment} buf al : keeps (dma.Alloc buf al).
Proof.
  intros s b s' Hr. unfold dma.Alloc in Hr. destruct (decide _); injection Hr as _ <-; reflexivity.
Qed.

Lemma keeps_Free `{Environment} a : keeps (dma.Free a).
Proof. apply keeps_modify. reflexivity. Qed.

Lemma done_set_mem m s : done (set_mem m s) = done s.
Proof. reflexivity. Qed.
Lemma done_set_clock c s : done (set_clock c s) = done s.
Proof. reflexivity. Qed.
Lemma allocs_set_mem m s : allocs (set_mem m s) = allocs s.
Proof. reflexivity. Qed.
Lemma allocs_set_clock c s : allocs (set_clock c s) = allocs s.
Proof. reflexivity. Qed.
Lemma next_free_set_mem m s : next_free (set_mem m s) = next_free s.
Proof. reflexivity. Qed.
Lemma next_free_set_clock c s : next_free (set_clock c s) = next_free s.
Proof. reflexivity. Qed.

Create HintDb frame discriminated.
#[export] Hint Resolve keeps_ret keeps_gets keeps_panic keeps_reg_Read keeps_reg_Write keeps_reg_Get
  keeps_reg_Set keeps_reg_Clear keeps_reg_SetN keeps_Wait keeps_WaitFor keeps_WaitSignal keeps_Alloc
  keeps_Free keeps_dma_Read keeps_dma_Write done_set_mem done_set_clock allocs_set_mem allocs_set_clock
  next_free_set_mem next_free_set_clock env_tick_allocs env_tick_next_free : frame.

(** Proves [keeps] of a composite operation: splits binds and branches and
    closes the leaves with the [frame] database. *)
Ltac keeps_solve :=
  repeat first
    [ progress (eauto with frame)
    | apply keeps_bind; [| intros ?]
    | apply keeps_forM; intros ?
    | match goal with
      | |- keeps_on _ (if ?b then _ else _) => destruct b
      | |- keeps_on _ (match ?x with _ => _ end) => destruct x
      end ].

(** [E : f s' = f s] for a step [H : c s = Ret a s'] that keeps [f]. *)
Ltac frame_eq f H E :=
  match type of H with
  | ?c ?s = Ret ?a ?s' => assert (E : f s' = f s) by (apply (keeps_run f c s a s'); [keeps_solve | exact H])
  end.
