(* ===== verification/Regs.v ===== *)
(** * Constants of the driver and the controller's register map

    The endpoint and descriptor constants of the driver file (lines 25-63),
    the bit positions of the controller registers it uses, which TamaGo
    declares next to the driver (in [usb.go], outside [src/]) from the
    i.MX6UL reference manual, and the register addresses of the first
    controller instance, which [Init] computes from its base address. The
    well-formedness [layout_ok] of a register map is what the theorems
    assume of it. *)

From stdpp Require Import base list.
From S2P Require Import Prelude Machine.
Open Scope Z_scope.

(** ** Endpoint constants (driver file, lines 25-63) *)
Definition MAX_ENDPOINTS : Z := 8.
Definition OUT : Z := 0.
Definition IN : Z := 1.
Definition CONTROL : Z := 0.
Definition ISOCHRONOUS : Z := 1.
Definition BULK : Z := 2.
Definition INTERRUPT : Z := 3.
Definition DQH_LIST_ALIGN : Z := 2048.
Definition DQH_ALIGN : Z := 64.
Definition DQH_SIZE : Z := 64.
Definition DQH_INFO : Z := 0.
Definition DQH_CURRENT : Z := 4.
Definition DQH_NEXT : Z := 8.
Definition DQH_TOKEN : Z := 12.
Definition DTD_ALIGN : Z := 32.
Definition DTD_SIZE : Z := 28.
Definition DTD_PAGES : Z := 5.
Definition DTD_PAGE_SIZE : Z := 4096.
Definition DTD_NEXT : Z := 0.
Definition DTD_TOKEN : Z := 4.
Definition TOKEN_TOTAL : Z := 16.
Definition TOKEN_IOC : Z := 15.
Definition TOKEN_MULTO : Z := 10.
Definition TOKEN_ACTIVE : Z := 7.

(** ** Register bit positions ([usb.go], i.MX6UL reference manual) *)
Definition USBCMD_RS : Z := 0.
Definition USBCMD_RST : Z := 1.
Definition USBSTS_URI : Z := 6.
Definition USBMODE_CM : Z := 0.
Definition USBMODE_CM_DEVICE : Z := 2.
Definition USBMODE_SLOM : Z := 3.
Definition USBMODE_SDIS : Z := 4.
Definition OTGSC_OT : Z := 3.
Definition DEVICEADDR_USBADRA : Z := 24.
Definition DEVICEADDR_USBADR : Z := 25.
Definition ENDPTFLUSH_FERB : Z := 0.
Definition ENDPTFLUSH_FETB : Z := 16.
Definition ENDPTCTRL_RXS : Z := 0.
Definition ENDPTCTRL_RXT : Z := 2.
Definition ENDPTCTRL_RXR : Z := 6.
Definition ENDPTCTRL_RXE : Z := 7.
Definition ENDPTCTRL_TXS : Z := 16.
Definition ENDPTCTRL_TXT : Z := 18.
Definition ENDPTCTRL_TXR : Z := 22.
Definition ENDPTCTRL_TXE : Z := 23.

(** ** The register map of the first controller (USB OTG1 at 0x02184000) *)
Definition USB1_BASE : Z := 0x02184000.
Definition imx6_usb1 : Layout := {|
  cmd := USB1_BASE + 0x140; sts := USB1_BASE + 0x144; addr := USB1_BASE + 0x154;
  eplist := USB1_BASE + 0x158; otg := USB1_BASE + 0x1a4; mode := USB1_BASE + 0x1a8;
  setup := USB1_BASE + 0x1ac; prime := USB1_BASE + 0x1b0; flush := USB1_BASE + 0x1b4;
  stat := USB1_BASE + 0x1b8; complete := USB1_BASE + 0x1bc; epctrl := USB1_BASE + 0x1c0
|}.

(** The registers of a layout, the eight [ENDPTCTRLn] included. *)
Definition registers (L : Layout) : list Z :=
  [cmd L; sts L; addr L; eplist L; otg L; mode L; setup L; prime L; flush L;
   stat L; complete L] ++ map (fun n => epctrl L + 4 * n) [0; 1; 2; 3; 4; 5; 6; 7].

(** A register map is well formed when its registers are words that do not
    overlap and lie below the DMA region, which starts at [dma_base]. *)
Definition layout_ok (L : Layout) (dma_base : Z) : Prop :=
  Forall (fun r => 0 <= r /\ r + 4 <= dma_base) (registers L) /\
  NoDup (map (fun r => r / 4) (registers L)) /\
  Forall (fun r => r mod 4 = 0) (registers L).

(** ** The errors the driver returns

    One constructor per [fmt.Errorf] site of the USB core, with the values
    the message prints. *)
Inductive error :=
| ErrTimeout                              (** "transfer completion timed out" *)
| ErrStatus (i : nat) (token : Z)         (** "dTD[%d] error status, token:%#x" *)
| ErrPartial (i : nat) (moved size : Z)   (** "dTD[%d] partial transfer (%d/%d bytes)" *)
| ErrStringIndex (index : Z)              (** "invalid string descriptor index %d" *)
| ErrDescriptorType (t : Z)               (** "unsupported descriptor type: %#x" *)
| ErrRequest (r : Z)                      (** "unsupported request code: %#x" *)
| ErrExternal (code : Z).                 (** an error of a callback of the device model *)
