(* ===== verification/QueueHead.v ===== *)
(** * Endpoint queue heads (dQH)

    The [dQH] struct and the [SetupData] it embeds, their little-endian
    wire format ([binary.Write] and [binary.Read] of the structs), and the
    operations of the driver on the queue-head list: [initQH], [set],
    [clear], [qh] and [nextDTD] (driver file, lines 80-219). The [Info] and
    [Token] words that [set] writes are pure functions of its arguments,
    [dQH_info] and [dQH_token]. *)

From stdpp Require Import base list.
From S2P Require Import Prelude Machine Regs.
Open Scope Z_scope.

(** [SetupData] ([setup.go]): the 8-byte setup packet. *)
Record SetupData := mkSetup {
  RequestType : Z; Request : Z; Value : Z; Index : Z; Length : Z
}.

(** [dQH]: the blank fields (one reserved word, four padding words) hold no
    data and are written as zeros. *)
Record dQH := mkdQH {
  Info : Z; Current : Z; Next : Z; Token : Z; Buffer : list Z; Setup : SetupData
}.

(** ** Wire format *)

(** The five entries of a Go [[5]uint32]. *)
Definition five (l : list Z) : list Z := map (fun i => nth i l 0) (seq 0 5).

Definition encode_setup (d : SetupData) : list Z :=
  le_bytes 1 (RequestType d) ++ le_bytes 1 (Request d) ++ le_bytes 2 (Value d) ++
  le_bytes 2 (Index d) ++ le_bytes 2 (Length d).

(** [binary.Write(buf, binary.LittleEndian, &dqh)]: 64 bytes. *)
Definition encode_dQH (q : dQH) : list Z :=
  le_bytes 4 (Info q) ++ le_bytes 4 (Current q) ++ le_bytes 4 (Next q) ++
  le_bytes 4 (Token q) ++ concat (map (le_bytes 4) (five (Buffer q))) ++
  le_bytes 4 0 ++ encode_setup (Setup q) ++ le_bytes 16 0.

(** [binary.Read] reads the fields in order, each as a little-endian value. *)
Definition take_le (n : nat) (l : list Z) : Z * list Z := (le_value (take n l), drop n l).

Definition decode_setup (l : list Z) : SetupData :=
  let '(rt, l) := take_le 1 l in
  let '(rq, l) := take_le 1 l in
  let '(v, l) := take_le 2 l in
  let '(i, l) := take_le 2 l in
  let '(n, _) := take_le 2 l in
  mkSetup rt rq v i n.

Fixpoint take_words (k : nat) (l : list Z) : list Z * list Z :=
  match k with
  | O => ([], l)
  | S k' => let '(w, l) := take_le 4 l in let '(ws, l) := take_words k' l in (w :: ws, l)
  end.

Definition decode_dQH (l : list Z) : dQH :=
  let '(info, l) := take_le 4 l in
  let '(cur, l) := take_le 4 l in
  let '(nxt, l) := take_le 4 l in
  let '(tok, l) := take_le 4 l in
  let '(buf, l) := take_words 5 l in
  mkdQH info cur nxt tok buf (decode_setup (drop 4 l)).

(** ** The [Info] and [Token] words written by [set] *)

Definition dQH_info (n dir max : Z) (zlt : bool) (mult : Z) : Z :=
  (* Maximum Packet Length *)
  let info := bits.SetN 0 16 0x7ff max in
  (* Zero Length Termination disabled when [!zlt] *)
  let info := if negb zlt then bits.SetN info 29 1 1 else info in
  (* Mult *)
  let info := bits.SetN info 30 3 mult in
  (* interrupt on setup (ios) for the IN queue head of endpoint 0 *)
  if bool_decide (n = 0 /\ dir = IN) then bits.Set_ info 15 else info.

Definition dQH_token : Z :=
  let token := bits.SetN 0 TOKEN_TOTAL 0xffff 0 in
  let token := bits.Set_ token TOKEN_IOC in
  bits.SetN token TOKEN_MULTO 3 0.

Definition zero_setup : SetupData := mkSetup 0 0 0 0 0.

(** The fields [set] writes back as it reads them. *)
Definition info_max (info : Z) : Z := bits.Get info 16 0x7ff.
Definition info_zlt (info : Z) : bool := bits.Get info 29 1 =? 0.
Definition info_mult (info : Z) : Z := bits.Get info 30 3.
Definition info_ios (info : Z) : bool := bits.Get info 15 1 =? 1.

(** ** Operations on the queue-head list *)

(** Index of [hw.dQH[n][dir]], and the index check of Go. *)
Definition qh_index (n dir : Z) : nat := Z.to_nat (n * 2 + dir).
Definition valid_ep (n dir : Z) : bool := bool_decide (0 <= n < MAX_ENDPOINTS /\ 0 <= dir < 2).

(** Reading [hw.dQH[n][dir]]; out of range, Go panics. *)
Definition dQH_at (n dir : Z) : M Z := fun s =>
  if valid_ep n dir then
    match dQHs s !! qh_index n dir with Some a => Ret a s | None => Panic s end
  else Panic s.

(** [hw.dQH[n][dir] = v] *)
Definition set_dQH_at (n dir v : Z) : M unit := fun s =>
  if valid_ep n dir then Ret tt (set_dQHs (<[qh_index n dir := v]> (dQHs s)) s)
  else Panic s.

Section Ops.
  Context `{Environment} (L : Layout).

  (** [initQH]: allocate the zeroed list of 16 queue heads, 2048-aligned,
      and publish its address. *)
Definition initQH : M unit :=
    a ← dma.Alloc (repeat 0 (Z.to_nat (MAX_ENDPOINTS * 2 * DQH_SIZE))) DQH_LIST_ALIGN;
    modify (set_epList (u32 a)) ;;
    base ← gets epListAddr;
    reg.Write (eplist L) base.

  (** [set(n, dir, max, zlt, mult)] *)
Definition set (n dir max : Z) (zlt : bool) (mult : Z) : M unit :=
    let q := mkdQH (dQH_info n dir max zlt mult) 0 0 dQH_token [0; 0; 0; 0; 0] zero_setup in
    let offset := (n * 2 + dir) * DQH_SIZE in
    base ← gets epListAddr;
    dma.Write base offset (encode_dQH q) ;;
    set_dQH_at n dir (u32 (base + offset)).

  (** [clear(n, dir)]: reset the active and halt bits of the token. *)
Definition clear (n dir : Z) : M unit :=
    d ← dQH_at n dir;
    reg.SetN (u32 (d + DQH_TOKEN)) 6 3 0.

  (** [qh(n, dir)]: read the queue head back from DMA memory. *)
Definition qh (n dir : Z) : M dQH :=
    d ← dQH_at n dir;
    bytes ← dma.Read d 0 (Z.to_nat DQH_SIZE);
    mret (decode_dQH bytes).

  (** [nextDTD(n, dir, dtd)]: wait for the status bits to clear, then
      link the dTD. *)
Definition nextDTD (fuel : nat) (n dir dtd : Z) : M unit :=
    d ← dQH_at n dir;
    wait.Wait fuel (u32 (d + DQH_TOKEN)) 6 3 0 ;;
    reg.Write (u32 (d + DQH_NEXT)) dtd.
End Ops.

(** What [set] writes at entry [n*2+dir]. *)
Definition set_image (n dir max : Z) (zlt : bool) (mult : Z) : dQH :=
  mkdQH (dQH_info n dir max zlt mult) 0 0 dQH_token [0; 0; 0; 0; 0] zero_setup.

(** * Lemmas *)

Lemma take_le_bytes n w rest : take_le n (le_bytes n w ++ rest) = (w mod 2 ^ (8 * Z.of_nat n), rest).
Proof.
  unfold take_le. rewrite take_app_length', drop_app_length' by (rewrite length_le_bytes; reflexivity).
  rewrite le_value_bytes. reflexivity.
Qed.

(** Rewrites a read of one field through the writes of [dQH_info]. *)
Ltac field_rw :=
  repeat first
    [ rewrite Get_SetN_same by lia
    | rewrite Get_SetN_other by lia
    | rewrite Get_Set_other by lia ].

Ltac info_cases zlt n dir :=
  unfold dQH_info; change 0x7ff with (Z.ones 11); change 3 with (Z.ones 2);
  change (bits.SetN ?r 29 1 1) with (bits.SetN r 29 (Z.ones 1) 1);
  destruct zlt, (bool_decide (n = 0 /\ dir = IN)); simpl negb; cbn iota;
  field_rw; try reflexivity.

Section InfoFields.
  Variables (n dir max : Z) (zlt : bool) (mult : Z).
  Hypotheses (Hm : 0 <= max < 2 ^ 11) (Hu : 0 <= mult < 4).

Lemma info_max_field : bits.Get (dQH_info n dir max zlt mult) 16 (Z.ones 11) = max.
  Proof. info_cases zlt n dir. Qed.
Lemma info_zlt_field : bits.Get (dQH_info n dir max zlt mult) 29 (Z.ones 1) = if zlt then 0 else 1.
  Proof. info_cases zlt n dir. Qed.
Lemma info_mult_field : bits.Get (dQH_info n dir max zlt mult) 30 (Z.ones 2) = mult.
  Proof. info_cases zlt n dir. Qed.
Lemma info_ios_field :
    bits.Get (dQH_info n dir max zlt mult) 15 (Z.ones 1) = if bool_decide (n = 0 /\ dir = IN) then 1 else 0.
  Proof. info_cases zlt n dir; apply Get_Set_same; lia. Qed.
End InfoFields.

(** The decoder reads back the fields of [set]'s [Info] word. *)
Lemma dQH_info_fields n dir max zlt mult :
  0 <= max < 2 ^ 11 -> 0 <= mult < 4 ->
  info_max (dQH_info n dir max zlt mult) = max /\
  info_zlt (dQH_info n dir max zlt mult) = zlt /\
  info_mult (dQH_info n dir max zlt mult) = mult /\
  info_ios (dQH_info n dir max zlt mult) = bool_decide (n = 0 /\ dir = IN).
Proof.
  intros Hm Hu. unfold info_max, info_zlt, info_mult, info_ios.
  change 0x7ff with (Z.ones 11). change 3 with (Z.ones 2). change 1 with (Z.ones 1).
  rewrite info_max_field, info_zlt_field, info_mult_field, info_ios_field by assumption.
  destruct zlt, (bool_decide (n = 0 /\ dir = IN)); auto.
Qed.

(** The fields of a setup packet and of a queue head fit their Go types. *)
Definition setup_ok (d : SetupData) : Prop :=
  0 <= RequestType d < 2 ^ 8 /\ 0 <= Request d < 2 ^ 8 /\ 0 <= Value d < 2 ^ 16 /\
  0 <= Index d < 2 ^ 16 /\ 0 <= Length d < 2 ^ 16.

Definition dQH_ok (q : dQH) : Prop :=
  0 <= Info q < 2 ^ 32 /\ 0 <= Current q < 2 ^ 32 /\ 0 <= Next q < 2 ^ 32 /\
  0 <= Token q < 2 ^ 32 /\ length (Buffer q) = 5%nat /\
  Forall (fun w => 0 <= w < 2 ^ 32) (Buffer q) /\ setup_ok (Setup q).

Lemma take_words_concat ws rest :
  take_words (length ws) (concat (map (le_bytes 4) ws) ++ rest) = (map (fun w => w mod 2 ^ 32) ws, rest).
Proof.
  induction ws as [|w ws IH]; [reflexivity|].
  cbn [length take_words map concat]. rewrite <- app_assoc, take_le_bytes, IH. reflexivity.
Qed.

Lemma five_length (l : list Z) : length l = 5%nat -> five l = l.
Proof.
  intros Hl. destruct l as [|a [|b [|c [|d [|e [|f l]]]]]]; try discriminate. reflexivity.
Qed.

Lemma length_encode_setup d : length (encode_setup d) = 8%nat.
Proof. unfold encode_setup. rewrite !length_app, !length_le_bytes. reflexivity. Qed.

(** The 8-byte setup packet reads back as written. *)
Lemma decode_encode_setup d rest : setup_ok d -> decode_setup (encode_setup d ++ rest) = d.
Proof.
  intros (H1 & H2 & H3 & H4 & H5). unfold decode_setup, encode_setup.
  rewrite <- !app_assoc, !take_le_bytes. cbn [Z.of_nat Pos.of_succ_nat Z.mul].
  rewrite !Z.mod_small by (simpl; lia). destruct d; reflexivity.
Qed.

(** The 64-byte wire format of a queue head reads back as written. *)
Lemma dQH_wire_roundtrip q : dQH_ok q -> decode_dQH (encode_dQH q) = q.
Proof.
  intros (H1 & H2 & H3 & H4 & Hl & Hb & Hs). unfold decode_dQH, encode_dQH.
  rewrite !take_le_bytes. rewrite five_length by exact Hl.
  rewrite <- Hl at 1. rewrite take_words_concat.
  rewrite drop_app_length' by (rewrite length_le_bytes; reflexivity).
  rewrite decode_encode_setup by exact Hs.
  change (2 ^ (8 * Z.of_nat 4)) with (2 ^ 32). rewrite !Z.mod_small by lia.
  rewrite map_ext_Forall with (g := fun w => w) by (eapply Forall_impl; [exact Hb|]; intros x Hx; cbn beta in Hx; apply Z.mod_small; lia).
  rewrite map_id. destruct q; reflexivity.
Qed.

Lemma length_encode_dQH q : length (encode_dQH q) = 64%nat.
Proof.
  unfold encode_dQH, five. rewrite !length_app, !length_le_bytes, length_encode_setup.
  reflexivity.
Qed.

Lemma dQH_info_range n dir max zlt mult : 0 <= dQH_info n dir max zlt mult < 2 ^ 32.
Proof.
  unfold dQH_info. destruct (bool_decide _); [apply Set_range|apply SetN_range].
Qed.

Lemma dQH_token_range : 0 <= dQH_token < 2 ^ 32.
Proof. apply SetN_range. Qed.

(** Entry [n*2+dir] of the list: its offset, within the 1024-byte list. *)
Lemma qh_offset_bounds n dir :
  valid_ep n dir = true ->
  0 <= (n * 2 + dir) * DQH_SIZE /\ (n * 2 + dir) * DQH_SIZE + DQH_SIZE <= MAX_ENDPOINTS * 2 * DQH_SIZE.
Proof. unfold valid_ep, DQH_SIZE, MAX_ENDPOINTS. rewrite bool_decide_eq_true. lia. Qed.

(** Two different endpoints have disjoint queue heads. *)
Lemma qh_offsets_disjoint n dir n' dir' :
  valid_ep n dir = true -> valid_ep n' dir' = true -> (n, dir) <> (n', dir') ->
  (n * 2 + dir) * DQH_SIZE + DQH_SIZE <= (n' * 2 + dir') * DQH_SIZE \/
  (n' * 2 + dir') * DQH_SIZE + DQH_SIZE <= (n * 2 + dir) * DQH_SIZE.
Proof.
  unfold valid_ep, DQH_SIZE, MAX_ENDPOINTS. rewrite !bool_decide_eq_true.
  intros H1 H2 Hne. assert (n * 2 + dir <> n' * 2 + dir') by (intros E; apply Hne; f_equal; lia).
  lia.
Qed.

Section SetQh.
  Context `{Environment} (L : Layout).

  (** C21: [set] followed by [qh] reads back the queue head [set] wrote, and
      [hw.dQH[n][dir]] points at its entry of the list. *)
Lemma set_qh n dir max zlt mult s :
    valid_ep n dir = true -> length (dQHs s) = 16%nat ->
    0 <= epListAddr s -> epListAddr s + MAX_ENDPOINTS * 2 * DQH_SIZE <= 2 ^ 32 ->
    exists s', (set n dir max zlt mult ;; qh n dir) s = Ret (set_image n dir max zlt mult) s' /\
               dQHs s' !! qh_index n dir = Some (epListAddr s + (n * 2 + dir) * DQH_SIZE).
  Proof.
    intros Hv Hlen Hb Hb'. pose proof (qh_offset_bounds n dir Hv) as Ho.
    assert (Hi : (qh_index n dir < 16)%nat)
      by (unfold valid_ep, qh_index, MAX_ENDPOINTS in *; rewrite bool_decide_eq_true in Hv; lia).
    cbv [set qh dQH_at set_dQH_at dma.Write dma.Read gets modify mbind M_bind mret M_ret].
    rewrite Hv. cbn [set_dQHs dQHs mem set_mem].
    rewrite (list_lookup_insert_eq (dQHs s) (qh_index n dir)) by lia.
    rewrite u32_small by (unfold MAX_ENDPOINTS, DQH_SIZE in *; lia).
    eexists. split.
    - change (Z.to_nat DQH_SIZE) with 64%nat.
      unfold set_image. rewrite Z.add_0_r, <- (length_encode_dQH
        (mkdQH (dQH_info n dir max zlt mult) 0 0 dQH_token [0; 0; 0; 0; 0] zero_setup)).
      cbn [mem set_dQHs set_mem]. rewrite load_bytes_store_bytes. rewrite dQH_wire_roundtrip; [reflexivity|].
      unfold dQH_ok, setup_ok; cbn. pose proof (dQH_info_range n dir max zlt mult).
      pose proof dQH_token_range. repeat split; try lia. repeat constructor; lia.
    - cbn. apply list_lookup_insert_eq. lia.
  Qed.
End SetQh.

(** ** Frame lemmas of the operations that do not allocate *)
Section QHFrame.
Context `{Environment} {T : Type} (f : State -> T).
Hypothesis f_tick : forall s, f (env_tick s) = f s.
Hypothesis f_mem : forall m s, f (set_mem m s) = f s.
Hypothesis f_clock : forall c s, f (set_clock c s) = f s.
#[local] Hint Resolve f_tick f_mem f_clock : frame.

Lemma keeps_dQH_at n dir : keeps_on f (dQH_at n dir).
Proof. intros s a s' Hr. unfold dQH_at in Hr. repeat case_match; simplify_eq; reflexivity. Qed.
#[local] Hint Resolve keeps_dQH_at : frame.

Lemma keeps_clear n dir : keeps_on f (clear n dir).
Proof. unfold clear. keeps_solve. Qed.

Lemma keeps_qh n dir : keeps_on f (qh n dir).
Proof. unfold qh. keeps_solve. Qed.

Lemma keeps_nextDTD fuel n dir d : keeps_on f (nextDTD fuel n dir d).
Proof. unfold nextDTD. keeps_solve. Qed.
End QHFrame.

#[export] Hint Resolve keeps_dQH_at keeps_clear keeps_qh keeps_nextDTD : frame.
