(* ===== verification/Sim.v ===== *)
(** * A simulated controller

    A test double of the USB controller behind the [Environment] interface,
    the "simulated register bank" of the design notes: it lets the driver
    run on concrete inputs, so the theorems with hypotheses get witnesses
    that evaluate. It is not a model of the source: it stands for the
    hardware, which the source only drives.

    - Writes to [USBSTS], [ENDPTSETUPSTAT] and [ENDPTCOMPLETE] are
      write-one-to-clear; every other write stores its value.
    - At every yield, each endpoint whose prime bit is set is primed: the
      prime bit clears, the controller follows the dQH's next pointer
      through the dTD chain, retires every active dTD (active bit cleared,
      all bytes moved) and sets the endpoint's complete bit. The host never
      holds back, and [hw.done] is never closed.

    Two variants, not instances, serve the theorems on faults: [lossy_env]
    never sets a completion bit, and [cancel_env] accepts the primes but
    never moves a byte, and closes [hw.done]. *)

From stdpp Require Import base gmap list.
From S2P Require Import Prelude Machine Regs QueueHead.
Open Scope Z_scope.

(** A retired token: the active bit cleared and no byte left. *)
Definition retire (tok : Z) : Z := bits.SetN (bits.Clear tok TOKEN_ACTIVE) TOKEN_TOTAL 0xffff 0.

(** Follow a chain of at most [k] dTDs from [a], retiring each. *)
Fixpoint retire_chain (k : nat) (a : Z) (m : gmap Z Z) : gmap Z Z :=
  match k with
  | O => m
  | S k' =>
      if Z.testbit a 0 then m
      else
        let m := store32 (a + DTD_TOKEN) (retire (load32 m (a + DTD_TOKEN))) m in
        retire_chain k' (load32 m (a + DTD_NEXT)) m
  end.

Section Sim.
Variable L : Layout.

(** The controller's work for the endpoint at bit [pos] of [ENDPTPRIME];
    [completes] says whether it then sets the endpoint's completion bit. *)
Definition sim_prime (completes : bool) (s : State) (pos : Z) (m : gmap Z Z) : gmap Z Z :=
  if Z.testbit (load32 m (prime L)) pos then
    let n := pos mod 16 in
    let dir := pos / 16 in
    let m := store32 (prime L) (bits.Clear (load32 m (prime L)) pos) m in
    let m := match dQHs s !! qh_index n dir with
             | Some q => retire_chain 16 (load32 m (q + DQH_NEXT)) m
             | None => m
             end in
    if completes then store32 (complete L) (bits.Set_ (load32 m (complete L)) pos) m else m
  else m.

Definition sim_tick_with (completes : bool) (s : State) : State :=
  set_mem (foldr (sim_prime completes s) (mem s) (map Z.of_nat (seq 0 32))) s.

Definition sim_tick (s : State) : State := sim_tick_with true s.

(** A controller that takes every primed dTD and never moves a byte:
    [ENDPTPRIME] clears, the dTDs stay active. *)
Definition sim_accept (s : State) : State :=
  set_mem (store32 (prime L) 0 (mem s)) s.

Definition sim_store (a old v : Z) : Z :=
  if bool_decide (a = sts L \/ a = setup L \/ a = complete L)
  then Z.land old (Z.lnot v) else v.
End Sim.

#[export] Instance sim_env : Environment := {|
  env_tick := sim_tick imx6_usb1;
  env_store := sim_store imx6_usb1;
  env_ticks_per_ms := 1
|}.

(** A controller that retires the dTDs but never raises a completion bit. *)
Definition lossy_env : Environment := {|
  env_tick := sim_tick_with imx6_usb1 false;
  env_store := sim_store imx6_usb1;
  env_ticks_per_ms := 1
|}.

(** A controller that takes the dTDs but whose host never transfers, while
    another goroutine closes [hw.done], as [Start] does on a configuration
    change. *)
Definition cancel_env : Environment := {|
  env_tick := fun s => set_done (Some true) (sim_accept imx6_usb1 s);
  env_store := sim_store imx6_usb1;
  env_ticks_per_ms := 1
|}.

(** The DMA region starts at the DDR base of the i.MX6UL. *)
Definition DMA_BASE : Z := 0x80000000.

(** The state at power-on: nothing allocated, [hw.dQH] all zero, [hw.done]
    a nil channel. *)
Definition init_state : State :=
  mkState ∅ ∅ DMA_BASE 0 0 (repeat 0 16) None.

(** * Lemmas *)

#[export] Instance sim_env_ok : EnvOk.
Proof. split; reflexivity. Qed.


(** The simulated controller never touches [hw.done]. *)
Lemma sim_tick_done s : done (sim_tick imx6_usb1 s) = done s.
Proof. reflexivity. Qed.
