(* ===== verification/Descriptor.v ===== *)
(** * Endpoint transfer descriptors (dTD)

    The [dTD] struct, [buildDTD] which fills one descriptor for one chunk
    of at most 20480 bytes and copies its first 28 bytes to DMA memory, and
    [checkDTD] which waits for every descriptor of a chain to go inactive
    and adds up the bytes moved (driver file, lines 65-78 and 221-294). The
    token word of a descriptor is the pure function [dtd_token]. *)

From stdpp Require Import base list gmap.
From S2P Require Import Prelude Machine Regs QueueHead.
Open Scope Z_scope.

(** [dTD]: the hardware part ([Next], [Token], [Buffer]) and the three
    driver fields [_dtd] (the descriptor's DMA address), [_buf] and
    [_size]. *)
Module DTD.
Record dTD := mk {
    Next : Z; Token : Z; Buffer : list Z; dtd : Z; buf : Z; size : Z
  }.
End DTD.
Import DTD (dTD).

(** The token of a new descriptor: [SetTo(IOC, ioc)], [SetN(MULTO, 0)],
    [Set(ACTIVE)], [SetN(TOTAL, 0xffff, size)], in the order of the source. *)
Definition dtd_token (ioc : bool) (size : Z) : Z :=
  let token := bits.SetTo 0 TOKEN_IOC ioc in
  let token := bits.SetN token TOKEN_MULTO 3 0 in
  let token := bits.Set_ token TOKEN_ACTIVE in
  bits.SetN token TOKEN_TOTAL 0xffff (u32 size).

(** [dtd.Buffer[n] = dtd._buf + DTD_PAGE_SIZE*uint32(n)] for the 5 pages. *)
Definition dtd_pages (addr : Z) : list Z :=
  map (fun k => u32 (addr + DTD_PAGE_SIZE * Z.of_nat k)) (seq 0 (Z.to_nat DTD_PAGES)).

(** The 28 bytes of the hardware part, [buf.Bytes()[0:DTD_SIZE]]. *)
Definition encode_dTD (next token : Z) (pages : list Z) : list Z :=
  le_bytes 4 next ++ le_bytes 4 token ++ concat (map (le_bytes 4) pages).

(** [buildDTD(n, dir, ioc, addr, size)] *)
Definition buildDTD (n dir : Z) (ioc : bool) (addr size : Z) : M dTD :=
  let token := dtd_token ioc size in
  let pages := dtd_pages addr in
  a ← dma.Alloc (encode_dTD 1 token pages) DTD_ALIGN;
  mret (DTD.mk 1 token pages (u32 a) addr (u32 size)).

(** Fields of a token the hardware has written back. *)
Definition token_status (t : Z) : Z := Z.land t 0xff.
Definition token_rest (t : Z) : Z := Z.shiftr t TOKEN_TOTAL.
Definition token_active (t : Z) : bool := bits.Get t TOKEN_ACTIVE 1 =? 1.

Section Check.
  Context `{Environment}.

  (** The wait for one descriptor to go inactive: on endpoint 0 a one second
      [WaitFor] whose result is dropped, then an unbounded [Wait]; on the
      other endpoints a [WaitSignal] on [hw.done], whose result is dropped. *)
Definition wait_inactive (fuel : nat) (n token : Z) : M unit :=
    if n =? 0 then
      _ ← wait.WaitFor fuel 1000 token TOKEN_ACTIVE 1 0;
      wait.Wait fuel token TOKEN_ACTIVE 1 0
    else
      _ ← wait.WaitSignal fuel token TOKEN_ACTIVE 1 0; mret tt.

  (** The loop of [checkDTD] from descriptor [i] on, with [size] the bytes
      counted so far; [rest] and [n] are the locals of the loop body. *)
Fixpoint checkDTD_from (fuel : nat) (n dir : Z) (i : nat) (dtds : list dTD) (size : Z)
    : M (Z * option error) :=
    match dtds with
    | [] => mret (size, None)
    | d :: dtds' =>
        let token := u32 (DTD.dtd d + DTD_TOKEN) in
        wait_inactive fuel n token ;;
        dtdToken ← reg.Read token;
        if negb (token_status dtdToken =? 0) then mret (0, Some (ErrStatus i dtdToken))
        else
          let rest := token_rest dtdToken in
          let moved := i32 (u32 (DTD.size d - rest)) in
          if (dir =? IN) && (0 <? rest) then mret (0, Some (ErrPartial i moved (DTD.size d)))
          else checkDTD_from fuel n dir (S i) dtds' (i32 (size + moved))
    end.

  (** [checkDTD(n, dir, dtds, done)] *)
Definition checkDTD (fuel : nat) (n dir : Z) (dtds : list dTD) : M (Z * option error) :=
    checkDTD_from fuel n dir 0 dtds 0.
End Check.

(** ** The result [checkDTD] computes from the final tokens

    [check_tokens dir i l size]: [l] lists, for each descriptor from [i] on,
    its [_size] and the token the hardware left. *)
Fixpoint check_tokens (dir : Z) (i : nat) (l : list (Z * Z)) (size : Z) : Z * option error :=
  match l with
  | [] => (size, None)
  | (sz, tok) :: l' =>
      if negb (token_status tok =? 0) then (0, Some (ErrStatus i tok))
      else
        let rest := token_rest tok in
        let moved := i32 (u32 (sz - rest)) in
        if (dir =? IN) && (0 <? rest) then (0, Some (ErrPartial i moved sz))
        else check_tokens dir (S i) l' (i32 (size + moved))
  end.

(** The address of the token word of a descriptor. *)
Definition token_addr (d : dTD) : Z := u32 (DTD.dtd d + DTD_TOKEN).

(** A descriptor [checkDTD] goes past: status zero, and on IN no byte left. *)
Definition dtd_passes (dir : Z) (e : Z * Z) : bool :=
  (token_status e.2 =? 0) && negb ((dir =? IN) && (0 <? token_rest e.2)).

(** The bytes a descriptor moved, as [checkDTD] counts them. *)
Definition dtd_moved (e : Z * Z) : Z := i32 (u32 (e.1 - token_rest e.2)).

(** The (size, token) pairs [checkDTD] reads in state [s]. *)
Definition final_tokens (m : gmap Z Z) (dtds : list dTD) : list (Z * Z) :=
  map (fun d => (DTD.size d, load32 m (token_addr d))) dtds.

(** * Lemmas *)

(** The low half of a new token does not depend on the chunk size. *)
Lemma dtd_token_eq ioc size :
  dtd_token ioc size = bits.SetN (if ioc then 0x8080 else 0x80) TOKEN_TOTAL (Z.ones 16) (u32 size).
Proof. destruct ioc; reflexivity. Qed.

Lemma shiftr16_Get t : 0 <= t < 2 ^ 32 -> Z.shiftr t 16 = bits.Get t 16 (Z.ones 16).
Proof. intros. bits_solve. Qed.

Section TokenFields.
Variables (ioc : bool) (size : Z).
Hypothesis Hs : 0 <= size < 2 ^ 16.

(** Reads a field of a new token below bit 16: it is the field of the
    constant low half. *)
Let low_field pos w :
  0 <= pos -> 0 <= w -> pos + w <= 16 ->
  bits.Get (dtd_token ioc size) pos (Z.ones w) = bits.Get (if ioc then 0x8080 else 0x80) pos (Z.ones w).
Proof.
  intros. rewrite dtd_token_eq, u32_small by lia.
  apply Get_SetN_other; unfold TOKEN_TOTAL; lia.
Qed.

Lemma dtd_token_rest : token_rest (dtd_token ioc size) = size.
Proof.
  unfold token_rest, TOKEN_TOTAL. rewrite shiftr16_Get by apply SetN_range.
  rewrite dtd_token_eq, u32_small by lia. apply Get_SetN_same; lia.
Qed.

(** A new descriptor's status byte is 0x80: the active bit is bit 7 of the
    byte [checkDTD] tests against zero. *)
Lemma dtd_token_status : token_status (dtd_token ioc size) = 0x80.
Proof.
  unfold token_status. change 0xff with (Z.ones 8).
  replace (Z.land (dtd_token ioc size) (Z.ones 8)) with (bits.Get (dtd_token ioc size) 0 (Z.ones 8))
    by (unfold bits.Get; rewrite Z.shiftr_0_r; reflexivity).
  rewrite low_field by lia. destruct ioc; reflexivity.
Qed.

Lemma dtd_token_ioc : bits.Get (dtd_token ioc size) TOKEN_IOC 1 = if ioc then 1 else 0.
Proof.
  change 1 with (Z.ones 1) at 1. unfold TOKEN_IOC.
  rewrite low_field by lia. destruct ioc; reflexivity.
Qed.

Lemma dtd_token_active : token_active (dtd_token ioc size) = true.
Proof.
  unfold token_active. change 1 with (Z.ones 1) at 1. unfold TOKEN_ACTIVE.
  rewrite low_field by lia. destruct ioc; reflexivity.
Qed.
End TokenFields.

Lemma i32_add_i32 a b : i32 (i32 a + b) = i32 (a + b).
Proof.
  unfold i32.
  replace ((a + 2 ^ 31) mod 2 ^ 32 - 2 ^ 31 + b + 2 ^ 31) with ((a + 2 ^ 31) mod 2 ^ 32 + b) by lia.
  rewrite Z.add_mod_idemp_l by lia. f_equal. f_equal. lia.
Qed.

(** A passing descriptor adds its bytes and moves on. *)
Lemma check_tokens_pass dir i e l size :
  dtd_passes dir e = true ->
  check_tokens dir i (e :: l) size = check_tokens dir (S i) l (i32 (size + dtd_moved e)).
Proof.
  destruct e as [sz tok]. unfold dtd_passes, dtd_moved. cbn [check_tokens fst snd].
  destruct (token_status tok =? 0), ((dir =? IN) && (0 <? token_rest tok)); easy.
Qed.

Lemma i32_idem z : i32 (i32 z) = i32 z.
Proof. pose proof (i32_add_i32 z 0) as E. rewrite !Z.add_0_r in E. exact E. Qed.

(** Going past a prefix of passing descriptors adds up their bytes. *)
Lemma check_tokens_prefix dir i l1 l2 size :
  forallb (dtd_passes dir) l1 = true -> i32 size = size ->
  check_tokens dir i (l1 ++ l2) size =
  check_tokens dir (i + length l1) l2 (i32 (size + sumZ (map dtd_moved l1))).
Proof.
  revert i size; induction l1 as [|e l1 IH]; intros i size Hp Hs; cbn [app length map sumZ].
  - rewrite Nat.add_0_r, Z.add_0_r, Hs. reflexivity.
  - cbn [forallb] in Hp. apply andb_true_iff in Hp as [He Hp].
    rewrite check_tokens_pass by exact He. rewrite IH by (auto using i32_idem).
    rewrite i32_add_i32, Nat.add_succ_r, Z.add_assoc. reflexivity.
Qed.

Lemma Get_bit_cases t p : bits.Get t p 1 <> 1 -> bits.Get t p 1 = 0.
Proof.
  intros Hne. assert (Hr : 0 <= bits.Get t p (Z.ones 1) < 2 ^ 1) by (apply Get_range; lia).
  change (Z.ones 1) with 1 in Hr. lia.
Qed.

Section CheckLemmas.
Context `{Environment}.

Lemma wait_inactive_done fuel n a s :
  (1 <= fuel)%nat -> bits.Get (load32 (mem s) a) TOKEN_ACTIVE 1 = 0 ->
  wait_inactive fuel n a s = Ret tt s.
Proof.
  intros Hf Hg. destruct fuel as [|f]; [lia|].
  unfold wait_inactive, wait.WaitFor, wait.Wait, wait.WaitSignal, gets.
  destruct (n =? 0); cbv [mbind M_bind mret M_ret]; unfold poll; fold poll;
    unfold field_is, reg.Get, reg.Read, gets; cbv [mbind M_bind mret M_ret];
    rewrite Hg; cbn [Z.eqb]; cbv beta iota; rewrite ?Hg; reflexivity.
Qed.

Lemma checkDTD_from_final fuel n dir i dtds size s :
  (1 <= fuel)%nat ->
  Forall (fun d => token_active (load32 (mem s) (token_addr d)) = false) dtds ->
  checkDTD_from fuel n dir i dtds size s = Ret (check_tokens dir i (final_tokens (mem s) dtds) size) s.
Proof.
  intros Hf Hall. revert i size. induction Hall as [|d dtds Hd Hall IH]; intros i size; [reflexivity|].
  cbn [checkDTD_from final_tokens map check_tokens fst snd].
  erewrite bind_Ret by (apply wait_inactive_done; [exact Hf|]; apply Get_bit_cases;
    unfold token_active in Hd; apply Z.eqb_neq; exact Hd).
  erewrite bind_Ret by reflexivity. fold (token_addr d).
  destruct (negb (token_status (load32 (mem s) (token_addr d)) =? 0)); [reflexivity|].
  destruct ((dir =? IN) && (0 <? token_rest (load32 (mem s) (token_addr d)))); [reflexivity|].
  apply IH.
Qed.
End CheckLemmas.

(** The first failing descriptor decides the result. *)
Lemma check_tokens_fail dir i l1 sz tok l2 size :
  forallb (dtd_passes dir) l1 = true -> i32 size = size -> dtd_passes dir (sz, tok) = false ->
  check_tokens dir i (l1 ++ (sz, tok) :: l2) size = check_tokens dir (i + length l1) [(sz, tok)] 0.
Proof.
  intros Hp Hs Hf. rewrite check_tokens_prefix by assumption.
  unfold dtd_passes in Hf. cbn [check_tokens fst snd] in *.
  destruct (token_status tok =? 0); [|reflexivity].
  destruct ((dir =? IN) && (0 <? token_rest tok)); [reflexivity | discriminate].
Qed.

(** ** Properties of [checkDTD] *)

(** C5: Refinement: once every descriptor of the chain is inactive,
    [checkDTD] returns at once, without changing the state, the result
    [check_tokens] computes from the final (size, token) pairs. *)
Theorem checkDTD_refines `{Environment} fuel n dir dtds s :
  (1 <= fuel)%nat ->
  Forall (fun d => token_active (load32 (mem s) (token_addr d)) = false) dtds ->
  checkDTD fuel n dir dtds s = Ret (check_tokens dir 0 (final_tokens (mem s) dtds) 0) s.
Proof. intros. apply checkDTD_from_final; assumption. Qed.

(** C6: When every descriptor has a zero status (and, for IN, no byte
    left), [checkDTD] succeeds with the sum of the bytes moved, wrapped to
    the 32-bit [int] of the target. *)
Theorem check_tokens_ok dir l :
  forallb (dtd_passes dir) l = true -> check_tokens dir 0 l 0 = (i32 (sumZ (map dtd_moved l)), None).
Proof.
  intros Hp. rewrite <- (app_nil_r l), check_tokens_prefix by (auto; reflexivity).
  rewrite app_nil_r. reflexivity.
Qed.

(** C7: Error path: the first descriptor with a non-zero status byte makes
    [checkDTD] fail with [ErrStatus] at its index, and no byte counted. *)
Theorem check_tokens_status dir l1 sz tok l2 :
  forallb (dtd_passes dir) l1 = true -> token_status tok <> 0 ->
  check_tokens dir 0 (l1 ++ (sz, tok) :: l2) 0 = (0, Some (ErrStatus (length l1) tok)).
Proof.
  intros Hp Hs. rewrite check_tokens_fail by
    (auto; unfold dtd_passes; cbn [snd]; rewrite (proj2 (Z.eqb_neq _ _) Hs); reflexivity).
  cbn [check_tokens]. rewrite (proj2 (Z.eqb_neq _ _) Hs). reflexivity.
Qed.

(** C8: Error path: on an IN endpoint, the first descriptor with bytes left
    makes [checkDTD] fail with [ErrPartial], reporting the bytes it moved
    out of its size. *)
Theorem check_tokens_partial l1 sz tok l2 :
  forallb (dtd_passes IN) l1 = true -> token_status tok = 0 -> 0 < token_rest tok ->
  check_tokens IN 0 (l1 ++ (sz, tok) :: l2) 0 = (0, Some (ErrPartial (length l1) (dtd_moved (sz, tok)) sz)).
Proof.
  intros Hp Hs Hr. assert (Hr' : (0 <? token_rest tok) = true) by (apply Z.ltb_lt; exact Hr).
  rewrite check_tokens_fail by (auto; unfold dtd_passes; cbn [snd]; rewrite Hs, Hr'; reflexivity).
  cbn [check_tokens]. rewrite Hs, Hr'. reflexivity.
Qed.

(** C9: A descriptor the controller never processed (its token still the one
    [buildDTD] wrote, as after a cancellation through [hw.done]) makes
    [checkDTD] report [ErrStatus], not a cancellation: the active bit is
    bit 7 of the status byte it tests. *)
Theorem check_tokens_cancelled dir ioc l1 sz l2 :
  forallb (dtd_passes dir) l1 = true -> 0 <= sz < 2 ^ 16 ->
  check_tokens dir 0 (l1 ++ (sz, dtd_token ioc sz) :: l2) 0 =
  (0, Some (ErrStatus (length l1) (dtd_token ioc sz))).
Proof.
  intros Hp Hsz. pose proof (dtd_token_status ioc sz Hsz) as Hs.
  rewrite check_tokens_fail by (auto; unfold dtd_passes; cbn [snd]; rewrite Hs; reflexivity).
  cbn [check_tokens]. rewrite Hs. reflexivity.
Qed.

(** ** Frame lemmas of [checkDTD] *)
Section CheckFrame.
Context `{Environment} {T : Type} (f : State -> T).
Hypothesis f_tick : forall s, f (env_tick s) = f s.
Hypothesis f_mem : forall m s, f (set_mem m s) = f s.
Hypothesis f_clock : forall c s, f (set_clock c s) = f s.
#[local] Hint Resolve f_tick f_mem f_clock : frame.

Lemma keeps_wait_inactive fuel n t : keeps_on f (wait_inactive fuel n t).
Proof. unfold wait_inactive. keeps_solve. Qed.
#[local] Hint Resolve keeps_wait_inactive : frame.

Lemma keeps_checkDTD_from fuel n dir i dtds size : keeps_on f (checkDTD_from fuel n dir i dtds size).
Proof. revert i size. induction dtds as [|d dtds IH]; intros i size; cbn [checkDTD_from]; keeps_solve. Qed.

Lemma keeps_checkDTD fuel n dir dtds : keeps_on f (checkDTD fuel n dir dtds).
Proof. apply keeps_checkDTD_from. Qed.
End CheckFrame.

#[export] Hint Resolve keeps_wait_inactive keeps_checkDTD : frame.
