(* ===== verification/Transfer.v ===== *)
(** * The transfer engine

    [transfer] (driver file, lines 296-384) and the operations built on it,
    [ack], [tx], [rx] (lines 386-408), with the endpoint-control operations
    [stall], [reset] (lines 410-435) and [enable] (lines 155-188).

    [transfer] is split as the source is: the do-while loop that builds,
    chains and primes one dTD per chunk ([transfer_loop]), the completion
    wait, [checkDTD], the copy of received data, and the deferred frees,
    which Go runs in reverse order of registration when the function
    returns. A Go panic inside [transfer] is not recovered anywhere in the
    program and stops it, so the model does not run the deferred frees on
    the [Panic] outcome. *)

From stdpp Require Import base list gmap.
From S2P Require Import Prelude Machine Regs QueueHead Descriptor.
Open Scope Z_scope.

(** [dtdLength := DTD_PAGES * DTD_PAGE_SIZE] *)
Definition dtdLength : Z := DTD_PAGES * DTD_PAGE_SIZE.

(** [pos := (dir * 16) + n]: the bit of the endpoint in the prime, status
    and complete registers. *)
Definition ep_pos (n dir : Z) : Z := dir * 16 + n.

(** [size := dtdLength; if i+size > transferSize { size = transferSize - i }] *)
Definition chunk_size (i transferSize : Z) : Z :=
  if transferSize <? i + dtdLength then transferSize - i else dtdLength.

(** The number of iterations the loop needs: enough for every chunk. *)
Definition loop_bound (transferSize : Z) : nat := S (Z.to_nat (transferSize / dtdLength)).

(** The offsets the loop visits from [i]: [i], then [i + dtdLength] while
    it is below [transferSize], for at most [iters] iterations. *)
Fixpoint chunk_offsets (iters : nat) (i transferSize : Z) : list Z :=
  match iters with
  | O => []
  | S k => i :: (if i + dtdLength <? transferSize then chunk_offsets k (i + dtdLength) transferSize else [])
  end.

(** The sizes of the dTDs [transfer] builds for a buffer of [S] bytes. *)
Definition chunks (S : Z) : list Z := map (fun i => chunk_size i S) (chunk_offsets (loop_bound S) 0 S).

(** [ceil(S / dtdLength)], and one dTD for an empty buffer. *)
Definition n_chunks (S : Z) : Z := Z.max 1 ((S + dtdLength - 1) / dtdLength).

(** [if dir == OUT && buf == nil { buf = make([]byte, dtdLength) }] *)
Definition out_buffer (dir : Z) (buf : option (list Z)) : option (list Z) :=
  if (dir =? OUT) && bool_decide (buf = None) then Some (repeat 0 (Z.to_nat dtdLength)) else buf.

Section Transfer.
Context `{Environment} (L : Layout) (fuel : nat).

(** The priming step: [clear], [nextDTD], then set the prime bit. *)
Definition prime_dtd (n dir : Z) (d : DTD.dTD) : M unit :=
  clear n dir ;;
  nextDTD fuel n dir (DTD.dtd d) ;;
  reg.Set_ (prime L) (ep_pos n dir).

(** One iteration of the loop body at offset [i], with [prev] the dTD of the
    previous iteration. *)
Definition loop_body (n dir : Z) (ioc : bool) (pages transferSize i : Z) (prev : option DTD.dTD)
  : M DTD.dTD :=
  d ← buildDTD n dir ioc (u32 (u32 pages + u32 i)) (chunk_size i transferSize);
  pr ← (if i =? 0 then mret true
        else match prev with
             | Some p =>
                 reg.Write (u32 (DTD.dtd p + DTD_NEXT)) (DTD.dtd d) ;;
                 a ← reg.Get (prime L) (ep_pos n dir) 1;
                 b ← reg.Get (stat L) (ep_pos n dir) 1;
                 mret ((a =? 0) && (b =? 0))
             | None => panic
             end);
  (match pr with true => prime_dtd n dir d | false => mret tt end) ;;
  mret d.

(** [for add := true; add; add = i < transferSize { ...; i += dtdLength }];
    [iters] bounds the iterations (see [loop_bound]). *)
Fixpoint transfer_loop (iters : nat) (n dir : Z) (ioc : bool) (pages transferSize i : Z)
    (prev : option DTD.dTD) (dtds : list DTD.dTD) : M (list DTD.dTD) :=
  match iters with
  | O => fun _ => OutOfFuel
  | S k =>
      d ← loop_body n dir ioc pages transferSize i prev;
      let dtds' := dtds ++ [d] in
      if i + dtdLength <? transferSize
      then transfer_loop k n dir ioc pages transferSize (i + dtdLength) (Some d) dtds'
      else mret dtds'
  end.

(** The completion wait: bounded on endpoint 0 (20 ms), cancellable by
    [hw.done] elsewhere. The error it sets is the [err] of the source. *)
Definition wait_complete (n dir : Z) : M (option error) :=
  if n =? 0 then
    c ← wait.WaitFor fuel 20 (complete L) (ep_pos n dir) 1 1;
    mret (match c with true => None | false => Some ErrTimeout end)
  else
    _ ← wait.WaitSignal fuel (complete L) (ep_pos n dir) 1 1; mret None.

(** The deferred [dma.Free] calls, last registered first. *)
Definition free_all (pages : Z) (dtds : list DTD.dTD) : M unit :=
  forM_ (rev dtds) (fun d => dma.Free (DTD.dtd d)) ;;
  dma.Free pages.

(** [transfer(n, dir, ioc, buf)]: [buf] is [None] for a nil slice. The
    result is [out] (empty unless data was received) and [err]. *)
Definition transfer (n dir : Z) (ioc : bool) (buf : option (list Z)) : M (list Z * option error) :=
  let buf := out_buffer dir buf in
  let data := default [] buf in
  let transferSize := Z.of_nat (length data) in
  pages ← dma.Alloc data DTD_PAGE_SIZE;
  dtds ← transfer_loop (loop_bound transferSize) n dir ioc pages transferSize 0 None [];
  (* wait for priming completion *)
  wait.Wait fuel (prime L) (ep_pos n dir) 1 0 ;;
  (* wait for completion; the error it reports is overwritten below *)
  _ ← wait_complete n dir;
  (* clear completion *)
  reg.Write (complete L) (Z.shiftl 1 (ep_pos n dir)) ;;
  '(size, err) ← checkDTD fuel n dir dtds;
  out ← (if negb (n =? 0) && (dir =? OUT) && bool_decide (buf <> None) then
           (* [out = buf[0:size]] panics out of bounds; the buffer is
              taken with its length as capacity, so a size between
              [len(buf)] and [cap(buf)], which Go allows, panics here *)
           if (0 <=? size) && (size <=? transferSize) then dma.Read pages 0 (Z.to_nat size)
           else panic
         else mret []);
  free_all pages dtds ;;
  mret (out, err).

(** [ack(n)]: a zero length IN packet. *)
Definition ack (n : Z) : M (option error) :=
  '(_, err) ← transfer n IN false None; mret err.

(** [tx(n, ioc, in)]: an IN transfer, followed on endpoint 0 by the status
    stage, an empty OUT transfer. *)
Definition tx (n : Z) (ioc : bool) (data : list Z) : M (option error) :=
  '(_, err) ← transfer n IN ioc (Some data);
  match err with
  | None => if n =? 0 then '(_, err') ← transfer n OUT false None; mret err' else mret None
  | Some e => mret (Some e)
  end.

(** [rx(n, ioc, buf)] *)
Definition rx (n : Z) (ioc : bool) (buf : option (list Z)) : M (list Z * option error) :=
  transfer n OUT ioc buf.
End Transfer.

Section Control.
Context `{Environment} (L : Layout).

(** [ctrl := hw.epctrl + uint32(4*n)] *)
Definition ep_ctrl (n : Z) : Z := u32 (epctrl L + u32 (4 * n)).

(** [stall(n, dir)] *)
Definition stall (n dir : Z) : M unit :=
  if dir =? IN then reg.Set_ (ep_ctrl n) ENDPTCTRL_TXS else reg.Set_ (ep_ctrl n) ENDPTCTRL_RXS.

(** [reset(n, dir)]: data toggle reset, not for endpoint 0. *)
Definition reset (n dir : Z) : M unit :=
  if n =? 0 then mret tt
  else if dir =? IN then reg.Set_ (ep_ctrl n) ENDPTCTRL_TXR else reg.Set_ (ep_ctrl n) ENDPTCTRL_RXR.

(** The new [ENDPTCTRLn] value [enable] computes from [c] (and from the
    enable bit of the other direction, [other]). *)
Definition enable_value (dir transferType c : Z) (other_enabled : bool) : Z :=
  if dir =? IN then
    let c := bits.Set_ c ENDPTCTRL_TXE in
    let c := bits.Set_ c ENDPTCTRL_TXR in
    let c := bits.SetN c ENDPTCTRL_TXT 3 transferType in
    let c := bits.Clear c ENDPTCTRL_TXS in
    if negb other_enabled then bits.SetN c ENDPTCTRL_RXT 3 BULK else c
  else
    let c := bits.Set_ c ENDPTCTRL_RXE in
    let c := bits.Set_ c ENDPTCTRL_RXR in
    let c := bits.SetN c ENDPTCTRL_RXT 3 transferType in
    let c := bits.Clear c ENDPTCTRL_RXS in
    if negb other_enabled then bits.SetN c ENDPTCTRL_TXT 3 BULK else c.

(** [enable(n, dir, transferType)] *)
Definition enable (n dir transferType : Z) : M unit :=
  if n =? 0 then mret tt
  else
    c ← reg.Read (ep_ctrl n);
    o ← reg.Get (ep_ctrl n) (if dir =? IN then ENDPTCTRL_RXE else ENDPTCTRL_TXE) 1;
    reg.Write (ep_ctrl n) (enable_value dir transferType c (negb (o =? 0))).
End Control.

(** The allocator's invariant: every live block starts above 0 and below
    the bump pointer. *)
Definition alloc_inv (s : State) : Prop :=
  0 < next_free s /\ map_Forall (fun k _ => 0 < k < next_free s) (allocs s).

(** The blocks of a list of dTDs, allocated in order. *)
Definition ins_dtds (m : gmap Z Z) (l : list DTD.dTD) : gmap Z Z :=
  fold_left (fun m d => <[DTD.dtd d := DTD_SIZE]> m) l m.

(** [len(buf)] after the OUT replacement of a nil buffer. *)
Definition transfer_size (dir : Z) (buf : option (list Z)) : Z :=
  Z.of_nat (length (default [] (out_buffer dir buf))).

(** * Lemmas *)

Lemma chunk_size_mid i S : i + dtdLength <= S -> chunk_size i S = dtdLength.
Proof. intros. unfold chunk_size. destruct (Z.ltb_spec S (i + dtdLength)); lia. Qed.

Lemma chunk_size_last i S : S < i + dtdLength -> chunk_size i S = S - i.
Proof. intros. unfold chunk_size. destruct (Z.ltb_spec S (i + dtdLength)); lia. Qed.

Lemma chunk_offsets_spec k i S :
  0 <= i <= S -> (S - i) / dtdLength < Z.of_nat k ->
  sumZ (map (fun j => chunk_size j S) (chunk_offsets k i S)) = S - i /\
  Z.of_nat (length (chunk_offsets k i S)) = n_chunks (S - i) /\
  Forall (fun j => 0 <= chunk_size j S <= dtdLength) (chunk_offsets k i S).
Proof.
  revert i; induction k as [|k IH]; intros i Hi Hk;
    [unfold dtdLength, DTD_PAGES, DTD_PAGE_SIZE in Hk; Z.div_mod_to_equations; lia|].
  cbn [chunk_offsets map sumZ length].
  destruct (Z.ltb_spec (i + dtdLength) S) as [Hlt|Hge].
  - destruct (IH (i + dtdLength)) as (Hs & Hl & Hf);
      [unfold dtdLength, DTD_PAGES, DTD_PAGE_SIZE in *; lia
      | unfold dtdLength, DTD_PAGES, DTD_PAGE_SIZE in *; Z.div_mod_to_equations; lia |].
    rewrite chunk_size_mid by lia.
    split; [lia|]. split; [| constructor; [rewrite chunk_size_mid by lia; unfold dtdLength, DTD_PAGES, DTD_PAGE_SIZE; lia | exact Hf]].
    rewrite Nat2Z.inj_succ, Hl. unfold n_chunks, dtdLength, DTD_PAGES, DTD_PAGE_SIZE in *.
    Z.div_mod_to_equations. lia.
  - cbn [map sumZ length].
    assert (Hc : chunk_size i S = S - i) by
      (unfold chunk_size; destruct (Z.ltb_spec S (i + dtdLength)); lia).
    rewrite Hc. unfold n_chunks, dtdLength, DTD_PAGES, DTD_PAGE_SIZE in *.
    split; [lia|]. split; [Z.div_mod_to_equations; lia|].
    constructor; [rewrite Hc; lia | constructor].
Qed.

(** C2: Chaining property: a buffer of [S] bytes is cut into
    [max 1 (ceil (S / 20480))] chunks of at most 20480 bytes, whose sizes add
    up to [S]. *)
Theorem chunks_spec S :
  0 <= S ->
  sumZ (chunks S) = S /\ Z.of_nat (length (chunks S)) = n_chunks S /\
  Forall (fun c => 0 <= c <= dtdLength) (chunks S).
Proof.
  intros HS. unfold chunks. rewrite length_map.
  destruct (chunk_offsets_spec (loop_bound S) 0 S) as (H1 & H2 & H3);
    [lia | unfold loop_bound, dtdLength, DTD_PAGES, DTD_PAGE_SIZE; Z.div_mod_to_equations; lia |].
  rewrite Z.sub_0_r in *. split; [exact H1|]. split; [exact H2|].
  apply Forall_map. exact H3.
Qed.

(** Scenario 3 of the specification: 50000 bytes make three dTDs. *)
Example chunks_50000 : chunks 50000 = [20480; 20480; 9040].
Proof. reflexivity. Qed.

Section LoopLemmas.
Context `{Environment} (L : Layout) (fuel : nat).
Lemma prime_dtd_returns n dir x s d :
  (1 <= fuel)%nat -> valid_ep n dir = true -> dQHs s !! qh_index n dir = Some d ->
  (forall o v, env_store (u32 (d + DQH_TOKEN)) o v = v) ->
  exists s', prime_dtd L fuel n dir x s = Ret tt s' /\ dQHs s' = dQHs s.
Proof.
  intros Hf Hv Hd Hst. destruct fuel as [|f]; [lia|].
  unfold prime_dtd, clear, nextDTD, dQH_at, reg.SetN, reg.Read, reg.Write, reg.Set_, wait.Wait, gets, modify.
  cbv [mbind M_bind mret M_ret]. rewrite Hv, Hd. cbn [mem set_mem dQHs].
  unfold poll; fold poll. unfold field_is, reg.Get, reg.Read, gets. cbv [mbind M_bind mret M_ret]. cbn [mem set_mem dQHs].
  rewrite ?Hv, Hd. cbn [mem set_mem dQHs]. rewrite Hst.
  rewrite load32_store32_same by apply u32_range.
  rewrite u32_small by apply SetN_range. change 3 with (Z.ones 2). rewrite Get_SetN_same by lia.
  cbn. eexists. split; reflexivity.
Qed.

Lemma Alloc_returns buf al s : exists a s1, dma.Alloc buf al s = Ret a s1 /\ dQHs s1 = dQHs s.
Proof. unfold dma.Alloc. destruct (decide _); eauto. Qed.

Lemma link_returns n dir p d s :
  exists b s2,
    (reg.Write (u32 (DTD.dtd p + DTD_NEXT)) (DTD.dtd d) ;;
     a ← reg.Get (prime L) (ep_pos n dir) 1;
     b ← reg.Get (stat L) (ep_pos n dir) 1;
     mret ((a =? 0) && (b =? 0))) s = Ret b s2 /\ dQHs s2 = dQHs s.
Proof. do 2 eexists. split; reflexivity. Qed.

Ltac prime_step s1 d0 :=
  match goal with
  | |- context [prime_dtd ?L ?fuel ?n ?dir ?x] =>
      let s2 := fresh "s" in let Hs2 := fresh "Hs" in let Hq := fresh "Hq" in
      destruct (prime_dtd_returns n dir x s1 d0) as (s2 & Hs2 & Hq);
      [assumption | assumption | congruence | eassumption |];
      erewrite bind_Ret by exact Hs2
  end.

Lemma loop_body_returns n dir ioc pages S i prev s d0 :
  (1 <= fuel)%nat -> valid_ep n dir = true -> dQHs s !! qh_index n dir = Some d0 ->
  (forall o v, env_store (u32 (d0 + DQH_TOKEN)) o v = v) ->
  i = 0 \/ prev <> None ->
  exists d s', loop_body L fuel n dir ioc pages S i prev s = Ret d s' /\
    DTD.size d = u32 (chunk_size i S) /\ dQHs s' = dQHs s.
Proof.
  intros Hf Hv Hd Hst Hp. unfold loop_body, buildDTD.
  edestruct Alloc_returns as (a & s1 & Ha & Hq1).
  erewrite bind_Ret by (erewrite bind_Ret by exact Ha; reflexivity).
  destruct (Z.eqb_spec i 0) as [->|Hi].
  - erewrite bind_Ret by reflexivity.
    prime_step s1 d0. eauto 6 with congruence.
  - destruct prev as [p|]; [|destruct Hp; contradiction].
    edestruct (link_returns n dir p) as (b & s2 & Hs2 & Hq2).
    erewrite bind_Ret by exact Hs2. destruct b; [|eauto 6 with congruence].
    prime_step s2 d0. eauto 6 with congruence.
Qed.

Lemma transfer_loop_returns k n dir ioc pages S i prev dtds s d0 :
  (1 <= fuel)%nat -> valid_ep n dir = true -> dQHs s !! qh_index n dir = Some d0 ->
  (forall o v, env_store (u32 (d0 + DQH_TOKEN)) o v = v) ->
  0 <= i <= S -> i = 0 \/ prev <> None -> (S - i) / dtdLength < Z.of_nat k ->
  exists res s', transfer_loop L fuel k n dir ioc pages S i prev dtds s = Ret res s' /\
    map DTD.size res = map DTD.size dtds ++ map (fun j => u32 (chunk_size j S)) (chunk_offsets k i S) /\
    dQHs s' = dQHs s.
Proof.
  intros Hf Hv Hd Hst. revert i prev dtds s Hd.
  induction k as [|k IH]; intros i prev dtds s Hd Hi Hp Hk;
    [unfold dtdLength, DTD_PAGES, DTD_PAGE_SIZE in Hk; Z.div_mod_to_equations; lia|].
  destruct (loop_body_returns n dir ioc pages S i prev s d0) as (d & s1 & Hb & Hsz & Hq1); try assumption.
  cbn [transfer_loop chunk_offsets map]. erewrite bind_Ret by exact Hb.
  destruct (Z.ltb_spec (i + dtdLength) S) as [Hlt|Hge].
  - destruct (IH (i + dtdLength) (Some d) (dtds ++ [d]) s1) as (res & s' & Hr & Hm & Hq);
      [congruence | unfold dtdLength, DTD_PAGES, DTD_PAGE_SIZE in *; lia | right; discriminate
      | unfold dtdLength, DTD_PAGES, DTD_PAGE_SIZE in *; Z.div_mod_to_equations; lia |].
    exists res, s'. rewrite Hm, map_app, <- app_assoc. cbn [map app]. rewrite Hsz. split; [exact Hr | split; [reflexivity | congruence]].
  - do 2 eexists. split; [reflexivity|]. rewrite map_app. cbn [map]. rewrite Hsz. split; [reflexivity | exact Hq1].
Qed.

(** C1: The dTD loop of [transfer] returns, with one dTD per chunk of
    [chunks S], when the queue head exists and its token word is plain
    memory: the only wait in the loop, [nextDTD]'s, is then satisfied at
    once. *)
Theorem transfer_loop_chunks n dir ioc pages S s d0 :
  (1 <= fuel)%nat -> valid_ep n dir = true -> dQHs s !! qh_index n dir = Some d0 ->
  (forall o v, env_store (u32 (d0 + DQH_TOKEN)) o v = v) -> 0 <= S ->
  exists res s', transfer_loop L fuel (loop_bound S) n dir ioc pages S 0 None [] s = Ret res s' /\
    map DTD.size res = chunks S.
Proof.
  intros Hf Hv Hd Hst HS.
  assert (Hk : (S - 0) / dtdLength < Z.of_nat (loop_bound S))
    by (unfold loop_bound, dtdLength, DTD_PAGES, DTD_PAGE_SIZE; Z.div_mod_to_equations; lia).
  destruct (transfer_loop_returns (loop_bound S) n dir ioc pages S 0 None [] s d0) as (res & s' & Hr & Hm & _);
    try assumption; [lia | left; reflexivity |].
  exists res, s'. split; [exact Hr|]. rewrite Hm. unfold chunks. cbn [map app].
  destruct (chunk_offsets_spec (loop_bound S) 0 S) as (_ & _ & Hb); [lia | exact Hk |].
  apply map_ext_in. intros j Hj. apply u32_small.
  rewrite List.Forall_forall in Hb. specialize (Hb j Hj). unfold dtdLength, DTD_PAGES, DTD_PAGE_SIZE in Hb. lia.
Qed.
End LoopLemmas.

(** ** Frame lemmas of the operations that do not allocate *)
Section TransferFrame.
Context `{Environment} {T : Type} (f : State -> T).
Hypothesis f_tick : forall s, f (env_tick s) = f s.
Hypothesis f_mem : forall m s, f (set_mem m s) = f s.
Hypothesis f_clock : forall c s, f (set_clock c s) = f s.
#[local] Hint Resolve f_tick f_mem f_clock : frame.

Lemma keeps_prime_dtd L fuel n dir d : keeps_on f (prime_dtd L fuel n dir d).
Proof. unfold prime_dtd. keeps_solve. Qed.

Lemma keeps_wait_complete L fuel n dir : keeps_on f (wait_complete L fuel n dir).
Proof. unfold wait_complete. keeps_solve. Qed.

Lemma keeps_stall L n dir : keeps_on f (stall L n dir).
Proof. unfold stall. keeps_solve. Qed.

Lemma keeps_reset L n dir : keeps_on f (reset L n dir).
Proof. unfold reset. keeps_solve. Qed.
End TransferFrame.

#[export] Hint Resolve keeps_prime_dtd keeps_wait_complete keeps_stall keeps_reset : frame.

(** ** Allocation: [transfer] frees what it allocates *)

Lemma align_up_bounds a al : 0 < al -> a <= dma.align_up a al < a + al.
Proof. intros Hal. unfold dma.align_up. Z.div_mod_to_equations. nia. Qed.

Lemma Alloc_spec buf al s a s' :
  0 < al -> dma.Alloc buf al s = Ret a s' ->
  (buf = [] /\ a = 0 /\ s' = s) \/
  (buf <> [] /\ next_free s <= a < next_free s + al /\
   allocs s' = <[a := Z.of_nat (length buf)]> (allocs s) /\
   next_free s' = a + Z.of_nat (length buf) /\ dQHs s' = dQHs s).
Proof.
  intros Hal Hr. unfold dma.Alloc in Hr. destruct (decide (length buf = 0%nat)) as [Hl|Hl].
  - left. injection Hr as <- <-. destruct buf; [auto | discriminate].
  - right. rewrite (proj2 (Z.eqb_neq al 0)) in Hr by lia.
    injection Hr as <- <-. pose proof (align_up_bounds (next_free s) al Hal).
    split; [intros ->; apply Hl; reflexivity|]. cbn. auto.
Qed.

Lemma Free_run a s u s' : dma.Free a s = Ret u s' -> allocs s' = delete a (allocs s) /\ next_free s' = next_free s.
Proof. intros Hr. injection Hr as _ <-. auto. Qed.

Lemma forM_Free_run (l : list DTD.dTD) s s' :
  forM_ l (fun d => dma.Free (DTD.dtd d)) s = Ret tt s' ->
  allocs s' = fold_left (fun m d => delete (DTD.dtd d) m) l (allocs s).
Proof.
  revert s. induction l as [|d l IH]; intros s Hr; cbn [forM_ fold_left] in *.
  - injection Hr as <-. reflexivity.
  - inv_run Hr. destruct (Free_run _ _ _ _ Hrun) as [Ha _]. rewrite (IH _ Hr), Ha. reflexivity.
Qed.

Lemma lookup_ins_dtds m l k : k ∉ map DTD.dtd l -> ins_dtds m l !! k = m !! k.
Proof.
  revert m; induction l as [|d l IH]; intros m Hk; [reflexivity|].
  unfold ins_dtds in *. cbn [fold_left map] in *. rewrite elem_of_cons in Hk.
  rewrite IH by tauto. apply lookup_insert_ne. intros E. apply Hk. left. symmetry. exact E.
Qed.

Lemma delete_ins_dtds m l :
  NoDup (map DTD.dtd l) -> Forall (fun d => m !! DTD.dtd d = None) l ->
  fold_left (fun m d => delete (DTD.dtd d) m) (rev l) (ins_dtds m l) = m.
Proof.
  induction l as [|d l IH] using rev_ind; intros Hnd Hf; [reflexivity|].
  rewrite rev_app_distr. cbn [rev app fold_left]. unfold ins_dtds. rewrite fold_left_app. cbn [fold_left].
  rewrite map_app in Hnd. apply NoDup_app in Hnd as (Hnd & Hdis & _).
  apply Forall_app in Hf as [Hf Hd]. apply Forall_inv in Hd.
  rewrite delete_insert_id; [apply IH; assumption|].
  fold (ins_dtds m l). rewrite lookup_ins_dtds; [exact Hd|].
  intros Hin. apply (Hdis _ Hin). cbn. left.
Qed.

Lemma length_encode_dTD next token a : length (encode_dTD next token (dtd_pages a)) = 28%nat.
Proof. reflexivity. Qed.

Lemma alloc_inv_fresh s k : alloc_inv s -> (k <= 0 \/ next_free s <= k) -> allocs s !! k = None.
Proof.
  intros [Hnf Hm] Hk. destruct (allocs s !! k) eqn:E; [|reflexivity].
  apply (map_Forall_lookup_1 _ _ _ _ Hm) in E. lia.
Qed.

Lemma keeps_Free_next_free `{Environment} a : keeps_on next_free (dma.Free a).
Proof. apply keeps_modify. reflexivity. Qed.

Section LoopAlloc.
Context `{EnvOk} (L : Layout) (fuel : nat).

Lemma loop_body_allocs n dir ioc pages S i prev s d s' :
  0 < next_free s -> next_free s + 64 <= 2 ^ 32 ->
  loop_body L fuel n dir ioc pages S i prev s = Ret d s' ->
  next_free s <= DTD.dtd d < next_free s + DTD_ALIGN /\ next_free s' = DTD.dtd d + DTD_SIZE /\
  allocs s' = <[DTD.dtd d := DTD_SIZE]> (allocs s).
Proof.
  intros Hnf Hb Hr. unfold loop_body, buildDTD in Hr.
  step Hr d0 s1 Hbuild. step Hbuild a s0 Halloc. injection Hbuild as <- <-.
  destruct (Alloc_spec _ DTD_ALIGN _ _ _ ltac:(unfold DTD_ALIGN; lia) Halloc)
    as [(Hnil & _ & _) | (_ & Ha & Hal & Hnf1 & _)]; [discriminate|].
  rewrite length_encode_dTD in *.
  frame_eq allocs Hr Ea. frame_eq next_free Hr En.
  step Hr pr s2 Hpr. step Hr u s3 Hprime. injection Hr as <- <-.
  cbn [DTD.dtd]. rewrite u32_small by (unfold DTD_ALIGN in Ha; lia).
  unfold DTD_SIZE. rewrite Ea, En, Hal, Hnf1. auto.
Qed.

Lemma transfer_loop_allocs k n dir ioc pages S i prev dtds s res s' :
  0 < next_free s -> next_free s + 64 * Z.of_nat k <= 2 ^ 32 ->
  transfer_loop L fuel k n dir ioc pages S i prev dtds s = Ret res s' ->
  exists new, res = dtds ++ new /\ allocs s' = ins_dtds (allocs s) new /\ NoDup (map DTD.dtd new) /\
    Forall (fun d => next_free s <= DTD.dtd d /\ DTD.dtd d + DTD_SIZE <= next_free s') new /\
    next_free s <= next_free s' <= next_free s + 64 * Z.of_nat k.
Proof.
  revert i prev dtds s. induction k as [|k IH]; intros i prev dtds s Hnf Hb Hr; [discriminate|].
  cbn [transfer_loop] in Hr. step Hr d s1 Hbody.
  destruct (loop_body_allocs _ _ _ _ _ _ _ _ _ _ Hnf ltac:(lia) Hbody) as (Hd & Hn1 & Ha1).
  unfold DTD_ALIGN, DTD_SIZE in *.
  destruct (i + dtdLength <? S).
  - destruct (IH _ _ _ s1 ltac:(lia) ltac:(lia) Hr) as (new & -> & Ha & Hnd & Hf & Hn).
    exists (d :: new). split; [rewrite <- app_assoc; reflexivity|].
    split; [rewrite Ha, Ha1; reflexivity|].
    split.
    + constructor; [|exact Hnd]. intros Hin. apply list_elem_of_In, in_map_iff in Hin as (e & He & Hin).
      rewrite List.Forall_forall in Hf. specialize (Hf e Hin). lia.
    + split; [|lia]. constructor; [lia|]. eapply Forall_impl; [exact Hf|]. cbn beta. lia.
  - injection Hr as <- <-. exists [d]. split; [reflexivity|].
    split; [rewrite Ha1; reflexivity|]. split; [repeat constructor; set_solver|].
    split; [repeat constructor; lia | lia].
Qed.

(** C3: No leak: when [transfer] returns, every DMA allocation it made (the
    buffer pages and one 28-byte block per dTD) has been freed: the
    allocation map is the one it started with, and the allocator's
    invariant still holds. The bound keeps every address below 2^32. *)
Theorem transfer_no_leak n dir ioc buf s r s' :
  alloc_inv s ->
  next_free s + DTD_PAGE_SIZE + transfer_size dir buf + 64 * Z.of_nat (loop_bound (transfer_size dir buf)) <= 2 ^ 32 ->
  transfer L fuel n dir ioc buf s = Ret r s' ->
  allocs s' = allocs s /\ alloc_inv s'.
Proof.
  intros Hinv Hb Hr. unfold transfer in Hr. cbv zeta in Hr. unfold transfer_size in Hb.
  set (data := default [] (out_buffer dir buf)) in *.
  step Hr pages s1 Halloc. step Hr dtds s2 Hloop.
  step Hr u s3 Hwait. step Hr e0 s4 Hcomplete. step Hr u2 s5 Hwrite. step Hr res s6 Hcheck.
  destruct res as [size err]. step Hr out s7 Hout. step Hr u3 s8 Hfree. injection Hr as <- <-.
  frame_eq allocs Hwait A3. frame_eq allocs Hcomplete A4. frame_eq allocs Hwrite A5.
  frame_eq allocs Hcheck A6. frame_eq allocs Hout A7.
  frame_eq next_free Hwait N3. frame_eq next_free Hcomplete N4. frame_eq next_free Hwrite N5.
  frame_eq next_free Hcheck N6. frame_eq next_free Hout N7.
  unfold free_all in Hfree. step Hfree u4 s9 Hdel. destruct u4.
  pose proof (forM_Free_run _ _ _ Hdel) as A9.
  assert (N9 : next_free s9 = next_free s7)
    by (apply (keeps_run next_free _ _ _ _ (keeps_forM _ _ _ (fun d => keeps_Free_next_free _)) Hdel)).
  destruct (Free_run _ _ _ _ Hfree) as [A8 N8].
  destruct Hinv as [Hnf Hm].
  (* the pages buffer, and the invariant after it *)
  assert (Hinv1 : alloc_inv s1 /\ next_free s <= next_free s1 <= next_free s + DTD_PAGE_SIZE + Z.of_nat (length data) /\
                  delete pages (allocs s1) = allocs s).
  { destruct (Alloc_spec _ DTD_PAGE_SIZE _ _ _ ltac:(unfold DTD_PAGE_SIZE; lia) Halloc)
      as [(_ & -> & ->) | (Hne & Hp & Ha1 & Hn1 & _)]; unfold DTD_PAGE_SIZE in *.
    - split; [split; assumption|]. split; [lia|]. apply delete_id, alloc_inv_fresh; [split; assumption | lia].
    - split; [|split; [lia|]].
      + split; [lia|]. rewrite Ha1. apply map_Forall_insert_2; [|eapply map_Forall_impl; [exact Hm|]]; cbn beta.
        * destruct data; [contradiction | cbn [length] in *; lia].
        * intros k v Hk. lia.
      + rewrite Ha1. apply delete_insert_id, alloc_inv_fresh; [split; assumption | lia]. }
  destruct Hinv1 as (Hinv1 & Hn1 & Hd1).
  unfold DTD_PAGE_SIZE in Hb, Hn1.
  destruct (transfer_loop_allocs (loop_bound (Z.of_nat (length data))) _ _ _ _ _ _ _ _ s1 _ _ ltac:(destruct Hinv1; lia) ltac:(lia) Hloop)
    as (new & -> & Ha2 & Hnd & Hf & Hn2).
  assert (Hall : allocs s8 = allocs s).
  { rewrite A8, A9, A7, A6, A5, A4, A3, Ha2. cbn [app].
    rewrite delete_ins_dtds; [exact Hd1 | exact Hnd |].
    eapply Forall_impl; [exact Hf|]. cbn beta. intros d [Hd _]. apply alloc_inv_fresh; [exact Hinv1 | lia]. }
  split; [exact Hall|]. split; [lia|]. rewrite Hall.
  eapply map_Forall_impl; [exact Hm|]. cbn beta. intros k v Hk. lia.
Qed.
End LoopAlloc.

(** ** The completion timeout of endpoint 0 *)

Section Timeout.
Context `{EnvOk} (L : Layout) (fuel : nat).

End Timeout.

Section TimeoutDropped.
Context `{EnvOk} (L : Layout) (fuel : nat).

End TimeoutDropped.
