(* ===== verification/Setup.v ===== *)
(** * The setup dispatcher

    [setup.go] (lines 22-243): the request and descriptor codes, the setup
    packet and its [swap], [getSetup], [getDescriptor], the standard and
    class-specific handlers, [handleSetup] with the device model's override
    and [trim].

    The device model ([Device] of TamaGo's [usb] package, declared outside
    [src/]) is the record [Device]: the byte blobs the dispatcher sends, the
    [Configuration] and [Setup] callbacks as functions, and the two fields
    the handlers assign, [ConfigurationValue] and [AlternateSetting]. The
    handlers that assign them return the updated device with their error,
    which is how the caller's pointer sees the change. Logging and the
    [time.Sleep] of [handleSetup] are left out: they do not touch the state
    the driver reads. *)

From Stdlib Require Import Strings.String Strings.Ascii.
From stdpp Require Import base list.
From S2P Require Import Prelude Machine Regs QueueHead Descriptor Transfer.
Open Scope Z_scope.

(** ** Request codes, descriptor types and feature selectors (lines 22-64) *)
Definition GET_STATUS : Z := 0.
Definition CLEAR_FEATURE : Z := 1.
Definition SET_FEATURE : Z := 3.
Definition SET_ADDRESS : Z := 5.
Definition GET_DESCRIPTOR : Z := 6.
Definition SET_DESCRIPTOR : Z := 7.
Definition GET_CONFIGURATION : Z := 8.
Definition SET_CONFIGURATION : Z := 9.
Definition GET_INTERFACE : Z := 10.
Definition SET_INTERFACE : Z := 11.
Definition SYNCH_FRAME : Z := 12.
Definition HID_SET_IDLE : Z := 0x0a.
Definition HID_GET_DESCRIPTOR : Z := 0x22.
(** Declared with the CDC-ECM descriptors of the [usb] package. *)
Definition SET_ETHERNET_PACKET_FILTER : Z := 0x43.

Definition DEVICE : Z := 1.
Definition CONFIGURATION : Z := 2.
Definition STRING : Z := 3.
Definition INTERFACE : Z := 4.
Definition ENDPOINT : Z := 5.
Definition DEVICE_QUALIFIER : Z := 6.
Definition OTHER_SPEED_CONFIGURATION : Z := 7.
Definition INTERFACE_POWER : Z := 8.
Definition OTG : Z := 9.
Definition DEBUG : Z := 10.
Definition INTERFACE_ASSOCIATION : Z := 11.
Definition HID_REPORT : Z := 0x22.

Definition ENDPOINT_HALT : Z := 0.
Definition DEVICE_REMOTE_WAKEUP : Z := 1.
Definition TEST_MODE : Z := 2.

(** ** The device model *)

(** What [dev.Setup] returns: [in], [ack], [done], [err]. *)
Record SetupResult := mkSetupResult {
  res_in : list Z; res_ack : bool; res_done : bool; res_err : option error
}.

Record Device := mkDevice {
  (** [dev.Descriptor.Bytes()] *)
  DeviceDescriptor : list Z;
  (** [dev.Configuration(index)] *)
  Configuration : Z -> list Z * option error;
  (** [dev.Strings] *)
  Strings : list (list Z);
  (** [dev.Qualifier.Bytes()] *)
  Qualifier : list Z;
  ConfigurationValue : Z;
  AlternateSetting : Z;
  (** [dev.Setup], [None] for a nil function *)
  SetupOverride : option (SetupData -> SetupResult)
}.

Definition set_ConfigurationValue (v : Z) (d : Device) : Device :=
  mkDevice (DeviceDescriptor d) (Configuration d) (Strings d) (Qualifier d) v
    (AlternateSetting d) (SetupOverride d).
Definition set_AlternateSetting (v : Z) (d : Device) : Device :=
  mkDevice (DeviceDescriptor d) (Configuration d) (Strings d) (Qualifier d)
    (ConfigurationValue d) v (SetupOverride d).

(** ** [swap] (lines 78-83): [Value] through [BigEndian.PutUint16] and
    [LittleEndian.Uint16], which exchanges its two bytes. *)
Definition swap16 (v : Z) : Z :=
  let b0 := Z.land (Z.shiftr v 8) 0xff in   (* b[0] = byte(v >> 8) *)
  let b1 := Z.land v 0xff in                 (* b[1] = byte(v) *)
  Z.lor b0 (Z.shiftl b1 8).

Definition swap (s : SetupData) : SetupData :=
  mkSetup (RequestType s) (Request s) (swap16 (Value s)) (Index s) (Length s).

(** ** [trim] (lines 237-243) *)
Definition trim (buf : list Z) (wLength : Z) : list Z :=
  if wLength <? Z.of_nat (length buf) then take (Z.to_nat wLength) buf else buf.

(** ** The HID report descriptor of [getDescriptor], [hex.DecodeString] of
    the literal of line 127. *)
Definition HID_REPORT_HEX : string :=
  "05010906a101050719e029e71500250175019508810295017508810395037501050819012903910295017505910395067508150026a4000507190029a48100c0".

Definition hex_digit (c : ascii) : option Z :=
  let n := Z.of_nat (nat_of_ascii c) in
  if (48 <=? n) && (n <=? 57) then Some (n - 48)
  else if (97 <=? n) && (n <=? 102) then Some (n - 87)
  else if (65 <=? n) && (n <=? 70) then Some (n - 55)
  else None.

(** The bytes decoded before the first error, and whether there was none. *)
Fixpoint hex_decode (s : string) : list Z * bool :=
  match s with
  | EmptyString => ([], true)
  | String _ EmptyString => ([], false)
  | String a (String b s') =>
      match hex_digit a, hex_digit b with
      | Some x, Some y => let '(r, ok) := hex_decode s' in (x * 16 + y :: r, ok)
      | _, _ => ([], false)
      end
  end.

Definition hid_report : list Z := fst (hex_decode HID_REPORT_HEX).

Section Dispatch.
Context `{Environment} (L : Layout) (fuel : nat).

(** [getSetup()] *)
Definition getSetup : M SetupData :=
  reg.Set_ (setup L) 0 ;;
  reg.Set_ (flush L) (ENDPTFLUSH_FETB + 0) ;;
  reg.Set_ (flush L) (ENDPTFLUSH_FERB + 0) ;;
  q ← qh 0 OUT;
  mret (swap (QueueHead.Setup q)).

(** [getDescriptor(dev, setup)] *)
Definition getDescriptor (dev : Device) (s : SetupData) : M (option error) :=
  let bDescriptorType := Z.land (Value s) 0xff in
  let index := Z.shiftr (Value s) 8 in
  if bDescriptorType =? DEVICE then
    tx L fuel 0 false (trim (DeviceDescriptor dev) (Length s))
  else if bDescriptorType =? CONFIGURATION then
    let '(conf, err) := Configuration dev index in
    match err with
    | None => tx L fuel 0 false (trim conf (Length s))
    | Some e => mret (Some e)
    end
  else if bDescriptorType =? STRING then
    if Z.of_nat (length (Strings dev)) <? u16 (index + 1) then
      stall L 0 IN ;; mret (Some (ErrStringIndex index))
    else tx L fuel 0 false (trim (nth (Z.to_nat index) (Strings dev) []) (Length s))
  else if bDescriptorType =? DEVICE_QUALIFIER then
    tx L fuel 0 false (Qualifier dev)
  else if bDescriptorType =? HID_REPORT then
    tx L fuel 0 false (trim hid_report (Length s))
  else
    stall L 0 IN ;; mret (Some (ErrDescriptorType bDescriptorType)).

(** [addr := uint32((setup.Value<<8)&0xff00 | (setup.Value >> 8))], with
    the shift of a [uint16]. *)
Definition usb_address (v : Z) : Z := Z.lor (Z.land (u16 (Z.shiftl v 8)) 0xff00) (Z.shiftr v 8).

(** [handleStandardSetup(dev, setup)] *)
Definition handleStandardSetup (dev : Device) (s : SetupData) : M (Device * option error) :=
  let r := Request s in
  if r =? GET_STATUS then
    e ← tx L fuel 0 false [0; 0]; mret (dev, e)
  else if r =? CLEAR_FEATURE then
    if Value s =? ENDPOINT_HALT then
      let n := Z.land (Index s) 15 in
      let dir := Z.land (Index s) 0x80 / 0x80 in
      reset L n dir ;;
      e ← ack L fuel 0; mret (dev, e)
    else stall L 0 IN ;; mret (dev, None)
  else if r =? SET_ADDRESS then
    let a := usb_address (Value s) in
    reg.Set_ (addr L) DEVICEADDR_USBADRA ;;
    reg.SetN (addr L) DEVICEADDR_USBADR 0x7f a ;;
    e ← ack L fuel 0; mret (dev, e)
  else if r =? GET_DESCRIPTOR then
    e ← getDescriptor dev s; mret (dev, e)
  else if r =? GET_CONFIGURATION then
    e ← tx L fuel 0 false [ConfigurationValue dev]; mret (dev, e)
  else if r =? SET_CONFIGURATION then
    let dev := set_ConfigurationValue (u8 (Z.shiftr (Value s) 8)) dev in
    e ← ack L fuel 0; mret (dev, e)
  else if r =? GET_INTERFACE then
    e ← tx L fuel 0 false [AlternateSetting dev]; mret (dev, e)
  else if r =? SET_INTERFACE then
    let dev := set_AlternateSetting (u8 (Z.shiftr (Value s) 8)) dev in
    e ← ack L fuel 0; mret (dev, e)
  else if r =? SET_ETHERNET_PACKET_FILTER then
    e ← ack L fuel 0; mret (dev, e)
  else
    stall L 0 IN ;; mret (dev, Some (ErrRequest r)).

(** [handleClassSpecificSetup(dev, setup)] *)
Definition handleClassSpecificSetup (s : SetupData) : M (option error) :=
  if Request s =? HID_SET_IDLE then ack L fuel 0
  else stall L 0 IN ;; mret (Some (ErrRequest (Request s))).

(** The dispatch after the override: the handlers' errors are not kept,
    and [handleSetup] returns its own [err], still [nil]. *)
Definition dispatch (dev : Device) (s : SetupData) : M (Device * option error) :=
  if RequestType s =? 0x21 then
    _ ← handleClassSpecificSetup s; mret (dev, None)
  else
    '(dev', _) ← handleStandardSetup dev s; mret (dev', None).

(** [handleSetup(dev, setup)]: [None] for a nil [setup]. In the override
    branch [err] is a new variable of the block, returned explicitly. *)
Definition handleSetup (dev : Device) (setup : option SetupData) : M (Device * option error) :=
  match setup with
  | None => mret (dev, None)
  | Some s =>
      match SetupOverride dev with
      | None => dispatch dev s
      | Some cb =>
          let res := cb s in
          match res_err res with
          | Some e => stall L 0 IN ;; mret (dev, Some e)
          | None =>
              err ← (if negb (length (res_in res) =? 0)%nat then tx L fuel 0 false (res_in res)
                     else if res_ack res then ack L fuel 0
                     else mret None);
              if res_done res || bool_decide (err <> None) then mret (dev, err)
              else dispatch dev s
          end
      end
  end.
End Dispatch.

(** * Lemmas *)

Lemma trim_take buf w : 0 <= w -> trim buf w = take (Z.to_nat w) buf.
Proof.
  intros Hw. unfold trim. destruct (Z.ltb_spec w (Z.of_nat (length buf))); [reflexivity|].
  rewrite take_ge by lia. reflexivity.
Qed.

(** C14: Truncation property: [trim] sends [min (len buf) wLength] bytes, a
    prefix of [buf]; never more than [buf] holds. *)
Theorem trim_spec buf w :
  0 <= w ->
  length (trim buf w) = Nat.min (length buf) (Z.to_nat w) /\ trim buf w `prefix_of` buf.
Proof.
  intros Hw. rewrite trim_take by exact Hw. split.
  - rewrite length_take. lia.
  - apply prefix_take.
Qed.

(** C18: Round trip: the two byte swaps of a request's [wValue], the one of
    [getSetup] and the one [SET_ADDRESS] computes, cancel out, so the
    address written is the 16-bit value the host sent; and the configuration
    value [SET_CONFIGURATION] stores, the high byte of the swapped field, is
    the low byte the host sent. *)
Theorem swap16_address v :
  0 <= v < 2 ^ 16 ->
  usb_address (swap16 v) = v /\ swap16 (swap16 v) = v /\ u8 (Z.shiftr (swap16 v) 8) = Z.land v 0xff.
Proof.
  intros Hv. unfold usb_address, swap16, u16, u8.
  change 0xff with (Z.ones 8). change 0xff00 with (Z.shiftl (Z.ones 8) 8).
  split; [|split]; bits_solve.
Qed.

Lemma halt_dir i : 0 <= i -> Z.land i 0x80 / 0x80 = if Z.testbit i 7 then IN else OUT.
Proof.
  intros Hi. change 0x80 with (2 ^ 7) at 2. rewrite <- Z.shiftr_div_pow2 by lia.
  rewrite Z.shiftr_land. change (Z.shiftr 0x80 7) with (Z.ones 1).
  rewrite Z.land_ones by lia. rewrite Z.shiftr_div_pow2 by lia.
  rewrite <- Z.testbit_spec' by lia. destruct (Z.testbit i 7); reflexivity.
Qed.

Section DispatchLemmas.
Context `{Environment} (L : Layout) (fuel : nat).

(** C12: Scenario 2, error path: GET_DESCRIPTOR(STRING) with an index past
    the string table stalls endpoint 0 IN and reports [ErrStringIndex]. *)
Theorem getDescriptor_bad_string dev s st :
  Z.land (Value s) 0xff = STRING ->
  Z.of_nat (length (Strings dev)) < u16 (Z.shiftr (Value s) 8 + 1) ->
  getDescriptor L fuel dev s st = (stall L 0 IN ;; mret (Some (ErrStringIndex (Z.shiftr (Value s) 8)))) st.
Proof.
  intros Ht Hl. unfold getDescriptor. rewrite Ht. cbn -[stall tx].
  rewrite (proj2 (Z.ltb_lt _ _) Hl). reflexivity.
Qed.

(** C13: Scenario 1: GET_DESCRIPTOR(DEVICE) with a [wLength] at least the
    descriptor's length sends the whole descriptor through [tx], which on
    endpoint 0 adds the empty status-stage OUT transfer. *)
Theorem getDescriptor_device dev s st :
  Z.land (Value s) 0xff = DEVICE -> Z.of_nat (length (DeviceDescriptor dev)) <= Length s ->
  getDescriptor L fuel dev s st = tx L fuel 0 false (DeviceDescriptor dev) st.
Proof.
  intros Ht Hl. unfold getDescriptor. rewrite Ht. cbn -[stall tx trim].
  unfold trim. destruct (Z.ltb_spec (Length s) (Z.of_nat (length (DeviceDescriptor dev)))); [lia|].
  reflexivity.
Qed.

(** C19: GET_DESCRIPTOR(DEVICE_QUALIFIER) sends the whole qualifier whatever
    [wLength] asks, unlike every other descriptor type. *)
Theorem getDescriptor_qualifier dev s st :
  Z.land (Value s) 0xff = DEVICE_QUALIFIER ->
  getDescriptor L fuel dev s st = tx L fuel 0 false (Qualifier dev) st.
Proof. intros Ht. unfold getDescriptor. rewrite Ht. reflexivity. Qed.

(** C17: Scenario 5: CLEAR_FEATURE(ENDPOINT_HALT) resets the data toggle of
    endpoint [wIndex & 15] in the direction of bit 7 of [wIndex], then acks
    on endpoint 0. *)
Theorem clear_feature_halt dev s st :
  Request s = CLEAR_FEATURE -> Value s = ENDPOINT_HALT -> 0 <= Index s ->
  handleStandardSetup L fuel dev s st =
  (reset L (Z.land (Index s) 15) (if Z.testbit (Index s) 7 then IN else OUT) ;;
   e ← ack L fuel 0; mret (dev, e)) st.
Proof.
  intros Hr Hv Hi. unfold handleStandardSetup. rewrite Hr, Hv, halt_dir by exact Hi. reflexivity.
Qed.

(** C15: SET_CONFIGURATION stores the high byte of the (swapped) [wValue] as
    the device's configuration value, then acks on endpoint 0. *)
Theorem set_configuration dev s st :
  Request s = SET_CONFIGURATION ->
  handleStandardSetup L fuel dev s st =
  (e ← ack L fuel 0; mret (set_ConfigurationValue (u8 (Z.shiftr (Value s) 8)) dev, e)) st.
Proof. intros Hr. unfold handleStandardSetup. rewrite Hr. reflexivity. Qed.

(** C16: Invariant of the standard handler: every request other than
    SET_CONFIGURATION leaves the configuration value unchanged. *)
Theorem standard_keeps_config dev s st dev' e st' :
  Request s <> SET_CONFIGURATION ->
  handleStandardSetup L fuel dev s st = Ret (dev', e) st' ->
  ConfigurationValue dev' = ConfigurationValue dev.
Proof.
  intros Hr Hrun. unfold handleStandardSetup in Hrun. cbv zeta in Hrun.
  rewrite (proj2 (Z.eqb_neq _ _) Hr) in Hrun.
  repeat match type of Hrun with
  | context [if ?c then _ else _] => destruct c
  end; inv_run Hrun; simplify_eq; reflexivity.
Qed.

(** C11: Without an override callback, [handleSetup] returns no error, whatever
    the standard or class handler reported: their errors are dropped. *)
Theorem handleSetup_drops_errors dev s st dev' e st' :
  SetupOverride dev = None ->
  handleSetup L fuel dev (Some s) st = Ret (dev', e) st' -> e = None.
Proof.
  intros Ho Hrun. unfold handleSetup, dispatch in Hrun. rewrite Ho in Hrun.
  destruct (RequestType s =? 0x21); inv_run Hrun; simplify_eq.
  - reflexivity.
  - destruct a. inv_run Hrun. simplify_eq. reflexivity.
Qed.
End DispatchLemmas.

(** The endpoint number [idx & 15] is in 0..15, its control register
    [ENDPTCTRL0 + 4n] does not wrap when the register block lies below
    2^32 - 64, and it is one of ENDPTCTRL0..7 exactly when bit 3 of [idx]
    is clear. *)
Lemma ctrl_index_bounds (L : Layout) idx :
  0 <= epctrl L -> epctrl L + 60 < 2 ^ 32 -> 0 <= idx ->
  let n := Z.land idx 15 in
  0 <= n <= 15 /\ ep_ctrl L n = epctrl L + 4 * n /\
  (ep_ctrl L n <= epctrl L + 4 * (MAX_ENDPOINTS - 1) <-> Z.testbit idx 3 = false).
Proof.
  intros H0 H1 Hi n.
  assert (Hn : 0 <= n <= 15)
    by (change n with (Z.land idx (Z.ones 4)); rewrite Z.land_ones by lia; change (2 ^ 4) with 16;
        pose proof (Z.mod_pos_bound idx 16 ltac:(lia)); lia).
  assert (Hb : Z.testbit idx 3 = Z.testbit n 3)
    by (subst n; rewrite Z.land_spec; change (Z.testbit 15 3) with true; rewrite andb_true_r; reflexivity).
  clearbody n.
  assert (He : ep_ctrl L n = epctrl L + 4 * n)
    by (unfold ep_ctrl; rewrite (u32_small (4 * n)), u32_small by lia; reflexivity).
  split; [exact Hn|]. split; [exact He|]. rewrite He. unfold MAX_ENDPOINTS.
  rewrite Hb. split.
  - intros Hle. apply Z.testbit_false; [lia|]. change (2 ^ 3) with 8. rewrite Z.div_small by lia. reflexivity.
  - intros Ht. apply Z.testbit_false in Ht; [|lia]. change (2 ^ 3) with 8 in Ht.
    destruct (Z.ltb_spec n 8); [lia|]. assert (Hd : n / 8 = 1) by (Z.div_mod_to_equations; lia).
    rewrite Hd in Ht. discriminate.
Qed.

Section ClearFeature.
Context `{Environment} (L : Layout) (fuel : nat).

(** C40: CLEAR_FEATURE(ENDPOINT_HALT) for an endpoint [n = wIndex & 15]
    other than 0 first sets the data-toggle reset bit (TXR for IN, RXR for
    OUT, after bit 7 of [wIndex]) of the register at [ENDPTCTRL0 + 4n],
    then acks; that register is one of the [MAX_ENDPOINTS] registers
    ENDPTCTRL0..7 exactly when bit 3 of [wIndex] is clear, so a host that
    sets it makes the driver write past ENDPTCTRL7. *)
Theorem clear_feature_ctrl_bounds dev s st :
  Request s = CLEAR_FEATURE -> Value s = ENDPOINT_HALT -> 0 <= Index s -> Z.land (Index s) 15 <> 0 ->
  0 <= epctrl L -> epctrl L + 60 < 2 ^ 32 ->
  let a := epctrl L + 4 * Z.land (Index s) 15 in
  handleStandardSetup L fuel dev s st =
    (reg.Set_ a (if Z.testbit (Index s) 7 then ENDPTCTRL_TXR else ENDPTCTRL_RXR) ;;
     e ← ack L fuel 0; mret (dev, e)) st /\
  (a <= epctrl L + 4 * (MAX_ENDPOINTS - 1) <-> Z.testbit (Index s) 3 = false).
Proof.
  intros Hr Hv Hi Hn H0 H1 a. subst a.
  destruct (ctrl_index_bounds L (Index s) H0 H1 Hi) as (Hb & He & Hiff). cbv zeta in He, Hiff.
  rewrite <- He. split; [|exact Hiff].
  unfold handleStandardSetup. rewrite Hr, Hv, halt_dir by exact Hi.
  unfold reset. rewrite (proj2 (Z.eqb_neq _ 0) Hn).
  destruct (Z.testbit (Index s) 7); reflexivity.
Qed.
End ClearFeature.
