(* ===== verification/Hid.v ===== *)
(** * The HID keyboard descriptors of package [usb]

    The HID class descriptor of the keyboard example (src/unnamed/part_003,
    lines 63-116): the [HIDDescriptor] struct with its keyboard defaults,
    its little-endian wire form [Bytes], and the report descriptor
    [CoolermasterTKLSReportDescriptor]. [GET_DESCRIPTOR(HID_REPORT)] of
    setup.go sends its own copy of the report descriptor, decoded from a
    hex literal ([Setup.hid_report]); the theorems here show that the two
    agree, and that the class descriptor announces their length. *)

From stdpp Require Import base list.
From S2P Require Import Prelude QueueHead Setup.
Open Scope Z_scope.

Module HID.

Definition HID_DESCRIPTOR_LENGTH : Z := 0x09.
Definition KEYBOARD_INTERFACE : Z := 0x21.

(** [HIDDescriptor]: seven fields, [uint8] but for the two [uint16]. *)
Record HIDDescriptor := mkHIDDescriptor {
  Length : Z;
  DescriptorType : Z;
  bcdHID : Z;
  CountryCode : Z;
  NumDescriptors : Z;
  ReportDescriptorType : Z;
  ReportDescriptorLength : Z
}.

(** The widths of the Go fields. *)
Definition wf (d : HIDDescriptor) : Prop :=
  0 <= Length d < 2 ^ 8 /\ 0 <= DescriptorType d < 2 ^ 8 /\ 0 <= bcdHID d < 2 ^ 16 /\
  0 <= CountryCode d < 2 ^ 8 /\ 0 <= NumDescriptors d < 2 ^ 8 /\
  0 <= ReportDescriptorType d < 2 ^ 8 /\ 0 <= ReportDescriptorLength d < 2 ^ 16.

(** [d.SetKeyboardDefaults()]: every field is assigned, so the result does
    not depend on [d]. *)
Definition SetKeyboardDefaults (d : HIDDescriptor) : HIDDescriptor := {|
  Length := HID_DESCRIPTOR_LENGTH;
  DescriptorType := KEYBOARD_INTERFACE;
  bcdHID := 0x101;
  CountryCode := 33;
  NumDescriptors := 1;
  ReportDescriptorType := 0x22;
  ReportDescriptorLength := 0x40
|}.

(** [d.Bytes()]: [binary.Write(buf, binary.LittleEndian, d)], the fields in
    declaration order, without padding. *)
Definition Bytes (d : HIDDescriptor) : list Z :=
  le_bytes 1 (Length d) ++ le_bytes 1 (DescriptorType d) ++ le_bytes 2 (bcdHID d) ++
  le_bytes 1 (CountryCode d) ++ le_bytes 1 (NumDescriptors d) ++
  le_bytes 1 (ReportDescriptorType d) ++ le_bytes 2 (ReportDescriptorLength d).

(** [CoolermasterTKLSReportDescriptor()] *)
Definition CoolermasterTKLSReportDescriptor : list Z :=
  [0x05; 0x01; 0x09; 0x06; 0xa1; 0x01; 0x05; 0x07; 0x19; 0xe0; 0x29; 0xe7;
   0x15; 0x00; 0x25; 0x01; 0x75; 0x01; 0x95; 0x08; 0x81; 0x02; 0x95; 0x01;
   0x75; 0x08; 0x81; 0x03; 0x95; 0x03; 0x75; 0x01; 0x05; 0x08; 0x19; 0x01;
   0x29; 0x03; 0x91; 0x02; 0x95; 0x01; 0x75; 0x05; 0x91; 0x03; 0x95; 0x06;
   0x75; 0x08; 0x15; 0x00; 0x26; 0xa4; 0x00; 0x05; 0x07; 0x19; 0x00; 0x29;
   0xa4; 0x81; 0x00; 0xc0].

(** * Lemmas *)

Lemma length_Bytes d : length (Bytes d) = 9%nat.
Proof. unfold Bytes. rewrite !length_app, !length_le_bytes. reflexivity. Qed.

(** The keyboard class descriptor is consistent with what the driver
    sends: its [Length] is the length of its own wire form, and its
    [ReportDescriptorLength] is the length of the report descriptor, which
    is the very byte string [GET_DESCRIPTOR(HID_REPORT)] decodes from its
    hex literal. *)
Theorem keyboard_descriptor_consistent d :
  let k := SetKeyboardDefaults d in
  Length k = Z.of_nat (length (Bytes k)) /\
  ReportDescriptorLength k = Z.of_nat (length CoolermasterTKLSReportDescriptor) /\
  hid_report = CoolermasterTKLSReportDescriptor /\
  snd (hex_decode HID_REPORT_HEX) = true.
Proof.
  cbv zeta. rewrite length_Bytes. split; [reflexivity|].
  split; [reflexivity|]. split; vm_compute; reflexivity.
Qed.

End HID.
