(* ===== verification/Dcp.v ===== *)
(** * The DCP key RAM and key derivation (package [dcp])

    The part of the NXP Data Co-Processor driver in src/unnamed/part_004
    (lines 470-590): [setKeyData], which loads one of the four 128-bit
    slots of the DCP key RAM either from a key in memory or, word by word,
    from a DMA buffer, [SetKey], and [DeriveKey], which has the DCP encrypt
    a diversifier with the OTP master key and either returns the result or
    moves it into a key slot.

    - The register accesses of [setKeyData] are its observable effect: the
      definition returns them, in program order, as a list of [bus_op]s.
      The DCP's key RAM is given by [keyram_apply], a test double of the
      hardware (as [Sim.v] is for the USB controller): a write to
      [DCP_KEY] selects a slot and subword, a write to [DCP_KEYDATA] fills
      the selected word. [mux.Lock] and the deferred [mux.Unlock] are
      events of the same list ([MuxLock], [MuxUnlock]); the theorems show
      every key-RAM access lies between them, and that the error returns
      never take the lock. A panic inside the loop (after which Go would
      still run the deferred unlock) is the result [Panicked].
    - [init] of the package ([dcp_init]) initialises the allocator of
      [DeriveKeyMemory] through [region_Init] of the class [DcpHw].
    - A Go panic (a slice bound) is the result [Panicked]; a loop that runs
      out of fuel is [NoFuel], which the termination theorem excludes.
    - A key is a Go slice ([slice]): its backing array up to its
      capacity and its length. The slice [key[off:off+4]] panics when
      [off+4] exceeds the capacity, and reads the backing array, past the
      length if the capacity allows. *)

From stdpp Require Import base list.
From S2P Require Import Prelude QueueHead.
Open Scope Z_scope.

(** ** Constants of the [dcp] and [imx6] packages (outside src/) *)

Definition DCP_BASE : Z := 0x02280000.
Definition DCP_KEY : Z := DCP_BASE + 0x60.
Definition KEY_INDEX : Z := 4.
Definition KEY_SUBWORD : Z := 0.
Definition DCP_KEYDATA : Z := DCP_BASE + 0x70.
(** [aes.BlockSize] *)
Definition BlockSize : Z := 16.

(** ** Results and register accesses *)

Inductive res (A : Type) : Type :=
| Ok (a : A)
| Panicked
| NoFuel.
Arguments Ok {A} a.
Arguments Panicked {A}.
Arguments NoFuel {A}.

Definition res_bind {A B} (r : res A) (k : A -> res B) : res B :=
  match r with Ok a => k a | Panicked => Panicked | NoFuel => NoFuel end.

Declare Scope dcp_scope.
Notation "'let!' x := r 'in' k" := (res_bind r (fun x => k))
  (at level 10, x name, r at level 100, k at level 200) : dcp_scope.
Open Scope dcp_scope.

(** [reg.Write(addr, val)] and [reg.Move(dst, src)], the second copying
    the 32-bit word at [src] into the register [dst]; [mux.Lock()] and
    [mux.Unlock()] of the package's mutex, in order with the accesses. *)
Inductive bus_op : Type :=
| BusWrite (a v : Z)
| BusMove (dst src : Z)
| MuxLock
| MuxUnlock.

Definition is_mux (op : bus_op) : bool :=
  match op with MuxLock | MuxUnlock => true | _ => false end.

(** The errors of the [dcp] package. *)
Inductive dcp_error : Type :=
| ErrIVSize        (** "invalid IV size" *)
| ErrKeyIndex      (** "key index must be between 0 and 3" *)
| ErrKeySize       (** "invalid key size" *)
| ErrCmd (e : Z).  (** an error of [cmd] *)

(** ** [setKeyData] *)

(** A Go [[]byte]: [sarr] is the backing array from the slice's first
    element to the end of its capacity, [slen] the length:
    [len(s) = slen s] and [cap(s) = length (sarr s)]. *)
Record slice := mkSlice { sarr : list Z; slen : nat }.

(** A slice made from its elements (a literal, [make], a conversion):
    its capacity is its length. *)
Definition slice_of (l : list Z) : slice := mkSlice l (length l).

(** [key[off:off+4]]: Go bounds the high index by the capacity, not the
    length, and panics past it. *)
Definition slice4 (key : slice) (off : Z) : res (list Z) :=
  if (0 <=? off) && (off + 4 <=? Z.of_nat (length (sarr key))) then Ok (take 4 (drop (Z.to_nat off) (sarr key)))
  else Panicked.

(** The loop [for subword < 4 { ... subword++ }]; [fuel] bounds the
    iterations. *)
Fixpoint key_loop (fuel : nat) (keyLocation subword : Z) (key : option slice) (addr : Z)
  : res (list bus_op) :=
  match fuel with
  | O => NoFuel
  | S fuel' =>
      if subword <? 4 then
        let off := u32 (subword * 4) in
        let keyLocation := bits.SetN keyLocation KEY_SUBWORD 3 subword in
        let sel := BusWrite DCP_KEY keyLocation in
        let! data := match key with
                     | Some k => let! w := slice4 k off in Ok (BusWrite DCP_KEYDATA (le_value w))
                     | None => Ok (BusMove DCP_KEYDATA (u32 (addr + off)))
                     end in
        let! rest := key_loop fuel' keyLocation (u32 (subword + 1)) key addr in
        Ok (sel :: data :: rest)
      else Ok []
  end.

(** [setKeyData(index, key, addr)]: [key] is [None] for a nil slice, the
    result is the register accesses and [err]. The loop runs with fuel 5,
    its condition being tested five times; [key_loop_fuel] shows that more
    fuel changes nothing. *)
Definition setKeyData (index : Z) (key : option slice) (addr : Z) : res (list bus_op * option dcp_error) :=
  if (index <? 0) || (3 <? index) then Ok ([], Some ErrKeyIndex)
  else if match key with Some k => BlockSize <? Z.of_nat (slen k) | None => false end
  then Ok ([], Some ErrKeySize)
  else
    let keyLocation := bits.SetN 0 KEY_INDEX 3 (u32 index) in
    let! ops := key_loop 5 keyLocation 0 key addr in
    Ok (MuxLock :: ops ++ [MuxUnlock], None).

(** [SetKey(index, key)] *)
Definition SetKey (index : Z) (key : option slice) : res (list bus_op * option dcp_error) :=
  setKeyData index key 0.

(** ** The key RAM of the DCP (a test double of the hardware) *)

Record KeyRam := mkKeyRam {
  key_sel : Z;                  (** the value of [DCP_KEY] *)
  key_words : Z -> Z -> Z       (** slot, subword |-> word *)
}.

Definition keyram_write (a v : Z) (k : KeyRam) : KeyRam :=
  if a =? DCP_KEY then mkKeyRam v (key_words k)
  else if a =? DCP_KEYDATA then
    let i := bits.Get (key_sel k) KEY_INDEX 3 in
    let w := bits.Get (key_sel k) KEY_SUBWORD 3 in
    mkKeyRam (key_sel k) (fun i' w' => if (i' =? i) && (w' =? w) then v else key_words k i' w')
  else k.

(** One access; [mem] gives the word a [reg.Move] reads. The mutex does
    not touch the key RAM. *)
Definition keyram_op (mem : Z -> Z) (k : KeyRam) (op : bus_op) : KeyRam :=
  match op with
  | BusWrite a v => keyram_write a v k
  | BusMove d s => keyram_write d (mem s) k
  | MuxLock | MuxUnlock => k
  end.

(** The accesses [ops] applied in order. *)
Definition keyram_apply (mem : Z -> Z) (ops : list bus_op) (k : KeyRam) : KeyRam :=
  fold_left (keyram_op mem) ops k.

(** The accesses are one critical section of [mux]: the lock first, the
    unlock last, and neither in between. *)
Definition critical_section (ops : list bus_op) : Prop :=
  exists body, ops = MuxLock :: body ++ [MuxUnlock] /\ Forall (fun op => is_mux op = false) body.

(** The word the driver loads into subword [w]: the little-endian word at
    offset [4w] of [key], or the word at [addr + 4w] of the DMA buffer. *)
Definition key_word (mem : Z -> Z) (key : option slice) (addr w : Z) : Z :=
  match key with
  | Some k => le_value (take 4 (drop (Z.to_nat (4 * w)) (sarr k)))
  | None => mem (u32 (addr + 4 * w))
  end.

(** ** [DeriveKey] *)

(** A [dma.Region]: where its allocations lie. *)
Record Region := mkRegion { Start : Z; Size : Z }.

(** [imx6.IRAMStart], [imx6.IRAMSize] *)
Definition IRAMStart : Z := 0x00900000.
Definition IRAMSize : Z := 0x20000.

(** [DeriveKeyMemory]: the whole of the On-Chip RAM. *)
Definition DeriveKeyMemory : Region := mkRegion IRAMStart IRAMSize.

(** The region [DeriveKey] allocates from: the default one, unless a key
    slot is the target and the default region does not start inside the
    iRAM. *)
Definition key_region (index : Z) (region : Region) : Region :=
  if 0 <=? index then
    if negb ((IRAMStart <? Start region) && (Start region <? IRAMStart + IRAMSize))
    then DeriveKeyMemory else region
  else region.

Definition DCP_CTRL0_CIPHER_ENCRYPT : Z := 8.
Definition DCP_CTRL0_OTP_KEY : Z := 10.
Definition DCP_CTRL1_KEY_SELECT : Z := 8.
Definition KEY_SELECT_UNIQUE_KEY : Z := 0xfe.

(** The [WorkPacket] of a DCP command (package [dcp], outside src/). *)
Record WorkPacket := mkWorkPacket {
  NextCmdAddr : Z; Control0 : Z; Control1 : Z;
  SourceBufferAddress : Z; DestinationBufferAddress : Z;
  BufferSize : Z; PayloadPointer : Z; Status : Z
}.

Definition empty_packet : WorkPacket := mkWorkPacket 0 0 0 0 0 0 0 0.

(** What [DeriveKey] uses of the rest of the system: [pad],
    [SetCipherDefaults] and [Bytes] of the [dcp] package, the DMA regions,
    and [cmd], which hands a packet to the DCP and waits for it. The state
    [hw_state] is that of the DMA memory and the DCP. *)
Class DcpHw := {
  hw_state : Type;
  pad : list Z -> bool -> list Z;
  SetCipherDefaults : WorkPacket -> WorkPacket;
  packet_Bytes : WorkPacket -> list Z;
  dma_Default : hw_state -> Region;
  region_Alloc : Region -> list Z -> Z -> hw_state -> Z * hw_state;
  region_Free : Region -> Z -> hw_state -> hw_state;
  region_Init : Region -> hw_state -> hw_state;
  region_Read : Region -> Z -> nat -> hw_state -> list Z;
  cmd : Z -> Z -> hw_state -> option Z * hw_state
}.

Section Derive.
Context `{DcpHw}.

(** [init()] of the package: [DeriveKeyMemory.Init()], which sets up the
    allocator of the iRAM region. *)
Definition dcp_init (s : hw_state) : hw_state := region_Init DeriveKeyMemory s.

(** The packet of lines 513-521: encrypt with the device's unique key,
    over [len(key)] bytes. *)
Definition derive_packet (key : list Z) : WorkPacket :=
  let pkt := SetCipherDefaults empty_packet in
  mkWorkPacket (NextCmdAddr pkt)
    (u32 (Z.lor (u32 (Z.lor (Control0 pkt) (Z.shiftl 1 DCP_CTRL0_CIPHER_ENCRYPT))) (Z.shiftl 1 DCP_CTRL0_OTP_KEY)))
    (u32 (Z.lor (Control1 pkt) (Z.shiftl KEY_SELECT_UNIQUE_KEY DCP_CTRL1_KEY_SELECT)))
    (SourceBufferAddress pkt) (DestinationBufferAddress pkt)
    (u32 (Z.of_nat (length key))) (PayloadPointer pkt) (Status pkt).

(** [pkt.SourceBufferAddress = src; pkt.DestinationBufferAddress = src]:
    the encryption is in place. *)
Definition with_buffers (pkt : WorkPacket) (src : Z) : WorkPacket :=
  mkWorkPacket (NextCmdAddr pkt) (Control0 pkt) (Control1 pkt) src src
    (BufferSize pkt) (PayloadPointer pkt) (Status pkt).

Definition with_payload (pkt : WorkPacket) (p : Z) : WorkPacket :=
  mkWorkPacket (NextCmdAddr pkt) (Control0 pkt) (Control1 pkt) (SourceBufferAddress pkt)
    (DestinationBufferAddress pkt) (BufferSize pkt) p (Status pkt).

(** [DeriveKey(diversifier, iv, index)]: the result is [key] ([None] for
    nil), the register accesses of [setKeyData] and [err]; the deferred
    [region.Free] calls run last registered first. *)
Definition DeriveKey (diversifier iv : list Z) (index : Z) (s : hw_state)
  : res ((option (list Z) * list bus_op * option dcp_error) * hw_state) :=
  if negb (Z.of_nat (length iv) =? BlockSize) then Ok ((None, [], Some ErrIVSize), s)
  else
    let key := pad diversifier false in
    let region := key_region index (dma_Default s) in
    let pkt := derive_packet key in
    let '(src, s) := region_Alloc region key BlockSize s in
    let pkt := with_buffers pkt src in
    let '(payload, s) := region_Alloc region iv 0 s in
    let pkt := with_payload pkt payload in
    let '(ptr, s) := region_Alloc region (packet_Bytes pkt) 0 s in
    let '(err, s) := cmd ptr 1 s in
    let free s := region_Free region src (region_Free region payload (region_Free region ptr s)) in
    match err with
    | Some e => Ok ((None, [], Some (ErrCmd e)), free s)
    | None =>
        if 0 <=? index then
          let! r := setKeyData index None src in
          Ok ((Some key, fst r, snd r), free s)
        else Ok ((Some (region_Read region src (length key) s), [], None), free s)
    end.
End Derive.

(** A key [setKeyData] accepts and can slice: at most [BlockSize] bytes
    long, with room for a block in its capacity; or a DMA buffer. *)
Definition key_fits (key : option slice) : Prop :=
  match key with Some k => (slen k <= 16)%nat /\ (16 <= length (sarr k))%nat | None => True end.

(** * Lemmas *)

Lemma field3 (z : Z) : 3 = Z.ones 2.
Proof. reflexivity. Qed.

(** The slot field of [keyLocation] survives the subword writes. *)
Lemma keyLocation_index kl sw :
  0 <= sw < 4 -> bits.Get (bits.SetN kl KEY_SUBWORD 3 sw) KEY_INDEX 3 = bits.Get kl KEY_INDEX 3.
Proof.
  intros Hsw. unfold KEY_SUBWORD, KEY_INDEX. rewrite (field3 0).
  apply Get_SetN_other; lia.
Qed.

Lemma keyLocation_subword kl sw :
  0 <= sw < 4 -> bits.Get (bits.SetN kl KEY_SUBWORD 3 sw) KEY_SUBWORD 3 = sw.
Proof.
  intros Hsw. unfold KEY_SUBWORD. rewrite (field3 0).
  apply Get_SetN_same; [lia | lia | lia | change (2 ^ 2) with 4; lia].
Qed.

Lemma keyLocation_init index :
  0 <= index <= 3 -> bits.Get (bits.SetN 0 KEY_INDEX 3 (u32 index)) KEY_INDEX 3 = index.
Proof.
  intros Hi. rewrite u32_small by lia. unfold KEY_INDEX. rewrite (field3 0).
  apply Get_SetN_same; [lia | lia | lia | change (2 ^ 2) with 4; lia].
Qed.

Lemma keyram_apply_cons mem op ops k :
  keyram_apply mem (op :: ops) k = keyram_apply mem ops (keyram_op mem k op).
Proof. reflexivity. Qed.

Lemma keyram_apply_critical mem body k :
  keyram_apply mem (MuxLock :: body ++ [MuxUnlock]) k = keyram_apply mem body k.
Proof. unfold keyram_apply. cbn [fold_left keyram_op]. rewrite fold_left_app. reflexivity. Qed.

(** The loop makes register accesses only; the lock is [setKeyData]'s. *)
Lemma key_loop_no_mux fuel kl sw key addr ops :
  key_loop fuel kl sw key addr = Ok ops -> Forall (fun op => is_mux op = false) ops.
Proof.
  revert kl sw ops. induction fuel as [|fuel IH]; intros kl sw ops H; cbn [key_loop] in H; [discriminate|].
  destruct (sw <? 4); [|injection H as <-; constructor].
  destruct (match key with Some k => _ | None => _ end) as [d| |] eqn:Ed; cbn in H; try discriminate.
  destruct (key_loop fuel _ _ key addr) as [rest| |] eqn:E; cbn in H; try discriminate.
  injection H as <-. constructor; [reflexivity|]. constructor; [|eapply IH; exact E].
  destruct key as [k|]; [destruct (slice4 k _); cbn in Ed; try discriminate|]; injection Ed as <-; reflexivity.
Qed.

Section Loop.
Variables (index : Z) (key : option slice) (addr : Z).
Hypothesis Hkey : key_fits key.

(** One iteration loads subword [sw] of slot [index]. *)
Lemma key_loop_step fuel kl sw :
  0 <= sw < 4 -> bits.Get kl KEY_INDEX 3 = index ->
  exists d, key_loop (S fuel) kl sw key addr =
    res_bind (key_loop fuel (bits.SetN kl KEY_SUBWORD 3 sw) (sw + 1) key addr)
      (fun rest => Ok (BusWrite DCP_KEY (bits.SetN kl KEY_SUBWORD 3 sw) :: d :: rest)) /\
    (forall mem k, keyram_write DCP_KEYDATA
      (match d with BusWrite _ v => v | BusMove _ s => mem s | _ => 0 end)
      (keyram_write DCP_KEY (bits.SetN kl KEY_SUBWORD 3 sw) k) =
    mkKeyRam (bits.SetN kl KEY_SUBWORD 3 sw)
      (fun i' w' => if (i' =? index) && (w' =? sw) then key_word mem key addr sw else key_words k i' w')) /\
    match d with BusWrite a _ => a = DCP_KEYDATA | BusMove a _ => a = DCP_KEYDATA | _ => False end.
Proof.
  intros Hsw Hi. cbn [key_loop]. rewrite (proj2 (Z.ltb_lt _ _) (proj2 Hsw)).
  rewrite (u32_small (sw * 4)) by lia. rewrite (u32_small (sw + 1)) by lia.
  assert (Hw : forall v k, keyram_write DCP_KEYDATA v (keyram_write DCP_KEY (bits.SetN kl KEY_SUBWORD 3 sw) k) =
    mkKeyRam (bits.SetN kl KEY_SUBWORD 3 sw) (fun i' w' => if (i' =? index) && (w' =? sw) then v else key_words k i' w')).
  { intros v k. unfold keyram_write. rewrite Z.eqb_refl.
    replace (DCP_KEYDATA =? DCP_KEY) with false by reflexivity. cbn [key_sel key_words].
    rewrite keyLocation_index, keyLocation_subword, Hi by exact Hsw. reflexivity. }
  destruct key as [k|]; cbn [key_fits] in Hkey.
  - unfold slice4. replace ((0 <=? sw * 4) && (sw * 4 + 4 <=? Z.of_nat (length (sarr k)))) with true
      by (symmetry; apply andb_true_intro; split; apply Z.leb_le; lia).
    eexists. split; [reflexivity|]. split; [|reflexivity]. intros rd kr. rewrite Hw. unfold key_word.
    replace (4 * sw) with (sw * 4) by lia. reflexivity.
  - eexists. split; [reflexivity|]. split; [|reflexivity]. intros rd kr. rewrite Hw. unfold key_word.
    replace (4 * sw) with (sw * 4) by lia. reflexivity.
Qed.
End Loop.

Section LoopSpec.
Variables (index : Z) (key : option slice) (addr : Z).
Hypothesis Hkey : key_fits key.

(** The loop from [subword = 4 - n] loads subwords [4 - n .. 3] of slot
    [index] and leaves every other word of the key RAM alone. *)
Lemma key_loop_spec (n : nat) fuel kl :
  (n <= 4)%nat -> (n < fuel)%nat -> bits.Get kl KEY_INDEX 3 = index ->
  exists ops, key_loop fuel kl (4 - Z.of_nat n) key addr = Ok ops /\
    forall rd kr i w, key_words (keyram_apply rd ops kr) i w =
      if (i =? index) && (4 - Z.of_nat n <=? w) && (w <? 4) then key_word rd key addr w
      else key_words kr i w.
Proof.
  revert fuel kl. induction n as [|n IH]; intros fuel kl Hn Hf Hi;
    (destruct fuel as [|fuel]; [lia|]).
  - exists []. cbn [key_loop]. split; [reflexivity|]. intros rd kr i w. cbn. zcases; reflexivity.
  - destruct (key_loop_step index key addr Hkey fuel kl (4 - Z.of_nat (S n))) as (d & Heq & Hw & Hd);
      [lia | exact Hi |].
    replace (4 - Z.of_nat (S n) + 1) with (4 - Z.of_nat n) in Heq by lia.
    destruct (IH fuel (bits.SetN kl KEY_SUBWORD 3 (4 - Z.of_nat (S n)))) as (ops & Hops & Hspec);
      [lia | lia | rewrite keyLocation_index by lia; exact Hi |].
    rewrite Heq, Hops. eexists. split; [reflexivity|]. intros rd kr i w.
    rewrite !keyram_apply_cons, Hspec.
    replace (keyram_op rd _ d)
      with (keyram_write DCP_KEYDATA (match d with BusWrite _ v => v | BusMove _ s => rd s | _ => 0 end)
              (keyram_write DCP_KEY (bits.SetN kl KEY_SUBWORD 3 (4 - Z.of_nat (S n))) kr))
      by (destruct d; try contradiction; subst; reflexivity).
    rewrite Hw. cbn [key_words]. zcases; subst; reflexivity.
Qed.
End LoopSpec.

(** The loop's result does not depend on the fuel beyond its five tests,
    and it never runs out of it. *)
Lemma key_loop_fuel_gen (n : nat) f1 f2 kl key addr :
  (n <= 4)%nat -> (n < f1)%nat -> (n < f2)%nat ->
  key_loop f1 kl (4 - Z.of_nat n) key addr = key_loop f2 kl (4 - Z.of_nat n) key addr /\
  key_loop f1 kl (4 - Z.of_nat n) key addr <> NoFuel.
Proof.
  revert f1 f2 kl. induction n as [|n IH]; intros f1 f2 kl Hn H1 H2;
    (destruct f1 as [|f1]; [lia|]); (destruct f2 as [|f2]; [lia|]); cbn [key_loop].
  - split; [reflexivity | discriminate].
  - rewrite (proj2 (Z.ltb_lt _ _)) by lia. rewrite (u32_small (_ + 1)) by lia.
    replace (4 - Z.of_nat (S n) + 1) with (4 - Z.of_nat n) by lia.
    destruct (IH f1 f2 (bits.SetN kl KEY_SUBWORD 3 (4 - Z.of_nat (S n)))) as [E Hnf]; [lia..|].
    rewrite E in *. destruct key as [k|]; cbn [res_bind].
    + unfold slice4. destruct (_ && _); cbn [res_bind]; [|split; [reflexivity | discriminate]].
      destruct (key_loop f2 _ _ _ _); cbn; split; solve [reflexivity | discriminate | contradiction].
    + destruct (key_loop f2 _ _ _ _); cbn; split; solve [reflexivity | discriminate | contradiction].
Qed.

Lemma slice4_short k sw :
  0 <= sw -> Z.of_nat (length (sarr k)) < sw * 4 + 4 -> slice4 k (sw * 4) = Panicked.
Proof.
  intros H0 Hl. unfold slice4. replace (sw * 4 + 4 <=? Z.of_nat (length (sarr k))) with false
    by (symmetry; apply Z.leb_gt; lia). rewrite andb_false_r. reflexivity.
Qed.

(** A key shorter than a block makes some slice [key[off:off+4]] run past
    its end. *)
Lemma key_loop_short (n : nat) fuel kl k addr :
  (1 <= n <= 4)%nat -> (n < fuel)%nat -> (length (sarr k) < 16)%nat ->
  key_loop fuel kl (4 - Z.of_nat n) (Some k) addr = Panicked.
Proof.
  revert fuel kl. induction n as [|n IH]; intros fuel kl Hn Hf Hl; [lia|].
  destruct fuel as [|fuel]; [lia|]. cbn [key_loop].
  rewrite (proj2 (Z.ltb_lt _ _)) by lia. rewrite (u32_small (_ * 4)) by lia.
  destruct (Z.leb_spec ((4 - Z.of_nat (S n)) * 4 + 4) (Z.of_nat (length (sarr k)))) as [Hin|Hout].
  - assert (n <> 0)%nat by lia. rewrite (u32_small (_ + 1)) by lia.
    replace (4 - Z.of_nat (S n) + 1) with (4 - Z.of_nat n) by lia.
    unfold slice4 at 1. rewrite (proj2 (Z.leb_le _ _) Hin), (proj2 (Z.leb_le 0 _)) by lia. cbn [andb res_bind].
    rewrite IH by lia. reflexivity.
  - rewrite slice4_short by lia. reflexivity.
Qed.

Lemma setKeyData_slot index key addr :
  0 <= index <= 3 -> key_fits key ->
  exists ops, setKeyData index key addr = Ok (ops, None) /\ critical_section ops /\
    forall rd kr i w, key_words (keyram_apply rd ops kr) i w =
      if (i =? index) && (0 <=? w) && (w <? 4) then key_word rd key addr w else key_words kr i w.
Proof.
  intros Hi Hk. unfold setKeyData.
  replace ((index <? 0) || (3 <? index)) with false by (symmetry; apply orb_false_intro; apply Z.ltb_ge; lia).
  replace (match key with Some k => BlockSize <? Z.of_nat (slen k) | None => false end) with false
    by (destruct key; cbn in Hk; [symmetry; apply Z.ltb_ge; unfold BlockSize; lia | reflexivity]).
  destruct (key_loop_spec index key addr Hk 4 5 (bits.SetN 0 KEY_INDEX 3 (u32 index)))
    as (ops & Hops & Hspec); [lia | lia | apply keyLocation_init; lia |].
  change (4 - Z.of_nat 4) with 0 in Hops, Hspec. rewrite Hops. eexists. split; [reflexivity|].
  split; [exists ops; split; [reflexivity | exact (key_loop_no_mux _ _ _ _ _ _ Hops)]|].
  intros rd kr i w. rewrite keyram_apply_critical. apply Hspec.
Qed.

(** C22: [setKeyData] with a valid slot and a key of one block (or a DMA
    buffer) returns no error; its register accesses, all made holding
    [mux], load the four words of slot [index] with the key's words, in
    order, leaving every other word of the key RAM as it was. *)
Theorem setKeyData_loads_slot index key addr :
  0 <= index <= 3 -> key_fits key ->
  exists ops, setKeyData index key addr = Ok (ops, None) /\ critical_section ops /\
    forall rd kr i w, key_words (keyram_apply rd ops kr) i w =
      if (i =? index) && (0 <=? w) && (w <? 4) then key_word rd key addr w else key_words kr i w.
Proof. apply setKeyData_slot. Qed.

(** C23: Round trip: after [SetKey(index, key)] with a key of one block,
    the four words of slot [index], written back little-endian, are the
    key. *)
Theorem SetKey_roundtrip index k :
  0 <= index <= 3 -> length k = 16%nat -> bytes_ok k ->
  exists ops, SetKey index (Some (slice_of k)) = Ok (ops, None) /\
    forall rd kr, concat (map (fun w => le_bytes 4 (key_words (keyram_apply rd ops kr) index w)) [0; 1; 2; 3]) = k.
Proof.
  intros Hi Hl Hb. destruct (setKeyData_slot index (Some (slice_of k)) 0) as (ops & Hops & _ & Hspec); [exact Hi | cbn; lia |].
  exists ops. split; [exact Hops|]. intros rd kr. cbn [map concat]. rewrite !Hspec, Z.eqb_refl. cbn -[le_bytes take drop].
  do 16 (destruct k as [|? k]; [discriminate|]). destruct k; [|discriminate].
  unfold bytes_ok in Hb. repeat match goal with H : Forall _ (_ :: _) |- _ => apply Forall_cons in H as [? H] end.
  change (Z.to_nat (4 * 0)) with 0%nat. change (Z.to_nat (4 * 1)) with 4%nat.
  change (Z.to_nat (4 * 2)) with 8%nat. change (Z.to_nat (4 * 3)) with 12%nat. cbn [take drop].
  rewrite !(le_bytes_value_len 4 [_; _; _; _]) by (reflexivity || (repeat (constructor; [assumption|]); constructor)). reflexivity.
Qed.

(** C27: Error paths: a slot outside 0..3, or a key longer than a block,
    make [setKeyData] return its error before any register access. *)
Theorem setKeyData_rejects index key addr :
  ((index < 0 \/ 3 < index) -> setKeyData index key addr = Ok ([], Some ErrKeyIndex)) /\
  (0 <= index <= 3 -> (exists k, key = Some k /\ (16 < slen k)%nat) ->
   setKeyData index key addr = Ok ([], Some ErrKeySize)).
Proof.
  unfold setKeyData. split.
  - intros Hi. replace ((index <? 0) || (3 <? index)) with true
      by (symmetry; apply orb_true_iff; destruct Hi; [left | right]; apply Z.ltb_lt; lia). reflexivity.
  - intros Hi (k & -> & Hk).
    replace ((index <? 0) || (3 <? index)) with false by (symmetry; apply orb_false_intro; apply Z.ltb_ge; lia).
    replace (BlockSize <? Z.of_nat (slen k)) with true by (symmetry; apply Z.ltb_lt; unfold BlockSize; lia).
    reflexivity.
Qed.

(** C26: [SetKey] with a valid slot and a non-nil key shorter than a block
    passes the size check ([len(key) > aes.BlockSize] only rejects longer
    keys) instead of returning "invalid key size": it panics on
    [key[off:off+4]] when the key's capacity is less than a block, and
    otherwise returns nil having loaded the slot with the first 16 bytes
    of the backing array, the bytes past [len(key)] included. *)
Theorem SetKey_short_key index k :
  0 <= index <= 3 -> (slen k < 16)%nat ->
  ((length (sarr k) < 16)%nat -> SetKey index (Some k) = Panicked) /\
  ((16 <= length (sarr k))%nat ->
   exists ops, SetKey index (Some k) = Ok (ops, None) /\
     forall rd kr w, 0 <= w < 4 ->
       key_words (keyram_apply rd ops kr) index w = le_value (take 4 (drop (Z.to_nat (4 * w)) (sarr k)))).
Proof.
  intros Hi Hl. unfold SetKey. split.
  - intros Hc. unfold setKeyData.
    replace ((index <? 0) || (3 <? index)) with false by (symmetry; apply orb_false_intro; apply Z.ltb_ge; lia).
    replace (BlockSize <? Z.of_nat (slen k)) with false by (symmetry; apply Z.ltb_ge; unfold BlockSize; lia).
    change 0 with (4 - Z.of_nat 4) at 2. rewrite key_loop_short by lia. reflexivity.
  - intros Hc. destruct (setKeyData_slot index (Some k) 0) as (ops & Hops & _ & Hspec); [exact Hi | cbn; lia |].
    exists ops. split; [exact Hops|]. intros rd kr w Hw. rewrite Hspec, Z.eqb_refl.
    rewrite (proj2 (Z.leb_le 0 w)), (proj2 (Z.ltb_lt w 4)) by lia. reflexivity.
Qed.

(** C30: Termination: the key loop stops by its own condition within five
    tests: more fuel gives the same result, and [setKeyData] never runs out
    of fuel. *)
Theorem setKeyData_terminates index key addr :
  (forall fuel kl, (5 <= fuel)%nat -> key_loop fuel kl 0 key addr = key_loop 5 kl 0 key addr) /\
  setKeyData index key addr <> NoFuel.
Proof.
  split.
  - intros fuel kl Hf. change 0 with (4 - Z.of_nat 4). apply (key_loop_fuel_gen 4); lia.
  - unfold setKeyData. destruct (_ || _); [discriminate|].
    destruct (key_loop_fuel_gen 4 5 5 (bits.SetN 0 KEY_INDEX 3 (u32 index)) key addr) as [_ Hnf]; [lia..|].
    change (4 - Z.of_nat 4) with 0 in Hnf.
    assert (Hok : res_bind (key_loop 5 (bits.SetN 0 KEY_INDEX 3 (u32 index)) 0 key addr)
                    (fun ops => Ok (MuxLock :: ops ++ [MuxUnlock], @None dcp_error)) <> NoFuel)
      by (destruct (key_loop 5 _ 0 key addr); cbn; [discriminate | discriminate | contradiction]).
    destruct key as [k|]; [destruct (BlockSize <? _); [discriminate | exact Hok] | exact Hok].
Qed.

(** ** [DeriveKey] *)

Lemma key_region_in_iram index r :
  0 <= index -> IRAMStart <= Start (key_region index r) < IRAMStart + IRAMSize.
Proof.
  intros Hi. unfold key_region. rewrite (proj2 (Z.leb_le _ _) Hi).
  destruct ((IRAMStart <? Start r) && (Start r <? IRAMStart + IRAMSize)) eqn:E; cbn [negb].
  - apply andb_true_iff in E as [E1 E2]. apply Z.ltb_lt in E1, E2. lia.
  - cbn. unfold IRAMStart, IRAMSize. lia.
Qed.

(** C25: When a key slot is the target, the derived key goes through a DMA
    buffer whose region starts in the On-Chip RAM: the region [DeriveKey]
    allocates from is the default one only when that starts inside the
    iRAM, and [DeriveKeyMemory] otherwise. *)
Theorem key_region_iram index r :
  0 <= index -> IRAMStart <= Start (key_region index r) < IRAMStart + IRAMSize.
Proof. apply key_region_in_iram. Qed.

(** C29: The command [DeriveKey] hands to the DCP encrypts ([CIPHER_ENCRYPT]
    set) with the OTP key ([OTP_KEY] set, key select [UNIQUE_KEY]), in
    place (source and destination the key buffer), over the whole padded
    diversifier, with the IV as payload: whatever [SetCipherDefaults] set
    before. *)
Theorem derive_packet_fields `{DcpHw} key src payload :
  Z.of_nat (length key) < 2 ^ 32 ->
  let P := with_payload (with_buffers (derive_packet key) src) payload in
  bits.Get (Control0 P) DCP_CTRL0_CIPHER_ENCRYPT 1 = 1 /\
  bits.Get (Control0 P) DCP_CTRL0_OTP_KEY 1 = 1 /\
  Z.land (bits.Get (Control1 P) DCP_CTRL1_KEY_SELECT 0xff) KEY_SELECT_UNIQUE_KEY = KEY_SELECT_UNIQUE_KEY /\
  SourceBufferAddress P = src /\ DestinationBufferAddress P = src /\
  BufferSize P = Z.of_nat (length key) /\ PayloadPointer P = payload.
Proof.
  intros Hl P. subst P. cbn [with_payload with_buffers derive_packet Control0 Control1
    SourceBufferAddress DestinationBufferAddress BufferSize PayloadPointer].
  set (c0 := Control0 (SetCipherDefaults empty_packet)).
  set (c1 := Control1 (SetCipherDefaults empty_packet)).
  change (u32 (Z.lor (u32 (Z.lor c0 (Z.shiftl 1 DCP_CTRL0_CIPHER_ENCRYPT))) (Z.shiftl 1 DCP_CTRL0_OTP_KEY)))
    with (bits.Set_ (bits.Set_ c0 DCP_CTRL0_CIPHER_ENCRYPT) DCP_CTRL0_OTP_KEY).
  unfold DCP_CTRL0_CIPHER_ENCRYPT, DCP_CTRL0_OTP_KEY, DCP_CTRL1_KEY_SELECT, KEY_SELECT_UNIQUE_KEY.
  split; [change (bits.Get (bits.Set_ (bits.Set_ c0 8) 10) 8 1)
            with (bits.Get (bits.Set_ (bits.Set_ c0 8) 10) 8 (Z.ones 1));
          rewrite Get_Set_other by lia; apply Get_Set_same; lia|].
  split; [apply Get_Set_same; lia|].
  split; [change 0xfe with (Z.shiftl (Z.ones 7) 1); change 0xff with (Z.ones 8); bits_solve|].
  rewrite u32_small by lia. auto.
Qed.

Section DeriveSpec.
Context `{DcpHw}.

(** The run of [DeriveKey] up to the command, for a valid IV. *)
Lemma DeriveKey_unfold div iv index s :
  length iv = 16%nat ->
  let key := pad div false in
  let region := key_region index (dma_Default s) in
  let '(src, s1) := region_Alloc region key BlockSize s in
  let '(payload, s2) := region_Alloc region iv 0 s1 in
  let '(ptr, s3) := region_Alloc region (packet_Bytes (with_payload (with_buffers (derive_packet key) src) payload)) 0 s2 in
  let '(err, s4) := cmd ptr 1 s3 in
  let free s := region_Free region src (region_Free region payload (region_Free region ptr s)) in
  DeriveKey div iv index s =
    match err with
    | Some e => Ok ((None, [], Some (ErrCmd e)), free s4)
    | None =>
        if 0 <=? index then
          let! r := setKeyData index None src in Ok ((Some key, fst r, snd r), free s4)
        else Ok ((Some (region_Read region src (length key) s4), [], None), free s4)
    end.
Proof.
  intros Hiv. cbv zeta. unfold DeriveKey. rewrite Hiv. cbn [Z.of_nat Pos.of_succ_nat Z.eqb BlockSize negb].
  destruct (region_Alloc _ _ BlockSize s) as [src s1].
  destruct (region_Alloc _ iv 0 s1) as [payload s2].
  destruct (region_Alloc _ _ 0 s2) as [ptr s3].
  destruct (cmd ptr 1 s3) as [err s4]. reflexivity.
Qed.
(** C24: [DeriveKey] to a key slot ([0 <= index <= 3]), the DCP command
    succeeding: the key buffer lies in a region that starts in the iRAM,
    [err] is nil, the register accesses, made holding [mux], load slot
    [index] with the four
    words of the encrypted buffer, and the key returned is the padded
    diversifier, not nil as the doc comment says. *)
Theorem DeriveKey_to_slot div iv index s :
  length iv = 16%nat -> 0 <= index <= 3 -> (forall p n t, fst (cmd p n t) = None) ->
  let region := key_region index (dma_Default s) in
  let src := fst (region_Alloc region (pad div false) BlockSize s) in
  IRAMStart <= Start region < IRAMStart + IRAMSize /\
  exists ops s', DeriveKey div iv index s = Ok ((Some (pad div false), ops, None), s') /\
    critical_section ops /\
    forall rd kr i w, key_words (keyram_apply rd ops kr) i w =
      if (i =? index) && (0 <=? w) && (w <? 4) then rd (u32 (src + 4 * w)) else key_words kr i w.
Proof.
  intros Hiv Hi Hcmd. cbv zeta. split; [apply key_region_in_iram; lia|].
  pose proof (DeriveKey_unfold div iv index s Hiv) as U. cbv zeta in U.
  destruct (region_Alloc _ _ BlockSize s) as [src s1]. cbn [fst].
  destruct (region_Alloc _ iv 0 s1) as [payload s2].
  destruct (region_Alloc _ _ 0 s2) as [ptr s3].
  specialize (Hcmd ptr 1 s3). destruct (cmd ptr 1 s3) as [err s4]. cbn in Hcmd. subst err.
  rewrite (proj2 (Z.leb_le 0 index)) in U by lia.
  destruct (setKeyData_slot index None src) as (ops & Hops & Hcs & Hspec); [exact Hi | exact I |].
  rewrite Hops in U. cbn in U. do 2 eexists. split; [exact U | split; [exact Hcs | exact Hspec]].
Qed.

(** [DeriveKey] with a negative index, the DCP command succeeding,
    returns the [len(key)] bytes of the key buffer of the default region
    after the command, no register access, and no error. *)
Theorem DeriveKey_returns_key div iv index s :
  length iv = 16%nat -> index < 0 -> (forall p n t, fst (cmd p n t) = None) ->
  exists s4 s', DeriveKey div iv index s =
    Ok ((Some (region_Read (dma_Default s) (fst (region_Alloc (dma_Default s) (pad div false) BlockSize s))
                 (length (pad div false)) s4), [], None), s').
Proof.
  intros Hiv Hi Hcmd. pose proof (DeriveKey_unfold div iv index s Hiv) as U. cbv zeta in U.
  assert (Hr : key_region index (dma_Default s) = dma_Default s)
    by (unfold key_region; rewrite (proj2 (Z.leb_gt 0 index)) by lia; reflexivity).
  rewrite Hr in U.
  destruct (region_Alloc _ _ BlockSize s) as [src s1]. cbn [fst].
  destruct (region_Alloc _ iv 0 s1) as [payload s2].
  destruct (region_Alloc _ _ 0 s2) as [ptr s3].
  specialize (Hcmd ptr 1 s3). destruct (cmd ptr 1 s3) as [err s4]. cbn in Hcmd. subst err.
  rewrite (proj2 (Z.leb_gt 0 index)) in U by lia. do 2 eexists. exact U.
Qed.

(** C28: Error paths of [DeriveKey]: an IV that is not one block is
    rejected before anything is allocated; an error of the DCP command is
    returned with a nil key and no register access. *)
Theorem DeriveKey_errors div iv index s e :
  ((length iv <> 16%nat) -> DeriveKey div iv index s = Ok ((None, [], Some ErrIVSize), s)) /\
  (length iv = 16%nat -> (forall p n t, fst (cmd p n t) = Some e) ->
   exists s', DeriveKey div iv index s = Ok ((None, [], Some (ErrCmd e)), s')).
Proof.
  split.
  - intros Hiv. unfold DeriveKey.
    replace (Z.of_nat (length iv) =? BlockSize) with false by (symmetry; apply Z.eqb_neq; unfold BlockSize; lia).
    reflexivity.
  - intros Hiv Hcmd. pose proof (DeriveKey_unfold div iv index s Hiv) as U. cbv zeta in U.
    destruct (region_Alloc _ _ BlockSize s) as [src s1].
    destruct (region_Alloc _ iv 0 s1) as [payload s2].
    destruct (region_Alloc _ _ 0 s2) as [ptr s3].
    specialize (Hcmd ptr 1 s3). destruct (cmd ptr 1 s3) as [err s4]. cbn in Hcmd. subst err.
    eexists. exact U.
Qed.
End DeriveSpec.

