(* ===== verification/Mmio.v ===== *)
(** * Memory-mapped I/O of the board drivers

    The board drivers (the BCM2835 mini-UART of src/unnamed/part_002, the
    Raspberry Pi Zero LED of src/unnamed/part_000 and the ANNA-B112
    Bluetooth module of src/board/f-secure/usbarmory/mark-two/ble.go) act
    on the hardware only through 32-bit register reads and writes, busy
    loops and sleeps. This file gives them one I/O model, in the style of
    the MMIO logs of riscv-coq and bedrock2:

    - [Bus]: the last value written to each register, the log of every
      access in order ([MMIORead], [MMIOWrite], [Delay], [Sleep]) and the
      time in nanoseconds;
    - [Device]: the hardware, which decides what a read returns given the
      bus so far (a status register is not memory);
    - [IO S A]: a state monad over a driver state [S] that contains a bus
      ([HasBus]), whose runs end in [Done], [Blocked] (a goroutine that
      waits forever, as on a mutex it holds itself), [Crash] (a Go panic)
      or [Spin] (a polling loop that ran out of fuel);
    - the accessors of [internal/reg] used by these drivers ([mmio.Read],
      [mmio.Write], the read-modify-write [mmio.Set_], [mmio.Clear],
      [mmio.SetN], [mmio.Get]) and [arm.Busyloop], [time.Sleep].

    The lemmas show that every accessor keeps each register a 32-bit value
    ([bus_wf]), the type invariant the driver theorems use. *)

From stdpp Require Import base gmap list.
From S2P Require Import Prelude.
Open Scope Z_scope.

(** ** The bus and its log *)

Inductive event : Type :=
| MMIORead (a v : Z)
| MMIOWrite (a v : Z)
| Delay (n : Z)       (** [arm.Busyloop(n)] *)
| Sleep (ns : Z).     (** [time.Sleep(ns)] *)

Record Bus := mkBus {
  regs : gmap Z Z;
  log : list event;
  now : Z
}.

(** What a read of a register returns. *)
Class Device := {
  dev_read : Bus -> Z -> Z
}.

(** A driver state that holds the bus. *)
Class HasBus (S : Type) := {
  bus_of : S -> Bus;
  with_bus : Bus -> S -> S;
  bus_with : forall b s, bus_of (with_bus b s) = b
}.

#[export] Instance bus_HasBus : HasBus Bus := {|
  bus_of := fun b => b;
  with_bus := fun b _ => b;
  bus_with := fun _ _ => eq_refl
|}.

(** ** The I/O monad *)

Inductive out (S A : Type) : Type :=
| Done (a : A) (s : S)
| Blocked (s : S)
| Crash (s : S)
| Spin.
Arguments Done {S A} a s.
Arguments Blocked {S A} s.
Arguments Crash {S A} s.
Arguments Spin {S A}.

Definition IO (S A : Type) : Type := S -> out S A.

#[export] Instance IO_ret {S} : MRet (IO S) := fun A a s => Done a s.
#[export] Instance IO_bind {S} : MBind (IO S) := fun A B f c s =>
  match c s with
  | Done a s' => f a s'
  | Blocked s' => Blocked s'
  | Crash s' => Crash s'
  | Spin => Spin
  end.

Definition io_gets {S A} (f : S -> A) : IO S A := fun s => Done (f s) s.
Definition io_modify {S} (f : S -> S) : IO S unit := fun s => Done tt (f s).
Definition io_crash {S A} : IO S A := fun s => Crash s.

(** Go loops over a list, in order. *)
Fixpoint io_forM_ {S A} (l : list A) (f : A -> IO S unit) : IO S unit :=
  match l with
  | [] => mret tt
  | x :: l' => f x ;; io_forM_ l' f
  end.

(** ** The accessors *)

Definition record (e : event) (b : Bus) : Bus := mkBus (regs b) (log b ++ [e]) (now b).

(** The bus after a write of [v] to [a]: the register holds [uint32(v)]. *)
Definition bus_write (a v : Z) (b : Bus) : Bus :=
  record (MMIOWrite a (u32 v)) (mkBus (<[a := u32 v]> (regs b)) (log b) (now b)).

Module mmio.
Section S.
Context `{Device} {S : Type} `{HasBus S}.

Definition on_bus (f : Bus -> Bus) : IO S unit := fun s => Done tt (with_bus (f (bus_of s)) s).

(** [reg.Read(addr)] *)
Definition Read (a : Z) : IO S Z := fun s =>
  let v := u32 (dev_read (bus_of s) a) in
  Done v (with_bus (record (MMIORead a v) (bus_of s)) s).

(** [reg.Write(addr, val)] *)
Definition Write (a v : Z) : IO S unit := on_bus (bus_write a v).

(** [reg.Set], [reg.Clear], [reg.SetN]: read, modify, write back. *)
Definition Set_ (a pos : Z) : IO S unit := r ← Read a; Write a (bits.Set_ r pos).
Definition Clear (a pos : Z) : IO S unit := r ← Read a; Write a (bits.Clear r pos).
Definition SetN (a pos mask val : Z) : IO S unit := r ← Read a; Write a (bits.SetN r pos mask val).

(** [reg.Get(addr, pos, mask)] *)
Definition Get (a pos mask : Z) : IO S Z := r ← Read a; mret (bits.Get r pos mask).

(** [arm.Busyloop(n)] *)
Definition Busyloop (n : Z) : IO S unit := on_bus (record (Delay n)).

(** [time.Sleep(d)] *)
Definition Sleep_ (d : Z) : IO S unit :=
  on_bus (fun b => record (Sleep d) (mkBus (regs b) (log b) (now b + d))).
End S.
End mmio.

(** The register invariant: every register holds a 32-bit value. *)
Definition bus_wf (b : Bus) : Prop := map_Forall (fun _ v => 0 <= v < 2 ^ 32) (regs b).

(** A computation that returns keeps [bus_wf]. *)
Definition keeps_wf {S : Type} `{HasBus S} {A} (c : IO S A) : Prop :=
  forall s a s', bus_wf (bus_of s) -> c s = Done a s' -> bus_wf (bus_of s').

(** The writes to [a] in a log, in order. *)
Definition writes_to (a : Z) (l : list event) : list Z :=
  omap (fun e => match e with MMIOWrite a' v => if a' =? a then Some v else None | _ => None end) l.

(** The device whose registers read back the last value written (0 before
    any write): plain control registers, such as the pad and GPIO
    registers of the i.MX6. *)
Definition mem_device : Device := {| dev_read := fun b a => default 0 (regs b !! a) |}.

(** * Lemmas *)

Section Laws.
Context {S : Type} `{HasBus S}.

Lemma keeps_wf_ret {A} (a : A) : keeps_wf (mret a : IO S A).
Proof. intros s x s' Hw E. injection E as _ <-. exact Hw. Qed.

Lemma keeps_wf_bind {A B} (c : IO S A) (f : A -> IO S B) :
  keeps_wf c -> (forall a, keeps_wf (f a)) -> keeps_wf (c ≫= f).
Proof.
  intros Hc Hf s b s' Hw E. unfold mbind, IO_bind in E.
  destruct (c s) as [a s1| | |] eqn:Ec; try discriminate.
  exact (Hf a s1 b s' (Hc s a s1 Hw Ec) E).
Qed.

Lemma keeps_wf_forM {A} (l : list A) (f : A -> IO S unit) :
  (forall x, keeps_wf (f x)) -> keeps_wf (io_forM_ l f).
Proof.
  intros Hf. induction l as [|x l IH]; cbn [io_forM_]; [apply keeps_wf_ret|].
  apply keeps_wf_bind; [apply Hf | intros; exact IH].
Qed.

Context `{Device}.

Lemma keeps_wf_Read a : keeps_wf (mmio.Read (S:=S) a).
Proof. intros s v s' Hw E. injection E as _ <-. rewrite bus_with. exact Hw. Qed.

Lemma keeps_wf_Write a v : keeps_wf (mmio.Write (S:=S) a v).
Proof.
  intros s x s' Hw E. injection E as _ <-. rewrite bus_with.
  unfold bus_wf, bus_write, record. cbn [regs]. apply map_Forall_insert_2; [apply u32_range | exact Hw].
Qed.

Lemma keeps_wf_Set a p : keeps_wf (mmio.Set_ (S:=S) a p).
Proof. apply keeps_wf_bind; [apply keeps_wf_Read | intros; apply keeps_wf_Write]. Qed.

Lemma keeps_wf_Clear a p : keeps_wf (mmio.Clear (S:=S) a p).
Proof. apply keeps_wf_bind; [apply keeps_wf_Read | intros; apply keeps_wf_Write]. Qed.

Lemma keeps_wf_SetN a p m v : keeps_wf (mmio.SetN (S:=S) a p m v).
Proof. apply keeps_wf_bind; [apply keeps_wf_Read | intros; apply keeps_wf_Write]. Qed.

Lemma keeps_wf_Get a p m : keeps_wf (mmio.Get (S:=S) a p m).
Proof. apply keeps_wf_bind; [apply keeps_wf_Read | intros; apply keeps_wf_ret]. Qed.

Lemma keeps_wf_Busyloop n : keeps_wf (mmio.Busyloop (S:=S) n).
Proof. intros s x s' Hw E. injection E as _ <-. rewrite bus_with. exact Hw. Qed.

Lemma keeps_wf_Sleep d : keeps_wf (mmio.Sleep_ (S:=S) d).
Proof. intros s x s' Hw E. injection E as _ <-. rewrite bus_with. exact Hw. Qed.
End Laws.

Create HintDb mmio_wf.
#[export] Hint Resolve keeps_wf_ret keeps_wf_Read keeps_wf_Write keeps_wf_Set keeps_wf_Clear
  keeps_wf_SetN keeps_wf_Get keeps_wf_Busyloop keeps_wf_Sleep : mmio_wf.

(** Splits a [keeps_wf] goal into the accessors it is made of. *)
Ltac wf_solve :=
  repeat first
    [ progress (eauto with mmio_wf)
    | apply keeps_wf_bind; [| intros ?]
    | apply keeps_wf_forM; intros ?
    | match goal with
      | |- keeps_wf (if ?b then _ else _) => destruct b
      | |- keeps_wf (match ?x with _ => _ end) => destruct x
      end ].

Lemma writes_to_app a l1 l2 : writes_to a (l1 ++ l2) = writes_to a l1 ++ writes_to a l2.
Proof. apply omap_app. Qed.

(** Steps of a run, one accessor at a time. *)
Section Steps.
Context {S : Type} `{HasBus S} `{Device}.

Lemma Write_bind {B} a v (k : unit -> IO S B) s :
  (mmio.Write a v ≫= k) s = k tt (with_bus (bus_write a v (bus_of s)) s).
Proof. reflexivity. Qed.

Lemma Read_bind {B} a (k : Z -> IO S B) s :
  (mmio.Read a ≫= k) s =
  k (u32 (dev_read (bus_of s) a)) (with_bus (record (MMIORead a (u32 (dev_read (bus_of s) a))) (bus_of s)) s).
Proof. reflexivity. Qed.

Lemma Busyloop_bind {B} n (k : unit -> IO S B) s :
  (mmio.Busyloop n ≫= k) s = k tt (with_bus (record (Delay n) (bus_of s)) s).
Proof. reflexivity. Qed.

Lemma Write_run a v s : mmio.Write a v s = Done tt (with_bus (bus_write a v (bus_of s)) s).
Proof. reflexivity. Qed.
End Steps.

Lemma regs_bus_write a v b : regs (bus_write a v b) = <[a := u32 v]> (regs b).
Proof. reflexivity. Qed.

Lemma log_bus_write a v b : log (bus_write a v b) = log b ++ [MMIOWrite a (u32 v)].
Proof. reflexivity. Qed.

Lemma regs_record e b : regs (record e b) = regs b.
Proof. reflexivity. Qed.

Lemma log_record e b : log (record e b) = log b ++ [e].
Proof. reflexivity. Qed.

Lemma writes_to_read a x v : writes_to a [MMIORead x v] = [].
Proof. reflexivity. Qed.

Lemma writes_to_write a v : writes_to a [MMIOWrite a v] = [v].
Proof. unfold writes_to. cbn. rewrite Z.eqb_refl. reflexivity. Qed.

Lemma writes_to_write_ne a x v : x <> a -> writes_to a [MMIOWrite x v] = [].
Proof. intros Hx. unfold writes_to. cbn. rewrite (proj2 (Z.eqb_neq _ _) Hx). reflexivity. Qed.

Create Rewrite HintDb mmio_rw.
#[export] Hint Rewrite writes_to_app writes_to_read writes_to_write regs_bus_write log_bus_write regs_record log_record : mmio_rw.

Lemma bind_Done {S A B} (c : IO S A) (k : A -> IO S B) s a s' :
  c s = Done a s' -> (c ≫= k) s = k a s'.
Proof. intros E. unfold mbind, IO_bind. rewrite E. reflexivity. Qed.

Lemma bind_Blocked {S A B} (c : IO S A) (k : A -> IO S B) s s' :
  c s = Blocked s' -> (c ≫= k) s = Blocked s'.
Proof. intros E. unfold mbind, IO_bind. rewrite E. reflexivity. Qed.

Lemma gets_bind {S A B} (f : S -> A) (k : A -> IO S B) s : (io_gets f ≫= k) s = k (f s) s.
Proof. reflexivity. Qed.

Lemma keeps_wf_gets {S} `{HasBus S} {A} (f : S -> A) : keeps_wf (io_gets f).
Proof. intros s a s' Hw E. injection E as _ <-. exact Hw. Qed.

Lemma keeps_wf_crash {S} `{HasBus S} {A} : keeps_wf (io_crash : IO S A).
Proof. intros s a s' Hw E. discriminate. Qed.

#[export] Hint Resolve keeps_wf_gets keeps_wf_crash : mmio_wf.

Lemma modify_bind {S B} (f : S -> S) (k : unit -> IO S B) s : (io_modify f ≫= k) s = k tt (f s).
Proof. reflexivity. Qed.
