(* ===== verification/MiniUart.v ===== *)
(** * The BCM2835 mini-UART console (package [bcm2835])

    src/unnamed/part_002: [miniUART.Init], which enables the auxiliary
    UART, sets 8-bit mode and 115200 baud, routes GPIO 14 and 15 to it
    (function ALT5 in [GPFSEL1]) and clocks the pull-up/down
    configuration; [miniUART.Tx], which busy-waits on bit 5 ("transmitter
    empty") of [AUX_MU_LSR_REG] and writes the byte to [AUX_MU_IO_REG];
    [miniUART.Write], a loop of [Tx] over a buffer; [printk], the runtime's
    console hook; and [setupGPIO], over the [bcm2835] GPIO interface.

    The driver runs in [Mmio.IO] over a bare [Bus]. [Tx]'s loop has no
    bound in the source; its fuel is the number of status reads allowed,
    and the theorems say both that a returning [Tx] read the status until
    it saw the bit, and that it does return once the transmitter empties
    within the fuel. *)

From stdpp Require Import base gmap list.
From S2P Require Import Prelude Mmio.
Open Scope Z_scope.

(** ** Registers *)

Definition AUX_ENABLES : Z := 0x215004.
Definition AUX_MU_IO_REG : Z := 0x215040.
Definition AUX_MU_IER_REG : Z := 0x215044.
Definition AUX_MU_IIR_REG : Z := 0x215048.
Definition AUX_MU_LCR_REG : Z := 0x21504C.
Definition AUX_MU_MCR_REG : Z := 0x215050.
Definition AUX_MU_LSR_REG : Z := 0x215054.
Definition AUX_MU_MSR_REG : Z := 0x215058.
Definition AUX_MU_SCRATCH : Z := 0x21505C.
Definition AUX_MU_CNTL_REG : Z := 0x215060.
Definition AUX_MU_STAT_REG : Z := 0x215064.
Definition AUX_MU_BAUD_REG : Z := 0x215068.
Definition GPFSEL1 : Z := 0x200004.
Definition GPPUD : Z := 0x200094.
Definition GPPUDCLK0 : Z := 0x200098.

(** [bcm2835.PeripheralAddress] (outside src/): the offset from the
    peripheral base of the BCM2835 of the Pi Zero. *)
Definition PeripheralBase : Z := 0x20000000.
Definition PeripheralAddress (offset : Z) : Z := u32 (PeripheralBase + offset).

(** The GPIO function ALT5 of the BCM2835, [GPIOFunctionAltFunction5]. *)
Definition GPIOFunctionAltFunction5 : Z := 2.
Definition GPIONoPullupOrPullDown : Z := 0.

(** The [bcm2835] GPIO API (outside src/): the pins [NewGPIO] accepts and
    the operations on a pin. *)
Class Bcm2835Gpio (S : Type) := {
  gpio_valid : Z -> bool;
  SelectFunction : Z -> Z -> IO S unit;
  PullUpDown : Z -> Z -> IO S unit;
  gpio_Out : Z -> IO S unit;
  gpio_High : Z -> IO S unit;
  gpio_Low : Z -> IO S unit
}.

Module miniUART.
Section S.
Context `{Device}.

(** [hw.Init()] *)
Definition Init : IO Bus unit :=
  mmio.Write (PeripheralAddress AUX_ENABLES) 1 ;;
  mmio.Write (PeripheralAddress AUX_MU_IER_REG) 0 ;;
  mmio.Write (PeripheralAddress AUX_MU_CNTL_REG) 0 ;;
  mmio.Write (PeripheralAddress AUX_MU_LCR_REG) 3 ;;
  mmio.Write (PeripheralAddress AUX_MU_MCR_REG) 0 ;;
  mmio.Write (PeripheralAddress AUX_MU_IER_REG) 0 ;;
  mmio.Write (PeripheralAddress AUX_MU_IIR_REG) 0xC6 ;;
  mmio.Write (PeripheralAddress AUX_MU_BAUD_REG) 270 ;;
  ra ← mmio.Read (PeripheralAddress GPFSEL1);
  let ra := Z.land ra (u32 (Z.lnot (Z.shiftl 7 12))) in (* gpio14 *)
  let ra := Z.lor ra (Z.shiftl 2 12) in                 (* alt5 *)
  let ra := Z.land ra (u32 (Z.lnot (Z.shiftl 7 15))) in (* gpio15 *)
  let ra := Z.lor ra (Z.shiftl 2 15) in                 (* alt5 *)
  mmio.Write (PeripheralAddress GPFSEL1) ra ;;
  mmio.Write (PeripheralAddress GPPUD) 0 ;;
  mmio.Busyloop 150 ;;
  mmio.Write (PeripheralAddress GPPUDCLK0) (Z.lor (Z.shiftl 1 14) (Z.shiftl 1 15)) ;;
  mmio.Busyloop 150 ;;
  mmio.Write (PeripheralAddress GPPUDCLK0) 0 ;;
  mmio.Write (PeripheralAddress AUX_MU_CNTL_REG) 3.

(** The loop [for { if reg.Read(LSR) & 0x20 != 0 { break } }], at most
    [fuel] reads. *)
Fixpoint tx_wait (fuel : nat) : IO Bus unit :=
  match fuel with
  | O => fun _ => Spin
  | S fuel' =>
      r ← mmio.Read (PeripheralAddress AUX_MU_LSR_REG);
      if negb (Z.land r 0x20 =? 0) then mret tt else tx_wait fuel'
  end.

(** [hw.Tx(c)] *)
Definition Tx (fuel : nat) (c : Z) : IO Bus unit :=
  tx_wait fuel ;;
  mmio.Write (PeripheralAddress AUX_MU_IO_REG) c.

(** The loop [for i := 0; i < len(buf); i++ { hw.Tx(buf[i]) }], at most
    [k] tests of its condition. *)
Fixpoint write_loop (fuel : nat) (k : nat) (buf : list Z) (i : nat) : IO Bus unit :=
  match k with
  | O => fun _ => Spin
  | S k' =>
      if Nat.ltb i (length buf) then Tx fuel (nth i buf 0) ;; write_loop fuel k' buf (S i)
      else mret tt
  end.

(** [hw.Write(buf)]: the loop tests its condition [len(buf) + 1] times. *)
Definition Write (fuel : nat) (buf : list Z) : IO Bus unit :=
  write_loop fuel (S (length buf)) buf 0.

(** [printk(c)] *)
Definition printk (fuel : nat) (c : Z) : IO Bus unit := Tx fuel c.

(** [hw.setupGPIO(num)]: [NewGPIO] fails, and the code panics, on a pin
    the [bcm2835] package rejects. *)
Definition setupGPIO `{Bcm2835Gpio Bus} (num : Z) : IO Bus unit :=
  if gpio_valid num then
    SelectFunction num GPIOFunctionAltFunction5 ;;
    PullUpDown num GPIONoPullupOrPullDown
  else io_crash.
End S.
End miniUART.

(** A status read that reports the transmitter empty. *)
Definition tx_ready (v : Z) : bool := negb (Z.land v 0x20 =? 0).

(** The status reads in a log. *)
Definition lsr_reads (l : list event) : nat :=
  length (List.filter (fun e => match e with MMIORead a _ => bool_decide (a = PeripheralAddress AUX_MU_LSR_REG) | _ => false end) l).

(** * Lemmas *)

Section TxLemmas.
Context `{Device}.
Let LSR := PeripheralAddress AUX_MU_LSR_REG.

Lemma tx_wait_step fuel b :
  miniUART.tx_wait (S fuel) b =
  let v := u32 (dev_read b LSR) in
  if tx_ready v then Done tt (record (MMIORead LSR v) b)
  else miniUART.tx_wait fuel (record (MMIORead LSR v) b).
Proof.
  cbv zeta. change (miniUART.tx_wait (S fuel) b) with
    ((if tx_ready (u32 (dev_read b LSR)) then mret tt else miniUART.tx_wait fuel)
       (record (MMIORead LSR (u32 (dev_read b LSR))) b)).
  destruct (tx_ready _); reflexivity.
Qed.

Lemma lsr_reads_app l1 l2 : lsr_reads (l1 ++ l2) = (lsr_reads l1 + lsr_reads l2)%nat.
Proof. unfold lsr_reads. rewrite List.filter_app, length_app. reflexivity. Qed.

Lemma lsr_reads_record b v : lsr_reads (log (record (MMIORead LSR v) b)) = S (lsr_reads (log b)).
Proof.
  cbn [record log]. rewrite lsr_reads_app. unfold lsr_reads at 2. cbn.
  rewrite bool_decide_true by reflexivity. cbn. lia.
Qed.

(** A wait that returns read the status until the first ready value. *)
Lemma tx_wait_log fuel b b' :
  miniUART.tx_wait fuel b = Done tt b' ->
  exists vs v, log b' = log b ++ map (MMIORead LSR) vs ++ [MMIORead LSR v] /\
    Forall (fun v => tx_ready v = false) vs /\ tx_ready v = true.
Proof.
  revert b. induction fuel as [|fuel IH]; intros b Hr; [discriminate|].
  rewrite tx_wait_step in Hr. cbv zeta in Hr.
  destruct (tx_ready (u32 (dev_read b LSR))) eqn:Hv.
  - injection Hr as <-. exists [], (u32 (dev_read b LSR)). cbn. auto.
  - destruct (IH _ Hr) as (vs & v & Hl & Hf & Hv'). exists (u32 (dev_read b LSR) :: vs), v.
    split; [rewrite Hl; cbn; rewrite <- app_assoc; reflexivity | auto].
Qed.

(** The wait returns once the device reports ready from its [k]-th status
    read on, given one read of fuel per read still to come. *)
Lemma tx_wait_returns k fuel b :
  (forall b, (k <= lsr_reads (log b))%nat -> tx_ready (u32 (dev_read b LSR)) = true) ->
  (k - lsr_reads (log b) < fuel)%nat ->
  exists b', miniUART.tx_wait fuel b = Done tt b'.
Proof.
  intros Hdev. revert b. induction fuel as [|fuel IH]; intros b Hf; [lia|].
  rewrite tx_wait_step. cbv zeta.
  destruct (tx_ready (u32 (dev_read b LSR))) eqn:Hv; [eexists; reflexivity|].
  apply IH. rewrite lsr_reads_record.
  destruct (Nat.le_gt_cases k (lsr_reads (log b))) as [Hk|Hk]; [rewrite Hdev in Hv by exact Hk; discriminate | lia].
Qed.

Lemma tx_wait_spins fuel b :
  (forall b, tx_ready (u32 (dev_read b LSR)) = false) -> miniUART.tx_wait fuel b = Spin.
Proof.
  intros Hdev. revert b. induction fuel as [|fuel IH]; intros b; [reflexivity|].
  rewrite tx_wait_step. cbv zeta. rewrite Hdev. apply IH.
Qed.
End TxLemmas.

Lemma u32_byte z : 0 <= z < 256 -> u32 z = z.
Proof. intros. apply u32_small. lia. Qed.

Section WriteLemmas.
Context `{Device}.

Lemma Tx_unfold fuel c b :
  miniUART.Tx fuel c b =
  match miniUART.tx_wait fuel b with
  | Done _ b1 => mmio.Write (PeripheralAddress AUX_MU_IO_REG) c b1
  | Blocked s => Blocked s
  | Crash s => Crash s
  | Spin => Spin
  end.
Proof. reflexivity. Qed.

Lemma write_loop_forM fuel buf k i b :
  (length buf - i < k)%nat ->
  miniUART.write_loop fuel k buf i b = io_forM_ (drop i buf) (miniUART.Tx fuel) b.
Proof.
  revert i b. induction k as [|k IH]; intros i b Hk; [lia|]. cbn [miniUART.write_loop].
  destruct (Nat.ltb_spec i (length buf)) as [Hi|Hi].
  - destruct (lookup_lt_is_Some_2 buf i Hi) as [x Hx].
    rewrite (drop_S _ _ _ Hx), (nth_lookup_Some _ _ 0 _ Hx). cbn [io_forM_].
    cbv [mbind IO_bind]. destruct (miniUART.Tx fuel x b); try reflexivity. apply IH. lia.
  - rewrite drop_ge by lia. reflexivity.
Qed.

(** One [Tx] against a transmitter that is always ready. *)
Lemma Tx_ready fuel c b :
  (1 <= fuel)%nat -> (forall b, tx_ready (u32 (dev_read b (PeripheralAddress AUX_MU_LSR_REG))) = true) ->
  exists b', miniUART.Tx fuel c b = Done tt b' /\
    writes_to (PeripheralAddress AUX_MU_IO_REG) (log b') =
    writes_to (PeripheralAddress AUX_MU_IO_REG) (log b) ++ [u32 c].
Proof.
  intros Hf Hdev. destruct fuel as [|fuel]; [lia|]. rewrite Tx_unfold, tx_wait_step. cbv zeta. rewrite Hdev. eexists. split; [reflexivity|].
  cbn [record log with_bus bus_of bus_HasBus]. autorewrite with mmio_rw. rewrite <- app_assoc. reflexivity.
Qed.

Lemma Write_forM fuel buf b : miniUART.Write fuel buf b = io_forM_ buf (miniUART.Tx fuel) b.
Proof. unfold miniUART.Write. rewrite write_loop_forM by lia. reflexivity. Qed.

(** [Tx] over a buffer of bytes against a transmitter that is always
    ready puts the buffer into [AUX_MU_IO_REG]. *)
Lemma forM_Tx_ready fuel buf b :
  (1 <= fuel)%nat -> bytes_ok buf ->
  (forall b, tx_ready (u32 (dev_read b (PeripheralAddress AUX_MU_LSR_REG))) = true) ->
  exists b', io_forM_ buf (miniUART.Tx fuel) b = Done tt b' /\
    writes_to (PeripheralAddress AUX_MU_IO_REG) (log b') =
    writes_to (PeripheralAddress AUX_MU_IO_REG) (log b) ++ buf.
Proof.
  intros Hf Hb Hdev. revert b.
  induction Hb as [|x buf Hx Hb IH]; intros b; cbn [io_forM_].
  - eexists. split; [reflexivity | rewrite app_nil_r; reflexivity].
  - destruct (Tx_ready fuel x b Hf Hdev) as (b1 & Hr & Hw). unfold mbind, IO_bind at 1. rewrite Hr.
    destruct (IH b1) as (b2 & Hr2 & Hw2). exists b2. split; [exact Hr2|].
    rewrite Hw2, Hw, u32_byte by (destruct Hx; lia). rewrite <- app_assoc. reflexivity.
Qed.
End WriteLemmas.

(** ** The console *)

(** C31: [Tx] waits for the transmitter: a [Tx] that returns read
    [AUX_MU_LSR_REG] until the first value with bit 5 set and then wrote
    the byte to [AUX_MU_IO_REG], nothing else; it returns once the device
    reports the transmitter empty from some status read on, given that
    many reads of fuel; and against a transmitter that never empties it
    never returns. *)
Theorem Tx_spec `{Device} fuel c b :
  (forall b', miniUART.Tx fuel c b = Done tt b' ->
     exists vs v, log b' = log b ++ map (MMIORead (PeripheralAddress AUX_MU_LSR_REG)) vs ++
                     [MMIORead (PeripheralAddress AUX_MU_LSR_REG) v; MMIOWrite (PeripheralAddress AUX_MU_IO_REG) (u32 c)] /\
       Forall (fun v => tx_ready v = false) vs /\ tx_ready v = true) /\
  (forall k, (forall b, (k <= lsr_reads (log b))%nat -> tx_ready (u32 (dev_read b (PeripheralAddress AUX_MU_LSR_REG))) = true) ->
     (k - lsr_reads (log b) < fuel)%nat -> exists b', miniUART.Tx fuel c b = Done tt b') /\
  ((forall b, tx_ready (u32 (dev_read b (PeripheralAddress AUX_MU_LSR_REG))) = false) -> miniUART.Tx fuel c b = Spin).
Proof.
  rewrite Tx_unfold. split; [|split].
  - intros b' Hr. destruct (miniUART.tx_wait fuel b) as [[] b1| | |] eqn:Ew; try discriminate.
    destruct (tx_wait_log fuel b b1 Ew) as (vs & v & Hl & Hvs & Hv). injection Hr as <-.
    exists vs, v. split; [|auto]. cbn [with_bus bus_of bus_HasBus]. rewrite log_bus_write, Hl, <- !app_assoc. reflexivity.
  - intros k Hdev Hk. destruct (tx_wait_returns k fuel b Hdev Hk) as [b1 ->]. eexists. reflexivity.
  - intros Hdev. rewrite tx_wait_spins by exact Hdev. reflexivity.
Qed.

(** C32: [Write] is the [Tx] of each byte of the buffer in order: the index
    loop of the source equals the reference loop over the list; so, against
    a transmitter that is always ready, [Write] returns and the bytes
    written to [AUX_MU_IO_REG] are the buffer. *)
Theorem Write_equiv `{Device} fuel buf :
  (forall b, miniUART.Write fuel buf b = io_forM_ buf (miniUART.Tx fuel) b) /\
  ((1 <= fuel)%nat -> bytes_ok buf ->
   (forall b, tx_ready (u32 (dev_read b (PeripheralAddress AUX_MU_LSR_REG))) = true) ->
   forall b, exists b', miniUART.Write fuel buf b = Done tt b' /\
     writes_to (PeripheralAddress AUX_MU_IO_REG) (log b') =
     writes_to (PeripheralAddress AUX_MU_IO_REG) (log b) ++ buf).
Proof.
  split; [apply Write_forM|]. intros Hf Hb Hdev b. rewrite Write_forM. apply forM_Tx_ready; assumption.
Qed.


(** The value [Init] writes back to [GPFSEL1] after reading [r]: pins 14
    and 15 get function ALT5, every other bit is as read. *)
Lemma gpfsel1_fields r :
  let w := Z.lor (Z.land (Z.lor (Z.land r (u32 (Z.lnot (Z.shiftl 7 12)))) (Z.shiftl 2 12))
                   (u32 (Z.lnot (Z.shiftl 7 15)))) (Z.shiftl 2 15) in
  0 <= r < 2 ^ 32 ->
  u32 w = w /\
  bits.Get w 12 7 = GPIOFunctionAltFunction5 /\ bits.Get w 15 7 = GPIOFunctionAltFunction5 /\
  Z.land w (Z.lnot (Z.shiftl (Z.ones 6) 12)) = Z.land r (Z.lnot (Z.shiftl (Z.ones 6) 12)).
Proof.
  intros w Hr. subst w. unfold GPIOFunctionAltFunction5.
  change 7 with (Z.ones 3). change 2 with (Z.shiftl 1 1).
  split; [bits_solve | split; [bits_solve | split; bits_solve]].
Qed.

(** C33: [Init] always returns, and its register accesses are exactly, in
    order: enable the mini-UART, disable its interrupts and transmitter,
    8-bit mode, clear the modem control, set the FIFOs and baud divisor
    270 (115200 baud at 250 MHz), read [GPFSEL1] and write it back with
    pins 14 and 15 on ALT5 and every other bit as read, clock a
    no-pull configuration into both pins with a busy wait before and
    after, and last enable transmitter and receiver. *)
Theorem Init_trace `{Device} b :
  exists r w b', miniUART.Init b = Done tt b' /\
    log b' = log b ++
      [MMIOWrite (PeripheralAddress AUX_ENABLES) 1; MMIOWrite (PeripheralAddress AUX_MU_IER_REG) 0;
       MMIOWrite (PeripheralAddress AUX_MU_CNTL_REG) 0; MMIOWrite (PeripheralAddress AUX_MU_LCR_REG) 3;
       MMIOWrite (PeripheralAddress AUX_MU_MCR_REG) 0; MMIOWrite (PeripheralAddress AUX_MU_IER_REG) 0;
       MMIOWrite (PeripheralAddress AUX_MU_IIR_REG) 0xC6; MMIOWrite (PeripheralAddress AUX_MU_BAUD_REG) 270;
       MMIORead (PeripheralAddress GPFSEL1) r; MMIOWrite (PeripheralAddress GPFSEL1) w;
       MMIOWrite (PeripheralAddress GPPUD) 0; Delay 150;
       MMIOWrite (PeripheralAddress GPPUDCLK0) (Z.lor (Z.shiftl 1 14) (Z.shiftl 1 15)); Delay 150;
       MMIOWrite (PeripheralAddress GPPUDCLK0) 0; MMIOWrite (PeripheralAddress AUX_MU_CNTL_REG) 3] /\
    bits.Get w 12 7 = GPIOFunctionAltFunction5 /\ bits.Get w 15 7 = GPIOFunctionAltFunction5 /\
    Z.land w (Z.lnot (Z.shiftl (Z.ones 6) 12)) = Z.land r (Z.lnot (Z.shiftl (Z.ones 6) 12)).
Proof.
  unfold miniUART.Init.
  rewrite !Write_bind, Read_bind, !Write_bind, Busyloop_bind, Write_bind, Busyloop_bind, Write_bind, Write_run.
  cbn [with_bus bus_of bus_HasBus].
  set (r := u32 (dev_read _ (PeripheralAddress GPFSEL1))).
  assert (Hr : 0 <= r < 2 ^ 32) by apply u32_range.
  destruct (gpfsel1_fields r Hr) as (Hw & H1 & H2 & H3).
  eexists r, _, _. split; [reflexivity|].
  split; [autorewrite with mmio_rw; rewrite Hw, <- !app_assoc; reflexivity | auto].
Qed.

(** [Init] writes no byte to [AUX_MU_IO_REG]. *)
Lemma Init_no_output `{Device} b :
  exists b', miniUART.Init b = Done tt b' /\
    writes_to (PeripheralAddress AUX_MU_IO_REG) (log b') = writes_to (PeripheralAddress AUX_MU_IO_REG) (log b).
Proof.
  unfold miniUART.Init.
  rewrite !Write_bind, Read_bind, !Write_bind, Busyloop_bind, Write_bind, Busyloop_bind, Write_bind, Write_run.
  cbn [with_bus bus_of bus_HasBus]. eexists. split; [reflexivity|].
  autorewrite with mmio_rw.
  rewrite !writes_to_write_ne by (vm_compute; discriminate). rewrite !app_nil_r. reflexivity.
Qed.

(** The console after start-up: [Init] followed by [Write buf], against
    a transmitter that is always ready, returns, and the bytes the UART
    transmits are exactly [buf]. *)
Theorem console_Init_Write `{Device} fuel buf b :
  (1 <= fuel)%nat -> bytes_ok buf ->
  (forall b, tx_ready (u32 (dev_read b (PeripheralAddress AUX_MU_LSR_REG))) = true) ->
  exists b', (miniUART.Init ;; miniUART.Write fuel buf) b = Done tt b' /\
    writes_to (PeripheralAddress AUX_MU_IO_REG) (log b') = writes_to (PeripheralAddress AUX_MU_IO_REG) (log b) ++ buf.
Proof.
  intros Hf Hb Hdev. destruct (Init_no_output b) as (b1 & Hi & Hw1).
  destruct (forM_Tx_ready fuel buf b1 Hf Hb Hdev) as (b2 & Hr & Hw2).
  exists b2. unfold mbind, IO_bind. rewrite Hi. cbv beta iota. rewrite Write_forM, Hr.
  split; [reflexivity | rewrite Hw2, Hw1; reflexivity].
Qed.

(** ** The register invariant *)

Section Wf.
Context `{Device}.

Lemma keeps_wf_tx_wait fuel : keeps_wf (miniUART.tx_wait fuel).
Proof.
  induction fuel as [|fuel IH]; [intros s a s' _ E; discriminate|]. cbn [miniUART.tx_wait].
  apply keeps_wf_bind; [apply keeps_wf_Read | intros r; destruct (negb _); [apply keeps_wf_ret | exact IH]].
Qed.

Lemma keeps_wf_Tx fuel c : keeps_wf (miniUART.Tx fuel c).
Proof. unfold miniUART.Tx. apply keeps_wf_bind; [apply keeps_wf_tx_wait | intros; apply keeps_wf_Write]. Qed.

Lemma keeps_wf_write_loop fuel k buf i : keeps_wf (miniUART.write_loop fuel k buf i).
Proof.
  revert i. induction k as [|k IH]; intros i; [intros s a s' _ E; discriminate|]. cbn [miniUART.write_loop].
  destruct (Nat.ltb _ _); [apply keeps_wf_bind; [apply keeps_wf_Tx | intros; apply IH] | apply keeps_wf_ret].
Qed.

Lemma keeps_wf_uart_Init : keeps_wf miniUART.Init.
Proof. unfold miniUART.Init. wf_solve. Qed.
End Wf.
