(* ===== verification/Ble.v ===== *)
(** * The ANNA-B112 Bluetooth module of the USB armory Mk II

    src/board/f-secure/usbarmory/mark-two/ble.go: the pad and GPIO set-up
    of the UART and control lines ([configureBLEPad], [configureBLEGPIO],
    [ANNA.Init]), the flow-control workaround of the beta boards ([RTS],
    [CTS]), the module reset ([Reset]) and the two boot modes
    ([NormalMode], [BootloaderMode]).

    - The state [World] is the bus of [Mmio.v], the [ANNA] struct of the
      one instance [BLE], and the [sync.Mutex] embedded in it, as a flag:
      [Lock] on a held mutex is [Blocked], since in these sequential runs
      the holder is the caller itself and nobody else will release it.
    - The [imx6] pad and GPIO API (outside src/) is written out as the
      register accesses of the TamaGo [imx6] package: [Pad.Mode] sets the
      MUX_MODE field of the mux register, [Pad.Ctl] writes the pad control
      register, [Pad.Select] writes the daisy register when there is one;
      a GPIO drives bit [num] of its data ([DR]) and direction ([GDIR])
      registers.
    - [Model()] is the section variable [beta]: whether the board is a
      beta revision. [UART.Init] (outside src/) only marks the UART
      initialized.
    - Deferred calls run at the return, last registered first. *)

From stdpp Require Import base gmap list.
From S2P Require Import Prelude Mmio.
Open Scope Z_scope.

(** ** Pads and lines *)

Definition IOMUXC_SW_MUX_CTL_PAD_UART1_TX_DATA : Z := 0x020e0084.
Definition IOMUXC_SW_PAD_CTL_PAD_UART1_TX_DATA : Z := 0x020e0310.
Definition IOMUXC_SW_MUX_CTL_PAD_UART1_RX_DATA : Z := 0x020e0088.
Definition IOMUXC_SW_PAD_CTL_PAD_UART1_RX_DATA : Z := 0x020e0314.
Definition IOMUXC_UART1_RX_DATA_SELECT_INPUT : Z := 0x020e0624.
Definition DAISY_UART1_RX_DATA : Z := 3.
Definition IOMUXC_SW_MUX_CTL_PAD_UART1_CTS_B : Z := 0x020e008c.
Definition IOMUXC_SW_PAD_CTL_PAD_UART1_CTS_B : Z := 0x020e0318.
Definition IOMUXC_SW_MUX_CTL_PAD_GPIO1_IO07 : Z := 0x020e0078.
Definition IOMUXC_SW_PAD_CTL_PAD_GPIO1_IO07 : Z := 0x020e0304.
Definition IOMUXC_UART1_RTS_B_SELECT_INPUT : Z := 0x020e0620.
Definition UART1_RTS_B_MODE : Z := 8.
Definition DAISY_GPIO1_IO07 : Z := 1.
Definition IOMUXC_SW_MUX_CTL_PAD_UART3_TX_DATA : Z := 0x020e00a4.
Definition IOMUXC_SW_PAD_CTL_PAD_UART3_TX_DATA : Z := 0x020e0330.
Definition IOMUXC_SW_MUX_CTL_PAD_UART3_RX_DATA : Z := 0x020e00a8.
Definition IOMUXC_SW_PAD_CTL_PAD_UART3_RX_DATA : Z := 0x020e0334.
Definition IOMUXC_SW_MUX_CTL_PAD_GPIO1_IO04 : Z := 0x020e006c.
Definition IOMUXC_SW_PAD_CTL_PAD_GPIO1_IO04 : Z := 0x020e02f8.
Definition IOMUXC_SW_MUX_CTL_PAD_GPIO1_IO06 : Z := 0x020e0074.
Definition IOMUXC_SW_PAD_CTL_PAD_GPIO1_IO06 : Z := 0x020e0300.
Definition BT_RESET : Z := 9.
Definition IOMUXC_SW_MUX_CTL_PAD_GPIO1_IO09 : Z := 0x020e0080.
Definition IOMUXC_SW_PAD_CTL_PAD_GPIO1_IO09 : Z := 0x020e030c.
Definition BT_SWITCH_1 : Z := 27.
Definition IOMUXC_SW_MUX_CTL_PAD_UART3_RTS_B : Z := 0x020e00b0.
Definition IOMUXC_SW_PAD_CTL_PAD_UART3_RTS_B : Z := 0x020e033c.
Definition BT_SWITCH_2 : Z := 26.
Definition IOMUXC_SW_MUX_CTL_PAD_UART3_CTS_B : Z := 0x020e00ac.
Definition IOMUXC_SW_PAD_CTL_PAD_UART3_CTS_B : Z := 0x020e0338.
Definition DEFAULT_MODE : Z := 0.
Definition GPIO_MODE : Z := 5.
(** [RESET_GRACE_TIME = 1 * time.Second], in nanoseconds. *)
Definition RESET_GRACE_TIME : Z := 1000000000.

(** The [imx6] pad-control fields and the GPIO1 registers (outside src/). *)
Definition SW_PAD_CTL_HYS : Z := 16.
Definition SW_PAD_CTL_PUS : Z := 14.
Definition SW_PAD_CTL_PUS_PULL_DOWN_100K : Z := 0.
Definition SW_PAD_CTL_PUS_PULL_UP_100K : Z := 2.
Definition SW_PAD_CTL_PUS_PULL_UP_22K : Z := 3.
Definition SW_PAD_CTL_PUE : Z := 13.
Definition SW_PAD_CTL_PKE : Z := 12.
Definition SW_PAD_CTL_SPEED : Z := 6.
Definition SW_PAD_CTL_SPEED_50MHZ : Z := 1.
Definition SW_PAD_CTL_SPEED_100MHZ : Z := 2.
Definition SW_PAD_CTL_DSE : Z := 3.
Definition SW_PAD_CTL_DSE_2_R0_4 : Z := 4.
Definition SW_PAD_CTL_DSE_2_R0_6 : Z := 6.
Definition SW_MUX_CTL_MUX_MODE : Z := 0.
Definition GPIO1_BASE : Z := 0x0209c000.
Definition GPIO_DR : Z := 0x00.
Definition GPIO_GDIR : Z := 0x04.

(** ** The [imx6] pad and GPIO API *)

Record Pad := mkPad { pad_mux : Z; pad_ctl : Z; pad_daisy : Z }.
Record GPIO := mkGPIO { gpio_num : Z; gpio_data : Z; gpio_gdir : Z; gpio_pad : Pad }.

(** [imx6.UART1], of which the driver sets [Flow]. *)
Record UART := mkUART { Flow : bool; uart_ready : bool }.

(** The [ANNA] struct. *)
Record ANNA := mkANNA {
  ble_UART : option UART;
  reset : option GPIO;
  switch1 : option GPIO;
  switch2 : option GPIO;
  errata : bool;
  rts : option GPIO;
  cts : option GPIO
}.

Record World := mkWorld { wbus : Bus; BLE : ANNA; locked : bool }.

#[export] Instance World_HasBus : HasBus World := {|
  bus_of := wbus;
  with_bus := fun b w => mkWorld b (BLE w) (locked w);
  bus_with := fun _ _ => eq_refl
|}.

(** The errors of the module. *)
Inductive ble_error := ErrNotInitialized.   (** "module is not initialized" *)

Section Api.
Context `{Device} {S : Type} `{HasBus S}.

(** [imx6.NewPad(mux, pad, daisy)] *)
Definition NewPad (mux pad daisy : Z) : option Pad := Some (mkPad mux pad daisy).

Definition Mode (p : Pad) (mode : Z) : IO S unit := mmio.SetN (pad_mux p) SW_MUX_CTL_MUX_MODE 15 mode.
Definition Ctl (p : Pad) (ctl : Z) : IO S unit := mmio.Write (pad_ctl p) ctl.
Definition Select (p : Pad) (input : Z) : IO S unit :=
  if pad_daisy p =? 0 then mret tt else mmio.Write (pad_daisy p) input.

(** [imx6.NewGPIO(num, instance, mux, pad)]: five GPIO banks of 32 lines. *)
Definition NewGPIO (num instance mux pad : Z) : option GPIO :=
  if (instance <? 1) || (5 <? instance) || (num <? 0) || (31 <? num) then None
  else let base := GPIO1_BASE + (instance - 1) * 0x4000 in
       Some (mkGPIO num (base + GPIO_DR) (base + GPIO_GDIR) (mkPad mux pad 0)).

Definition Out (g : GPIO) : IO S unit := mmio.Set_ (gpio_gdir g) (gpio_num g).
Definition In (g : GPIO) : IO S unit := mmio.Clear (gpio_gdir g) (gpio_num g).
Definition High (g : GPIO) : IO S unit := mmio.Set_ (gpio_data g) (gpio_num g).
Definition Low (g : GPIO) : IO S unit := mmio.Clear (gpio_data g) (gpio_num g).
Definition Value (g : GPIO) : IO S bool := v ← mmio.Get (gpio_data g) (gpio_num g) 1; mret (v =? 1).

End Api.

Section Mutex.
Context `{Device}.

(** [ble.Lock()], [ble.Unlock()] *)
Definition Lock : IO World unit := fun w =>
  if locked w then Blocked w else Done tt (mkWorld (wbus w) (BLE w) true).
Definition Unlock : IO World unit := fun w =>
  if locked w then Done tt (mkWorld (wbus w) (BLE w) false) else Crash w.

Definition set_BLE (f : ANNA -> ANNA) : IO World unit :=
  io_modify (fun w => mkWorld (wbus w) (f (BLE w)) (locked w)).
End Mutex.

(** Field updates of [ANNA]. *)
Definition with_UART (u : option UART) (a : ANNA) : ANNA :=
  mkANNA u (reset a) (switch1 a) (switch2 a) (errata a) (rts a) (cts a).
Definition with_reset (g : option GPIO) (a : ANNA) : ANNA :=
  mkANNA (ble_UART a) g (switch1 a) (switch2 a) (errata a) (rts a) (cts a).
Definition with_switch1 (g : option GPIO) (a : ANNA) : ANNA :=
  mkANNA (ble_UART a) (reset a) g (switch2 a) (errata a) (rts a) (cts a).
Definition with_switch2 (g : option GPIO) (a : ANNA) : ANNA :=
  mkANNA (ble_UART a) (reset a) (switch1 a) g (errata a) (rts a) (cts a).
Definition with_errata (e : bool) (a : ANNA) : ANNA :=
  mkANNA (ble_UART a) (reset a) (switch1 a) (switch2 a) e (rts a) (cts a).
Definition with_rts (g : option GPIO) (a : ANNA) : ANNA :=
  mkANNA (ble_UART a) (reset a) (switch1 a) (switch2 a) (errata a) g (cts a).
Definition with_cts (g : option GPIO) (a : ANNA) : ANNA :=
  mkANNA (ble_UART a) (reset a) (switch1 a) (switch2 a) (errata a) (rts a) g.

(** [imx6.UART1] before [Init]. *)
Definition UART1 : UART := mkUART false false.

Section Driver.
Context `{Device}.
Variable beta : bool.

(** [configureBLEPad(mux, pad, daisy, mode, ctl)] *)
Definition configureBLEPad (mux pad daisy mode ctl : Z) : IO World Pad :=
  match NewPad mux pad daisy with
  | None => io_crash
  | Some p => Mode p mode ;; Ctl p ctl ;; mret p
  end.

(** [configureBLEGPIO(num, instance, mux, pad, ctl)] *)
Definition configureBLEGPIO (num instance mux pad ctl : Z) : IO World GPIO :=
  match NewGPIO num instance mux pad with
  | None => io_crash
  | Some g => Mode (gpio_pad g) GPIO_MODE ;; Ctl (gpio_pad g) ctl ;; Out g ;; mret g
  end.

(** [BLE.UART.Flow = f], a nil [UART] being dereferenced. *)
Definition set_Flow (f : bool) : IO World unit := fun w =>
  match ble_UART (BLE w) with
  | None => Crash w
  | Some u => Done tt (mkWorld (wbus w) (with_UART (Some (mkUART f (uart_ready u))) (BLE w)) (locked w))
  end.

(** [BLE.UART.Init()] *)
Definition UART_Init : IO World unit := fun w =>
  match ble_UART (BLE w) with
  | None => Crash w
  | Some u => Done tt (mkWorld (wbus w) (with_UART (Some (mkUART (Flow u) true)) (BLE w)) (locked w))
  end.

(** A call on a GPIO field of [BLE], a nil one being dereferenced. *)
Definition on_gpio (field : ANNA -> option GPIO) (f : GPIO -> IO World unit) : IO World unit := fun w =>
  match field (BLE w) with None => Crash w | Some g => f g w end.

(** The pad control value of lines 147-154. *)
Definition ctl_uart : Z :=
  let ctl := bits.Set_ 0 SW_PAD_CTL_HYS in
  let ctl := bits.Set_ ctl SW_PAD_CTL_PUE in
  let ctl := bits.Set_ ctl SW_PAD_CTL_PKE in
  let ctl := bits.SetN ctl SW_PAD_CTL_PUS 3 SW_PAD_CTL_PUS_PULL_UP_100K in
  let ctl := bits.SetN ctl SW_PAD_CTL_SPEED 3 SW_PAD_CTL_SPEED_100MHZ in
  bits.SetN ctl SW_PAD_CTL_DSE 7 SW_PAD_CTL_DSE_2_R0_6.

(** The line-specific part of [Init] (lines 168-205); [ctl] is the value
    going in, the result the value coming out. *)
Definition init_flow (ctl : Z) : IO World Z :=
  if beta then
    set_BLE (with_errata true) ;;
    g ← configureBLEGPIO 7 1 IOMUXC_SW_MUX_CTL_PAD_GPIO1_IO07 IOMUXC_SW_PAD_CTL_PAD_GPIO1_IO07 ctl;
    set_BLE (with_cts (Some g)) ;;
    on_gpio cts Out ;;
    let ctl := bits.SetN ctl SW_PAD_CTL_PUS 3 SW_PAD_CTL_PUS_PULL_DOWN_100K in
    g ← configureBLEGPIO 18 1 IOMUXC_SW_MUX_CTL_PAD_UART1_CTS_B IOMUXC_SW_PAD_CTL_PAD_UART1_CTS_B ctl;
    set_BLE (with_rts (Some g)) ;;
    on_gpio rts In ;;
    set_Flow false ;;
    mret ctl
  else
    _ ← configureBLEPad IOMUXC_SW_MUX_CTL_PAD_UART1_CTS_B IOMUXC_SW_PAD_CTL_PAD_UART1_CTS_B 0 DEFAULT_MODE ctl;
    let ctl := bits.SetN ctl SW_PAD_CTL_PUS 3 SW_PAD_CTL_PUS_PULL_DOWN_100K in
    pad ← configureBLEPad IOMUXC_SW_MUX_CTL_PAD_GPIO1_IO07 IOMUXC_SW_PAD_CTL_PAD_GPIO1_IO07
            IOMUXC_UART1_RTS_B_SELECT_INPUT UART1_RTS_B_MODE ctl;
    Select pad DAISY_GPIO1_IO07 ;;
    set_Flow true ;;
    mret ctl.

(** [ble.Init()]; its error is always nil. *)
Definition Init : IO World (option ble_error) :=
  Lock ;;
  set_BLE (with_UART (Some UART1)) ;;
  let ctl := ctl_uart in
  (* BT_UART_TX *)
  _ ← configureBLEPad IOMUXC_SW_MUX_CTL_PAD_UART1_TX_DATA IOMUXC_SW_PAD_CTL_PAD_UART1_TX_DATA 0 DEFAULT_MODE ctl;
  (* BT_UART_RX *)
  pad ← configureBLEPad IOMUXC_SW_MUX_CTL_PAD_UART1_RX_DATA IOMUXC_SW_PAD_CTL_PAD_UART1_RX_DATA
          IOMUXC_UART1_RX_DATA_SELECT_INPUT DEFAULT_MODE ctl;
  Select pad DAISY_UART1_RX_DATA ;;
  ctl ← init_flow ctl;
  let ctl := bits.SetN ctl SW_PAD_CTL_PUS 3 SW_PAD_CTL_PUS_PULL_UP_22K in
  let ctl := bits.SetN ctl SW_PAD_CTL_SPEED 3 SW_PAD_CTL_SPEED_50MHZ in
  let ctl := bits.SetN ctl SW_PAD_CTL_DSE 7 SW_PAD_CTL_DSE_2_R0_4 in
  (* BT_UART_DSR: mode and ctl are passed in swapped positions *)
  _ ← configureBLEPad IOMUXC_SW_MUX_CTL_PAD_UART3_TX_DATA IOMUXC_SW_PAD_CTL_PAD_UART3_TX_DATA 0 ctl GPIO_MODE;
  (* BT_SWDCLK *)
  _ ← configureBLEPad IOMUXC_SW_MUX_CTL_PAD_GPIO1_IO04 IOMUXC_SW_PAD_CTL_PAD_GPIO1_IO04 0 GPIO_MODE ctl;
  (* BT_SWDIO *)
  _ ← configureBLEPad IOMUXC_SW_MUX_CTL_PAD_GPIO1_IO06 IOMUXC_SW_PAD_CTL_PAD_GPIO1_IO06 0 GPIO_MODE ctl;
  (* BT_RESET *)
  g ← configureBLEGPIO BT_RESET 1 IOMUXC_SW_MUX_CTL_PAD_GPIO1_IO09 IOMUXC_SW_PAD_CTL_PAD_GPIO1_IO09 ctl;
  set_BLE (with_reset (Some g)) ;;
  (* BT_SWITCH_1 *)
  g ← configureBLEGPIO BT_SWITCH_1 1 IOMUXC_SW_MUX_CTL_PAD_UART3_RTS_B IOMUXC_SW_PAD_CTL_PAD_UART3_RTS_B ctl;
  set_BLE (with_switch1 (Some g)) ;;
  (* BT_SWITCH_2 *)
  g ← configureBLEGPIO BT_SWITCH_2 1 IOMUXC_SW_MUX_CTL_PAD_UART3_CTS_B IOMUXC_SW_PAD_CTL_PAD_UART3_CTS_B ctl;
  set_BLE (with_switch2 (Some g)) ;;
  let ctl := bits.SetN 0 SW_PAD_CTL_DSE 7 SW_PAD_CTL_DSE_2_R0_4 in
  let ctl := bits.Set_ ctl SW_PAD_CTL_HYS in
  (* BT_UART_DTR *)
  _ ← configureBLEPad IOMUXC_SW_MUX_CTL_PAD_UART3_RX_DATA IOMUXC_SW_PAD_CTL_PAD_UART3_RX_DATA 0 GPIO_MODE ctl;
  UART_Init ;;
  (* reset in normal mode *)
  on_gpio switch1 High ;;
  on_gpio switch2 High ;;
  on_gpio reset Low ;;
  (* deferred: BLE.reset.High(), then ble.Unlock() *)
  on_gpio reset High ;;
  Unlock ;;
  mret None.

(** [ble.RTS()] *)
Definition RTS : IO World bool := fun w =>
  if negb (errata (BLE w)) then Done false w
  else match rts (BLE w) with
       | None => Crash w
       | Some g => (v ← Value g; mret (negb v)) w
       end.

(** [ble.CTS(clear)] *)
Definition CTS (clear : bool) : IO World unit := fun w =>
  if negb (errata (BLE w)) then Done tt w
  else on_gpio cts (fun g => if clear then Low g else High g) w.

(** [ble.Reset()] *)
Definition Reset : IO World (option ble_error) :=
  Lock ;;
  r ← io_gets (fun w => reset (BLE w));
  match r with
  | None => Unlock ;; mret (Some ErrNotInitialized)
  | Some g =>
      Low g ;;
      mmio.Sleep_ RESET_GRACE_TIME ;;
      (* deferred: ble.reset.High(), then ble.Unlock() *)
      High g ;;
      Unlock ;;
      mret None
  end.

(** [NormalMode] and [BootloaderMode]: drive both switches to [level],
    then [ble.Reset()], the mutex still held. *)
Definition enter_mode (level : bool) : IO World (option ble_error) :=
  Lock ;;
  sw ← io_gets (fun w => (switch1 (BLE w), switch2 (BLE w)));
  match sw with
  | (Some s1, Some s2) =>
      (if level then High s1 else Low s1) ;;
      (if level then High s2 else Low s2) ;;
      err ← Reset;
      Unlock ;;
      mret err
  | _ => Unlock ;; mret (Some ErrNotInitialized)
  end.

Definition NormalMode : IO World (option ble_error) := enter_mode true.
Definition BootloaderMode : IO World (option ble_error) := enter_mode false.
End Driver.

(** The world before [Init]: a nil [UART], no lines, the mutex free. *)
Definition world0 : World :=
  mkWorld (mkBus ∅ [] 0) (mkANNA None None None None false None None) false.

(** The value of register [a] in a world, 0 if never written. *)
Definition reg_value (w : World) (a : Z) : Z := default 0 (regs (wbus w) !! a).

(** * Lemmas *)

Section Steps.
Context `{Device}.

Lemma Lock_free {B} (k : unit -> IO World B) w :
  locked w = false -> (Lock ≫= k) w = k tt (mkWorld (wbus w) (BLE w) true).
Proof. intros Hl. unfold mbind, IO_bind, Lock. rewrite Hl. reflexivity. Qed.

Lemma Lock_held {B} (k : unit -> IO World B) w :
  locked w = true -> (Lock ≫= k) w = Blocked w.
Proof. intros Hl. unfold mbind, IO_bind, Lock. rewrite Hl. reflexivity. Qed.

Lemma Unlock_held {B} (k : unit -> IO World B) w :
  locked w = true -> (Unlock ≫= k) w = k tt (mkWorld (wbus w) (BLE w) false).
Proof. intros Hl. unfold mbind, IO_bind, Unlock. rewrite Hl. reflexivity. Qed.

(** A read-modify-write of a line leaves the driver's fields and the lock. *)
Lemma Set_world a p w :
  mmio.Set_ a p w = Done tt (mkWorld (bus_write a (bits.Set_ (u32 (dev_read (wbus w) a)) p)
                                     (record (MMIORead a (u32 (dev_read (wbus w) a))) (wbus w))) (BLE w) (locked w)).
Proof. reflexivity. Qed.

Lemma Clear_world a p w :
  mmio.Clear a p w = Done tt (mkWorld (bus_write a (bits.Clear (u32 (dev_read (wbus w) a)) p)
                                     (record (MMIORead a (u32 (dev_read (wbus w) a))) (wbus w))) (BLE w) (locked w)).
Proof. reflexivity. Qed.

Lemma level_world (level : bool) g w :
  exists b, (if level then High g else Low g) w = Done tt (mkWorld b (BLE w) (locked w)).
Proof. destruct level; [unfold High; rewrite Set_world | unfold Low; rewrite Clear_world]; eexists; reflexivity. Qed.
End Steps.

(** ** The mutex and the boot modes *)

(** C34: [NormalMode] and [BootloaderMode] deadlock on an initialized
    module: they take [ble]'s mutex and, holding it, call [ble.Reset()],
    which takes the same non-reentrant mutex, so neither ever returns. On
    a module whose switches are not set up they return "module is not
    initialized" and release the mutex. *)
Theorem modes_block `{Device} (level : bool) w :
  locked w = false ->
  (switch1 (BLE w) <> None -> switch2 (BLE w) <> None -> exists w', enter_mode level w = Blocked w') /\
  (switch1 (BLE w) = None \/ switch2 (BLE w) = None ->
   enter_mode level w = Done (Some ErrNotInitialized) (mkWorld (wbus w) (BLE w) false)).
Proof.
  intros Hl. unfold enter_mode. rewrite Lock_free by exact Hl. rewrite gets_bind. cbn [BLE].
  split.
  - intros H1 H2. destruct (switch1 (BLE w)) as [s1|]; [|congruence].
    destruct (switch2 (BLE w)) as [s2|]; [|congruence].
    destruct (level_world level s1 (mkWorld (wbus w) (BLE w) true)) as [b1 E1].
    rewrite (bind_Done _ _ _ _ _ E1).
    destruct (level_world level s2 (mkWorld b1 (BLE w) true)) as [b2 E2].
    rewrite (bind_Done _ _ _ _ _ E2). eexists. apply bind_Blocked. unfold Reset. apply Lock_held. reflexivity.
  - intros Hn. destruct Hn as [-> | ->]; [|destruct (switch1 (BLE w))];
      rewrite Unlock_held by reflexivity; reflexivity.
Qed.

(** C35: [Reset] on an initialized module, the mutex free: it drives the
    reset line low (a read-modify-write of bit [num] of the GPIO data
    register), sleeps [RESET_GRACE_TIME], drives it high again, releases
    the mutex and returns nil; the line is low for the whole second and
    high at the end. Without a reset line it returns "module is not
    initialized", touching nothing. *)
Theorem Reset_spec `{Device} w :
  locked w = false ->
  (forall g, reset (BLE w) = Some g -> 0 <= gpio_num g < 32 ->
   exists r1 r2 w', Reset w = Done None w' /\ locked w' = false /\ BLE w' = BLE w /\
     now (wbus w') = now (wbus w) + RESET_GRACE_TIME /\
     log (wbus w') = log (wbus w) ++
       [MMIORead (gpio_data g) r1; MMIOWrite (gpio_data g) (bits.Clear r1 (gpio_num g));
        Sleep RESET_GRACE_TIME;
        MMIORead (gpio_data g) r2; MMIOWrite (gpio_data g) (bits.Set_ r2 (gpio_num g))] /\
     bits.Get (bits.Clear r1 (gpio_num g)) (gpio_num g) 1 = 0 /\
     bits.Get (bits.Set_ r2 (gpio_num g)) (gpio_num g) 1 = 1) /\
  (reset (BLE w) = None -> Reset w = Done (Some ErrNotInitialized) (mkWorld (wbus w) (BLE w) false)).
Proof.
  intros Hl. unfold Reset. rewrite Lock_free by exact Hl. rewrite gets_bind. cbn [BLE]. split.
  - intros g Hg Hn. rewrite Hg. unfold Low. rewrite (bind_Done _ _ _ _ _ (Clear_world _ _ _)).
    unfold mbind at 1, IO_bind at 1. cbn [mmio.Sleep_ mmio.on_bus bus_of with_bus World_HasBus wbus BLE locked].
    unfold High. rewrite (bind_Done _ _ _ _ _ (Set_world _ _ _)). rewrite Unlock_held by reflexivity.
    do 3 eexists. split; [reflexivity|]. cbn [locked BLE wbus]. split; [reflexivity|]. split; [reflexivity|].
    split; [reflexivity|]. split.
    + repeat (autorewrite with mmio_rw; cbn [log regs now]).
      rewrite (u32_small (bits.Clear _ _)) by apply Clear_range. rewrite (u32_small (bits.Set_ _ _)) by apply Set_range.
      rewrite <- !app_assoc. reflexivity.
    + split; [apply Get_Clear_same | apply Get_Set_same]; exact Hn.
  - intros Hn. rewrite Hn. rewrite Unlock_held by reflexivity. reflexivity.
Qed.

(** ** [Init] *)

(** [Init] from power-on, pad and GPIO registers reading back what was
    written: on a gamma board it returns nil with the mutex released, no
    errata, hardware flow control on, the reset line an output driven high
    at the end (the deferred [High]) and both switches high; the DSR pad,
    whose [configureBLEPad] call passes [ctl] as the mode and [GPIO_MODE]
    as the pad control, is left in mux mode 0 (the UART3_TX function, not
    GPIO) with pad control 5; and [NormalMode] after it never returns. On
    a beta board [Init] sets the errata, turns flow control off, drives the
    CTS line as an output and reads the RTS line as an input. *)
Theorem Init_configures :
  match @Init mem_device false world0 with
  | Done None w =>
      locked w = false /\ errata (BLE w) = false /\ option_map Flow (ble_UART (BLE w)) = Some true /\
      bits.Get (reg_value w (GPIO1_BASE + GPIO_GDIR)) BT_RESET 1 = 1 /\
      bits.Get (reg_value w (GPIO1_BASE + GPIO_DR)) BT_RESET 1 = 1 /\
      bits.Get (reg_value w (GPIO1_BASE + GPIO_DR)) BT_SWITCH_1 1 = 1 /\
      bits.Get (reg_value w (GPIO1_BASE + GPIO_DR)) BT_SWITCH_2 1 = 1 /\
      bits.Get (reg_value w IOMUXC_SW_MUX_CTL_PAD_UART3_TX_DATA) SW_MUX_CTL_MUX_MODE 15 = 0 /\
      reg_value w IOMUXC_SW_PAD_CTL_PAD_UART3_TX_DATA = GPIO_MODE /\
      (exists w', @NormalMode mem_device w = Blocked w')
  | _ => False
  end /\
  match @Init mem_device true world0 with
  | Done None w =>
      locked w = false /\ errata (BLE w) = true /\ option_map Flow (ble_UART (BLE w)) = Some false /\
      bits.Get (reg_value w (GPIO1_BASE + GPIO_GDIR)) 7 1 = 1 /\
      bits.Get (reg_value w (GPIO1_BASE + GPIO_GDIR)) 18 1 = 0
  | _ => False
  end.
Proof.
  split; vm_compute; repeat split; try reflexivity. eexists. reflexivity.
Qed.

(** ** The register invariant *)

(** On a board without the errata [RTS] reports "not ready" and [CTS]
    does nothing; with it, [RTS] reads the data register once and is the
    negation of the RTS input line, and [CTS clear] drives the CTS line
    low to clear it, high otherwise. Neither takes the mutex. *)
Lemma RTS_CTS_spec `{Device} w :
  (errata (BLE w) = false -> RTS w = Done false w /\ forall clear, CTS clear w = Done tt w) /\
  (errata (BLE w) = true -> forall g, rts (BLE w) = Some g ->
     let v := u32 (dev_read (wbus w) (gpio_data g)) in
     RTS w = Done (negb (bits.Get v (gpio_num g) 1 =? 1))
                  (mkWorld (record (MMIORead (gpio_data g) v) (wbus w)) (BLE w) (locked w))) /\
  (errata (BLE w) = true -> forall g clear, cts (BLE w) = Some g ->
     CTS clear w = (if clear then Low g else High g) w).
Proof.
  split; [|split]; intros He; unfold RTS, CTS; rewrite He; cbn [negb].
  - split; [reflexivity | intros; reflexivity].
  - intros g Hg. rewrite Hg. reflexivity.
  - intros g clear Hg. unfold on_gpio. rewrite Hg. reflexivity.
Qed.

Section Wf.
Context `{Device}.

Lemma keeps_wf_Lock : keeps_wf Lock.
Proof. intros w a w' Hw E. unfold Lock in E. destruct (locked w); [discriminate|]. injection E as _ <-. exact Hw. Qed.

Lemma keeps_wf_Unlock : keeps_wf Unlock.
Proof. intros w a w' Hw E. unfold Unlock in E. destruct (locked w); [|discriminate]. injection E as _ <-. exact Hw. Qed.

Lemma keeps_wf_set_BLE f : keeps_wf (set_BLE f).
Proof. intros w a w' Hw E. injection E as _ <-. exact Hw. Qed.

Lemma keeps_wf_set_Flow f : keeps_wf (set_Flow f).
Proof. intros w a w' Hw E. unfold set_Flow in E. destruct (ble_UART (BLE w)); [|discriminate]. injection E as _ <-. exact Hw. Qed.

Lemma keeps_wf_UART_Init : keeps_wf UART_Init.
Proof. intros w a w' Hw E. unfold UART_Init in E. destruct (ble_UART (BLE w)); [|discriminate]. injection E as _ <-. exact Hw. Qed.

Lemma keeps_wf_on_gpio field f : (forall g, keeps_wf (f g)) -> keeps_wf (on_gpio field f).
Proof. intros Hf w a w' Hw E. unfold on_gpio in E. destruct (field (BLE w)); [exact (Hf _ _ _ _ Hw E) | discriminate]. Qed.
End Wf.

#[export] Hint Resolve keeps_wf_Lock keeps_wf_Unlock keeps_wf_set_BLE keeps_wf_set_Flow keeps_wf_UART_Init : mmio_wf.
#[export] Hint Extern 1 (keeps_wf (on_gpio _ _)) => apply keeps_wf_on_gpio; intros : mmio_wf.
#[export] Hint Extern 1 (keeps_wf (Mode _ _)) => unfold Mode : mmio_wf.
#[export] Hint Extern 1 (keeps_wf (Ctl _ _)) => unfold Ctl : mmio_wf.
#[export] Hint Extern 1 (keeps_wf (Out _)) => unfold Out : mmio_wf.
#[export] Hint Extern 1 (keeps_wf (In _)) => unfold In : mmio_wf.
#[export] Hint Extern 1 (keeps_wf (High _)) => unfold High : mmio_wf.
#[export] Hint Extern 1 (keeps_wf (Low _)) => unfold Low : mmio_wf.

Lemma keeps_wf_Select `{Device} {S : Type} `{HasBus S} p input : keeps_wf (Select (S:=S) p input).
Proof. unfold Select. wf_solve. Qed.

Section WfOps.
Context `{Device}.

Lemma keeps_wf_configureBLEPad mux pad daisy mode ctl : keeps_wf (configureBLEPad mux pad daisy mode ctl).
Proof. unfold configureBLEPad, NewPad, Mode, Ctl. wf_solve. Qed.

Lemma keeps_wf_configureBLEGPIO num inst mux pad ctl : keeps_wf (configureBLEGPIO num inst mux pad ctl).
Proof. unfold configureBLEGPIO, Mode, Ctl, Out. wf_solve. Qed.
End WfOps.

#[export] Hint Resolve keeps_wf_Select keeps_wf_configureBLEPad keeps_wf_configureBLEGPIO : mmio_wf.


Section WfDriver.
Context `{Device}.

Lemma keeps_wf_ble_Init beta : keeps_wf (Init beta).
Proof. unfold Init, init_flow. wf_solve. Qed.

Lemma keeps_wf_Reset : keeps_wf Reset.
Proof. unfold Reset. wf_solve. Qed.

Lemma keeps_wf_enter_mode level : keeps_wf (enter_mode level).
Proof. unfold enter_mode. wf_solve; apply keeps_wf_Reset. Qed.

Lemma keeps_wf_RTS : keeps_wf RTS.
Proof.
  intros w a w' Hw E. unfold RTS in E. destruct (negb _); [injection E as _ <-; exact Hw|].
  destruct (rts (BLE w)) as [g|]; [|discriminate]. revert w a w' Hw E.
  unfold Value. wf_solve.
Qed.

Lemma keeps_wf_CTS clear : keeps_wf (CTS clear).
Proof.
  intros w a w' Hw E. unfold CTS in E. destruct (negb _); [injection E as _ <-; exact Hw|].
  revert w a w' Hw E. apply keeps_wf_on_gpio. intros g. destruct clear; wf_solve.
Qed.
End WfDriver.
