(* ===== verification/Board.v ===== *)
(** * Board support: LED, SD/MMC write protect, random number source

    - Raspberry Pi Zero (src/unnamed/part_000, lines 17-54): the activity
      LED, a [bcm2835] GPIO line set up as an output by [init] and driven
      by [LED(name, on)], over the GPIO interface of [MiniUart.v].
    - USB armory Mk II (src/unnamed/part_000, lines 92-180): [init] pulls
      down the unconnected write-protect pads of both uSDHC controllers,
      initializes them and, on the gamma revision, installs the
      low-voltage switches, of which [lowVoltageSD] asks the PF1510 PMIC
      over I2C for 1.8 V or 3.3 V on LDO3. The pads go through the [imx6]
      pad API of [Ble.v]; the I2C bus (outside src/) is the class [I2C],
      and [SD.Init] and [MMC.Init] are modelled by the bus width they
      record in [Usdhc].
    - i.MX6UL (src/unnamed/part_001): [initRNG] picks the random source of
      the runtime, as a value of [rng_source].
    - SiFive FU540 (src/unnamed/part_003, lines 29-63): the peripheral
      constants, the two UART instances, [Init] (which does nothing) and
      [Model], in [Module fu540].

    At the end, [board_registers_32bit] collects the register invariant of
    every board driver. *)

From Stdlib Require Import String.
From stdpp Require Import base gmap list.
From S2P Require Import Prelude Mmio MiniUart Ble.
Open Scope Z_scope.

(** ** The Raspberry Pi Zero activity LED *)

Definition ACTIVITY : Z := 0x2f.

Inductive led_error := ErrInvalidLED.   (** "invalid LED" *)

Section Led.
Context `{Bcm2835Gpio Bus}.

(** [init()]: [NewGPIO(ACTIVITY)], a panic on error, then [Out()]. *)
Definition led_init : IO Bus unit :=
  if gpio_valid ACTIVITY then gpio_Out ACTIVITY else io_crash.

(** [b.LED(name, on)] *)
Definition LED (name : string) (on : bool) : IO Bus (option led_error) :=
  if (String.eqb name "activity" || String.eqb name "Activity" || String.eqb name "ACTIVITY")%bool then
    (if on then gpio_High ACTIVITY else gpio_Low ACTIVITY) ;; mret None
  else mret (Some ErrInvalidLED).
End Led.

(** ** USB armory Mk II: uSDHC write protect and voltage switch *)

Definition IOMUXC_SW_MUX_CTL_PAD_CSI_DATA04 : Z := 0x020e01f4.
Definition IOMUXC_SW_PAD_CTL_PAD_CSI_DATA04 : Z := 0x020e0480.
Definition IOMUXC_USDHC1_WP_SELECT_INPUT : Z := 0x020e066c.
Definition USDHC1_WP_MODE : Z := 8.
Definition DAISY_CSI_DATA04 : Z := 2.
Definition IOMUXC_SW_MUX_CTL_PAD_CSI_PIXCLK : Z := 0x020e01d8.
Definition IOMUXC_SW_PAD_CTL_PAD_CSI_PIXCLK : Z := 0x020e0464.
Definition IOMUXC_USDHC2_WP_SELECT_INPUT : Z := 0x020e069c.
Definition USDHC2_WP_MODE : Z := 1.
Definition DAISY_CSI_PIXCLK : Z := 2.
Definition SD_BUS_WIDTH : Z := 4.
Definition MMC_BUS_WIDTH : Z := 8.
Definition PF1510_LDO3_VOLT : Z := 0x52.
Definition LDO3_VOLT_1V8 : Z := 0x10.
Definition LDO3_VOLT_3V3 : Z := 0x1f.
(** [PF1510_ADDR], declared in another file of the package. *)
Definition PF1510_ADDR : Z := 0x08.

(** [Model()] of the USB armory Mk II. *)
Inductive mk2_model := UA_MKII_beta | UA_MKII_gamma | UA_MKII_other.

(** The [LowVoltage] hook of a uSDHC controller. *)
Inductive low_voltage := NoLowVoltage | LowVoltageSD | LowVoltageMMC.

(** The two controllers, and what [init] sets of them. *)
Record Usdhc := mkUsdhc { usdhc_width : option Z; LowVoltage : low_voltage }.
Record Mk2 := mkMk2 { mbus : Bus; SD : Usdhc; MMC : Usdhc }.

#[export] Instance Mk2_HasBus : HasBus Mk2 := {|
  bus_of := mbus;
  with_bus := fun b m => mkMk2 b (SD m) (MMC m);
  bus_with := fun _ _ => eq_refl
|}.

(** [imx6.I2C1.Write(buf, addr, reg, alen)] (outside src/): its error. *)
Class I2C := { i2c_Write : list Z -> Z -> Z -> Z -> IO Mk2 (option Z) }.

Definition set_SD (u : Usdhc) : IO Mk2 unit := io_modify (fun m => mkMk2 (mbus m) u (MMC m)).
Definition set_MMC (u : Usdhc) : IO Mk2 unit := io_modify (fun m => mkMk2 (mbus m) (SD m) u).

Section Mk2Init.
Context `{Device}.
Variables (Native : bool) (model : mk2_model).

(** [init()] of the uSDHC support. *)
Definition sd_init : IO Mk2 unit :=
  let ctl := u32 (Z.lor (Z.shiftl 1 SW_PAD_CTL_PUE) (Z.shiftl 1 SW_PAD_CTL_PKE)) in
  match NewPad IOMUXC_SW_MUX_CTL_PAD_CSI_DATA04 IOMUXC_SW_PAD_CTL_PAD_CSI_DATA04 IOMUXC_USDHC1_WP_SELECT_INPUT with
  | None => io_crash
  | Some wpSD =>
  match NewPad IOMUXC_SW_MUX_CTL_PAD_CSI_PIXCLK IOMUXC_SW_PAD_CTL_PAD_CSI_PIXCLK IOMUXC_USDHC2_WP_SELECT_INPUT with
  | None => io_crash
  | Some wpMMC =>
      if negb Native then mret tt
      else
        Mode wpSD USDHC1_WP_MODE ;; Select wpSD DAISY_CSI_DATA04 ;; Ctl wpSD ctl ;;
        Mode wpMMC USDHC2_WP_MODE ;; Select wpMMC DAISY_CSI_PIXCLK ;; Ctl wpMMC ctl ;;
        sd ← io_gets SD; set_SD (mkUsdhc (Some SD_BUS_WIDTH) (LowVoltage sd)) ;;
        mmc ← io_gets MMC; set_MMC (mkUsdhc (Some MMC_BUS_WIDTH) (LowVoltage mmc)) ;;
        match model with
        | UA_MKII_beta => mret tt
        | UA_MKII_gamma =>
            sd ← io_gets SD; set_SD (mkUsdhc (usdhc_width sd) LowVoltageSD) ;;
            mmc ← io_gets MMC; set_MMC (mkUsdhc (usdhc_width mmc) LowVoltageMMC)
        | UA_MKII_other => mret tt
        end
  end
  end.
End Mk2Init.

(** [lowVoltageSD(enable)]: the LDO3 voltage through the PMIC. *)
Definition lowVoltageSD `{I2C} (enable : bool) : IO Mk2 bool :=
  let a := [if enable then LDO3_VOLT_1V8 else LDO3_VOLT_3V3] in
  err ← i2c_Write a PF1510_ADDR PF1510_LDO3_VOLT 1;
  mret (match err with None => true | Some _ => false end).

(** [lowVoltageMMC(enable)] *)
Definition lowVoltageMMC (enable : bool) : IO Mk2 bool := mret true.

(** ** [initRNG] of the i.MX6UL *)

Inductive rng_source := GetLCGData | DRBG_CAAM | RNGB_GetRandomData.

Inductive imx6_model := IMX6UL | IMX6ULL | IMX6ULZ | IMX6_other.

(** [initRNG()]: the new [rng.GetRandomDataFn] from the old one. *)
Definition initRNG (Native : bool) (model : imx6_model) (fn : option rng_source) : option rng_source :=
  if negb Native then Some GetLCGData
  else match model with
       | IMX6UL => Some DRBG_CAAM
       | IMX6ULL | IMX6ULZ => Some RNGB_GetRandomData
       | IMX6_other => fn
       end.

(** The pad control value of the write-protect pads. *)
Definition wp_ctl : Z := u32 (Z.lor (Z.shiftl 1 SW_PAD_CTL_PUE) (Z.shiftl 1 SW_PAD_CTL_PKE)).

(** ** SiFive FU540 (src/unnamed/part_003, lines 29-63) *)

Module fu540.
Definition CLINT_BASE : Z := 0x2000000.
Definition MTIME : Z := 0xbff8.
Definition UART1_BASE : Z := 0x10010000.
Definition UART2_BASE : Z := 0x10011000.

(** [uart.UART] (outside src/): the fields the package sets. *)
Record uart := mkUart { Index : Z; Base : Z }.
Definition UART1 : uart := mkUart 1 UART1_BASE.
Definition UART2 : uart := mkUart 2 UART2_BASE.

Definition ramStackOffset : Z := 0x100.

(** [Init()]: nothing to do at run-time start. *)
Definition Init : IO Bus unit := mret tt.

(** [Model()] *)
Definition Model : string := "FU540".
End fu540.

(** * Lemmas *)

Section PadSteps.
Context `{Device} {S : Type} `{HasBus S}.

Lemma Mode_bind {B} p mode (k : unit -> IO S B) s :
  (Mode p mode ≫= k) s =
  let r := u32 (dev_read (bus_of s) (pad_mux p)) in
  let s1 := with_bus (record (MMIORead (pad_mux p) r) (bus_of s)) s in
  k tt (with_bus (bus_write (pad_mux p) (bits.SetN r SW_MUX_CTL_MUX_MODE 15 mode) (bus_of s1)) s1).
Proof. reflexivity. Qed.

Lemma Select_bind {B} p input (k : unit -> IO S B) s :
  pad_daisy p <> 0 ->
  (Select p input ≫= k) s = k tt (with_bus (bus_write (pad_daisy p) input (bus_of s)) s).
Proof. intros Hd. unfold Select. rewrite (proj2 (Z.eqb_neq _ _) Hd). reflexivity. Qed.

Lemma Ctl_bind {B} p ctl (k : unit -> IO S B) s :
  (Ctl p ctl ≫= k) s = k tt (with_bus (bus_write (pad_ctl p) ctl (bus_of s)) s).
Proof. reflexivity. Qed.
End PadSteps.

(** C39: On the USB armory Mk II, [init] on the hardware pulls down both
    unconnected write-protect pads, so that the uSDHC driver never sees a
    card write protected: each pad control register gets a value with the
    pull/keeper enable ([PKE]) and pull select ([PUE]) bits set and the
    pull field 0, the 100K pull-down; the daisy chains select the pads and
    their mux registers their write-protect function. Both controllers are
    initialized with their bus widths, and the low-voltage hooks are
    installed on the gamma revision only. Off the hardware [init] does
    nothing. *)
Theorem write_protect_pulled_down `{Device} model m :
  (exists m', sd_init true model m = Done tt m' /\
    regs (mbus m') !! IOMUXC_SW_PAD_CTL_PAD_CSI_DATA04 = Some wp_ctl /\
    regs (mbus m') !! IOMUXC_SW_PAD_CTL_PAD_CSI_PIXCLK = Some wp_ctl /\
    regs (mbus m') !! IOMUXC_USDHC1_WP_SELECT_INPUT = Some DAISY_CSI_DATA04 /\
    regs (mbus m') !! IOMUXC_USDHC2_WP_SELECT_INPUT = Some DAISY_CSI_PIXCLK /\
    (exists v, regs (mbus m') !! IOMUXC_SW_MUX_CTL_PAD_CSI_DATA04 = Some v /\ bits.Get v 0 15 = USDHC1_WP_MODE) /\
    (exists v, regs (mbus m') !! IOMUXC_SW_MUX_CTL_PAD_CSI_PIXCLK = Some v /\ bits.Get v 0 15 = USDHC2_WP_MODE) /\
    usdhc_width (SD m') = Some SD_BUS_WIDTH /\ usdhc_width (MMC m') = Some MMC_BUS_WIDTH /\
    LowVoltage (SD m') = match model with UA_MKII_gamma => LowVoltageSD | _ => LowVoltage (SD m) end /\
    LowVoltage (MMC m') = match model with UA_MKII_gamma => LowVoltageMMC | _ => LowVoltage (MMC m) end) /\
  bits.Get wp_ctl SW_PAD_CTL_PKE 1 = 1 /\ bits.Get wp_ctl SW_PAD_CTL_PUE 1 = 1 /\
  bits.Get wp_ctl SW_PAD_CTL_PUS 3 = SW_PAD_CTL_PUS_PULL_DOWN_100K /\
  sd_init false model m = Done tt m.
Proof.
  split; [|vm_compute; repeat split; reflexivity].
  unfold sd_init. cbn [NewPad negb]. unfold set_SD, set_MMC.
  rewrite Mode_bind; cbv zeta; rewrite Select_bind by discriminate; rewrite Ctl_bind.
  rewrite Mode_bind; cbv zeta; rewrite Select_bind by discriminate; rewrite Ctl_bind.
  rewrite gets_bind, modify_bind, gets_bind, modify_bind.
  cbn [with_bus bus_of Mk2_HasBus mbus SD MMC pad_mux pad_ctl pad_daisy].
  destruct model; rewrite ?gets_bind, ?modify_bind; eexists; (split; [reflexivity|]); cbn [mbus SD MMC];
    autorewrite with mmio_rw;
    unfold IOMUXC_SW_PAD_CTL_PAD_CSI_DATA04, IOMUXC_SW_PAD_CTL_PAD_CSI_PIXCLK, IOMUXC_USDHC1_WP_SELECT_INPUT,
      IOMUXC_USDHC2_WP_SELECT_INPUT, IOMUXC_SW_MUX_CTL_PAD_CSI_DATA04, IOMUXC_SW_MUX_CTL_PAD_CSI_PIXCLK;
    simplify_map_eq;
    (split; [reflexivity|]); (split; [reflexivity|]); (split; [reflexivity|]); (split; [reflexivity|]);
    (split; [eexists; split; [reflexivity|]; rewrite u32_small by apply SetN_range;
             change 15 with (Z.ones 4); apply Get_SetN_same; unfold SW_MUX_CTL_MUX_MODE, USDHC1_WP_MODE, USDHC2_WP_MODE; lia|]);
    (split; [eexists; split; [reflexivity|]; rewrite u32_small by apply SetN_range;
             change 15 with (Z.ones 4); apply Get_SetN_same; unfold SW_MUX_CTL_MUX_MODE, USDHC1_WP_MODE, USDHC2_WP_MODE; lia|]);
    repeat split.
Qed.

(** [LED] drives the activity line for its three spellings of the name,
    and otherwise returns "invalid LED" without touching the hardware. *)
Lemma LED_spec `{Bcm2835Gpio Bus} name on b :
  LED name on b =
  if (String.eqb name "activity" || String.eqb name "Activity" || String.eqb name "ACTIVITY")%bool
  then ((if on then gpio_High ACTIVITY else gpio_Low ACTIVITY) ;; mret None) b
  else Done (Some ErrInvalidLED) b.
Proof. unfold LED. destruct (_ || _)%bool; reflexivity. Qed.

(** [initRNG] leaves the random source as it was on a native i.MX6 that is
    none of the three models it knows. *)
Lemma initRNG_sources fn :
  initRNG false IMX6_other fn = Some GetLCGData /\
  initRNG true IMX6UL fn = Some DRBG_CAAM /\
  initRNG true IMX6ULL fn = Some RNGB_GetRandomData /\
  initRNG true IMX6ULZ fn = Some RNGB_GetRandomData /\
  initRNG true IMX6_other fn = fn.
Proof. repeat split. Qed.

Lemma keeps_wf_set_SD u : keeps_wf (set_SD u).
Proof. intros m a m' Hw E. injection E as _ <-. exact Hw. Qed.

Lemma keeps_wf_set_MMC u : keeps_wf (set_MMC u).
Proof. intros m a m' Hw E. injection E as _ <-. exact Hw. Qed.

#[export] Hint Resolve keeps_wf_set_SD keeps_wf_set_MMC : mmio_wf.

Lemma keeps_wf_sd_init `{Device} Native model : keeps_wf (sd_init Native model).
Proof. unfold sd_init. cbn [NewPad]. cbv zeta. destruct Native, model; wf_solve. Qed.

(** Type invariant of the board drivers: every register access of the
    mini-UART ([Init], [Tx], [Write]), of the Bluetooth module ([Init],
    [Reset], [NormalMode], [BootloaderMode], [RTS], [CTS]) and of the uSDHC
    set-up leaves every register a 32-bit value, whatever the hardware
    returns to reads. *)
Theorem board_registers_32bit `{Device} :
  keeps_wf miniUART.Init /\
  (forall fuel c, keeps_wf (miniUART.Tx fuel c)) /\
  (forall fuel buf, keeps_wf (miniUART.Write fuel buf)) /\
  (forall beta, keeps_wf (Init beta)) /\ keeps_wf Reset /\
  keeps_wf NormalMode /\ keeps_wf BootloaderMode /\
  keeps_wf RTS /\ (forall clear, keeps_wf (CTS clear)) /\
  (forall Native model, keeps_wf (sd_init Native model)).
Proof.
  split; [apply keeps_wf_uart_Init|]. split; [intros; apply keeps_wf_Tx|].
  split; [intros; unfold miniUART.Write; apply keeps_wf_write_loop|].
  split; [intros; apply keeps_wf_ble_Init|]. split; [apply keeps_wf_Reset|].
  split; [apply keeps_wf_enter_mode|]. split; [apply keeps_wf_enter_mode|].
  split; [apply keeps_wf_RTS|]. split; [intros; apply keeps_wf_CTS|].
  intros; apply keeps_wf_sd_init.
Qed.
