(* ===== verification/BoardScenarios.v ===== *)
(** * Runs of the board drivers against concrete hardware

    Concrete devices for the MMIO model of [Mmio.v]: a mini UART whose
    transmitter empties only after two polls, one that never empties and
    one that is always ready; an ANNA-B112 module record with its reset and
    switch lines on GPIO1. The lemmas here apply the theorems of
    [MiniUart.v] and [Ble.v] at these inputs. *)

From stdpp Require Import base list gmap.
From S2P Require Import Prelude Mmio MiniUart Ble Board.
Open Scope Z_scope.

(** A line-status register that reports "transmitter empty" (bit 5) from
    the third read of it on. *)
Definition slow_uart : Device :=
  {| dev_read := fun b a => if 2 <=? Z.of_nat (lsr_reads (log b)) then 0x20 else 0 |}.

(** A transmitter that never empties. *)
Definition stuck_uart : Device := {| dev_read := fun _ _ => 0 |}.

(** A transmitter that is always empty. *)
Definition ready_uart : Device := {| dev_read := fun _ _ => 0x20 |}.

Definition bus0 : Bus := mkBus ∅ [] 0.

(** Lines 2, 3 and 4 of GPIO1 as the reset and switch lines. *)
Definition line (n : Z) : GPIO :=
  mkGPIO n (GPIO1_BASE + GPIO_DR) (GPIO1_BASE + GPIO_GDIR) (mkPad 0 0 0).

Definition ble_ready : World :=
  mkWorld bus0 (mkANNA None (Some (line 2)) (Some (line 3)) (Some (line 4)) false None None) false.

(** The transmitter of [slow_uart] is polled three times and the byte
    sent with five polls of fuel; [stuck_uart] exhausts the fuel. *)
Lemma Tx_spec_witness :
  (exists b', @miniUART.Tx slow_uart 5 65 bus0 = Done tt b') /\
  @miniUART.Tx stuck_uart 3 65 bus0 = Spin.
Proof.
  split.
  - apply (proj1 (proj2 (@Tx_spec slow_uart 5 65 bus0)) 2%nat).
    + intros b Hb. cbn [dev_read slow_uart].
      destruct (Z.leb_spec 2 (Z.of_nat (lsr_reads (log b)))); [reflexivity | lia].
    + vm_compute. lia.
  - apply (proj2 (proj2 (@Tx_spec stuck_uart 3 65 bus0))). intros b. reflexivity.
Defined.

(** Writing "Hi" through an always-ready transmitter puts the two bytes
    into [AUX_MU_IO_REG]. *)
Lemma Write_equiv_witness :
  exists b', @miniUART.Write ready_uart 1 [72; 105] bus0 = Done tt b' /\
    writes_to (PeripheralAddress AUX_MU_IO_REG) (log b') = [72; 105].
Proof.
  destruct (proj2 (@Write_equiv ready_uart 1 [72; 105]) ltac:(lia)
              ltac:(repeat constructor; vm_compute; discriminate) (fun _ => eq_refl) bus0)
    as [b' [Hrun Hw]].
  exists b'. split; [exact Hrun | rewrite Hw; reflexivity].
Defined.

(** On a set-up module [NormalMode] deadlocks; on [world0] it reports the
    module uninitialised. *)
Lemma modes_block_witness :
  (exists w', @enter_mode mem_device true ble_ready = Blocked w') /\
  @enter_mode mem_device false world0 = Done (Some ErrNotInitialized) world0.
Proof.
  split.
  - apply (proj1 (@modes_block mem_device true ble_ready eq_refl)); discriminate.
  - apply (proj2 (@modes_block mem_device false world0 eq_refl)). left. reflexivity.
Defined.

(** [Reset] on line 2 pulses it and sleeps [RESET_GRACE_TIME]. *)
Lemma Reset_spec_witness :
  exists r1 r2 w', @Reset mem_device ble_ready = Done None w' /\
    now (wbus w') = RESET_GRACE_TIME /\
    log (wbus w') = [MMIORead (GPIO1_BASE + GPIO_DR) r1;
                     MMIOWrite (GPIO1_BASE + GPIO_DR) (bits.Clear r1 2);
                     Sleep RESET_GRACE_TIME;
                     MMIORead (GPIO1_BASE + GPIO_DR) r2;
                     MMIOWrite (GPIO1_BASE + GPIO_DR) (bits.Set_ r2 2)].
Proof.
  destruct (proj1 (@Reset_spec mem_device ble_ready eq_refl) (line 2) eq_refl ltac:(cbn; lia))
    as (r1 & r2 & w' & Hrun & _ & _ & Hnow & Hlog & _).
  exists r1, r2, w'. split; [exact Hrun|]. split; [exact Hnow | exact Hlog].
Defined.
