(* ===== verification/ArmExc.v ===== *)
(** * ARM processor support in assembly: exception stacks and vectors

    The assembly file of package [arm] staged at the end of
    src/soc/nxp/usb/setup.go (lines 244-343): [set_exc_stack], which
    gives every exception mode its stack pointer, [set_vbar] and
    [set_mvbar], which write the vector base registers of CP15, and the
    [EXCEPTION] macro instantiated by the seven exception handlers, which
    saves the interrupted registers, calls the Go handler on [g0]
    ([runtime.CallOnG0]), restores them and returns from the exception;
    and [nullHandler].

    - The processor is the ARMv7-A core state the code touches ([Cpu]):
      the CPSR, the registers R0-R12 with the FIQ bank of R8-R12, the
      banked SP, LR and SPSR of each mode, the PC, memory as 32-bit words
      by byte address, and VBAR and MVBAR. Registers are read and
      written through the view of a mode ([get_reg], [set_reg]), as the
      hardware banks them.
    - The code is written out as the list of its instructions ([asm]),
      one constructor per instruction form it uses, with the [WORD]
      directives kept as the raw instruction words: [decode] reads them
      with the ARM encodings of MSR (immediate) and MRS (banked register),
      and the theorems show they are the instructions the comments name.
    - A run is [run arg CallOnG0 p c : option Cpu] ([arg] the Go argument
      of the function); [None] is a behaviour the
      architecture leaves UNPREDICTABLE or UNDEFINED (an MSR of the mode
      field from User mode is ignored, as the hardware does), or a Go
      handler that does not return.
    - [runtime.CallOnG0] is outside src/: a parameter, of which the
      theorems assume the calling convention only ([callee_ok]). The
      exception entry of the hardware ([take_exception]), the vector
      offsets [const_RESET] ... [const_FIQ] (from [go_asm.h]) and the
      architecture's link-register offsets are modelled from the ARM
      Architecture Reference Manual. *)

From stdpp Require Import base gmap countable list.
From S2P Require Import Prelude.
Open Scope Z_scope.

(** ** Modes and register banks *)

Inductive mode := USR | FIQ | IRQ | SVC | MON | ABT | UND | SYS.

#[export] Instance mode_eq_dec : EqDecision mode.
Proof. solve_decision. Defined.

(** The CPSR.M encoding of each mode. *)
Definition mode_bits (m : mode) : Z :=
  match m with
  | USR => 0x10 | FIQ => 0x11 | IRQ => 0x12 | SVC => 0x13
  | MON => 0x16 | ABT => 0x17 | UND => 0x1b | SYS => 0x1f
  end.

Definition decode_mode (b : Z) : option mode :=
  if b =? 0x10 then Some USR else if b =? 0x11 then Some FIQ
  else if b =? 0x12 then Some IRQ else if b =? 0x13 then Some SVC
  else if b =? 0x16 then Some MON else if b =? 0x17 then Some ABT
  else if b =? 0x1b then Some UND else if b =? 0x1f then Some SYS
  else None.

(** The banks of SP, LR and SPSR; System mode uses User's. *)
Inductive bank := BUsr | BFiq | BIrq | BSvc | BMon | BAbt | BUnd.

#[export] Instance bank_eq_dec : EqDecision bank.
Proof. solve_decision. Defined.

Definition bank_to_nat (b : bank) : nat :=
  match b with BUsr => 0 | BFiq => 1 | BIrq => 2 | BSvc => 3 | BMon => 4 | BAbt => 5 | BUnd => 6 end%nat.
Definition nat_to_bank (n : nat) : option bank :=
  match n with
  | 0 => Some BUsr | 1 => Some BFiq | 2 => Some BIrq | 3 => Some BSvc
  | 4 => Some BMon | 5 => Some BAbt | 6 => Some BUnd | _ => None
  end%nat.

#[export] Instance bank_countable : Countable bank.
Proof. apply (inj_countable bank_to_nat nat_to_bank). intros []; reflexivity. Defined.

Definition bank_of (m : mode) : bank :=
  match m with
  | USR | SYS => BUsr | FIQ => BFiq | IRQ => BIrq | SVC => BSvc
  | MON => BMon | ABT => BAbt | UND => BUnd
  end.

(** ** The core state *)

Record Cpu := mkCpu {
  cpsr : Z;
  gpr : gmap Z Z;        (** R0-R12 as every mode but FIQ sees them *)
  gpr_fiq : gmap Z Z;    (** R8_fiq-R12_fiq *)
  sp_bank : gmap bank Z;
  lr_bank : gmap bank Z;
  spsr_bank : gmap bank Z;
  pc : Z;
  mem : gmap Z Z;        (** 32-bit words by byte address *)
  vbar : Z;
  mvbar : Z
}.

Definition set_cpsr v c := mkCpu v (gpr c) (gpr_fiq c) (sp_bank c) (lr_bank c) (spsr_bank c) (pc c) (mem c) (vbar c) (mvbar c).
Definition set_gpr g c := mkCpu (cpsr c) g (gpr_fiq c) (sp_bank c) (lr_bank c) (spsr_bank c) (pc c) (mem c) (vbar c) (mvbar c).
Definition set_gpr_fiq g c := mkCpu (cpsr c) (gpr c) g (sp_bank c) (lr_bank c) (spsr_bank c) (pc c) (mem c) (vbar c) (mvbar c).
Definition set_sp_bank b c := mkCpu (cpsr c) (gpr c) (gpr_fiq c) b (lr_bank c) (spsr_bank c) (pc c) (mem c) (vbar c) (mvbar c).
Definition set_lr_bank b c := mkCpu (cpsr c) (gpr c) (gpr_fiq c) (sp_bank c) b (spsr_bank c) (pc c) (mem c) (vbar c) (mvbar c).
Definition set_spsr_bank b c := mkCpu (cpsr c) (gpr c) (gpr_fiq c) (sp_bank c) (lr_bank c) b (pc c) (mem c) (vbar c) (mvbar c).
Definition set_pc v c := mkCpu (cpsr c) (gpr c) (gpr_fiq c) (sp_bank c) (lr_bank c) (spsr_bank c) v (mem c) (vbar c) (mvbar c).
Definition set_mem m c := mkCpu (cpsr c) (gpr c) (gpr_fiq c) (sp_bank c) (lr_bank c) (spsr_bank c) (pc c) m (vbar c) (mvbar c).
Definition set_vbar v c := mkCpu (cpsr c) (gpr c) (gpr_fiq c) (sp_bank c) (lr_bank c) (spsr_bank c) (pc c) (mem c) v (mvbar c).
Definition set_mvbar v c := mkCpu (cpsr c) (gpr c) (gpr_fiq c) (sp_bank c) (lr_bank c) (spsr_bank c) (pc c) (mem c) (vbar c) v.

Definition cur_mode (c : Cpu) : option mode := decode_mode (Z.land (cpsr c) 0x1f).

(** The storage a register name denotes. *)
Inductive loc := LGpr (i : Z) | LFiq (i : Z) | LSp (b : bank) | LLr (b : bank) | LPc.

#[export] Instance loc_eq_dec : EqDecision loc.
Proof. solve_decision. Defined.

(** R8-R12 are banked in FIQ mode; SP and LR in every mode. *)
Definition fiq_banked (m : mode) (i : Z) : bool := (8 <=? i) && (i <=? 12) && bool_decide (m = FIQ).

Definition reg_loc (m : mode) (i : Z) : loc :=
  if i =? 13 then LSp (bank_of m)
  else if i =? 14 then LLr (bank_of m)
  else if i =? 15 then LPc
  else if fiq_banked m i then LFiq i
  else LGpr i.

Definition read_loc (c : Cpu) (l : loc) : Z :=
  match l with
  | LGpr i => default 0 (gpr c !! i)
  | LFiq i => default 0 (gpr_fiq c !! i)
  | LSp b => default 0 (sp_bank c !! b)
  | LLr b => default 0 (lr_bank c !! b)
  | LPc => pc c
  end.

Definition write_loc (l : loc) (v : Z) (c : Cpu) : Cpu :=
  match l with
  | LGpr i => set_gpr (<[i := v]> (gpr c)) c
  | LFiq i => set_gpr_fiq (<[i := v]> (gpr_fiq c)) c
  | LSp b => set_sp_bank (<[b := v]> (sp_bank c)) c
  | LLr b => set_lr_bank (<[b := v]> (lr_bank c)) c
  | LPc => set_pc v c
  end.

(** Register [i] as mode [m] sees it; writes are 32-bit. *)
Definition get_reg (m : mode) (c : Cpu) (i : Z) : Z := read_loc c (reg_loc m i).
Definition set_reg (m : mode) (i v : Z) (c : Cpu) : Cpu := write_loc (reg_loc m i) (u32 v) c.

(** ** The instruction words *)

Inductive instr :=
  | MSR_c (imm : Z)            (** [msr CPSR_c, #imm] *)
  | MRS_banked (rd sysm : Z).  (** [mrs Rd, <banked register SYSm>] *)

#[export] Instance instr_eq_dec : EqDecision instr.
Proof. solve_decision. Defined.

(** Rotate right of a 32-bit value, for the immediate of MSR. *)
Definition ror32 (x r : Z) : Z := u32 (Z.lor (Z.shiftr x r) (Z.shiftl x (32 - r))).

(** The two A32 encodings the code writes as [WORD]s:
    MSR (immediate) [cond 0011 0R10 mask 1111 rot imm8] with [R = 0] and
    [mask = 0001] (the control field), and MRS (banked register)
    [cond 0001 0R00 m1 Rd 001M 0000 0000] with [R = 0]; only the
    condition "always" (0b1110). *)
Definition decode (w : Z) : option instr :=
  if negb (Z.shiftr w 28 =? 0xe) then None
  else if (Z.land (Z.shiftr w 20) 0xfb =? 0x32) && (Z.land (Z.shiftr w 12) 0xf =? 0xf) then
    if negb (Z.testbit w 22) && (Z.land (Z.shiftr w 16) 0xf =? 1)
    then Some (MSR_c (ror32 (Z.land w 0xff) (2 * Z.land (Z.shiftr w 8) 0xf)))
    else None
  else if (Z.land (Z.shiftr w 20) 0xfb =? 0x10) && (Z.land w 0xeff =? 0x200) then
    if Z.testbit w 22 then None
    else Some (MRS_banked (Z.land (Z.shiftr w 12) 0xf)
                          (Z.lor (Z.shiftl (Z.land (Z.shiftr w 8) 1) 4) (Z.land (Z.shiftr w 16) 0xf)))
  else None.

(** The banked registers of User mode an MRS can name: SYSm 0-4 are
    R8_usr-R12_usr, 5 is SP_usr, 6 is LR_usr. The others are not used by
    the code and not modelled. *)
Definition banked_read (sysm : Z) (c : Cpu) : option Z :=
  if (0 <=? sysm) && (sysm <=? 4) then Some (default 0 (gpr c !! (sysm + 8)))
  else if sysm =? 5 then Some (default 0 (sp_bank c !! BUsr))
  else if sysm =? 6 then Some (default 0 (lr_bank c !! BUsr))
  else None.

Definition exec_instr (i : instr) (c : Cpu) : option Cpu :=
  m ← cur_mode c;
  match i with
  | MSR_c imm =>
      (* the control field is not writable in User mode *)
      if bool_decide (m = USR) then Some c
      else Some (set_cpsr (Z.lor (Z.land (cpsr c) (Z.lnot 0xff)) (Z.land imm 0xff)) c)
  | MRS_banked rd sysm =>
      if bool_decide (m = USR) then None
      else v ← banked_read sysm c; Some (set_reg m rd v c)
  end.

(** ** The instructions of the assembly file *)

Inductive asm :=
  | ARG (rd : Z)              (** [MOVW addr+0(FP), Rd]: the call's argument *)
  | WORD (w : Z)              (** [WORD $w]: a raw instruction word *)
  | MOVW (rs rd : Z)          (** [MOVW Rs, Rd] *)
  | MOVW_imm (k rd : Z)       (** [MOVW $k, Rd] *)
  | SUB_imm (k rs rd : Z)     (** [SUB $k, Rs, Rd] *)
  | ADD_imm (k rs rd : Z)     (** [ADD $k, Rs, Rd] *)
  | PUSH (rn : Z)             (** [MOVM.DB.W [R0-Rn, R14], (R13)] *)
  | POP (rn : Z)              (** [MOVM.IA.W (R13), [R0-Rn, R14]] *)
  | MCR_c12 (opc2 rt : Z)     (** [MCR 15, 0, Rt, C12, C0, opc2] *)
  | CALL_CallOnG0             (** [CALL runtime·CallOnG0(SB)] *)
  | MOVW_S_LR_PC              (** [MOVW.S R14, R15]: exception return *)
  | RET.

(** The register list [R0-Rn, R14], lowest first. *)
Definition reglist (rn : Z) : list Z := map Z.of_nat (seq 0 (S (Z.to_nat rn))) ++ [14].

(** Consecutive words from [a] up, as a store-multiple writes them. *)
Fixpoint store_words (a : Z) (vs : list Z) (m : gmap Z Z) : gmap Z Z :=
  match vs with
  | [] => m
  | v :: vs' => store_words (a + 4) vs' (<[u32 a := u32 v]> m)
  end.

Definition load_words (a : Z) (n : nat) (m : gmap Z Z) : list Z :=
  map (fun j => default 0 (m !! u32 (a + 4 * Z.of_nat j))) (seq 0 n).

Fixpoint set_regs (m : mode) (rs vs : list Z) (c : Cpu) : Cpu :=
  match rs, vs with
  | r :: rs', v :: vs' => set_regs m rs' vs' (set_reg m r v c)
  | _, _ => c
  end.

Section Exec.
(** The argument of the function run, and the Go side of [CALL]. *)
Variable arg : Z.
Variable CallOnG0 : Cpu -> option Cpu.

Definition exec_asm (i : asm) (c : Cpu) : option Cpu :=
  m ← cur_mode c;
  match i with
  | ARG rd => Some (set_reg m rd arg c)
  | WORD w => ins ← decode w; exec_instr ins c
  | MOVW rs rd => Some (set_reg m rd (get_reg m c rs) c)
  | MOVW_imm k rd => Some (set_reg m rd k c)
  | SUB_imm k rs rd => Some (set_reg m rd (get_reg m c rs - k) c)
  | ADD_imm k rs rd => Some (set_reg m rd (get_reg m c rs + k) c)
  | PUSH rn =>
      let rs := reglist rn in
      let base := u32 (get_reg m c 13 - 4 * Z.of_nat (length rs)) in
      Some (set_reg m 13 base (set_mem (store_words base (map (get_reg m c) rs) (mem c)) c))
  | POP rn =>
      let rs := reglist rn in
      let base := get_reg m c 13 in
      Some (set_reg m 13 (base + 4 * Z.of_nat (length rs))
              (set_regs m rs (load_words base (length rs) (mem c)) c))
  | MCR_c12 opc2 rt =>
      if bool_decide (m = USR) then None
      else if opc2 =? 0 then Some (set_vbar (get_reg m c rt) c)
      else if opc2 =? 1 then Some (set_mvbar (get_reg m c rt) c)
      else None
  | CALL_CallOnG0 => CallOnG0 c
  | MOVW_S_LR_PC =>
      (* no SPSR in User and System mode *)
      if bool_decide (bank_of m = BUsr) then None
      else s ← spsr_bank c !! bank_of m; Some (set_cpsr s (set_pc (get_reg m c 14) c))
  | RET => Some (set_pc (get_reg m c 14) c)
  end.

Fixpoint run (p : list asm) (c : Cpu) : option Cpu :=
  match p with
  | [] => Some c
  | i :: p' => c' ← exec_asm i c; run p' c'
  end.
End Exec.

(** ** The code *)

(** [set_exc_stack(addr)] *)
Definition set_exc_stack : list asm :=
  [ARG 0;
   WORD 0xe321f0d2; MOVW 0 13;     (* IRQ mode SP *)
   WORD 0xe321f0d3; MOVW 0 13;     (* Supervisor mode SP *)
   WORD 0xe321f0d6; MOVW 0 13;     (* Monitor mode SP *)
   WORD 0xe321f0d7; MOVW 0 13;     (* Abort mode SP *)
   WORD 0xe321f0db; MOVW 0 13;     (* Undefined mode SP *)
   WORD 0xe321f0df;                (* back to System mode *)
   RET].

(** [set_vbar(addr)], [set_mvbar(addr)] *)
Definition set_vbar_code : list asm := [ARG 0; MCR_c12 0 0; RET].
Definition set_mvbar_code : list asm := [ARG 0; MCR_c12 1 0; RET].

(** [EXCEPTION(OFFSET, FN, LROFFSET, RN, SAVE_SIZE)] *)
Definition EXCEPTION (offset fn lroffset rn save_size : Z) : list asm :=
  [WORD 0xe105d200;            (* mrs sp, SP_usr *)
   SUB_imm lroffset 14 14;
   PUSH rn;
   MOVW_imm offset 0; MOVW_imm fn 1; MOVW_imm save_size 2; MOVW 14 3;
   CALL_CallOnG0;
   POP rn;
   ADD_imm lroffset 14 14;
   MOVW_S_LR_PC].

(** The vector offsets of [go_asm.h] (package [arm], outside src/). *)
Definition const_RESET : Z := 0x0.
Definition const_UNDEFINED : Z := 0x4.
Definition const_SUPERVISOR : Z := 0x8.
Definition const_PREFETCH_ABORT : Z := 0xc.
Definition const_DATA_ABORT : Z := 0x10.
Definition const_IRQ : Z := 0x18.
Definition const_FIQ : Z := 0x1c.

Section Handlers.
(** The address of [systemException]. *)
Variable systemException : Z.

Definition resetHandler := EXCEPTION const_RESET systemException 0 12 56.
Definition undefinedHandler := EXCEPTION const_UNDEFINED systemException 4 12 56.
Definition supervisorHandler := EXCEPTION const_SUPERVISOR systemException 0 12 56.
Definition prefetchAbortHandler := EXCEPTION const_PREFETCH_ABORT systemException 4 12 56.
Definition dataAbortHandler := EXCEPTION const_DATA_ABORT systemException 8 12 56.
Definition irqHandler := EXCEPTION const_IRQ systemException 4 12 56.
Definition fiqHandler := EXCEPTION const_FIQ systemException 4 7 36.
End Handlers.

Definition nullHandler : list asm := [MOVW_S_LR_PC].

(** ** Exception entry (ARM Architecture Reference Manual) *)

(** The exceptions, with the mode each is taken to and the offset of the
    link register from the preferred return address ([LR = preferred +
    offset] in A32 state). *)
Inductive exc := Reset | Undefined | SupervisorCall | PrefetchAbort | DataAbort | Irq | Fiq.

Definition exc_mode (e : exc) : mode :=
  match e with
  | Reset | SupervisorCall => SVC | Undefined => UND
  | PrefetchAbort | DataAbort => ABT | Irq => IRQ | Fiq => FIQ
  end.

Definition exc_lr_offset (e : exc) : Z :=
  match e with
  | Reset | SupervisorCall => 0 | Undefined | PrefetchAbort | Irq | Fiq => 4 | DataAbort => 8
  end.

(** Taking exception [e] with preferred return address [ret]: the CPSR is
    saved in the target mode's SPSR, the link register gets [ret] plus the
    offset, the mode field is set and IRQs masked (FIQs too for FIQ and
    Reset). *)
Definition take_exception (e : exc) (ret : Z) (c : Cpu) : Cpu :=
  let m := exc_mode e in
  let masks := match e with Fiq | Reset => 0xc0 | _ => 0x80 end in
  let c := set_spsr_bank (<[bank_of m := cpsr c]> (spsr_bank c)) c in
  let c := set_lr_bank (<[bank_of m := u32 (ret + exc_lr_offset e)]> (lr_bank c)) c in
  set_cpsr (Z.lor (Z.land (cpsr c) (Z.lnot 0x1f)) (Z.lor masks (mode_bits m))) c.

(** The handler the vector table installs for each exception (the
    table itself is in package [arm], outside src/). *)
Definition handler (systemException : Z) (e : exc) : list asm :=
  match e with
  | Reset => resetHandler systemException
  | Undefined => undefinedHandler systemException
  | SupervisorCall => supervisorHandler systemException
  | PrefetchAbort => prefetchAbortHandler systemException
  | DataAbort => dataAbortHandler systemException
  | Irq => irqHandler systemException
  | Fiq => fiqHandler systemException
  end.

(** ** The calling convention of [runtime.CallOnG0] *)

(** The storage mode [m] cannot name. *)
Definition hidden (m : mode) (l : loc) : Prop := forall j, 0 <= j <= 15 -> reg_loc m j <> l.

(** What the Go side of [CALL] from mode [m] is assumed to keep, from the
    state [c] it is called in to the state [c'] it returns: the CPSR and
    the SPSRs, its own stack pointer, every register its mode cannot
    name, and the [n] words at its stack pointer (the frame the handler
    pushed: the Go code runs on the [g0] stack). *)
Definition callee_ok (m : mode) (n : nat) (c c' : Cpu) : Prop :=
  cpsr c' = cpsr c /\ spsr_bank c' = spsr_bank c /\
  read_loc c' (LSp (bank_of m)) = read_loc c (LSp (bank_of m)) /\
  (forall l, hidden m l -> read_loc c' l = read_loc c l) /\
  (forall j, (j < n)%nat -> mem c' !! u32 (read_loc c (LSp (bank_of m)) + 4 * Z.of_nat j) =
                            mem c !! u32 (read_loc c (LSp (bank_of m)) + 4 * Z.of_nat j)).

(** Every register holds a 32-bit value. *)
Definition cpu_wf (c : Cpu) : Prop :=
  (forall l, 0 <= read_loc c l < 2 ^ 32).

(** * Lemmas *)

(** ** Registers *)

Lemma read_write_loc c l l' v :
  read_loc (write_loc l v c) l' = if decide (l = l') then v else read_loc c l'.
Proof.
  destruct l, l'; cbn; case_decide; simplify_eq; try reflexivity;
    try (rewrite lookup_insert_eq; reflexivity);
    rewrite lookup_insert_ne by congruence; reflexivity.
Qed.

Lemma cpsr_write_loc l v c : cpsr (write_loc l v c) = cpsr c.
Proof. destruct l; reflexivity. Qed.
Lemma spsr_write_loc l v c : spsr_bank (write_loc l v c) = spsr_bank c.
Proof. destruct l; reflexivity. Qed.
Lemma mem_write_loc l v c : mem (write_loc l v c) = mem c.
Proof. destruct l; reflexivity. Qed.
Lemma cur_mode_write_loc l v c : cur_mode (write_loc l v c) = cur_mode c.
Proof. unfold cur_mode. rewrite cpsr_write_loc. reflexivity. Qed.

Create Rewrite HintDb arm_rw.
#[export] Hint Rewrite cpsr_write_loc spsr_write_loc mem_write_loc cur_mode_write_loc : arm_rw.

(** Distinct register names of one mode denote distinct storage. *)
Lemma reg_loc_inj m i j : 0 <= i <= 15 -> 0 <= j <= 15 -> reg_loc m i = reg_loc m j -> i = j.
Proof.
  intros Hi Hj. unfold reg_loc, fiq_banked.
  destruct (bool_decide (m = FIQ)); zcases; rewrite ?andb_false_r; intros Heq; simplify_eq; try lia;
    repeat (case_match; simplify_eq); lia.
Qed.

(** ** Words of the stack *)

Lemma u32_add4_inj a i j : 0 <= i < 2 ^ 30 -> 0 <= j < 2 ^ 30 -> u32 (a + 4 * i) = u32 (a + 4 * j) -> i = j.
Proof.
  rewrite !u32_mod. intros Hi Hj H. change (2 ^ 32) with 4294967296 in *. change (2 ^ 30) with 1073741824 in *.
  Z.div_mod_to_equations. lia.
Qed.

Lemma store_words_lookup_out a vs m k :
  (forall j, (j < length vs)%nat -> k <> u32 (a + 4 * Z.of_nat j)) -> store_words a vs m !! k = m !! k.
Proof.
  revert a m; induction vs as [|v vs IH]; intros a m Hk; [reflexivity|]. cbn [store_words].
  rewrite IH.
  - apply lookup_insert_ne. intros E. apply (Hk 0%nat); [cbn; lia | rewrite <- E; f_equal; lia].
  - intros j Hj E. apply (Hk (S j)); [cbn; lia|]. rewrite E. f_equal. lia.
Qed.

Lemma store_words_lookup a vs m j :
  (Z.of_nat (length vs) <= 2 ^ 30) -> (j < length vs)%nat ->
  store_words a vs m !! u32 (a + 4 * Z.of_nat j) = Some (u32 (nth j vs 0)).
Proof.
  revert a m j; induction vs as [|v vs IH]; intros a m j Hl Hj; cbn [length] in *; [lia|]. cbn [store_words].
  destruct j as [|j]; cbn [nth].
  - rewrite store_words_lookup_out.
    + rewrite Z.add_0_r. apply lookup_insert_eq.
    + intros j' Hj' E. replace (a + 4 + 4 * Z.of_nat j') with (a + 4 * (Z.of_nat j' + 1)) in E by lia.
      apply u32_add4_inj in E; lia.
  - replace (a + 4 * Z.of_nat (S j)) with (a + 4 + 4 * Z.of_nat j) by lia. apply IH; lia.
Qed.

Lemma map_nth_seq {A B} (f : A -> B) (l : list A) d :
  map (fun j => f (nth j l d)) (seq 0 (length l)) = map f l.
Proof.
  induction l as [|x l IH]; [reflexivity|]. cbn [length seq map nth]. f_equal.
  rewrite <- seq_shift, map_map. exact IH.
Qed.

(** Words stored by a push read back, 32-bit. *)
Lemma load_store_words a vs m :
  (Z.of_nat (length vs) <= 2 ^ 30) -> load_words a (length vs) (store_words a vs m) = map u32 vs.
Proof.
  intros Hl. unfold load_words. rewrite <- (map_nth_seq u32 vs 0). apply map_ext_in.
  intros j Hj. apply in_seq in Hj. rewrite store_words_lookup by lia. reflexivity.
Qed.

Lemma load_words_frame a n m1 m2 :
  (forall j, (j < n)%nat -> m2 !! u32 (a + 4 * Z.of_nat j) = m1 !! u32 (a + 4 * Z.of_nat j)) ->
  load_words a n m2 = load_words a n m1.
Proof. intros H. unfold load_words. apply map_ext_in. intros j Hj. apply in_seq in Hj. rewrite H by lia. reflexivity. Qed.

(** ** Loading a register list *)

Lemma set_regs_frame m rs vs c :
  cpsr (set_regs m rs vs c) = cpsr c /\ spsr_bank (set_regs m rs vs c) = spsr_bank c /\ mem (set_regs m rs vs c) = mem c.
Proof.
  revert vs c; induction rs as [|r rs IH]; intros [|v vs] c; cbn [set_regs]; auto.
  destruct (IH vs (set_reg m r v c)) as (-> & -> & ->). unfold set_reg. autorewrite with arm_rw. auto.
Qed.

Lemma cur_mode_set_regs m rs vs c : cur_mode (set_regs m rs vs c) = cur_mode c.
Proof. unfold cur_mode. rewrite (proj1 (set_regs_frame m rs vs c)). reflexivity. Qed.
Lemma spsr_set_regs m rs vs c : spsr_bank (set_regs m rs vs c) = spsr_bank c.
Proof. apply set_regs_frame. Qed.
Lemma cpsr_set_regs m rs vs c : cpsr (set_regs m rs vs c) = cpsr c.
Proof. apply set_regs_frame. Qed.

#[export] Hint Rewrite cur_mode_set_regs spsr_set_regs cpsr_set_regs : arm_rw.

Lemma set_regs_other m rs vs c l :
  l ∉ map (reg_loc m) rs -> read_loc (set_regs m rs vs c) l = read_loc c l.
Proof.
  revert vs c; induction rs as [|r rs IH]; intros [|v vs] c Hl; cbn [set_regs]; auto.
  cbn [map] in Hl. apply not_elem_of_cons in Hl as [Hr Hl]. rewrite IH by exact Hl.
  unfold set_reg. rewrite read_write_loc. case_decide; congruence.
Qed.

Lemma set_regs_same m rs vs c j :
  NoDup (map (reg_loc m) rs) -> length vs = length rs -> (j < length rs)%nat ->
  read_loc (set_regs m rs vs c) (reg_loc m (nth j rs 0)) = u32 (nth j vs 0).
Proof.
  revert vs c j; induction rs as [|r rs IH]; intros [|v vs] c j Hnd Hl Hj; cbn [length] in *; try lia.
  cbn [map] in Hnd. apply NoDup_cons in Hnd as [Hr Hnd]. cbn [set_regs].
  destruct j as [|j]; cbn [nth].
  - rewrite set_regs_other by exact Hr. unfold set_reg. rewrite read_write_loc. case_decide; congruence.
  - apply IH; auto; lia.
Qed.

Lemma reglist_length rn : 0 <= rn -> length (reglist rn) = S (S (Z.to_nat rn)).
Proof. intros. unfold reglist. rewrite length_app, length_map, length_seq. cbn. lia. Qed.

Lemma reglist_nth rn i : 0 <= i <= rn -> nth (Z.to_nat i) (reglist rn) 0 = i.
Proof.
  intros Hi. unfold reglist. rewrite app_nth1 by (rewrite length_map, length_seq; lia).
  rewrite nth_indep with (d' := Z.of_nat 0) by (rewrite length_map, length_seq; lia).
  rewrite map_nth, seq_nth by lia. lia.
Qed.

Lemma reglist_nth_lr rn : 0 <= rn -> nth (S (Z.to_nat rn)) (reglist rn) 0 = 14.
Proof.
  intros. unfold reglist. rewrite app_nth2 by (rewrite length_map, length_seq; lia).
  rewrite length_map, length_seq, Nat.sub_diag. reflexivity.
Qed.

Lemma read_set_reg_same m i v c : read_loc (set_reg m i v c) (reg_loc m i) = u32 v.
Proof. unfold set_reg. rewrite read_write_loc. case_decide; congruence. Qed.

Lemma read_set_reg_other m i v c l : reg_loc m i <> l -> read_loc (set_reg m i v c) l = read_loc c l.
Proof. intros H. unfold set_reg. rewrite read_write_loc. case_decide; congruence. Qed.

Lemma cur_mode_set_reg m i v c : cur_mode (set_reg m i v c) = cur_mode c.
Proof. apply cur_mode_write_loc. Qed.
Lemma cpsr_set_reg m i v c : cpsr (set_reg m i v c) = cpsr c.
Proof. apply cpsr_write_loc. Qed.
Lemma spsr_set_reg m i v c : spsr_bank (set_reg m i v c) = spsr_bank c.
Proof. apply spsr_write_loc. Qed.
Lemma mem_set_reg m i v c : mem (set_reg m i v c) = mem c.
Proof. apply mem_write_loc. Qed.

#[export] Hint Rewrite cur_mode_set_reg cpsr_set_reg spsr_set_reg mem_set_reg : arm_rw.

Lemma hidden_visible m i l : hidden m l -> 0 <= i <= 15 -> reg_loc m i <> l.
Proof. intros H Hi. apply H, Hi. Qed.

Lemma wf_u32 c l : cpu_wf c -> u32 (read_loc c l) = read_loc c l.
Proof. intros Hwf. apply u32_small, Hwf. Qed.

(** ** Runs *)

Section Run.
Variables (arg : Z) (CallOnG0 : Cpu -> option Cpu).

Lemma run_step i p c c' : exec_asm arg CallOnG0 i c = Some c' -> run arg CallOnG0 (i :: p) c = run arg CallOnG0 p c'.
Proof. intros H. cbn [run]. rewrite H. reflexivity. Qed.

Section InMode.
Variables (m : mode) (c : Cpu).
Hypothesis Hm : cur_mode c = Some m.

Lemma exec_MOVW rs rd : exec_asm arg CallOnG0 (MOVW rs rd) c = Some (set_reg m rd (get_reg m c rs) c).
Proof. unfold exec_asm. rewrite Hm. reflexivity. Qed.
Lemma exec_MOVW_imm k rd : exec_asm arg CallOnG0 (MOVW_imm k rd) c = Some (set_reg m rd k c).
Proof. unfold exec_asm. rewrite Hm. reflexivity. Qed.
Lemma exec_SUB k rs rd : exec_asm arg CallOnG0 (SUB_imm k rs rd) c = Some (set_reg m rd (get_reg m c rs - k) c).
Proof. unfold exec_asm. rewrite Hm. reflexivity. Qed.
Lemma exec_ADD k rs rd : exec_asm arg CallOnG0 (ADD_imm k rs rd) c = Some (set_reg m rd (get_reg m c rs + k) c).
Proof. unfold exec_asm. rewrite Hm. reflexivity. Qed.
Lemma exec_ARG rd : exec_asm arg CallOnG0 (ARG rd) c = Some (set_reg m rd arg c).
Proof. unfold exec_asm. rewrite Hm. reflexivity. Qed.
Lemma exec_RET : exec_asm arg CallOnG0 RET c = Some (set_pc (get_reg m c 14) c).
Proof. unfold exec_asm. rewrite Hm. reflexivity. Qed.
Lemma exec_PUSH rn :
  exec_asm arg CallOnG0 (PUSH rn) c =
  let base := u32 (get_reg m c 13 - 4 * Z.of_nat (length (reglist rn))) in
  Some (set_reg m 13 base (set_mem (store_words base (map (get_reg m c) (reglist rn)) (mem c)) c)).
Proof. unfold exec_asm. rewrite Hm. reflexivity. Qed.
Lemma exec_POP rn :
  exec_asm arg CallOnG0 (POP rn) c =
  Some (set_reg m 13 (get_reg m c 13 + 4 * Z.of_nat (length (reglist rn)))
          (set_regs m (reglist rn) (load_words (get_reg m c 13) (length (reglist rn)) (mem c)) c)).
Proof. unfold exec_asm. rewrite Hm. reflexivity. Qed.
Lemma exec_MSR w imm :
  decode w = Some (MSR_c imm) -> m <> USR ->
  exec_asm arg CallOnG0 (WORD w) c = Some (set_cpsr (Z.lor (Z.land (cpsr c) (Z.lnot 0xff)) (Z.land imm 0xff)) c).
Proof. intros Hd Hu. unfold exec_asm, exec_instr. rewrite Hm, Hd. cbn [mbind option_bind]. case_bool_decide; congruence. Qed.
Lemma exec_MSR_user w imm :
  decode w = Some (MSR_c imm) -> m = USR -> exec_asm arg CallOnG0 (WORD w) c = Some c.
Proof. intros Hd ->. unfold exec_asm, exec_instr. rewrite Hm, Hd. reflexivity. Qed.
Lemma exec_MCR opc2 rt :
  m <> USR -> exec_asm arg CallOnG0 (MCR_c12 opc2 rt) c =
  if opc2 =? 0 then Some (set_vbar (get_reg m c rt) c)
  else if opc2 =? 1 then Some (set_mvbar (get_reg m c rt) c) else None.
Proof. intros Hu. unfold exec_asm. rewrite Hm. cbn [mbind option_bind]. case_bool_decide; [congruence | reflexivity]. Qed.
Lemma exec_MCR_user opc2 rt : m = USR -> exec_asm arg CallOnG0 (MCR_c12 opc2 rt) c = None.
Proof. intros ->. unfold exec_asm. rewrite Hm. reflexivity. Qed.
Lemma exec_CALL : exec_asm arg CallOnG0 CALL_CallOnG0 c = CallOnG0 c.
Proof. unfold exec_asm. rewrite Hm. reflexivity. Qed.
Lemma exec_ERET s :
  bank_of m <> BUsr -> spsr_bank c !! bank_of m = Some s ->
  exec_asm arg CallOnG0 MOVW_S_LR_PC c = Some (set_cpsr s (set_pc (get_reg m c 14) c)).
Proof. intros Hb Hs. unfold exec_asm. rewrite Hm. cbn. case_bool_decide; [congruence|]. rewrite Hs. reflexivity. Qed.
End InMode.
End Run.

Lemma reg_loc_ne m i j : 0 <= i <= 15 -> 0 <= j <= 15 -> i <> j -> reg_loc m i <> reg_loc m j.
Proof. intros Hi Hj Hij E. apply Hij, (reg_loc_inj m); assumption. Qed.

Lemma read_loc_set_mem mm c l : read_loc (set_mem mm c) l = read_loc c l.
Proof. destruct l; reflexivity. Qed.
Lemma read_loc_set_cpsr v c l : read_loc (set_cpsr v c) l = read_loc c l.
Proof. destruct l; reflexivity. Qed.
Lemma read_loc_set_pc v c l : l <> LPc -> read_loc (set_pc v c) l = read_loc c l.
Proof. destruct l; try reflexivity. congruence. Qed.
Lemma cur_mode_set_mem mm c : cur_mode (set_mem mm c) = cur_mode c.
Proof. reflexivity. Qed.
Lemma spsr_set_mem mm c : spsr_bank (set_mem mm c) = spsr_bank c.
Proof. reflexivity. Qed.
Lemma mem_set_mem mm c : mem (set_mem mm c) = mm.
Proof. reflexivity. Qed.
Lemma cpsr_set_mem mm c : cpsr (set_mem mm c) = cpsr c.
Proof. reflexivity. Qed.

#[export] Hint Rewrite read_loc_set_mem read_loc_set_cpsr cur_mode_set_mem spsr_set_mem mem_set_mem cpsr_set_mem : arm_rw.

Lemma reglist_in rn r : 0 <= rn -> In r (reglist rn) -> 0 <= r <= rn \/ r = 14.
Proof.
  intros Hrn. unfold reglist. rewrite in_app_iff, in_map_iff.
  intros [(n & <- & Hn) | [<- | []]]; [left; apply in_seq in Hn; lia | right; reflexivity].
Qed.

Lemma reg_loc_15 m : reg_loc m 15 = LPc.
Proof. reflexivity. Qed.

(** A visible register is not the PC unless it is R15. *)
Lemma reg_loc_not_pc m i : 0 <= i <= 14 -> reg_loc m i <> LPc.
Proof. intros Hi. rewrite <- (reg_loc_15 m). apply reg_loc_ne; lia. Qed.

Lemma exec_MRS_sp_usr arg f m c :
  cur_mode c = Some m -> m <> USR ->
  exec_asm arg f (WORD 0xe105d200) c = Some (set_reg m 13 (read_loc c (LSp BUsr)) c).
Proof.
  intros Hm Hu. unfold exec_asm, exec_instr. rewrite Hm.
  change (decode 0xe105d200) with (Some (MRS_banked 13 5)). cbn [mbind option_bind].
  case_bool_decide; [congruence | reflexivity].
Qed.

Lemma reg_loc_13_ne m m' i : 0 <= i <= 15 -> i <> 13 -> reg_loc m 13 <> reg_loc m' i.
Proof. intros Hi H13. unfold reg_loc at 1. cbn. unfold reg_loc, fiq_banked. zcases; try case_bool_decide; discriminate. Qed.

Lemma reg_loc_0_ne m m' i : 0 <= i <= 15 -> i <> 0 -> reg_loc m 0 <> reg_loc m' i.
Proof.
  intros Hi H0. unfold reg_loc at 1. cbn. unfold reg_loc, fiq_banked.
  zcases; try case_bool_decide; intros E; simplify_eq; lia.
Qed.

(** Bits 7-0 of the CPSR as [msr CPSR_c, #imm] leaves them. *)
Lemma msr_low k x y : 0 <= k < 256 -> Z.land (Z.lor (Z.land x (Z.lnot 0xff)) y) k = Z.land y k.
Proof.
  intros Hk. apply Z.bits_inj'. intros n Hn.
  rewrite !Z.land_spec, Z.lor_spec, Z.land_spec, Z.lnot_spec by lia.
  destruct (Z.ltb_spec n 8).
  - change 0xff with (Z.ones 8). rewrite Z.ones_spec_low by lia. rewrite andb_false_r. reflexivity.
  - rewrite (testbit_high k 8 n) by (change (2 ^ 8) with 256; lia). rewrite !andb_false_r. reflexivity.
Qed.

(** Two [msr CPSR_c] in a row: the second overwrites the first. *)
Lemma msr_msr x a y :
  Z.lor (Z.land (Z.lor (Z.land x (Z.lnot 0xff)) (Z.land a 0xff)) (Z.lnot 0xff)) y = Z.lor (Z.land x (Z.lnot 0xff)) y.
Proof.
  apply Z.bits_inj'. intros n Hn. rewrite !Z.lor_spec, !Z.land_spec, Z.lor_spec, !Z.land_spec, !Z.lnot_spec by lia.
  destruct (Z.ltb_spec n 8).
  - change 0xff with (Z.ones 8). rewrite Z.ones_spec_low by lia. rewrite !andb_false_r. reflexivity.
  - rewrite (testbit_high 0xff 8 n) by (cbn; lia).
    destruct (Z.testbit x n), (Z.testbit y n), (Z.testbit a n); reflexivity.
Qed.

Lemma cur_mode_msr x imm c :
  cur_mode (set_cpsr (Z.lor (Z.land x (Z.lnot 0xff)) (Z.land imm 0xff)) c) = decode_mode (Z.land imm 0x1f).
Proof.
  unfold cur_mode. cbn [cpsr set_cpsr]. rewrite msr_low by lia.
  rewrite <- Z.land_assoc. reflexivity.
Qed.

Lemma read_set_reg_0 m m' v c : read_loc (set_reg m 0 v c) (reg_loc m' 0) = u32 v.
Proof.
  unfold set_reg. change (reg_loc m 0) with (LGpr 0). change (reg_loc m' 0) with (LGpr 0).
  rewrite read_write_loc. case_decide; congruence.
Qed.

Lemma cpsr_set_cpsr v c : cpsr (set_cpsr v c) = v.
Proof. reflexivity. Qed.
Lemma cpsr_set_pc v c : cpsr (set_pc v c) = cpsr c.
Proof. reflexivity. Qed.

Lemma cur_mode_set_pc v c : cur_mode (set_pc v c) = cur_mode c.
Proof. reflexivity. Qed.

#[export] Hint Rewrite cur_mode_msr cur_mode_set_pc cpsr_set_cpsr cpsr_set_pc msr_msr : arm_rw.

Ltac loc_ne := first [ apply reg_loc_ne; lia | apply reg_loc_not_pc; lia
                     | apply reg_loc_13_ne; lia | apply reg_loc_0_ne; lia
                     | let E := fresh in intros E; vm_compute in E; discriminate E
                     | let E := fresh in intros E; cbn in E; injection E; intros; congruence
                     | let E := fresh in intros E;
                       match goal with H : hidden _ _ |- _ =>
                         first [ eapply H; [|eassumption]; lia | subst; apply (H 15); [lia | reflexivity] ] end ].

(** Reads through the writes of a run. *)
Ltac rd := unfold get_reg;
  repeat first [ rewrite read_set_reg_same | rewrite read_set_reg_0 | rewrite read_loc_set_mem | rewrite read_loc_set_cpsr
               | (rewrite read_set_reg_other by loc_ne) | (rewrite read_loc_set_pc by loc_ne) ];
  autorewrite with arm_rw.

(** One instruction of a straight-line run. *)
Ltac arm_step Hm :=
  erewrite run_step by
    (first [ apply exec_MRS_sp_usr | apply exec_SUB | apply exec_ADD | apply exec_MOVW | apply exec_RET
           | apply exec_ARG | apply exec_MOVW_imm | apply exec_PUSH | apply (exec_POP _ _ _ _ Hm) ];
     autorewrite with arm_rw; first [exact Hm | assumption]).

Lemma nth_map_d {A B} (f : A -> B) l j da db : (j < length l)%nat -> nth j (map f l) db = f (nth j l da).
Proof. intros Hj. rewrite nth_indep with (d' := f da) by (rewrite length_map; lia). apply map_nth. Qed.

Lemma length_load_words a n mm : length (load_words a n mm) = n.
Proof. unfold load_words. rewrite length_map, length_seq. reflexivity. Qed.

(** The storage of R0-R12 outside FIQ mode. *)
Lemma reg_loc_gpr m i : fiq_banked m i = false -> 0 <= i <= 12 -> reg_loc m i = LGpr i.
Proof. intros Hf Hi. unfold reg_loc. rewrite Hf. zcases. reflexivity. Qed.

Lemma fiq_banked_not_fiq m i : m <> FIQ -> fiq_banked m i = false.
Proof. intros Hm. unfold fiq_banked. rewrite bool_decide_false by exact Hm. apply andb_false_r. Qed.

Lemma hidden_gpr_fiq m i : fiq_banked m i = true -> hidden m (LGpr i).
Proof.
  intros Hf j Hj. unfold reg_loc. unfold fiq_banked in *.
  destruct (bool_decide (m = FIQ)); [|rewrite andb_false_r in Hf; discriminate].
  zcases; intros E; simplify_eq; lia.
Qed.

Lemma hidden_bank m b : b <> bank_of m -> hidden m (LSp b) /\ hidden m (LLr b).
Proof. intros Hb. split; intros j Hj; unfold reg_loc; zcases; try case_match; congruence. Qed.

Section Exception.
Variables (CallOnG0 : Cpu -> option Cpu) (m : mode) (offset fn lroffset rn save_size : Z).
Hypothesis Hbank : bank_of m <> BUsr.
Hypothesis Hrn : 0 <= rn <= 12.

Lemma exception_prologue c :
  cur_mode c = Some m ->
  let lr := read_loc c (LLr (bank_of m)) in
  let base := u32 (read_loc c (LSp BUsr) - 4 * Z.of_nat (length (reglist rn))) in
  let vals := map (fun r => if r =? 14 then u32 (lr - lroffset) else get_reg m c r) (reglist rn) in
  exists c4, run 0 CallOnG0 (EXCEPTION offset fn lroffset rn save_size) c =
             run 0 CallOnG0 [CALL_CallOnG0; POP rn; ADD_imm lroffset 14 14; MOVW_S_LR_PC] c4 /\
    cur_mode c4 = Some m /\ spsr_bank c4 = spsr_bank c /\ cpsr c4 = cpsr c /\
    mem c4 = store_words base vals (mem c) /\
    get_reg m c4 13 = base /\
    get_reg m c4 0 = u32 offset /\ get_reg m c4 1 = u32 fn /\ get_reg m c4 2 = u32 save_size /\
    get_reg m c4 3 = u32 (lr - lroffset) /\
    (forall l, hidden m l -> read_loc c4 l = read_loc c l).
Proof.
  intros Hm lr base vals.
  assert (Hu : m <> USR) by (intros ->; apply Hbank; reflexivity).
  unfold EXCEPTION. do 7 arm_step Hm.
  eexists. split; [reflexivity|].
  rd. rewrite ?u32_idem, ?u32_sub_l. repeat split; auto.
  - f_equal. apply map_ext_in. intros r Hr. apply reglist_in in Hr; [destruct Hr as [Hr | ->] | lia].
    + rewrite (proj2 (Z.eqb_neq r 14)) by lia. rd. reflexivity.
    + rd. rewrite Z.eqb_refl. reflexivity.
  - intros l Hl. rd. reflexivity.
Qed.
Hypothesis Hnd : NoDup (map (reg_loc m) (reglist rn)).

Lemma hidden_not_saved l : hidden m l -> l ∉ map (reg_loc m) (reglist rn).
Proof.
  intros Hl Hin. apply list_elem_of_In, in_map_iff in Hin as (r & E & Hr).
  apply reglist_in in Hr; [|lia]. apply (Hl r); [lia | exact E].
Qed.

Lemma exception_epilogue c4 c5 s :
  cur_mode c4 = Some m -> spsr_bank c4 !! bank_of m = Some s ->
  CallOnG0 c4 = Some c5 -> callee_ok m (length (reglist rn)) c4 c5 ->
  let vals := load_words (get_reg m c4 13) (length (reglist rn)) (mem c4) in
  exists c', run 0 CallOnG0 [CALL_CallOnG0; POP rn; ADD_imm lroffset 14 14; MOVW_S_LR_PC] c4 = Some c' /\
    cpsr c' = s /\
    pc c' = u32 (nth (S (Z.to_nat rn)) vals 0 + lroffset) /\
    get_reg m c' 13 = u32 (get_reg m c4 13 + 4 * Z.of_nat (length (reglist rn))) /\
    (forall i, 0 <= i <= rn -> read_loc c' (reg_loc m i) = u32 (nth (Z.to_nat i) vals 0)) /\
    (forall l, hidden m l -> read_loc c' l = read_loc c4 l).
Proof.
  intros Hm Hs Hc (Hcpsr & Hspsr & Hsp & Hhid & Hframe) vals.
  assert (Hm5 : cur_mode c5 = Some m) by (unfold cur_mode; rewrite Hcpsr; exact Hm).
  assert (Hsp5 : get_reg m c5 13 = get_reg m c4 13) by exact Hsp.
  assert (Hv : load_words (get_reg m c5 13) (length (reglist rn)) (mem c5) = vals)
    by (rewrite Hsp5; apply load_words_frame; exact Hframe).
  rewrite (run_step _ _ _ _ _ c5) by (rewrite (exec_CALL _ _ m c4 Hm); exact Hc).
  do 2 arm_step Hm5. rewrite Hv.
  erewrite run_step by (eapply exec_ERET;
    [autorewrite with arm_rw; exact Hm5 | exact Hbank | autorewrite with arm_rw; rewrite Hspsr; exact Hs]).
  cbn [run]. eexists. split; [reflexivity|].
  assert (Hl : length vals = length (reglist rn)) by apply length_load_words.
  split; [reflexivity|]. split; [|split; [|split]].
  - cbn [pc set_cpsr set_pc]. rd. rewrite <- (reglist_nth_lr rn) at 1 by lia.
    rewrite set_regs_same by (auto; rewrite reglist_length by lia; lia). apply u32_add_l.
  - rd. unfold get_reg in Hsp5. rewrite Hsp5. reflexivity.
  - intros i Hi. rewrite read_loc_set_cpsr, read_loc_set_pc by loc_ne. rd.
    rewrite <- (reglist_nth rn i) at 1 by lia.
    rewrite set_regs_same by (auto; rewrite reglist_length by lia; lia). reflexivity.
  - intros l Hl'. rewrite read_loc_set_cpsr, read_loc_set_pc by loc_ne. rd.
    rewrite set_regs_other by (apply hidden_not_saved; exact Hl'). apply Hhid, Hl'.
Qed.
Hypothesis Hfiq : forall i, 0 <= i <= 12 -> if fiq_banked m i then True else i <= rn.

Lemma exception_spec c s :
  cur_mode c = Some m -> spsr_bank c !! bank_of m = Some s -> cpu_wf c ->
  (forall c1 c2, CallOnG0 c1 = Some c2 -> callee_ok m (length (reglist rn)) c1 c2) ->
  exists c4, get_reg m c4 0 = u32 offset /\ get_reg m c4 1 = u32 fn /\ get_reg m c4 2 = u32 save_size /\
    get_reg m c4 3 = u32 (get_reg m c 14 - lroffset) /\
    (CallOnG0 c4 = None -> run 0 CallOnG0 (EXCEPTION offset fn lroffset rn save_size) c = None) /\
    (forall c5, CallOnG0 c4 = Some c5 ->
       exists c', run 0 CallOnG0 (EXCEPTION offset fn lroffset rn save_size) c = Some c' /\
         cpsr c' = s /\ pc c' = get_reg m c 14 /\ get_reg m c' 13 = read_loc c (LSp BUsr) /\
         (forall i, 0 <= i <= 12 -> read_loc c' (LGpr i) = read_loc c (LGpr i)) /\
         (forall l, hidden m l -> read_loc c' l = read_loc c l)).
Proof.
  intros Hm Hs Hwf Hcall.
  destruct (exception_prologue c Hm) as (c4 & Hrun & Hm4 & Hspsr4 & _ & Hmem4 & Hsp4 & H0 & H1 & H2 & H3 & Hhid4).
  exists c4. do 4 (split; [assumption|]). rewrite Hrun. split.
  { intros Hc. cbn [run]. rewrite (exec_CALL _ _ m c4 Hm4), Hc. reflexivity. }
  intros c5 Hc.
  destruct (exception_epilogue c4 c5 s Hm4 ltac:(rewrite Hspsr4; exact Hs) Hc (Hcall c4 c5 Hc))
    as (c' & Hrun' & Hcpsr' & Hpc & Hsp' & Hregs & Hhid').
  set (pvals := map (fun r => if r =? 14 then u32 (read_loc c (LLr (bank_of m)) - lroffset) else get_reg m c r)
                    (reglist rn)) in Hmem4.
  assert (Hk : length (reglist rn) = S (S (Z.to_nat rn))) by (apply reglist_length; lia).
  assert (Hv : load_words (get_reg m c4 13) (length (reglist rn)) (mem c4) = map u32 pvals).
  { rewrite Hsp4, Hmem4. replace (length (reglist rn)) with (length pvals) by apply length_map.
    apply load_store_words. unfold pvals. rewrite length_map, Hk. lia. }
  rewrite Hv in Hpc, Hregs. exists c'. split; [exact Hrun'|]. split; [exact Hcpsr'|].
  split; [|split; [|split]].
  - rewrite Hpc, (nth_map_d _ _ _ 0) by (unfold pvals; rewrite length_map, Hk; lia).
    unfold pvals. rewrite (nth_map_d _ _ _ 0), reglist_nth_lr, Z.eqb_refl by (lia || (rewrite Hk; lia)).
    rewrite !u32_idem, u32_add_l, Z.sub_add. apply wf_u32, Hwf.
  - rewrite Hsp', Hsp4, u32_add_l, Z.sub_add. apply wf_u32, Hwf.
  - intros i Hi. specialize (Hfiq i Hi). destruct (fiq_banked m i) eqn:Hb.
    + rewrite Hhid' by (apply hidden_gpr_fiq; exact Hb). apply Hhid4, hidden_gpr_fiq, Hb.
    + rewrite <- (reg_loc_gpr m i Hb Hi), Hregs by lia.
      rewrite (nth_map_d _ _ _ 0) by (unfold pvals; rewrite length_map, Hk; lia).
      unfold pvals. rewrite (nth_map_d _ _ _ 0), reglist_nth by (lia || (rewrite Hk; lia)).
      rewrite (proj2 (Z.eqb_neq i 14)) by lia. rewrite !u32_idem. apply wf_u32, Hwf.
  - intros l Hl. rewrite Hhid' by exact Hl. apply Hhid4, Hl.
Qed.
End Exception.

Lemma callee_ok_mono m n n' c c' : (n' <= n)%nat -> callee_ok m n c c' -> callee_ok m n' c c'.
Proof. intros Hn (H1 & H2 & H3 & H4 & H5). repeat split; auto. intros j Hj. apply H5. lia. Qed.

(** Every handler of the vector table, with its own arguments: the call
    state and, if the Go side returns, the state after the exception
    return. *)
Lemma handler_spec CallOnG0 fn e c s :
  let m := exc_mode e in
  cur_mode c = Some m -> spsr_bank c !! bank_of m = Some s -> cpu_wf c ->
  (forall c1 c2, CallOnG0 c1 = Some c2 -> callee_ok m 14 c1 c2) ->
  exists c4, get_reg m c4 3 = u32 (get_reg m c 14 - exc_lr_offset e) /\
    (CallOnG0 c4 = None -> run 0 CallOnG0 (handler fn e) c = None) /\
    (forall c5, CallOnG0 c4 = Some c5 ->
       exists c', run 0 CallOnG0 (handler fn e) c = Some c' /\
         cpsr c' = s /\ pc c' = get_reg m c 14 /\ get_reg m c' 13 = read_loc c (LSp BUsr) /\
         (forall i, 0 <= i <= 12 -> read_loc c' (LGpr i) = read_loc c (LGpr i)) /\
         (forall l, hidden m l -> read_loc c' l = read_loc c l)).
Proof.
  intros m Hm Hs Hwf Hcall.
  assert (Hcall' : forall n, (n <= 14)%nat -> forall c1 c2, CallOnG0 c1 = Some c2 -> callee_ok m n c1 c2)
    by (intros n Hn c1 c2 Hc; eapply callee_ok_mono; [exact Hn | apply Hcall, Hc]).
  destruct e; cbn [handler exc_lr_offset];
    unfold resetHandler, undefinedHandler, supervisorHandler, prefetchAbortHandler, dataAbortHandler,
      irqHandler, fiqHandler;
    match goal with |- context [EXCEPTION ?o ?f ?l ?r ?sz] =>
    edestruct (exception_spec CallOnG0 m o f l r sz) as (c4 & _ & _ & _ & H3 & Hnone & Hsome);
     [ discriminate | lia
     | apply (bool_decide_unpack _); vm_compute; reflexivity
     | let i := fresh in let Hi := fresh in intros i Hi; unfold fiq_banked; zcases; try case_bool_decide; first [exact I | lia | exfalso; match goal with H : ~ _ |- _ => apply H; reflexivity end]
     | exact Hm | exact Hs | exact Hwf
     | apply Hcall'; rewrite reglist_length by lia; cbn; lia
     | exists c4; split; [exact H3 | split; [exact Hnone | exact Hsome]] ] end.
Qed.

(** ** [set_exc_stack] *)

(** One instruction of [set_exc_stack], in whatever mode the last [msr]
    selected, with the reads it makes simplified. *)
Ltac msr_step Hm :=
  erewrite run_step by
    (first [ eapply exec_MOVW; autorewrite with arm_rw; reflexivity
           | eapply exec_MSR; [autorewrite with arm_rw; reflexivity | vm_compute; reflexivity | discriminate] ]);
  rd.

(** From a privileged mode, [set_exc_stack] gives the IRQ, Supervisor,
    Monitor, Abort and Undefined modes the stack pointer [addr] and ends in
    System mode with IRQs and FIQs masked, returning through LR. *)
Lemma set_exc_stack_priv f addr c m :
  cur_mode c = Some m -> m <> USR ->
   exists c', run addr f set_exc_stack c = Some c' /\
     cur_mode c' = Some SYS /\ Z.land (cpsr c') 0xc0 = 0xc0 /\
     get_reg IRQ c' 13 = u32 addr /\ get_reg SVC c' 13 = u32 addr /\ get_reg MON c' 13 = u32 addr /\
     get_reg ABT c' 13 = u32 addr /\ get_reg UND c' 13 = u32 addr /\
     get_reg USR c' 13 = get_reg USR c 13 /\ get_reg FIQ c' 13 = get_reg FIQ c 13 /\
     get_reg SYS c' 0 = u32 addr /\ pc c' = get_reg SYS c 14 /\
     (forall i, 1 <= i <= 14 -> i <> 13 -> forall m', get_reg m' c' i = get_reg m' c i).
Proof.
  intros Hm Hu. unfold set_exc_stack.
  erewrite run_step by (apply exec_ARG; exact Hm). rd.
  erewrite run_step by (eapply exec_MSR; [autorewrite with arm_rw; exact Hm | vm_compute; reflexivity | exact Hu]).
  do 10 msr_step Hm.
  erewrite run_step by (eapply exec_RET; autorewrite with arm_rw; reflexivity).
  cbn [run]. eexists. split; [reflexivity|]. rd.
  split; [reflexivity|]. split; [rewrite msr_low by lia; reflexivity|].
  do 9 (split; [rd; rewrite ?u32_idem; reflexivity|]). intros i Hi H13 m'. rd. reflexivity.
Qed.

(** From User mode the [msr]s are ignored: the five moves all write the
    User stack pointer and no exception mode gets a stack. *)
Lemma set_exc_stack_user f addr c :
  cur_mode c = Some USR ->
  exists c', run addr f set_exc_stack c = Some c' /\ cur_mode c' = Some USR /\
    get_reg USR c' 13 = u32 addr /\ (forall m', bank_of m' <> BUsr -> get_reg m' c' 13 = get_reg m' c 13).
Proof.
  intros Hm. unfold set_exc_stack.
  erewrite run_step by (apply exec_ARG; exact Hm). rd.
  do 5 (erewrite run_step by (eapply exec_MSR_user; [autorewrite with arm_rw; exact Hm | vm_compute; reflexivity | reflexivity]);
        erewrite run_step by (eapply exec_MOVW; autorewrite with arm_rw; exact Hm); rd).
  erewrite run_step by (eapply exec_MSR_user; [autorewrite with arm_rw; exact Hm | vm_compute; reflexivity | reflexivity]).
  erewrite run_step by (eapply exec_RET; autorewrite with arm_rw; exact Hm).
  cbn [run]. eexists. split; [reflexivity|]. rd.
  split; [exact Hm|]. split; [rewrite ?u32_idem; reflexivity|]. intros m' Hb. rd. reflexivity.
Qed.

(** ** Exception entry *)

Lemma read_take_exception e ret c l :
  read_loc (take_exception e ret c) l =
  if decide (l = LLr (bank_of (exc_mode e))) then u32 (ret + exc_lr_offset e) else read_loc c l.
Proof.
  destruct l; cbn; case_decide; simplify_eq; try reflexivity.
  - rewrite lookup_insert_eq. reflexivity.
  - rewrite lookup_insert_ne by congruence. reflexivity.
Qed.

Lemma cur_mode_take_exception e ret c : cur_mode (take_exception e ret c) = Some (exc_mode e).
Proof.
  unfold cur_mode, take_exception. cbn [cpsr set_cpsr set_lr_bank set_spsr_bank].
  rewrite Z.land_lor_distr_l, <- Z.land_assoc.
  change (Z.land (Z.lnot 0x1f) 0x1f) with 0. rewrite Z.land_0_r, Z.lor_0_l.
  destruct e; reflexivity.
Qed.

Lemma spsr_take_exception e ret c : spsr_bank (take_exception e ret c) !! bank_of (exc_mode e) = Some (cpsr c).
Proof. apply lookup_insert_eq. Qed.

Lemma wf_take_exception e ret c : cpu_wf c -> cpu_wf (take_exception e ret c).
Proof. intros Hwf l. rewrite read_take_exception. case_decide; [apply u32_range | apply Hwf]. Qed.

Lemma exc_bank_not_usr e : bank_of (exc_mode e) <> BUsr.
Proof. destruct e; discriminate. Qed.

(** [set_vbar(addr)] and [set_mvbar(addr)] write the vector base from a
    privileged mode; from User mode the [MCR] is undefined. *)
Lemma set_vbar_spec f addr c m :
  cur_mode c = Some m ->
  (m <> USR ->
   (exists c', run addr f set_vbar_code c = Some c' /\ vbar c' = u32 addr /\ mvbar c' = mvbar c /\ pc c' = get_reg m c 14) /\
   (exists c', run addr f set_mvbar_code c = Some c' /\ mvbar c' = u32 addr /\ vbar c' = vbar c /\ pc c' = get_reg m c 14)) /\
  (m = USR -> run addr f set_vbar_code c = None /\ run addr f set_mvbar_code c = None).
Proof.
  intros Hm. unfold set_vbar_code, set_mvbar_code.
  rewrite (run_step addr f (ARG 0) [MCR_c12 0 0; RET] c (set_reg m 0 addr c)) by (apply exec_ARG; exact Hm).
  rewrite (run_step addr f (ARG 0) [MCR_c12 1 0; RET] c (set_reg m 0 addr c)) by (apply exec_ARG; exact Hm). split.
  - intros Hu. split; (erewrite run_step by (unfold exec_asm; rewrite cur_mode_set_reg, Hm; cbn [mbind option_bind];
                                              case_bool_decide; [congruence | reflexivity]);
      erewrite run_step by (apply exec_RET; exact Hm); cbn [run]; eexists; split; [reflexivity|];
      cbn [vbar mvbar pc set_pc set_vbar set_mvbar]; rd; rewrite ?u32_idem; auto).
  - intros ->. cbn [run]. unfold exec_asm. rewrite !cur_mode_set_reg, Hm. split; reflexivity.
Qed.

Lemma cpu_wf_intro c :
  map_Forall (fun _ v => 0 <= v < 2 ^ 32) (gpr c) -> map_Forall (fun _ v => 0 <= v < 2 ^ 32) (gpr_fiq c) ->
  map_Forall (fun _ v => 0 <= v < 2 ^ 32) (sp_bank c) -> map_Forall (fun _ v => 0 <= v < 2 ^ 32) (lr_bank c) ->
  0 <= pc c < 2 ^ 32 -> cpu_wf c.
Proof.
  intros H1 H2 H3 H4 H5 l.
  assert (Hd : forall {K} `{Countable K} (mm : gmap K Z) k,
            map_Forall (fun _ v => 0 <= v < 2 ^ 32) mm -> 0 <= default 0 (mm !! k) < 2 ^ 32).
  { intros K ? ? mm k Hm. destruct (mm !! k) eqn:E; cbn; [eapply Hm, E | lia]. }
  destruct l; cbn [read_loc]; auto.
Qed.

(** The instruction words of the file are the instructions their comments
    name: [msr CPSR_c] with IRQ and FIQ masked and the mode IRQ,
    Supervisor, Monitor, Abort, Undefined, System in turn, and
    [mrs sp, SP_usr]. *)
Lemma exception_words :
  map decode [0xe321f0d2; 0xe321f0d3; 0xe321f0d6; 0xe321f0d7; 0xe321f0db; 0xe321f0df] =
    map (fun k => Some (MSR_c k)) [0xd2; 0xd3; 0xd6; 0xd7; 0xdb; 0xdf] /\
  map (fun k => decode_mode (Z.land k 0x1f)) [0xd2; 0xd3; 0xd6; 0xd7; 0xdb; 0xdf] =
    map Some [IRQ; SVC; MON; ABT; UND; SYS] /\
  Forall (fun k => Z.land k 0xc0 = 0xc0) [0xd2; 0xd3; 0xd6; 0xd7; 0xdb; 0xdf] /\
  decode 0xe105d200 = Some (MRS_banked 13 5) /\ banked_read 5 = fun c => Some (read_loc c (LSp BUsr)).
Proof. repeat split; repeat constructor. Qed.

(** * The exception stacks and handlers *)

(** C38: [set_exc_stack(addr)] from a privileged mode gives each of the IRQ,
    Supervisor, Monitor, Abort and Undefined modes the stack pointer
    [addr], leaves the User and FIQ stack pointers and every other
    register but R0 as they were, and returns in System mode with IRQs
    and FIQs masked. Called from User mode its [msr]s are ignored: the
    moves overwrite the User stack pointer and no exception mode gets a
    stack. *)
Theorem set_exc_stack_spec f addr c m :
  cur_mode c = Some m ->
  (m <> USR ->
   exists c', run addr f set_exc_stack c = Some c' /\
     cur_mode c' = Some SYS /\ Z.land (cpsr c') 0xc0 = 0xc0 /\
     get_reg IRQ c' 13 = u32 addr /\ get_reg SVC c' 13 = u32 addr /\ get_reg MON c' 13 = u32 addr /\
     get_reg ABT c' 13 = u32 addr /\ get_reg UND c' 13 = u32 addr /\
     get_reg USR c' 13 = get_reg USR c 13 /\ get_reg FIQ c' 13 = get_reg FIQ c 13 /\
     get_reg SYS c' 0 = u32 addr /\ pc c' = get_reg SYS c 14 /\
     (forall i, 1 <= i <= 14 -> i <> 13 -> forall m', get_reg m' c' i = get_reg m' c i)) /\
  (m = USR ->
   exists c', run addr f set_exc_stack c = Some c' /\ cur_mode c' = Some USR /\
     get_reg USR c' 13 = u32 addr /\ (forall m', bank_of m' <> BUsr -> get_reg m' c' 13 = get_reg m' c 13)).
Proof.
  intros Hm. split; [intros Hu; apply (set_exc_stack_priv f addr c m Hm Hu)|].
  intros ->. apply set_exc_stack_user, Hm.
Qed.

(** C36: Each handler of the vector table, entered in its exception mode,
    calls the Go side with R3 the link register less the architecture's
    offset for that exception (the preferred return address); if the Go
    side returns (and keeps the calling convention), the handler restores
    the CPSR from the SPSR, R0-R12 and the stack and link registers of any
    other non-FIQ mode, and returns to the link register. The exception
    mode's stack pointer ends as the User stack pointer. *)
Theorem handler_restores_context CallOnG0 fn e c s U :
  let m := exc_mode e in
  cur_mode c = Some m -> spsr_bank c !! bank_of m = Some s -> U <> FIQ -> cpu_wf c ->
  (forall c1 c2, CallOnG0 c1 = Some c2 -> callee_ok m 14 c1 c2) ->
  exists c4, get_reg m c4 3 = u32 (get_reg m c 14 - exc_lr_offset e) /\
    (CallOnG0 c4 = None -> run 0 CallOnG0 (handler fn e) c = None) /\
    (forall c5, CallOnG0 c4 = Some c5 ->
       exists c', run 0 CallOnG0 (handler fn e) c = Some c' /\
         cpsr c' = s /\ pc c' = get_reg m c 14 /\
         (forall i, 0 <= i <= 12 -> get_reg U c' i = get_reg U c i) /\
         (bank_of U <> bank_of m -> get_reg U c' 13 = get_reg U c 13 /\ get_reg U c' 14 = get_reg U c 14) /\
         get_reg m c' 13 = get_reg USR c 13).
Proof.
  intros m Hm Hs HU Hwf Hcall.
  destruct (handler_spec CallOnG0 fn e c s Hm Hs Hwf Hcall) as (c4 & H3 & Hnone & Hsome).
  exists c4. split; [exact H3|]. split; [exact Hnone|]. intros c5 Hc.
  destruct (Hsome c5 Hc) as (c' & Hrun & Hcpsr & Hpc & Hsp & Hregs & Hhid).
  exists c'. do 3 (split; [assumption|]). split; [|split; [|exact Hsp]].
  - intros i Hi. unfold get_reg. rewrite reg_loc_gpr by first [lia | apply fiq_banked_not_fiq, HU].
    apply Hregs, Hi.
  - intros Hb. destruct (hidden_bank m (bank_of U)) as [H13 H14]; [congruence|].
    split; [apply (Hhid _ H13) | apply (Hhid _ H14)].
Qed.

(** C37: An exception taken from User or System mode with preferred return
    address [ret], handled by the installed handler whose Go side
    returns: the Go side receives [ret] in R3, and the handler returns
    with the CPSR and all of R0-R14 of the interrupted mode as they were,
    but at [ret + exc_lr_offset e], which differs from [ret] for every
    exception but Reset and Supervisor Call: IRQ, FIQ, Undefined and
    Prefetch Abort resume 4 bytes, Data Abort 8 bytes, past it. *)
Theorem exception_return_address CallOnG0 fn e c ret U :
  let m := exc_mode e in
  cur_mode c = Some U -> U = USR \/ U = SYS -> cpu_wf c ->
  (forall c1 c2, CallOnG0 c1 = Some c2 -> callee_ok m 14 c1 c2) ->
  (exists c4, get_reg m c4 3 = u32 ret /\
    forall c5, CallOnG0 c4 = Some c5 ->
      exists c', run 0 CallOnG0 (handler fn e) (take_exception e ret c) = Some c' /\
        cpsr c' = cpsr c /\ pc c' = u32 (ret + exc_lr_offset e) /\
        (forall i, 0 <= i <= 14 -> get_reg U c' i = get_reg U c i)) /\
  (exc_lr_offset e = 0 <-> e = Reset \/ e = SupervisorCall).
Proof.
  intros m Hm HU Hwf Hcall. subst m. split; [|destruct e; cbn; intuition congruence].
  destruct (handler_spec CallOnG0 fn e (take_exception e ret c) (cpsr c) (cur_mode_take_exception e ret c)
              (spsr_take_exception e ret c) (wf_take_exception e ret c Hwf) Hcall) as (c4 & H3 & _ & Hsome).
  exists c4. split.
  { rewrite H3. unfold get_reg. rewrite read_take_exception. change (reg_loc (exc_mode e) 14) with (LLr (bank_of (exc_mode e))).
    rewrite decide_True, u32_sub_l, Z.add_simpl_r by reflexivity. reflexivity. }
  intros c5 Hc. destruct (Hsome c5 Hc) as (c' & Hrun & Hcpsr & Hpc & _ & Hregs & Hhid).
  exists c'. split; [exact Hrun|]. split; [exact Hcpsr|]. split.
  { rewrite Hpc. unfold get_reg. rewrite read_take_exception. change (reg_loc (exc_mode e) 14) with (LLr (bank_of (exc_mode e))).
    apply decide_True. reflexivity. }
  assert (Hb : bank_of U = BUsr) by (destruct HU as [-> | ->]; reflexivity).
  assert (Hne : BUsr <> bank_of (exc_mode e)) by (apply not_eq_sym, exc_bank_not_usr).
  intros i Hi. unfold get_reg.
  destruct (Z.eq_dec i 13) as [-> | H13]; [|destruct (Z.eq_dec i 14) as [-> | H14]].
  - change (reg_loc U 13) with (LSp (bank_of U)). rewrite Hb, Hhid by apply hidden_bank, Hne.
    rewrite read_take_exception, decide_False by congruence. reflexivity.
  - change (reg_loc U 14) with (LLr (bank_of U)). rewrite Hb, Hhid by apply hidden_bank, Hne.
    rewrite read_take_exception, decide_False by congruence. reflexivity.
  - rewrite reg_loc_gpr by first [lia | apply fiq_banked_not_fiq; destruct HU as [-> | ->]; discriminate].
    rewrite Hregs by lia. rewrite read_take_exception, decide_False by congruence. reflexivity.
Qed.
