(* ===== verification/ArmScenarios.v ===== *)
(** * Runs of the ARM exception code on concrete processor states

    Concrete [Cpu] states of [ArmExc.v] (one in Supervisor mode, one in
    IRQ mode just after an interrupt taken from User mode, one in User
    mode) and a Go side [go_handler] that writes 42 to R0 and returns.
    The lemmas here apply the theorems of [ArmExc.v] at these inputs. *)

From stdpp Require Import base list gmap.
From S2P Require Import Prelude ArmExc.
Open Scope Z_scope.

Definition arm_gpr : gmap Z Z := list_to_map (zip (seqZ 0 13) (seqZ 0x100 13)).
Definition arm_gpr_fiq : gmap Z Z := list_to_map (zip (seqZ 8 5) (seqZ 0x800 5)).
Definition arm_banks (base : Z) : gmap bank Z :=
  list_to_map [(BUsr, base); (BFiq, base + 0x10); (BIrq, base + 0x20); (BSvc, base + 0x30);
               (BMon, base + 0x40); (BAbt, base + 0x50); (BUnd, base + 0x60)].

(** A processor state with mode bits [cpsr]. *)
Definition arm_state (cpsr : Z) (spsr : gmap bank Z) : Cpu :=
  mkCpu cpsr arm_gpr arm_gpr_fiq (arm_banks 0x80000000) (arm_banks 0x10000) spsr 0x2000 ∅ 0 0.

(** Supervisor mode, IRQs and FIQs masked. *)
Definition arm_svc : Cpu := arm_state 0x1d3 ∅.
(** IRQ mode, the interrupted User mode saved in the SPSR. *)
Definition arm_irq : Cpu := arm_state 0x92 {[BIrq := 0x10]}.
(** User mode, interrupts enabled. *)
Definition arm_usr : Cpu := arm_state 0x10 ∅.

(** The Go side of the handlers: it clobbers R0 and returns. *)
Definition go_handler (c : Cpu) : option Cpu := Some (set_reg IRQ 0 42 c).

Lemma go_handler_ok c1 c2 : go_handler c1 = Some c2 -> callee_ok IRQ 14 c1 c2.
Proof.
  intros [= <-]. unfold callee_ok.
  rewrite cpsr_set_reg, spsr_set_reg, mem_set_reg, read_set_reg_other by discriminate.
  split_and!; try reflexivity.
  intros l Hl. apply read_set_reg_other, hidden_visible; [exact Hl | lia].
Qed.

Lemma arm_state_wf cpsr spsr : cpu_wf (arm_state cpsr spsr).
Proof. apply cpu_wf_intro; first [apply (bool_decide_unpack _); vm_compute; reflexivity | cbn; lia]. Qed.

(** [set_exc_stack(0x90000000)] from Supervisor mode gives the IRQ stack
    pointer that address. *)
Lemma set_exc_stack_spec_witness :
  cur_mode arm_svc = Some SVC /\
  exists c', run 0x90000000 go_handler set_exc_stack arm_svc = Some c' /\
             get_reg IRQ c' 13 = 0x90000000 /\ cur_mode c' = Some SYS.
Proof.
  split; [reflexivity|].
  destruct (proj1 (set_exc_stack_spec go_handler 0x90000000 arm_svc SVC eq_refl) ltac:(discriminate))
    as (c' & Hrun & Hmode & _ & Hirq & _).
  exists c'. split; [exact Hrun|]. split; [exact Hirq | exact Hmode].
Defined.

(** The IRQ handler entered from [arm_irq] calls the Go side with
    R3 = LR_irq - 4 and returns to User mode at LR_irq. *)
Lemma handler_restores_context_witness :
  cur_mode arm_irq = Some IRQ /\
  exists c', run 0 go_handler (handler 5 Irq) arm_irq = Some c' /\
             cpsr c' = 0x10 /\ pc c' = 0x10020 /\ get_reg USR c' 0 = 0x100.
Proof.
  split; [reflexivity|].
  destruct (handler_restores_context go_handler 5 Irq arm_irq 0x10 USR eq_refl eq_refl ltac:(discriminate)
              (arm_state_wf _ _) go_handler_ok) as (c4 & _ & _ & Hsome).
  destruct (Hsome _ eq_refl) as (c' & Hrun & Hcpsr & Hpc & Hregs & _).
  exists c'. split; [exact Hrun|]. split; [exact Hcpsr|]. split; [exact Hpc|].
  rewrite (Hregs 0 ltac:(lia)). reflexivity.
Defined.

(** An IRQ taken from [arm_usr] with preferred return address 0x3000
    comes back to User mode at 0x3004. *)
Lemma exception_return_address_witness :
  cur_mode arm_usr = Some USR /\
  exists c', run 0 go_handler (handler 5 Irq) (take_exception Irq 0x3000 arm_usr) = Some c' /\
             cpsr c' = 0x10 /\ pc c' = 0x3004.
Proof.
  split; [reflexivity|].
  destruct (proj1 (exception_return_address go_handler 5 Irq arm_usr 0x3000 USR eq_refl (or_introl eq_refl)
              (arm_state_wf _ _) go_handler_ok)) as (c4 & _ & Hsome).
  destruct (Hsome _ eq_refl) as (c' & Hrun & Hcpsr & Hpc & _).
  exists c'. split; [exact Hrun|]. split; [exact Hcpsr | exact Hpc].
Defined.
