(* ===== verification/Device.v ===== *)
(** * Device mode and the control loop

    [device.go]: [DeviceMode], which resets the controller and brings it up
    in device mode, and [Start], the control loop that never returns.

    [Start] is modelled one iteration at a time ([start_iter]) over an
    explicit loop state [Loop]: the local [conf], the device (whose
    [ConfigurationValue] the handlers assign) and the trace of what the
    iteration did that the endpoint tasks can observe: bus resets, handled
    setup packets, [close(hw.done)], [wg.Wait()] and [startEndpoints]. The
    loop itself is the reflexive-transitive closure of [iter_step].

    [hw.Reset] and [startEndpoints] are declared outside [src/] and are
    parameters of the section: the theorems assume of them only that they
    do not close [hw.done] themselves and, for [startEndpoints], that it
    opens a fresh [hw.done] for the tasks it starts. The endpoint tasks run
    in goroutines of their own, outside this model: [wg.Wait()] is the
    event [EvJoin]. Logging and [hw.Lock] are left out. *)

From stdpp Require Import base list relations.
From S2P Require Import Prelude Machine Regs QueueHead Descriptor Transfer Setup.
Open Scope Z_scope.

(** ** [DeviceMode] (lines 21-55) *)

(** [m = (m & ^uint32(0b11<<USBMODE_CM)) | (USBMODE_CM_DEVICE << USBMODE_CM)],
    [m |= (1 << USBMODE_SLOM)], [m &^= (1 << USBMODE_SDIS)] on a [uint32]. *)
Definition device_mode_value (m : Z) : Z :=
  let m := Z.lor (Z.land m (u32 (Z.lnot (Z.shiftl 3 USBMODE_CM)))) (Z.shiftl USBMODE_CM_DEVICE USBMODE_CM) in
  let m := Z.lor m (Z.shiftl 1 USBMODE_SLOM) in
  Z.land m (Z.lnot (Z.shiftl 1 USBMODE_SDIS)).

Section DeviceMode.
Context `{Environment} (L : Layout) (fuel : nat).

Definition DeviceMode : M unit :=
  reg.Set_ (cmd L) USBCMD_RST ;;
  wait.Wait fuel (cmd L) USBCMD_RST 1 0 ;;
  m ← reg.Read (mode L);
  reg.Write (mode L) (device_mode_value m) ;;
  wait.Wait fuel (mode L) USBMODE_CM 3 USBMODE_CM_DEVICE ;;
  initQH L ;;
  set 0 IN 64 true 0 ;;
  set 0 OUT 64 true 0 ;;
  reg.Set_ (otg L) OTGSC_OT ;;
  reg.Write (sts L) 0xffffffff ;;
  reg.Set_ (cmd L) USBCMD_RS.
End DeviceMode.

(** ** [Start] (lines 59-110) *)

(** What an iteration does that the endpoint tasks can observe. *)
Inductive event :=
| EvReset                                 (** a bus reset, [hw.Reset()] *)
| EvSetup (s : SetupData) (err : option error)  (** a setup packet handled *)
| EvCancel                                (** [close(hw.done)] *)
| EvJoin                                  (** [wg.Wait()] returned *)
| EvStart (conf : Z).                     (** [hw.startEndpoints(&wg, dev, conf)] *)

Record Loop := mkLoop { conf : Z; ldev : Device; trace : list event }.

Section Start.
Context `{Environment} (L : Layout) (fuel : nat).
Variable busReset : M unit.
Variable startEndpoints : Device -> Z -> M unit.

(** [if hw.done != nil { close(hw.done); wg.Wait() }]: closing a closed
    channel panics. The result says whether the tasks were stopped. *)
Definition stop_endpoints : M bool := fun s =>
  match done s with
  | None => Ret false s
  | Some false => Ret true (set_done (Some true) s)
  | Some true => Panic s
  end.

(** One iteration of the [for] loop of [Start]; a [continue] returns the
    loop state as it is. *)
Definition start_iter (lp : Loop) : M Loop :=
  uri ← reg.Get (sts L) USBSTS_URI 1;
  lp ← (if uri =? 1 then
          busReset ;;
          mret (mkLoop 0 (set_ConfigurationValue 0 (ldev lp)) (trace lp ++ [EvReset]))
        else mret lp);
  ok ← wait.WaitFor fuel 10 (setup L) 0 1 1;
  match ok with
  | false => mret lp
  | true =>
      s ← getSetup L;
      '(dev, err) ← handleSetup L fuel (ldev lp) (Some s);
      let tr := trace lp ++ [EvSetup s err] in
      if ConfigurationValue dev =? conf lp then mret (mkLoop (conf lp) dev tr)
      else
        let c := ConfigurationValue dev in
        stopped ← stop_endpoints;
        let tr := match stopped with true => tr ++ [EvCancel; EvJoin] | false => tr end in
        startEndpoints dev c ;;
        mret (mkLoop c dev (tr ++ [EvStart c]))
  end.

(** The loop: iterations from a loop state and a machine state. *)
Inductive iter_step : Loop * State -> Loop * State -> Prop :=
| IterStep lp s lp' s' : start_iter lp s = Ret lp' s' -> iter_step (lp, s) (lp', s').

Definition reachable : Loop * State -> Loop * State -> Prop := rtc iter_step.
End Start.

(** The loop state when [Start] is entered: [conf] zero, [hw.done] nil. *)
Definition start_loop (dev : Device) : Loop := mkLoop 0 dev [].

(** ** The configuration-change monitor

    The protocol the trace must follow, as an automaton over its events:
    the current configuration, whether tasks were started, and where a
    restart is between [close(hw.done)] and [startEndpoints]. *)
Inductive phase := Idle | Cancelled | Joined.

Record monitor := mkMonitor { m_conf : Z; m_started : bool; m_phase : phase }.

Definition phase_eqb (p q : phase) : bool :=
  match p, q with
  | Idle, Idle | Cancelled, Cancelled | Joined, Joined => true
  | _, _ => false
  end.

Definition monitor_step (m : monitor) (e : event) : option monitor :=
  match e with
  | EvReset => if phase_eqb (m_phase m) Idle then Some (mkMonitor 0 (m_started m) Idle) else None
  | EvSetup _ _ => if phase_eqb (m_phase m) Idle then Some m else None
  | EvCancel =>
      if m_started m && phase_eqb (m_phase m) Idle then Some (mkMonitor (m_conf m) true Cancelled) else None
  | EvJoin => if phase_eqb (m_phase m) Cancelled then Some (mkMonitor (m_conf m) true Joined) else None
  | EvStart c =>
      (* a start only on a change, after the previous tasks were stopped *)
      if negb (c =? m_conf m) && phase_eqb (m_phase m) (if m_started m then Joined else Idle)
      then Some (mkMonitor c true Idle) else None
  end.

Fixpoint monitor_run (m : monitor) (tr : list event) : option monitor :=
  match tr with
  | [] => Some m
  | e :: tr' => match monitor_step m e with Some m' => monitor_run m' tr' | None => None end
  end.

Definition monitor_init : monitor := mkMonitor 0 false Idle.

(** Whether [hw.done] was ever made, that is tasks were started. *)
Definition started (s : State) : bool := match done s with None => false | Some _ => true end.

(** The invariant of the loop: the trace so far follows the monitor, which
    ends idle at the loop's [conf]; [hw.done] is nil exactly before the first
    start and never left closed; [conf] mirrors the device's value. *)
Definition loop_inv (x : Loop * State) : Prop :=
  monitor_run monitor_init (trace x.1) = Some (mkMonitor (conf x.1) (started x.2) Idle) /\
  done x.2 <> Some true /\ conf x.1 = ConfigurationValue (ldev x.1).

(** * Lemmas *)

(** ** Frame: the driver's operations never assign [hw.done] *)
Section FrameOps.
Context `{Environment} (L : Layout) (fuel : nat).
Hypothesis tick_done : forall s, done (env_tick s) = done s.
#[local] Hint Resolve tick_done : frame.

Lemma keeps_set_dQH_at n dir v : keeps (set_dQH_at n dir v).
Proof. intros s a s' Hr. unfold set_dQH_at in Hr. destruct (valid_ep n dir); [|discriminate]. injection Hr as _ <-. reflexivity. Qed.
#[local] Hint Resolve keeps_set_dQH_at : frame.

Lemma keeps_initQH : keeps (initQH L).
Proof. unfold initQH. keeps_solve. apply keeps_modify. reflexivity. Qed.
Lemma keeps_set n dir max zlt mult : keeps (set n dir max zlt mult).
Proof. unfold set. keeps_solve. Qed.
Lemma keeps_buildDTD n dir ioc a sz : keeps (buildDTD n dir ioc a sz).
Proof. unfold buildDTD. keeps_solve. Qed.
#[local] Hint Resolve keeps_initQH keeps_set keeps_buildDTD : frame.


Lemma keeps_loop_body n dir ioc pages S i prev : keeps (loop_body L fuel n dir ioc pages S i prev).
Proof. unfold loop_body. keeps_solve. Qed.
#[local] Hint Resolve keeps_loop_body : frame.
Lemma keeps_transfer_loop k n dir ioc pages S i prev dtds : keeps (transfer_loop L fuel k n dir ioc pages S i prev dtds).
Proof.
  revert i prev dtds. induction k as [|k IH]; intros i prev dtds; cbn [transfer_loop];
    [intros s a s' Hr; discriminate | keeps_solve].
Qed.
#[local] Hint Resolve keeps_transfer_loop : frame.
Lemma keeps_transfer n dir ioc buf : keeps (transfer L fuel n dir ioc buf).
Proof. unfold transfer, free_all. keeps_solve. Qed.
#[local] Hint Resolve keeps_transfer : frame.
Lemma keeps_tx n ioc data : keeps (tx L fuel n ioc data).
Proof. unfold tx. keeps_solve. Qed.
Lemma keeps_ack n : keeps (ack L fuel n).
Proof. unfold ack. keeps_solve. Qed.
#[local] Hint Resolve keeps_tx keeps_ack : frame.

Lemma keeps_getSetup : keeps (getSetup L).
Proof. unfold getSetup. keeps_solve. Qed.
Lemma keeps_getDescriptor dev s : keeps (getDescriptor L fuel dev s).
Proof. unfold getDescriptor. keeps_solve. Qed.
#[local] Hint Resolve keeps_getDescriptor : frame.
Lemma keeps_handleSetup dev s : keeps (handleSetup L fuel dev s).
Proof. unfold handleSetup, dispatch, handleStandardSetup, handleClassSpecificSetup. keeps_solve. Qed.
#[local] Hint Resolve keeps_getSetup keeps_handleSetup : frame.

Variable busReset : M unit.
Variable startEndpoints : Device -> Z -> M unit.
Hypothesis reset_keeps : keeps busReset.
Hypothesis start_opens : forall d c s s', startEndpoints d c s = Ret tt s' -> done s' = Some false.

Lemma monitor_run_app m tr1 tr2 :
  monitor_run m (tr1 ++ tr2) = monitor_run m tr1 ≫= fun m' => monitor_run m' tr2.
Proof.
  revert m; induction tr1 as [|e tr1 IH]; intros m; [reflexivity|].
  cbn [app monitor_run]. destruct (monitor_step m e); [apply IH | reflexivity].
Qed.


Lemma loop_inv_done lp s s' : loop_inv (lp, s) -> done s' = done s -> loop_inv (lp, s').
Proof. unfold loop_inv, started; cbn [fst snd]. intros (Hm & Hd & Hc) E. rewrite E. auto. Qed.

(** [done] after a step that returned, from the frame lemmas. *)
Ltac frame_of H :=
  match type of H with
  | ?c ?s = Ret ?a ?s' => exact (keeps_run done c s a s' ltac:(eauto with frame) H)
  end.


Lemma start_iter_inv lp s lp' s' :
  loop_inv (lp, s) -> start_iter L fuel busReset startEndpoints lp s = Ret lp' s' -> loop_inv (lp', s').
Proof.
  intros Hi Hr. unfold start_iter in Hr.
  step Hr uri s0 Hget. step Hr lp1 s1 Hreset. step Hr ok s2 Hwait.
  apply (loop_inv_done _ s s0) in Hi; [|frame_of Hget].
  assert (Hi1 : loop_inv (lp1, s1)).
  { destruct (uri =? 1); [|injection Hreset as <- <-; exact Hi].
    step Hreset u s3 Hbr. injection Hreset as <- <-.
    destruct Hi as (Hm & Hd & Hc). unfold loop_inv. cbn [fst snd trace conf ldev] in *.
    pose proof (keeps_run done _ _ _ _ reset_keeps Hbr) as E. unfold started in *. rewrite E.
    split; [|split; [exact Hd | reflexivity]].
    rewrite monitor_run_app, Hm. reflexivity. }
  apply (loop_inv_done _ s1 s2) in Hi1; [|frame_of Hwait].
  clear Hi Hget Hreset Hwait.
  destruct ok; [|injection Hr as <- <-; exact Hi1].
  step Hr pkt s3 Hsetup. step Hr res s4 Hhandle. destruct res as [dev err].
  apply (loop_inv_done _ s2 s4) in Hi1;
    [|transitivity (done s3); [frame_of Hhandle | frame_of Hsetup]].
  destruct Hi1 as (Hm & Hd & Hc). cbn [fst snd] in *.
  assert (Hm' : monitor_run monitor_init (trace lp1 ++ [EvSetup pkt err]) =
                Some (mkMonitor (conf lp1) (started s4) Idle)) by (rewrite monitor_run_app, Hm; reflexivity).
  destruct (Z.eqb_spec (ConfigurationValue dev) (conf lp1)) as [Heq|Hne].
  - injection Hr as <- <-. unfold loop_inv. cbn [fst snd trace conf ldev]. split; [exact Hm'|]. split; [exact Hd|]. cbn. congruence.
  - step Hr stopped s5 Hstop. step Hr u s6 Hstart. destruct u. injection Hr as <- <-.
    pose proof (start_opens _ _ _ _ Hstart) as Ho.
    unfold stop_endpoints in Hstop. unfold loop_inv, started in *. cbn [fst snd trace conf ldev].
    rewrite Ho. split; [|split; [discriminate | reflexivity]].
    destruct (done s4) as [[|]|] eqn:Ed; [congruence | |]; injection Hstop as <- <-.
    + rewrite <- app_assoc, monitor_run_app, Hm'. cbn. rewrite (proj2 (Z.eqb_neq _ _) Hne). reflexivity.
    + rewrite monitor_run_app, Hm'. cbn. rewrite (proj2 (Z.eqb_neq _ _) Hne). reflexivity.
Qed.

Lemma loop_inv_rtc x y : reachable L fuel busReset startEndpoints x y -> loop_inv x -> loop_inv y.
Proof.
  induction 1 as [x|x y z Hs _ IH]; [tauto|].
  intros Hx. apply IH. destruct Hs as [lp s lp' s' Hr]. exact (start_iter_inv lp s lp' s' Hx Hr).
Qed.

(** C4: Configuration-change property: in every run of [Start] from a nil
    [hw.done] and a device with no configuration, the observable trace
    follows the monitor: endpoint tasks start only when the configuration
    value changes, and every restart closes [hw.done] and waits for the
    previous tasks before starting the new ones; the loop's [conf] mirrors
    [dev.ConfigurationValue] after every iteration. *)
Theorem start_config_change dev0 s0 lp s :
  done s0 = None -> ConfigurationValue dev0 = 0 ->
  reachable L fuel busReset startEndpoints (start_loop dev0, s0) (lp, s) ->
  (exists m, monitor_run monitor_init (trace lp) = Some m /\ m_conf m = conf lp /\ m_phase m = Idle) /\
  conf lp = ConfigurationValue (ldev lp).
Proof.
  intros Hd Hc Hr. apply loop_inv_rtc in Hr.
  - destruct Hr as (Hm & _ & Hc'). cbn [fst snd] in *. split; [|exact Hc'].
    eexists. split; [exact Hm | split; reflexivity].
  - unfold loop_inv, started. cbn. rewrite Hd. split; [reflexivity|]. split; [discriminate | auto].
Qed.
End FrameOps.

(** C20: [DeviceMode] writes a mode word with the controller mode field set to
    device (2), setup lockout off (SLOM set) and stream mode on (SDIS
    clear), every other bit of [USBMODE] as it was read. *)
Theorem device_mode_fields m :
  0 <= m < 2 ^ 32 ->
  bits.Get (device_mode_value m) USBMODE_CM 3 = USBMODE_CM_DEVICE /\
  bits.Get (device_mode_value m) USBMODE_SLOM 1 = 1 /\
  bits.Get (device_mode_value m) USBMODE_SDIS 1 = 0 /\
  Z.land (device_mode_value m) (Z.lnot 27) = Z.land m (Z.lnot 27).
Proof.
  intros Hm. unfold device_mode_value.
  change (Z.shiftl 3 USBMODE_CM) with (Z.shiftl (Z.ones 2) 0).
  change (Z.shiftl USBMODE_CM_DEVICE USBMODE_CM) with (Z.shiftl 1 1).
  change USBMODE_CM_DEVICE with (Z.shiftl 1 1).
  change (bits.Get ?x USBMODE_CM 3) with (bits.Get x 0 (Z.ones 2)).
  change (bits.Get ?x ?p 1) with (bits.Get x p (Z.ones 1)).
  change 27 with (Z.lor (Z.ones 2) (Z.shiftl (Z.ones 2) 3)).
  unfold USBMODE_SLOM, USBMODE_SDIS.
  split; [|split; [|split]]; bits_solve.
Qed.
