(* ===== verification/Scenarios.v ===== *)
(** * Runs of the driver against the simulated controller

    Concrete runs of the driver's operations in the environment of
    [Sim.v], after the start-up sequence [boot] that [Start] performs
    ([initQH] and the two endpoint-0 queue heads) and the configuration of
    endpoint 1 in both directions. The lemmas here apply the theorems of
    the other files at these concrete states. *)

From stdpp Require Import base list gmap relations.
From S2P Require Import Prelude Machine Regs QueueHead Sim Descriptor Transfer Setup Hid Dcp Device.
Open Scope Z_scope.

(** [initQH], [set(0, IN, 64, 0, 0)], [set(0, OUT, 64, 0, 0)], then the
    queue heads of a bulk endpoint 1. *)
Definition boot : M unit :=
  initQH imx6_usb1 ;;
  set 0 IN 64 true 0 ;;
  set 0 OUT 64 true 0 ;;
  set 1 IN 512 true 0 ;;
  set 1 OUT 512 true 0.

Definition booted : State :=
  match boot init_state with Ret _ s => s | _ => init_state end.

Definition after_initQH : State :=
  match initQH imx6_usb1 init_state with Ret _ s => s | _ => init_state end.

(** The queue-head list sits at the start of the DMA region. *)
Definition qh_addr (n dir : Z) : Z := DMA_BASE + (n * 2 + dir) * DQH_SIZE.

(** A state whose descriptor at [DMA_BASE] was retired with 12 bytes left. *)
Definition retired_state : State :=
  set_mem (store32 (DMA_BASE + DTD_TOKEN) (Z.shiftl 12 TOKEN_TOTAL) (mem init_state)) init_state.

Definition one_dtd : list DTD.dTD := [DTD.mk 1 0 [] DMA_BASE 0 512].

(** A device with an 18-byte device descriptor, three strings, one
    configuration and no override. *)
Definition test_dev : Device :=
  mkDevice (repeat 1 18) (fun _ => ([9; 2; 32; 0], None)) [[4; 3; 9; 4]; [6; 3; 65; 0; 66; 0]; [2; 3]]
    [10; 6; 0; 2; 0; 0; 0; 64; 1; 0] 0 0 None.

(** GET_DESCRIPTOR(STRING, index 5); GET_DESCRIPTOR(DEVICE, 18);
    GET_DESCRIPTOR(DEVICE_QUALIFIER, 4); CLEAR_FEATURE(ENDPOINT_HALT) of
    endpoint 3 OUT; SET_CONFIGURATION(1) as [getSetup] returns it (value
    swapped); and a request code no handler knows. *)
Definition pkt_string5 : SetupData := mkSetup 0x80 GET_DESCRIPTOR 0x0503 0 255.
Definition pkt_device : SetupData := mkSetup 0x80 GET_DESCRIPTOR 0x0001 0 18.
Definition pkt_qualifier : SetupData := mkSetup 0x80 GET_DESCRIPTOR 0x0006 0 4.
Definition pkt_clear_halt : SetupData := mkSetup 0x02 CLEAR_FEATURE 0 3 0.
Definition pkt_clear_halt9 : SetupData := mkSetup 0x02 CLEAR_FEATURE 0 0x89 0.
Definition pkt_set_config : SetupData := mkSetup 0x00 SET_CONFIGURATION 0x0100 0 0.
Definition pkt_unknown : SetupData := mkSetup 0x00 0x30 0 0 0.

(** The host's SET_CONFIGURATION(1) as the controller stores it: the eight
    bytes in the setup buffer of the EP0 OUT queue head (offset 40) and the
    setup status bit of endpoint 0 set. *)
Definition host_set_config1 : State :=
  set_mem (store32 (setup imx6_usb1) 1
             (store_bytes (qh_addr 0 OUT + 40) (encode_setup (mkSetup 0 SET_CONFIGURATION 1 0 0))
                (mem booted))) booted.

(** The two procedures of the [usb] package [Start] calls: a bus reset that
    does nothing here, and [startEndpoints] opening a fresh [hw.done]. *)
Definition no_reset : M unit := mret tt.
Definition open_done (d : Device) (c : Z) : M unit := modify (set_done (Some false)).

(** The loop state after one iteration of [Start] on that packet. *)
Definition loop1 : Loop :=
  match start_iter imx6_usb1 30 no_reset open_done (start_loop test_dev) host_set_config1 with
  | Ret lp _ => lp
  | _ => start_loop test_dev
  end.

(** Whether a run returned; its value is small, so [vm_compute] decides it
    without reading back the final state. *)
(** The keyboard class descriptor of the HID example. *)
Definition keyboard : HID.HIDDescriptor := HID.SetKeyboardDefaults (HID.mkHIDDescriptor 0 0 0 0 0 0 0).

(** A DCP and DMA double: a bump allocator in a region of the external
    RAM, a [pad] to one block, a command that succeeds ([test_dcp]) or
    fails with code 5 ([test_dcp_fail]). *)
Definition test_dcp_with (result : option Z) : DcpHw := {|
  hw_state := Z;
  pad := fun d _ => d ++ repeat 0 (16 - length d);
  SetCipherDefaults := fun p => p;
  packet_Bytes := fun _ => repeat 0 32;
  dma_Default := fun _ => mkRegion 0x80000000 0x1000000;
  region_Alloc := fun r b _ s => (Start r + s, s + Z.of_nat (length b));
  region_Free := fun _ _ s => s;
  region_Init := fun _ s => s;
  region_Read := fun _ _ n _ => repeat 0 n;
  cmd := fun _ _ s => (result, s)
|}.
Definition test_dcp : DcpHw := test_dcp_with None.
Definition test_dcp_fail : DcpHw := test_dcp_with (Some 5).

Definition key16 : list Z := seqZ 1 16.
Definition iv16 : list Z := repeat 7 16.

Definition is_ret {A} (o : outcome A) : bool := match o with Ret _ _ => true | _ => false end.

(** * Witnesses *)

Lemma transfer_loop_chunks_witness :
  exists res s', transfer_loop imx6_usb1 4 (loop_bound 3) 1 IN false 0 3 0 None [] booted = Ret res s' /\
    map DTD.size res = chunks 3.
Proof.
  apply (transfer_loop_chunks imx6_usb1 4 1 IN false 0 3 booted (qh_addr 1 IN));
    [lia | reflexivity | vm_compute; reflexivity | intros; reflexivity | lia].
Defined.

Lemma chunks_spec_witness :
  sumZ (chunks 50000) = 50000 /\ Z.of_nat (length (chunks 50000)) = n_chunks 50000 /\
  Forall (fun c => 0 <= c <= dtdLength) (chunks 50000).
Proof. apply chunks_spec. lia. Defined.

Lemma checkDTD_refines_witness :
  checkDTD 1 1 OUT one_dtd retired_state =
  Ret (check_tokens OUT 0 (final_tokens (mem retired_state) one_dtd) 0) retired_state.
Proof. apply checkDTD_refines; [lia | repeat constructor]. Defined.

Lemma check_tokens_ok_witness :
  check_tokens IN 0 [(512, 0); (20, 0)] 0 = (i32 (sumZ (map dtd_moved [(512, 0); (20, 0)])), None).
Proof. apply check_tokens_ok. reflexivity. Defined.

Lemma check_tokens_status_witness :
  check_tokens IN 0 ([(512, 0)] ++ (512, 0x40) :: []) 0 = (0, Some (ErrStatus (length [(512, 0)]) 0x40)).
Proof. apply check_tokens_status; [reflexivity | discriminate]. Defined.

Lemma check_tokens_partial_witness :
  check_tokens IN 0 ([] ++ (512, Z.shiftl 12 16) :: []) 0 =
  (0, Some (ErrPartial (length (@nil (Z * Z))) (dtd_moved (512, Z.shiftl 12 16)) 512)).
Proof. apply check_tokens_partial; [reflexivity | reflexivity | vm_compute; reflexivity]. Defined.

Lemma check_tokens_cancelled_witness :
  check_tokens OUT 0 ([(512, 0)] ++ (512, dtd_token false 512) :: []) 0 =
  (0, Some (ErrStatus (length [(512, 0)]) (dtd_token false 512))).
Proof. apply check_tokens_cancelled; [reflexivity | lia]. Defined.

Lemma dQH_info_fields_witness :
  info_max (dQH_info 1 IN 512 true 0) = 512 /\ info_zlt (dQH_info 1 IN 512 true 0) = true /\
  info_mult (dQH_info 1 IN 512 true 0) = 0 /\
  info_ios (dQH_info 1 IN 512 true 0) = bool_decide (1 = 0 /\ IN = IN).
Proof. apply dQH_info_fields; lia. Defined.

Lemma set_qh_witness :
  exists s', (set 1 IN 512 true 0 ;; qh 1 IN) after_initQH = Ret (set_image 1 IN 512 true 0) s' /\
    dQHs s' !! qh_index 1 IN = Some (epListAddr after_initQH + (1 * 2 + IN) * DQH_SIZE).
Proof.
  apply set_qh; [reflexivity | vm_compute; reflexivity | vm_compute; discriminate
  | vm_compute; discriminate].
Defined.

Lemma trim_spec_witness :
  length (trim [1; 2; 3] 2) = Nat.min (length [1; 2; 3]) (Z.to_nat 2) /\ trim [1; 2; 3] 2 `prefix_of` [1; 2; 3].
Proof. apply trim_spec. lia. Defined.

Lemma swap16_address_witness :
  usb_address (swap16 0x0500) = 0x0500 /\ swap16 (swap16 0x0500) = 0x0500 /\
  u8 (Z.shiftr (swap16 0x0500) 8) = Z.land 0x0500 0xff.
Proof. apply swap16_address. lia. Defined.

Lemma getDescriptor_bad_string_witness :
  getDescriptor imx6_usb1 30 test_dev pkt_string5 booted =
  (stall imx6_usb1 0 IN ;; mret (Some (ErrStringIndex (Z.shiftr (Value pkt_string5) 8)))) booted.
Proof. apply getDescriptor_bad_string; vm_compute; reflexivity. Defined.

Lemma getDescriptor_device_witness :
  getDescriptor imx6_usb1 30 test_dev pkt_device booted = tx imx6_usb1 30 0 false (DeviceDescriptor test_dev) booted.
Proof. apply getDescriptor_device; [reflexivity | vm_compute; discriminate]. Defined.

Lemma getDescriptor_qualifier_witness :
  getDescriptor imx6_usb1 30 test_dev pkt_qualifier booted = tx imx6_usb1 30 0 false (Qualifier test_dev) booted.
Proof. apply getDescriptor_qualifier. reflexivity. Defined.

Lemma clear_feature_halt_witness :
  handleStandardSetup imx6_usb1 30 test_dev pkt_clear_halt booted =
  (reset imx6_usb1 (Z.land (Index pkt_clear_halt) 15) (if Z.testbit (Index pkt_clear_halt) 7 then IN else OUT) ;;
   e ← ack imx6_usb1 30 0; mret (test_dev, e)) booted.
Proof. apply clear_feature_halt; [reflexivity | reflexivity | vm_compute; discriminate]. Defined.

Lemma set_configuration_witness :
  handleStandardSetup imx6_usb1 30 test_dev pkt_set_config booted =
  (e ← ack imx6_usb1 30 0; mret (set_ConfigurationValue (u8 (Z.shiftr (Value pkt_set_config) 8)) test_dev, e)) booted.
Proof. apply set_configuration. reflexivity. Defined.

Lemma standard_keeps_config_witness :
  match handleStandardSetup imx6_usb1 30 test_dev pkt_unknown booted with
  | Ret (dev', _) _ => ConfigurationValue dev' = ConfigurationValue test_dev
  | _ => False
  end.
Proof.
  assert (Hb : is_ret (handleStandardSetup imx6_usb1 30 test_dev pkt_unknown booted) = true) by (vm_compute; reflexivity).
  revert Hb. destruct (handleStandardSetup imx6_usb1 30 test_dev pkt_unknown booted) as [[dev' e] st'| st' |] eqn:E; intros Hb;
    [| discriminate Hb | discriminate Hb].
  exact (standard_keeps_config imx6_usb1 30 test_dev pkt_unknown booted dev' e st' ltac:(discriminate) E).
Defined.

Lemma handleSetup_drops_errors_witness :
  match handleSetup imx6_usb1 30 test_dev (Some pkt_unknown) booted with
  | Ret (_, e) _ => e = None
  | _ => False
  end.
Proof.
  assert (Hb : is_ret (handleSetup imx6_usb1 30 test_dev (Some pkt_unknown) booted) = true) by (vm_compute; reflexivity).
  revert Hb. destruct (handleSetup imx6_usb1 30 test_dev (Some pkt_unknown) booted) as [[dev' e] st'| st' |] eqn:E; intros Hb;
    [| discriminate Hb | discriminate Hb].
  exact (handleSetup_drops_errors imx6_usb1 30 test_dev pkt_unknown booted dev' e st' eq_refl E).
Defined.

Lemma open_done_opens d c s s' : open_done d c s = Ret tt s' -> done s' = Some false.
Proof. intros H. injection H as <-. reflexivity. Qed.

Lemma start_config_change_witness :
  match start_iter imx6_usb1 30 no_reset open_done (start_loop test_dev) host_set_config1 with
  | Ret lp s =>
      (exists m, monitor_run monitor_init (trace lp) = Some m /\ m_conf m = conf lp /\ m_phase m = Idle) /\
      conf lp = ConfigurationValue (ldev lp)
  | _ => False
  end.
Proof.
  assert (Hb : is_ret (start_iter imx6_usb1 30 no_reset open_done (start_loop test_dev) host_set_config1) = true)
    by (vm_compute; reflexivity).
  revert Hb. destruct (start_iter imx6_usb1 30 no_reset open_done (start_loop test_dev) host_set_config1)
    as [lp s| s |] eqn:E; intros Hb; [| discriminate Hb | discriminate Hb].
  apply (@start_config_change sim_env imx6_usb1 30 sim_tick_done no_reset open_done (keeps_ret done tt) open_done_opens
           test_dev host_set_config1 lp s); [reflexivity | reflexivity |].
  apply rtc_once. constructor. exact E.
Defined.

(** The iteration handled the packet and started configuration 1. *)
Example iter1_started : conf loop1 = 1 /\ map (fun e => match e with EvStart c => c | _ => -1 end) (trace loop1) = [-1; 1].
Proof. vm_compute. split; reflexivity. Qed.

Lemma device_mode_fields_witness :
  bits.Get (device_mode_value 0x12) USBMODE_CM 3 = USBMODE_CM_DEVICE /\
  bits.Get (device_mode_value 0x12) USBMODE_SLOM 1 = 1 /\
  bits.Get (device_mode_value 0x12) USBMODE_SDIS 1 = 0 /\
  Z.land (device_mode_value 0x12) (Z.lnot 27) = Z.land 0x12 (Z.lnot 27).
Proof. apply device_mode_fields. lia. Defined.

Lemma transfer_no_leak_witness :
  match transfer imx6_usb1 30 1 IN false (Some [1; 2; 3]) booted with
  | Ret r s' => allocs s' = allocs booted /\ alloc_inv s'
  | _ => False
  end.
Proof.
  assert (Hb : is_ret (transfer imx6_usb1 30 1 IN false (Some [1; 2; 3]) booted) = true)
    by (vm_compute; reflexivity).
  revert Hb. destruct (transfer imx6_usb1 30 1 IN false (Some [1; 2; 3]) booted) as [r s'| s' |] eqn:E;
    intros Hb; [| discriminate Hb | discriminate Hb].
  apply (transfer_no_leak imx6_usb1 30 1 IN false (Some [1; 2; 3]) booted r s');
    [unfold alloc_inv; apply (bool_decide_unpack _); vm_compute; exact I
    | apply Z.leb_le; vm_compute; reflexivity | exact E].
Defined.

Lemma setKeyData_loads_slot_witness :
  exists ops, setKeyData 2 (Some (slice_of key16)) 0 = Ok (ops, None) /\ critical_section ops /\
    forall rd kr i w, key_words (keyram_apply rd ops kr) i w =
      if (i =? 2) && (0 <=? w) && (w <? 4) then key_word rd (Some (slice_of key16)) 0 w else key_words kr i w.
Proof. apply setKeyData_loads_slot; [lia | vm_compute; lia]. Defined.

Lemma SetKey_roundtrip_witness :
  exists ops, SetKey 3 (Some (slice_of key16)) = Ok (ops, None) /\
    forall rd kr, concat (map (fun w => le_bytes 4 (key_words (keyram_apply rd ops kr) 3 w)) [0; 1; 2; 3]) = key16.
Proof.
  apply SetKey_roundtrip; [lia | reflexivity |].
  unfold bytes_ok. apply (bool_decide_unpack _). vm_compute. exact I.
Defined.

Lemma setKeyData_rejects_witness :
  setKeyData 4 (Some (slice_of key16)) 0 = Ok ([], Some ErrKeyIndex) /\
  setKeyData 0 (Some (slice_of (key16 ++ [0]))) 0 = Ok ([], Some ErrKeySize).
Proof.
  split; [apply (proj1 (setKeyData_rejects 4 (Some (slice_of key16)) 0)); lia|].
  apply (proj2 (setKeyData_rejects 0 (Some (slice_of (key16 ++ [0]))) 0)); [lia|].
  eexists. split; [reflexivity | vm_compute; lia].
Defined.

(** An 8-byte key made by [make] panics; the 8-byte slice [a[:8]] of a
    16-byte array loads the slot, its last word from [a[12:16]]. *)
Lemma SetKey_short_key_witness :
  SetKey 0 (Some (slice_of (seqZ 0 8))) = Panicked /\
  exists ops, SetKey 0 (Some (mkSlice (seqZ 0 16) 8)) = Ok (ops, None) /\
    forall rd kr, key_words (keyram_apply rd ops kr) 0 3 = le_value [12; 13; 14; 15].
Proof.
  split; [apply (proj1 (SetKey_short_key 0 (slice_of (seqZ 0 8)) ltac:(lia) ltac:(vm_compute; lia))); vm_compute; lia|].
  destruct (proj2 (SetKey_short_key 0 (mkSlice (seqZ 0 16) 8) ltac:(lia) ltac:(cbn; lia)) ltac:(vm_compute; lia))
    as (ops & Hops & Hw).
  exists ops. split; [exact Hops|]. intros rd kr. rewrite (Hw rd kr 3 ltac:(lia)). reflexivity.
Defined.

Lemma setKeyData_terminates_witness :
  key_loop 9 0 0 (Some (slice_of key16)) 0 = key_loop 5 0 0 (Some (slice_of key16)) 0 /\
  setKeyData 1 None 0x900000 <> NoFuel.
Proof.
  split; [apply (proj1 (setKeyData_terminates 1 (Some (slice_of key16)) 0)); lia|].
  exact (proj2 (setKeyData_terminates 1 None 0x900000)).
Defined.

Lemma key_region_iram_witness :
  IRAMStart <= Start (key_region 0 (mkRegion 0x80000000 0x1000000)) < IRAMStart + IRAMSize.
Proof. apply key_region_iram. lia. Defined.

Lemma derive_packet_fields_witness :
  let P := with_payload (with_buffers (@derive_packet test_dcp key16) 0x80000000) 0x80000010 in
  bits.Get (Control0 P) DCP_CTRL0_CIPHER_ENCRYPT 1 = 1 /\
  bits.Get (Control0 P) DCP_CTRL0_OTP_KEY 1 = 1 /\
  Z.land (bits.Get (Control1 P) DCP_CTRL1_KEY_SELECT 0xff) KEY_SELECT_UNIQUE_KEY = KEY_SELECT_UNIQUE_KEY /\
  SourceBufferAddress P = 0x80000000 /\ DestinationBufferAddress P = 0x80000000 /\
  BufferSize P = Z.of_nat (length key16) /\ PayloadPointer P = 0x80000010.
Proof. apply (@derive_packet_fields test_dcp). vm_compute. reflexivity. Defined.

Lemma DeriveKey_to_slot_witness :
  let region := key_region 1 (@dma_Default test_dcp 0) in
  let src := fst (@region_Alloc test_dcp region (@pad test_dcp key16 false) BlockSize 0) in
  IRAMStart <= Start region < IRAMStart + IRAMSize /\
  exists ops s', @DeriveKey test_dcp key16 iv16 1 0 = Ok ((Some (@pad test_dcp key16 false), ops, None), s') /\
    critical_section ops /\
    forall rd kr i w, key_words (keyram_apply rd ops kr) i w =
      if (i =? 1) && (0 <=? w) && (w <? 4) then rd (u32 (src + 4 * w)) else key_words kr i w.
Proof. apply (@DeriveKey_to_slot test_dcp); [reflexivity | lia | reflexivity]. Defined.

Lemma DeriveKey_returns_key_witness :
  exists s4 s', @DeriveKey test_dcp key16 iv16 (-1) 0 =
    Ok ((Some (@region_Read test_dcp (@dma_Default test_dcp 0)
                 (fst (@region_Alloc test_dcp (@dma_Default test_dcp 0) (@pad test_dcp key16 false) BlockSize 0))
                 (length (@pad test_dcp key16 false)) s4), [], None), s').
Proof. apply (@DeriveKey_returns_key test_dcp); [reflexivity | lia | reflexivity]. Defined.

Lemma DeriveKey_errors_witness :
  @DeriveKey test_dcp key16 [1] 0 0 = Ok ((None, [], Some ErrIVSize), 0) /\
  exists s', @DeriveKey test_dcp_fail key16 iv16 0 0 = Ok ((None, [], Some (ErrCmd 5)), s').
Proof.
  split; [apply (proj1 (@DeriveKey_errors test_dcp key16 [1] 0 0 5)); discriminate|].
  apply (proj2 (@DeriveKey_errors test_dcp_fail key16 iv16 0 0 5)); reflexivity.
Defined.

(** A CLEAR_FEATURE(ENDPOINT_HALT) with [wIndex = 0x89] (endpoint 9, IN)
    sets TXR in [ENDPTCTRL9], past the last control register ENDPTCTRL7. *)
Lemma clear_feature_ctrl_bounds_witness :
  handleStandardSetup imx6_usb1 30 test_dev pkt_clear_halt9 booted =
    (reg.Set_ (epctrl imx6_usb1 + 36) ENDPTCTRL_TXR ;; e ← ack imx6_usb1 30 0; mret (test_dev, e)) booted /\
  ~ (epctrl imx6_usb1 + 36 <= epctrl imx6_usb1 + 4 * (MAX_ENDPOINTS - 1)).
Proof.
  destruct (clear_feature_ctrl_bounds imx6_usb1 30 test_dev pkt_clear_halt9 booted eq_refl eq_refl
              ltac:(vm_compute; discriminate) ltac:(vm_compute; discriminate)
              ltac:(vm_compute; discriminate) ltac:(vm_compute; reflexivity)) as [Hrun Hb].
  split; [exact Hrun|]. intros Hle. apply Hb in Hle. discriminate Hle.
Defined.

(** * Runs against faulty controllers *)



(** A receive on endpoint 1 that [hw.done] cancels while its dTD is
    still active returns no data and the error [ErrStatus 0 tok] with the
    active bit of [tok] set, not a cancellation. *)
Theorem cancelled_rx_error_status :
  match @rx cancel_env imx6_usb1 30 1 false (Some [0; 0; 0; 0]) booted with
  | Ret (out, e) _ => out = [] /\
      exists tok, e = Some (ErrStatus 0 tok) /\ token_active tok = true
  | _ => False
  end.
Proof. vm_compute. split; [reflexivity | eexists; split; reflexivity]. Qed.
